(* ===== verification/_CoqProject ===== *)
-Q . S2P
Prelude.v
EmptyUtil.v
RemoteData.v
Observable.v
SwitchMap.v
Switching.v
Completion.v
Sequence.v
Windows.v
Models.v
Decorators.v
Hypermedia.v
Tracker.v
Pagination.v
Collaborators.v
BitstreamDataService.v
RestServer.v
Served.v
ObjectStore.v
Links.v
Samples.v
Snapshots.v
Streams.v
EndToEnd.v
Tracked.v
Revalidation.v
Linked.v
Mutations.v
Held.v
Stale.v
