(* ===== verification/Prelude.v ===== *)
(** * Verification of the bitstream data service of dspace-angular

    ** The program

    [src/app/core/data/bitstream-data.service.ts] is the client of the
    REST API for bitstreams (files) of a DSpace repository.  The class
    [BitstreamDataService] extends the generic [DataService<Bitstream>]
    and adds four operations, all of which return an RxJS observable of
    [RemoteData] snapshots:

    - [findAllByBundle] (lines 63-65): the bitstreams of a bundle, by
      following the bundle's [_links.bitstreams.href] with the inherited
      [findAllByHref];
    - [getThumbnailFor] (lines 72-96): the first bitstream of the item's
      THUMBNAIL bundle;
    - [getMatchingThumbnail] (lines 108-145): the bitstream of the
      THUMBNAIL bundle whose name starts with the name of a given
      original bitstream, or a synthesized 404;
    - [findAllByItemAndBundleName] (lines 158-168): the bitstreams of the
      bundle of an item that has a given name.

    The last three subscribe to [BundleDataService.findByItemAndName] and
    [switchMap] every snapshot of the bundle either to a new request for
    its bitstreams or to a one-element array holding the snapshot itself.
    The class is decorated with [@Injectable({ providedIn: 'root' })] and
    [@dataService(BITSTREAM)] (lines 31-34), which provide it from the
    root injector and register it as the data service of bitstreams.

    The constructor (lines 42-55) declares the ten services that the
    injector provides as members of the instance and calls [super()]
    without arguments; [linkPath] (line 40) is the path under which the
    inherited [findAll] finds the endpoint of bitstreams.

    The service owns no state; the state is that of the services it is
    built on, the table of requests and the object cache, which every
    call of [findByItemAndName] and [findAllByHref] reads and may write.
    What makes it delicate is (a) the
    loosely encoded [RemoteData] wrapper (three flags and two optional
    slots), which the callbacks rebuild by hand, (b) the dynamic guards
    [hasValue] and [isNotEmpty] and the [as any] casts that let a wrapper
    of one payload type flow out under another, and (c) the ordering of
    notifications under [switchMap], which drops what a superseded inner
    request still sends, and (d) the sharing of requests: a subscriber
    may be served by the fetch of another, and the two thumbnail
    operations ask for different pages of the same collection.

    ** The files, in the order of their dependencies

    - [Prelude] (this file): the scope [js_scope], the monad [Throws] of
      computations that may throw a [JsError], the property read [prop]
      that throws a [TypeError] on [undefined] (the texts of the errors
      are those of the model: the sources have none), the tactics, the
      hint databases [bds] and [bds_simpl], and the facts on [find],
      [head] and string prefixes that the components share.
      JavaScript's [undefined] is [None].
    - [EmptyUtil]: [hasValue], [isEmpty], [isNotEmpty] of
      [shared/empty.util] (imported line 6), with the class [JsEmpty] that
      says which values of a type are empty objects.
    - [RemoteData]: the wrapper [RemoteData], [RemoteDataError] and
      [PaginatedList] (imports of lines 22-24), the states of the
      lifecycle ([rd_state]), the invariant of the wrapper ([rd_wf]) and
      the cast [rd_cast] of a wrapper to another payload type.
    - [Observable]: RxJS observables as marble diagrams: a subscription
      at time [t] yields a finite list of time-stamped notifications
      ([Next], [Error], [Complete]).  Well-formed marbles ([marble_wf]),
      the operators [ofArray], [castObservable] and [rxMap] ([map] of
      line 5, with a callback that may throw), the equivalence of
      observables that send every subscriber the same marble, with the
      [Proper] instances of the operators.
    - [SwitchMap]: [switchMap] (line 5) as the state machine of RxJS's
      [SwitchMapSubscriber] ([Inner], [drain], [subscribeInner],
      [onOuter], [switchMap_go]); it preserves well-formedness; every
      notification of the output has an [origin]; an exception of the
      projection reaches the output; [switchMap] respects the
      equivalence of observables.
    - [Switching]: which inner subscription the output listens to:
      [live t u rest] says that the subscription made at [t] has not been
      superseded at [u]; what comes out of a [switchMap] is live
      ([switchMap_live]) and, in a run without error, what is live comes
      out ([switchMap_latest]).
    - [Completion]: when the output of [map] and of [switchMap]
      completes: in a run without error, when the outer and every inner
      observable do.
    - [Sequence]: the values of a run of [switchMap] in order, when
      every value of the outer but the last is answered at once by a
      single value; the whole marble of such a run when it stays open.
    - [Windows]: the declarative reading of [switchMap]: [windows] lists,
      for every value of the outer in turn, the values of its inner
      observable that are sent while that subscription is live;
      [switchMap_nexts] proves that, in a run in which the projection
      does not throw and the inner observables are well formed and send
      no error, the state machine delivers exactly these values, at
      these times and in this order.
    - [Models]: the domain objects as far as the service reads them:
      [Item], [Bundle] (either the empty object or an object with
      [_links.bitstreams.href]), [Bitstream] (its [name]),
      [FindListOptions], [FollowLinkConfig], and [Any], the dynamic type
      that the [as any] casts inject into, with the type tests
      [rd_typed].  A bundle that has properties and no [_links], and a
      bitstream without [name], are not values of these types: what is
      proved of the errors of the operations is relative to this.
    - [Decorators]: the metadata that class decorators record (the table
      of data services by resource type, the providers of the injector),
      the decorators [dataService] and [Injectable] as functions that
      update it, [decorate], which applies the decorators of a class
      from the last to the first, and the lookup [getDataServiceFor].
      The decorators are not part of the sources: the file has what
      the specification says of them and no more.
    - [Hypermedia]: the representation of a resource as the server
      sends it ([Representation]: the tag of its type, its address, and
      its relations by name, each by address in [_links] or inline in
      [_embedded]), [embed], which merges a resolved relation into a
      representation, the induction principle of the tree of link
      descriptors, and [resolved]: a representation carries inline what
      a descriptor asks for.
    - [Tracker]: the request tracker and the object cache, after
      sections 4.2 and 4.3 of the specification.  A key is the bundle
      of an item by name, a page of a collection, or a resource by its
      address.  The table of requests is the log of its actions ([Fetch], [Invalidate],
      [InvalidateByType]) with their times; [liveAt] is the entry that
      serves a key at a time (the last fetch that has not been
      invalidated and has not outlived its time to live);
      [getOrCreate] fetches when no entry is live; [cachedSince] is
      what the cache holds.  [tracker_step] are the operations of the
      table; every table that they build from the empty one is in the
      order of time and fetches no key that is live
      ([tracker_invariants]), so that two fetches of a key are never on
      their way at once ([singleFlight_apart]).
    - [Pagination]: the page of a collection that [FindListOptions] ask
      for ([takeZ], [dropZ], [pageAt], [paginate]); page sizes and page
      numbers are [Z], pages are counted from 1; [takeZ] and [dropZ] are
      [take] and [drop] at [Z.to_nat]; the pages of a collection, one
      after the other, are the collection.
    - [Collaborators]: the interfaces of the two services the class
      calls, each a record of operations ([DataService] with [findAll]
      and [findAllByHref], [BundleDataService] with
      [findByItemAndName]) and
      a class of what the caller relies on ([DataServiceOk],
      [BundleDataServiceOk]: marbles are well formed, failures are
      wrappers and not errors of the stream, wrappers satisfy [rd_wf]);
      cold observables keep these promises.
    - [BitstreamDataService]: the class itself: its two decorators and
      their application to the class, the record of what its methods
      read (the inherited service and the member [bundleService]),
      [linkPath], the [constructor] (its ten parameters are parameter
      properties; [super()] takes no argument, and the methods that the
      class inherits read the members of the instance: [super], a
      parameter, is the inherited service as a function of the ten
      members and of [linkPath], since the base class is not part of
      the sources), the four operations and each of their callbacks, one
      definition per decorator, method or arrow function of the source,
      in the source's order and under the source's names
      ([getThumbnailFor_map] and [getThumbnailFor_switchMap] are the
      arrow functions passed to [map] and [switchMap] in
      [getThumbnailFor], and so on).  The three expressions that the
      source repeats are one definition each: [hasPage] (lines 78, 114),
      [successWith] (lines 79-85, 119-125), [mirror] (lines 92, 141,
      164) and the name [THUMBNAIL] of the bundle (lines 73, 109).
    - [RestServer]: an implementation of the two collaborators after
      the specification.  A request is tracked by a [RequestEntry]
      (configured, dispatched, completed; [entry_step]), shown as a
      wrapper by [toRemoteData]; its stream is the sequence of these
      [snapshots]; the server ([RestServer]) holds the bundles of the
      items, the collections by address, the representation of every
      bitstream and the resources by address, and answers with the page
      or the resource asked for, or 404.  The endpoint resolver ([resolve]) looks a link
      path up in the endpoints of the root of the server;
      [DataService_findAll] is [findAllByHref] at the endpoint of the
      link path, or a failed wrapper.  [restClient] is the class that
      the [constructor] makes on such a server; its services are
      instances of [DataServiceOk], [BundleDataServiceOk] and
      [BundleDataServiceTyped].
    - [Served]: the two services when a request is not always a fetch
      of its own.  A [Schedule] says by which fetch the caller of a key
      is served; [since] is what the remote-data builder shows a caller
      of the entry of that fetch (the whole lifecycle, the end of it, or
      the response at once).  An [ObjectCache] holds pages of earlier
      responses; [holding] is the wrapper that the builder makes of the
      entry of a request and of the object of the cache, [revalidating]
      the stream whose pending wrappers carry that object.
      [cachingClient] is the class that the [constructor] makes over a
      schedule and a cache, [servedClient] the one whose cache holds
      nothing.  [BundlesServedBy], [PagesServedBy], [ServedBy] and
      [RevalidatedBy] are the interfaces between the services and the
      theorems on the operations, from the weakest to the strongest
      (the bundles are served; so are the pages of a request without
      link descriptors; so are the pages of every request, which are
      shown without their relations; the cache shows its page while a
      request is pending), with [restClient] (every caller fetches,
      [unshared]), [servedClient] and [cachingClient] as instances.
    - [ObjectStore]: the store of the object cache, after section 4.3
      of the specification: a map from the address of a resource to
      its [CacheEntry] (the raw representation, the turn in which it
      was written, whether it is stale), with [put], which also writes
      the resources that a representation carries inline under their
      own addresses, [get], which reads an entry, stale or not, and
      [invalidateEntry] and [invalidateEntriesByType].  [cacheLog] is
      what the actions of the table of requests do to the store, in the
      order of time, and [storeAt] the store that they leave.  The
      theorems: the round trip of [put] and [get]; normalisation; an
      invalidated entry keeps its representation; every entry of the
      store is the resource that the server has at its address; the
      store implements the view that the tracker has of the cache
      ([cachedSince_held]).
    - [Links]: the resolution of link descriptors by the remote-data
      builder, after section 4.5 of the specification.  [follow]
      resolves one descriptor on a representation, by recursion on the
      descriptor: a relation that is inline costs no request, a relation
      by address is a tracked request for the resource
      ([Tracker.ResourceAt]), the descriptors below are resolved on what
      has been found, a relation that is not present is skipped, and the
      failure of a nested request is the failure of the resolution
      ([linkResolutionError]).  A [Resolution] is the turn in which the
      last nested response is there with what has been merged, or
      nothing when a request is never served; [both] is two resolutions
      side by side.  [composite] is the stream of wrappers of a request
      with relations (pending, pending with the payload while the
      relations are on their way, success or failure);
      [linkedFindAllByHref] and [findByHref] are the two operations of
      the generic client over it; [nestedRequests] is what the
      resolution of a page asks of the tracker.  The theorems: the
      resolution never settles before it starts, settles when every
      request is served, fails with the failure of a nested request and
      only then, and what it merges is [resolved] for the descriptors
      when these name no relation twice.
    - [Samples]: sample wrappers, bundles and bitstreams, servers that
      answer with cold marbles, a REST server, a server whose
      bitstreams link to their format and one that does not have that
      format, with the proofs that they keep the promises of
      [Collaborators].  The theorems are
      applied to them.
    - [Snapshots]: the callbacks, one snapshot at a time.  [Spec] says
      what each callback computes as a total function
      ([Spec.thumbnailOf], [Spec.matchingThumbnailOf],
      [Spec.bitstreamsOf]); the section [Equations] proves that the
      guarded code, with its reads that may throw, computes it; the
      theorems give the result of every branch, the arguments on which
      [findAllByBundle] and the projections throw, the first-match
      specification of the thumbnail search, the page sizes requested,
      and what the callbacks do to the invariant and to the type of a
      wrapper.
    - [Streams]: the operations as marbles.  [Reference] is their
      specification: one [switchMap] whose projection is
      [Spec.bitstreamsOf].  The theorems: each operation is its reference
      (refinement, up to the equivalence of observables); the wrappers
      each delivers, with their times and in order, are the windows of
      the answers to the snapshots of the bundle ([heardOf]); each
      delivers exactly the answers to the snapshots that have not been
      superseded; the exact sequence of wrappers of the usual run
      (pending snapshots, then the thumbnail); the scenarios of the
      specification's section 8; completion of a subscription;
      well-formedness of the marbles; absence of error notifications for
      the two thumbnail operations, and the exact condition under which
      [findAllByItemAndBundleName] sends one; the invariant and the
      declared type of every wrapper delivered.
    - [EndToEnd]: the operations on a REST server.  [Direct] is each
      operation in direct style (wait for the bundle, wait for its
      bitstreams, say what has been found), without [switchMap] and
      without pages, and independent of the definitions of the class;
      how long a caller waits is left to the schedule.  [outcome] is
      what a lookup settles with and [settledAt] when, whoever
      fetches.  The lemmas on the thumbnail operations hold for every
      class that is [PagesServedBy] a schedule, those on
      [findAllByItemAndBundleName] for every class that is [ServedBy]
      one; [Lookup] is what the three operations have in common
      (they settle with the outcome of two requests when the schedule
      serves both, and stay pending otherwise), with one instance per
      operation.  The theorems are about the class whose every request
      is a fetch: each operation is its direct form, at every
      subscription and with its times; the thumbnail is the first
      bitstream of the whole collection; the matching thumbnail is
      searched in the whole collection as long as it holds at most
      [2^53 - 1] bitstreams; the pages [findAllByItemAndBundleName]
      delivers are, one after the other, the collection; every
      subscription settles with exactly one wrapper that is not pending,
      after the turns of the two requests; the two thumbnail operations
      agree on an original without name, except on an empty bundle.
    - [Tracked]: the operations over the request tracker.
      [trackedClient] is the class over a table of requests;
      [getThumbnailFor_requests] and its like are what the calls of an
      operation ask of the tracker (the bundle in the turn of the call,
      the page when the bundle is seen).  The theorems: the table is
      transparent (a subscriber who is served by the table ends with
      the wrapper of a subscriber who fetches, and not later); a
      subscriber settles exactly when the table knows its two requests;
      two subscribers of the same item are one fetch per key; the two
      thumbnail operations share the lookup of the bundle and not the
      page; after an invalidation the next caller fetches; a hit in the
      cache is answered in the turn of the call; the requests of an
      operation keep the invariants of the table.  The theorems on the
      results are proved once, for every [Lookup].  The requests of an
      operation follow the data flow of the specification; they are
      not translated from lines of the class.
    - [Revalidation]: the operations while a collection is fetched
      again and the cache holds a page of an earlier response.
      [Revalidating] is each operation in direct style, saying for every
      wrapper of the request what the callback makes of it.  The
      theorems: [getThumbnailFor] tells the first bitstream of the page
      of the cache as a settled success in the turn of the request,
      before the response, because its callback reads the page of a
      wrapper whatever its state, and the outcome of the response
      afterwards; [findAllByItemAndBundleName], which casts the wrapper,
      stays pending until the response is there.
    - [Linked]: the operations over a builder that resolves relations
      ([linkingClient], the interface [LinkedBy]).  The two thumbnail
      operations pass no descriptors and are what they are over any
      other builder ([LinkedBy] gives [PagesServedBy]).
      [findAllByItemAndBundleName] passes the descriptors of its caller
      on: [Linking] is the operation in direct style, and
      [findAllByItemAndBundleName_linked_requests] what a caller asks of
      the tracker.  The theorems: a relation of an element of the page
      that the server cannot resolve makes the operation fail, and never
      succeed; the subscriber is shown the page in a pending wrapper
      when the page is there and the success when the last relation is;
      the relations are fetched once each, when no entry serves them;
      over the table that a caller leaves, the subscriber settles.
    - [Mutations]: create, update and delete of the generic client, as
      functions of a [World], the server with the table of the
      tracker.  The server takes the change ([adding], [replacing],
      [without]) and the table invalidates the entry of the resource
      and the entries of the endpoints that are known to contain it
      ([invalidateAffected]); a resource that the server does not have
      is answered 404 and nothing changes.  The theorems: after the
      delete of the thumbnail the next subscriber of [getThumbnailFor]
      fetches the page again, and not the bundle, and is told the
      thumbnail that is the first one now; an entry of another page of
      the collection stays live.
    - [Held]: what the requests of [findAllByItemAndBundleName] with
      link descriptors leave in the store of the object cache: the
      resources that the relations link to, not stale, from the arrival
      of their response and as long as it is kept.
    - [Stale]: the server in time ([History]) and the response to a
      fetch as the server gave it in the turn in which it answered
      ([answered]); [historicClient] is the class that the
      [constructor] makes over a schedule and a history.  The
      theorems: over a server that does not change the services are
      those of [Served]; a subscriber of [getThumbnailFor] is told the
      thumbnail that the server had when it answered the fetch of the
      page; after the deletion of the thumbnail the next subscriber is
      told the deleted thumbnail over the table as it was, and the
      thumbnail that the server has now over the table that the
      deletion leaves.

    ** Modelling decisions

    - Time is the number of the event-loop turn, a [nat].  A notification
      stamped with the time of the subscription is delivered
      synchronously inside [subscribe].  Within one turn the outer
      subscription of a [switchMap], being older, is notified before the
      inner one.
    - An observable is a function of its subscription time: this covers
      cold observables (a marble shifted by the subscription time), hot
      ones, and the services of the application, whose answer depends on
      what the store holds when they are subscribed to.
    - Marbles are finite lists: a marble without terminal notification
      is an observable that stays open.  The operators and the services
      use no fuel: every function is structurally recursive on a list,
      hence total, and every definition computes ([vm_compute] runs the
      operations on the servers of [Samples]).
    - TypeScript types are kept where the source relies on them, and
      made optional where the source tests them at run time
      ([payload], [page], the result of [find], the emptiness of a
      bundle).  Reading [_links] of [undefined], or [bitstreams] of the
      missing [_links] of the empty object, throws a [TypeError], which
      [switchMap] turns into an [Error] notification.
    - The result of the callback of [switchMap] in
      [findAllByItemAndBundleName] is, in the source, an observable of
      wrappers of a page or an array with the snapshot of the bundle,
      cast to [any] (lines 162 and 164).  The model gives both the
      type [Any]: the wrappers of a page enter it by
      [castObservable (rd_cast AnyPaginatedList)], where the source
      has no cast; the wrappers are the same.
    - Numbers are [Z]; [Number.MAX_SAFE_INTEGER] is [2^53 - 1].  The
      functions on pages recurse on the list and never on a counter, so
      that a page of [2^53 - 1] elements is computed in the time its
      collection takes.
    - A class is known to the decorators by its name; the metadata is
      passed explicitly from one evaluated module to the next.
    - On the REST server a request is sent in the turn in which it is
      made and answered after the number of turns the server gives for
      it; its stream stays open.  So is a fetch of the tracker; a
      response is kept for a number of turns from its arrival (the time
      to live).
    - The table of requests is shared between subscriptions by being a
      parameter of the services: the class over a table ([trackedClient
      log]) shows every subscriber the entries of that table, at every
      time.  What the calls of an operation add to the table is a
      function of its own ([requested]), which [getThumbnailFor_settles_iff]
      ties to the operation: the two keys it asks for are exactly the
      entries without which the operation stays pending.  The requests
      of different callers are made in the order of time (a request is
      not made before the last action of the table).
    - A stale entry serves nobody: the next caller fetches again.  The
      specification leaves the policy open.  What the cache still holds
      of a collection is shown in the pending wrappers of the new
      request, with the flags of the request: the builder makes a
      wrapper of the entry of the request and of the object of the
      cache.  What the cache holds is a parameter ([ObjectCache]), so
      that the page of the cache need not be a page of the server as it
      is now.  A subscription sees one response and no refresh.
    - The key of a request for a linked resource carries the type of
      the resource, which the builder takes from the link definitions
      of the model classes: these are a parameter ([linkType]) of the
      builder.  The relations of a payload are resolved side by side:
      the composite wrapper settles in the turn in which the last nested
      response is there, and with the first failure in the order of the
      elements and of the descriptors.  While the relations are on their
      way the wrapper is pending and carries the payload of the primary
      request.  The payload of [findAllByHref] is typed
      ([PaginatedList Bitstream]) and shows nothing of what has been
      merged; [findByHref] is on representations and shows it.
    - What the resolution of a page adds to the table of requests is
      the requests of the first level, in the turn in which the page is
      there; those of the descriptors below are later, one turn per
      resource, and are followed by the schedule and not added to the
      table.  The theorem that composes the tracker with the resolution
      ([findAllByItemAndBundleName_linked_settles]) is therefore about
      descriptors without descriptors below.
    - An operation that changes a resource is answered at one time, at
      which the server changes and the entries are invalidated
      together.  In [Served] and the files on it a response is what
      the server in hand holds, whichever fetch serves the caller:
      these files say by which fetch a caller is served and when.  In
      [Stale] the server has a history and a response is what the
      server had in the turn in which it answered the fetch, so that an
      entry of the table can hold what the server no longer has; the
      history changes the resources, not the bundles or the turns that
      the server takes ([ChangesResources]).
    - The store of the object cache is written in the order of time:
      the response to a fetch in the turn of its arrival, which is
      after the turn of the fetch, an invalidation in its own turn.
      The actions on the store are sorted by their time ([merge_sort]);
      the theorems hold for every order of the actions of one turn.
      The store holds the resources that relations link to; the pages
      of collections and the bundles, whose payloads are typed, are
      held by the view of the log ([Tracker.cachedSince]) and by the
      parameter [ObjectCache].
    - The server stores bundles with their links, so that the empty
      object is never its answer; it sorts and filters by a function of
      its own that is the identity when no order and no filter is asked
      for ([RestServerOk]).
    - The development uses no axiom of its own.

    ** Not modelled

    The import declarations of the module (lines 1-26).  The injector
    of the framework: the class over a server is made by applying the
    constructor to the services of the model; what a second
    registration of a data service for a resource type does (the table
    holds the last one).  The services that the
    operations never reach (store, notifications, HTTP client, change
    analyzer, community service) are parameters of the constructor and
    nothing more.  Of the generic client, the typed payload of
    [findByHref] (it is on representations), the bodies of the requests
    that change a resource, and [findById], [search] and the like, which
    the class does not call.  Of the object cache, the raw
    representations of pages and of bundles (the store holds the
    resources that relations link to), and a second response to a
    subscriber whose entry is refreshed later.  Of the server in time,
    changes of the bundles, and the operations other than
    [getThumbnailFor] over it.  Of
    link resolution, the relations of a bundle (the lookup of the
    bundle passes no descriptors), the entries in the table of the
    requests below the first level, and relations whose name has no
    link definition (every name has a type).  Of the domain objects,
    every property that the service does not read.  Callers of
    different keys whose requests are interleaved out of the order of
    time; unsubscription by the consumer and the cancellation of a
    shared request; multicasting of observables; HTTP. *)

From stdpp Require Export base tactics option list strings.
From Stdlib Require Export ZArith Lia.
From Stdlib Require Import Ascii.

Declare Scope js_scope.
Delimit Scope js_scope with js.

(** JavaScript's [undefined] (and [null], which no guard of the sources
    tells apart from it) is the absent value of an optional slot. *)
Notation "'undefined'" := (@None _) (only parsing) : js_scope.

(** ** Exceptions as values *)

Inductive JsError : Type :=
| TypeError (message : string)
| OtherError (message : string).

Definition Throws (A : Type) : Type := (JsError + A)%type.

Definition returns {A : Type} (x : A) : Throws A := inr x.
Definition throw {A : Type} (e : JsError) : Throws A := inl e.

Definition isThrow {A : Type} (r : Throws A) : bool :=
  match r with inl _ => true | inr _ => false end.

Notation "x <-! c ; k" :=
  (match c with inl e => inl e | inr x => k end)
  (at level 100, c at next level, right associativity) : js_scope.

#[export] Instance JsError_eq_dec : EqDecision JsError.
Proof. solve_decision. Defined.

(** Reading the property [name] of [obj]: a [TypeError] when [obj] is
    [undefined], the property's value otherwise. *)
Definition prop {A B : Type} (name : string) (get : A → B)
    (obj : option A) : Throws B :=
  match obj with
  | None =>
      throw (TypeError ("Cannot read property '" +:+ name +:+ "' of undefined"))
  | Some x => returns (get x)
  end.

(** ** Tactics *)

Create HintDb bds discriminated.
Create Rewrite HintDb bds_simpl.

(** Split every [match] and [if] of the goal on its scrutinee. *)
Ltac case_guards :=
  repeat (case_match; simplify_eq/=; try done).

(** Destruct the boolean tests of the hypotheses into propositions. *)
Ltac bool_hyps :=
  repeat match goal with
  | H : _ && _ = true |- _ => apply andb_prop in H; destruct H
  | H : _ || _ = false |- _ => apply orb_false_elim in H; destruct H
  | H : negb _ = true |- _ => apply negb_true_iff in H
  | H : negb _ = false |- _ => apply negb_false_iff in H
  | H : bool_decide _ = true |- _ => apply bool_decide_eq_true_1 in H
  | H : bool_decide _ = false |- _ => apply bool_decide_eq_false_1 in H
  end.

(** ** Options and lists *)

Section Options.
Context {A B : Type}.

Lemma isSome_true (o : option A) : is_Some o ↔ ∃ x, o = Some x.
Proof. done. Qed.

Lemma fmap_head (f : A → B) (l : list A) : head (f <$> l) = f <$> head l.
Proof. by destruct l. Qed.

(** A list that ends with [x], split at one of its elements. *)
Lemma snoc_split (l l1 l2 : list A) (x y : A) :
  l ++ [x] = l1 ++ y :: l2 →
  (l2 = [] ∧ l = l1 ∧ x = y) ∨ ∃ l2', l2 = l2' ++ [x] ∧ l = l1 ++ y :: l2'.
Proof.
  destruct l2 as [|z l2 _] using rev_ind.
  - intros [-> ->]%app_inj_tail. by left.
  - rewrite app_comm_cons, app_assoc. intros [-> ->]%app_inj_tail.
    right. by exists l2.
Qed.
End Options.

(** ** [Array.prototype.find] is [List.find]: the first match *)

Section Find.
Context {A : Type} (p : A → bool).

Lemma find_app (l1 l2 : list A) :
  find p (l1 ++ l2) =
  match find p l1 with Some x => Some x | None => find p l2 end.
Proof. induction l1 as [|x l1 IH]; simpl; [done|]. by destruct (p x). Qed.

Lemma find_none_iff (l : list A) :
  find p l = None ↔ Forall (λ x, p x = false) l.
Proof.
  induction l as [|x l IH]; simpl.
  - split; [constructor | done].
  - destruct (p x) eqn:Hx.
    + split; [done | inversion 1; congruence].
    + rewrite IH. split; [by constructor | by inversion 1].
Qed.

(** [find] returns the leftmost element that satisfies the test. *)
Lemma find_some_first (l : list A) (x : A) :
  find p l = Some x ↔
  ∃ l1 l2, l = l1 ++ x :: l2 ∧ p x = true ∧ Forall (λ y, p y = false) l1.
Proof.
  induction l as [|y l IH]; simpl.
  - split; [done | intros ([|??] & ? & ? & _); done].
  - destruct (p y) eqn:Hy.
    + split.
      * intros [= ->]. exists [], l. by repeat split.
      * intros ([|z l1] & l2 & Hl & Hx & Hall); simplify_eq/=; [done|].
        inversion Hall; congruence.
    + rewrite IH. split.
      * intros (l1 & l2 & -> & Hx & Hall).
        exists (y :: l1), l2. repeat split; [done | by constructor].
      * intros ([|z l1] & l2 & Hl & Hx & Hall); simplify_eq/=; [congruence|].
        exists l1, l2. repeat split; [done | by inversion Hall].
Qed.

Lemma find_is_Some (l : list A) :
  is_Some (find p l) ↔ Exists (λ x, p x = true) l.
Proof.
  rewrite Exists_exists. split.
  - intros [x Hx]. apply find_some in Hx as [??]. exists x.
    by rewrite list_elem_of_In.
  - intros (x & Hin & Hx). destruct (find p l) eqn:Hf; [done|].
    rewrite list_elem_of_In in Hin.
    pose proof (find_none _ _ Hf _ Hin). congruence.
Qed.
End Find.

(** ** [String.prototype.startsWith] is [String.prefix] *)

Section Prefix.
Lemma prefix_nil_l (s : string) : String.prefix "" s = true.
Proof. by destruct s. Qed.

Lemma prefix_cons (a b : ascii) (s t : string) :
  String.prefix (String a s) (String b t) = true ↔
  a = b ∧ String.prefix s t = true.
Proof.
  simpl. destruct (ascii_dec a b) as [->|Hne]; [tauto|].
  split; [done | by intros [? _]].
Qed.

Lemma prefix_refl (s : string) : String.prefix s s = true.
Proof. induction s as [|a s IH]; [done|]. by apply prefix_cons. Qed.

Lemma prefix_app (s t : string) : String.prefix s (s ++ t) = true.
Proof.
  induction s as [|a s IH]; simpl; [apply prefix_nil_l|].
  by destruct (ascii_dec a a).
Qed.

Lemma string_app_cons (a : ascii) (s t : string) :
  (String a s ++ t)%string = String a (s ++ t).
Proof. done. Qed.

Lemma string_app_assoc (s t u : string) :
  ((s ++ t) ++ u)%string = (s ++ (t ++ u))%string.
Proof.
  induction s as [|a s IH]; [done|]. by rewrite !string_app_cons, IH.
Qed.

(** A string starts with [s] exactly when it is [s] followed by a rest. *)
Lemma prefix_iff_app (s u : string) :
  String.prefix s u = true ↔ ∃ t, u = (s ++ t)%string.
Proof.
  split; [|intros [t ->]; apply prefix_app].
  revert u. induction s as [|a s IH]; intros u Hu; [by exists u|].
  destruct u as [|b u]; [done|].
  apply prefix_cons in Hu as [-> Hu]. destruct (IH _ Hu) as [t ->].
  by exists t.
Qed.

Lemma prefix_trans (s t u : string) :
  String.prefix s t = true → String.prefix t u = true →
  String.prefix s u = true.
Proof.
  rewrite !prefix_iff_app. intros [x ->] [y ->].
  exists (x ++ y)%string. apply string_app_assoc.
Qed.

Lemma prefix_length (s u : string) :
  String.prefix s u = true → String.length s ≤ String.length u.
Proof.
  revert u. induction s as [|a s IH]; intros [|b u] Hu; simpl;
    [lia | lia | done |].
  apply prefix_cons in Hu as [_ Hu]. apply IH in Hu. lia.
Qed.
End Prefix.

#[export] Hint Resolve prefix_refl prefix_app prefix_nil_l : bds.
