(* ===== verification/EmptyUtil.v ===== *)
(** * The emptiness tests of [shared/empty.util]

    The service imports [hasValue] and [isNotEmpty] (line 6 of
    [bitstream-data.service.ts]) and guards every read of a payload with
    one of them.  A slot that may hold [undefined] is an [option]; which
    values of a type count as empty is given per type by the class
    [JsEmpty]: the empty string, the empty array, the object without own
    property. *)

From Hammer Require Import Tactics.
From S2P Require Import Prelude.

(** [isEmptyObject x]: the defined value [x] has length 0, size 0 or no
    own property. *)
Class JsEmpty (T : Type) : Type := isEmptyObject : T → bool.
#[export] Hint Mode JsEmpty ! : typeclass_instances.

#[export] Instance string_JsEmpty : JsEmpty string :=
  λ s, bool_decide (String.length s = 0%nat).

#[export] Instance list_JsEmpty {A : Type} : JsEmpty (list A) :=
  λ l, bool_decide (length l = 0%nat).

Section EmptyUtil.
Context {T : Type}.

(** [hasValue(obj)]: [obj] is neither [undefined] nor [null]. *)
Definition hasValue (obj : option T) : bool :=
  match obj with
  | Some _ => true
  | None => false
  end.

Context `{!JsEmpty T}.

(** [isEmpty(obj)]: [obj] has no value, or its value is an empty one. *)
Definition isEmpty (obj : option T) : bool :=
  match obj with
  | None => true
  | Some x => isEmptyObject x
  end.

Definition isNotEmpty (obj : option T) : bool := negb (isEmpty obj).

(** ** Facts *)

Lemma hasValue_true (obj : option T) :
  hasValue obj = true ↔ ∃ x, obj = Some x.
Proof. destruct obj; sauto lq: on. Qed.

Lemma hasValue_false (obj : option T) : hasValue obj = false ↔ obj = None.
Proof. by destruct obj. Qed.

Lemma isNotEmpty_true (obj : option T) :
  isNotEmpty obj = true ↔ ∃ x, obj = Some x ∧ isEmptyObject x = false.
Proof.
  unfold isNotEmpty, isEmpty. destruct obj as [x|]; simpl;
    [rewrite negb_true_iff|]; sauto lq: on.
Qed.

Lemma isNotEmpty_false (obj : option T) :
  isNotEmpty obj = false ↔
  obj = None ∨ ∃ x, obj = Some x ∧ isEmptyObject x = true.
Proof.
  unfold isNotEmpty, isEmpty. destruct obj as [x|]; simpl;
    [rewrite negb_false_iff|]; sauto lq: on.
Qed.

(** The stronger guard implies the weaker one. *)
Lemma isNotEmpty_hasValue (obj : option T) :
  isNotEmpty obj = true → hasValue obj = true.
Proof. by destruct obj. Qed.

(** The two guards differ exactly on the empty values. *)
Lemma guards_differ (obj : option T) :
  hasValue obj ≠ isNotEmpty obj ↔
  ∃ x, obj = Some x ∧ isEmptyObject x = true.
Proof.
  unfold isNotEmpty, isEmpty. destruct obj as [x|]; simpl.
  - destruct (isEmptyObject x) eqn:Hx; simpl.
    + split; [intros _; by exists x | done].
    + split; [done | intros (y & [= <-] & Hy); congruence].
  - split; [done | by intros (? & ? & ?)].
Qed.
End EmptyUtil.

#[export] Hint Resolve isNotEmpty_hasValue : bds.
