(* ===== verification/RemoteData.v ===== *)
(** * The asynchronous envelope: [RemoteData], [RemoteDataError], [PaginatedList]

    The three classes are imported by the service (lines 22-24) and built
    or read in its callbacks.  [RemoteData] keeps the lifecycle of a
    request as four independent slots; the three states that the
    encoding is meant to have, and the predicate [rd_wf] that singles out
    the combinations which encode one of them, are defined here. *)

From S2P Require Import Prelude EmptyUtil.

(** [new RemoteDataError(statusCode, statusText, message)] *)
Record RemoteDataError : Type := mkRemoteDataError {
  statusCode : Z;
  statusText : string;
  message : string;
}.

#[export] Instance RemoteDataError_eq_dec : EqDecision RemoteDataError.
Proof. solve_decision. Defined.

(** [new RemoteData(requestPending, responsePending, isSuccessful, error,
    payload)], in the order in which the service passes them. *)
Record RemoteData (T : Type) : Type := mkRemoteData {
  isRequestPending : bool;
  isResponsePending : bool;
  hasSucceeded : bool;
  error : option RemoteDataError;
  payload : option T;
}.
Arguments mkRemoteData {T} _ _ _ _ _.
Arguments isRequestPending {T} _.
Arguments isResponsePending {T} _.
Arguments hasSucceeded {T} _.
Arguments error {T} _.
Arguments payload {T} _.

#[export] Instance RemoteData_eq_dec `{EqDecision T} : EqDecision (RemoteData T).
Proof. solve_decision. Defined.

(** A page of a collection.  The service tests [page] with [hasValue]
    before it reads it, hence the [option]. *)
Record PaginatedList (T : Type) : Type := mkPaginatedList {
  totalElements : Z;
  page : option (list T);
}.
Arguments mkPaginatedList {T} _ _.
Arguments totalElements {T} _.
Arguments page {T} _.

#[export] Instance PaginatedList_eq_dec `{EqDecision T} :
  EqDecision (PaginatedList T).
Proof. solve_decision. Defined.

(** ** The lifecycle *)

Inductive RemoteDataState : Type :=
| RequestPending
| ResponsePending
| Success
| Failed.

#[export] Instance RemoteDataState_eq_dec : EqDecision RemoteDataState.
Proof. solve_decision. Defined.

Section Lifecycle.
Context {T : Type}.
Implicit Types rd : RemoteData T.

Definition isPending rd : bool := isRequestPending rd || isResponsePending rd.

(** The state a wrapper shows to a consumer that checks the pending
    flags first and [hasSucceeded] next. *)
Definition rd_state rd : RemoteDataState :=
  if isRequestPending rd then RequestPending
  else if isResponsePending rd then ResponsePending
  else if hasSucceeded rd then Success
  else Failed.

(** The combinations of the flags that encode one state: a pending
    wrapper has neither succeeded nor failed; a settled one has an
    error exactly when it has not succeeded. *)
Definition rd_wf rd : bool :=
  match rd_state rd with
  | RequestPending | ResponsePending =>
      negb (hasSucceeded rd) && negb (hasValue (error rd))
  | Success => negb (hasValue (error rd))
  | Failed => hasValue (error rd)
  end.

(** The same wrapper at another payload type: what an [as any] cast
    followed by a read at the declared type amounts to, the payload
    going through [f]. *)
Definition rd_cast {U : Type} (f : T → U) rd : RemoteData U :=
  mkRemoteData (isRequestPending rd) (isResponsePending rd)
    (hasSucceeded rd) (error rd) (f <$> payload rd).

(** ** Facts *)

Lemma rd_state_Success rd :
  rd_state rd = Success ↔
  isRequestPending rd = false ∧ isResponsePending rd = false ∧
  hasSucceeded rd = true.
Proof.
  unfold rd_state.
  destruct (isRequestPending rd), (isResponsePending rd), (hasSucceeded rd);
    simpl; intuition congruence.
Qed.

Lemma rd_state_Failed rd :
  rd_state rd = Failed ↔
  isRequestPending rd = false ∧ isResponsePending rd = false ∧
  hasSucceeded rd = false.
Proof.
  unfold rd_state.
  destruct (isRequestPending rd), (isResponsePending rd), (hasSucceeded rd);
    simpl; intuition congruence.
Qed.

Lemma rd_state_pending rd :
  isPending rd = true ↔
  rd_state rd = RequestPending ∨ rd_state rd = ResponsePending.
Proof.
  unfold isPending, rd_state.
  destruct (isRequestPending rd), (isResponsePending rd), (hasSucceeded rd);
    simpl; intuition congruence.
Qed.

(** A well-formed wrapper that has succeeded carries no error. *)
Lemma rd_wf_succeeded_no_error rd :
  rd_wf rd = true → hasSucceeded rd = true → error rd = None.
Proof.
  unfold rd_wf, rd_state. intros Hwf Hs. rewrite Hs in Hwf.
  by destruct (isRequestPending rd), (isResponsePending rd), (error rd).
Qed.

(** A well-formed wrapper that has settled without success carries one. *)
Lemma rd_wf_failed_error rd :
  rd_wf rd = true → rd_state rd = Failed → is_Some (error rd).
Proof.
  unfold rd_wf. intros Hwf Hst. rewrite Hst in Hwf.
  by apply hasValue_true in Hwf.
Qed.
End Lifecycle.

(** A cast changes neither the state nor the well-formedness. *)
Section Cast.
Context {T U : Type} (f : T → U).
Implicit Types rd : RemoteData T.

Lemma rd_state_cast rd : rd_state (rd_cast f rd) = rd_state rd.
Proof. done. Qed.

Lemma rd_wf_cast rd : rd_wf (rd_cast f rd) = rd_wf rd.
Proof. done. Qed.

Lemma payload_cast rd : payload (rd_cast f rd) = f <$> payload rd.
Proof. done. Qed.
End Cast.

#[export] Hint Rewrite @rd_state_cast @rd_wf_cast @payload_cast : bds_simpl.
