(* ===== verification/Observable.v ===== *)
(** * RxJS observables as marble diagrams

    The service composes observables with [pipe], [switchMap] and [map]
    (line 5) and returns one-element arrays where an observable is
    expected (lines 92, 141, 164).  An observable is modelled by what a
    subscriber receives: subscribed to at time [t], it sends a finite
    list of time-stamped notifications, its marble diagram.  A marble
    without [Error] or [Complete] is a subscription that stays open.
    This file holds the marbles, their well-formedness, the creation of
    observables, [map] and the casts; [SwitchMap] holds [switchMap]. *)

From S2P Require Import Prelude.

Definition Time : Type := nat.

Inductive Notification (A : Type) : Type :=
| Next (value : A)
| Error (e : JsError)
| Complete.
Arguments Next {A} _.
Arguments Error {A} _.
Arguments Complete {A}.

Definition Marble (A : Type) : Type := list (Time * Notification A).

(** An observable: the marble seen by a subscription made at a time. *)
Definition Observable (A : Type) : Type := Time → Marble A.

#[export] Instance Notification_eq_dec `{EqDecision A} :
  EqDecision (Notification A).
Proof. solve_decision. Defined.

Definition isTerminal {A : Type} (n : Notification A) : bool :=
  match n with
  | Next _ => false
  | Error _ | Complete => true
  end.

(** The values a marble delivers, with their times and without. *)
Definition nexts {A : Type} (m : Marble A) : list (Time * A) :=
  omap (λ e, match e.2 with Next x => Some (e.1, x) | _ => None end) m.

Definition values {A : Type} (m : Marble A) : list A := (nexts m).*2.

(** The errors a marble delivers. *)
Definition errors {A : Type} (m : Marble A) : list JsError :=
  omap (λ e, match e.2 with Error err => Some err | _ => None end) m.

Definition isComplete {A : Type} (n : Notification A) : bool :=
  match n with Complete => true | _ => false end.

Definition completes {A : Type} (m : Marble A) : bool :=
  existsb (λ e, isComplete e.2) m.

(** A marble is well formed for a subscription made at [t0]: nothing
    arrives before [t0], times never decrease, and a terminal
    notification is the last one. *)
Fixpoint marble_wf {A : Type} (t0 : Time) (m : Marble A) : bool :=
  match m with
  | [] => true
  | (t, n) :: rest =>
      bool_decide (t0 ≤ t) &&
      (if isTerminal n then match rest with [] => true | _ => false end
       else marble_wf t rest)
  end.

Definition observable_wf {A : Type} (o : Observable A) : Prop :=
  ∀ t, marble_wf t (o t) = true.

(** An open stretch of a marble between [lo] and [hi]: values only, at
    times that never decrease. *)
Fixpoint marble_open {A : Type} (lo hi : Time) (m : Marble A) : bool :=
  match m with
  | [] => bool_decide (lo ≤ hi)
  | (t, n) :: rest =>
      bool_decide (lo ≤ t) && negb (isTerminal n) && marble_open t hi rest
  end.

(** ** Creation *)

(** An array where an observable is expected: every element at once,
    then completion, inside [subscribe]. *)
Definition ofArray {A : Type} (xs : list A) : Observable A :=
  λ t, ((λ x, (t, Next x)) <$> xs) ++ [(t, Complete)].

(** A cold observable: the same marble, counted from the subscription. *)
Definition cold {A : Type} (m : Marble A) : Observable A :=
  λ t, prod_map (Nat.add t) id <$> m.

(** The same observable at another type of values: what a cast of an
    observable amounts to. *)
Definition notification_map {A B : Type} (f : A → B)
    (n : Notification A) : Notification B :=
  match n with
  | Next x => Next (f x)
  | Error e => Error e
  | Complete => Complete
  end.

Definition castObservable {A B : Type} (f : A → B) (o : Observable A)
    : Observable B :=
  λ t, prod_map id (notification_map f) <$> o t.

(** ** [map] *)

(** [map(f)] applies [f] to every value; an exception thrown by [f]
    becomes the error that ends the output; a terminal notification of
    the source ends it too. *)
Fixpoint rxMap_go {A B : Type} (f : A → Throws B) (m : Marble A) : Marble B :=
  match m with
  | [] => []
  | (t, Next x) :: rest =>
      match f x with
      | inl e => [(t, Error e)]
      | inr y => (t, Next y) :: rxMap_go f rest
      end
  | (t, Error e) :: _ => [(t, Error e)]
  | (t, Complete) :: _ => [(t, Complete)]
  end.

Definition rxMap {A B : Type} (f : A → Throws B) (o : Observable A)
    : Observable B :=
  λ t, rxMap_go f (o t).

(** Two observables are the same when every subscription sees the same
    marble. *)
#[export] Instance Observable_equiv {A : Type} : Equiv (Observable A) :=
  λ o1 o2, ∀ t, o1 t = o2 t.

(** Two fallible computations of an observable are the same when they
    throw the same exception or return the same observable. *)
#[export] Instance Throws_Observable_equiv {A : Type}
    : Equiv (Throws (Observable A)) :=
  sum_relation (=) (≡).

(** ** Facts on marbles *)

Section MarbleFacts.
Context {A : Type}.
Implicit Types (m out rest : Marble A) (t lo hi : Time) (n : Notification A).

Lemma marble_wf_cons lo t n rest :
  marble_wf lo ((t, n) :: rest) = true ↔
  lo ≤ t ∧ (if isTerminal n then rest = [] else marble_wf t rest = true).
Proof.
  simpl. rewrite andb_true_iff, bool_decide_eq_true.
  destruct (isTerminal n), rest; intuition congruence.
Qed.

Lemma marble_open_cons lo hi t n rest :
  marble_open lo hi ((t, n) :: rest) = true ↔
  lo ≤ t ∧ isTerminal n = false ∧ marble_open t hi rest = true.
Proof.
  simpl. rewrite !andb_true_iff, bool_decide_eq_true, negb_true_iff. tauto.
Qed.

Lemma marble_wf_weaken lo lo' m :
  lo' ≤ lo → marble_wf lo m = true → marble_wf lo' m = true.
Proof.
  destruct m as [|[t n] rest]; [done|]. rewrite !marble_wf_cons.
  intros ? [? ?]. split; [lia | done].
Qed.

Lemma marble_open_le lo hi m : marble_open lo hi m = true → lo ≤ hi.
Proof.
  revert lo. induction m as [|[t n] rest IH]; intros lo.
  - by intros ?%bool_decide_eq_true.
  - rewrite marble_open_cons. intros (? & _ & ?%IH). lia.
Qed.

Lemma marble_open_weaken lo lo' hi hi' m :
  lo' ≤ lo → hi ≤ hi' →
  marble_open lo hi m = true → marble_open lo' hi' m = true.
Proof.
  revert lo lo'. induction m as [|[t n] rest IH]; intros lo lo' ? ?.
  - simpl. rewrite !bool_decide_eq_true. lia.
  - rewrite !marble_open_cons. intros (? & ? & ?).
    split; [lia|]. split; [done|]. by apply (IH t t).
Qed.

(** An open stretch followed by a well-formed marble is well formed. *)
Lemma marble_wf_app lo hi out rest :
  marble_open lo hi out = true → marble_wf hi rest = true →
  marble_wf lo (out ++ rest) = true.
Proof.
  revert lo. induction out as [|[t n] out IH]; intros lo Hout Hrest.
  - apply marble_open_le in Hout. by apply marble_wf_weaken with hi.
  - apply marble_open_cons in Hout as (? & Hn & ?). simpl app.
    apply marble_wf_cons. rewrite Hn. auto.
Qed.

Lemma marble_open_app lo mid hi out rest :
  marble_open lo mid out = true → marble_open mid hi rest = true →
  marble_open lo hi (out ++ rest) = true.
Proof.
  revert lo. induction out as [|[t n] out IH]; intros lo Hout Hrest.
  - apply marble_open_le in Hout. by apply marble_open_weaken with mid hi.
  - apply marble_open_cons in Hout as (? & Hn & ?). simpl app.
    apply marble_open_cons. auto.
Qed.

Lemma marble_open_wf lo hi m :
  marble_open lo hi m = true → marble_wf lo m = true.
Proof.
  intros Hm. rewrite <- (app_nil_r m). by apply marble_wf_app with hi.
Qed.

(** Nothing of a well-formed marble arrives before the subscription. *)
Lemma marble_wf_elem_of lo m t n :
  marble_wf lo m = true → (t, n) ∈ m → lo ≤ t.
Proof.
  revert lo. induction m as [|[u n'] m IH]; intros lo Hwf Hin.
  { by apply elem_of_nil in Hin. }
  apply marble_wf_cons in Hwf as [Hlo Hn].
  apply elem_of_cons in Hin as [[= -> ->]|Hin]; [done|].
  destruct (isTerminal n'); [subst; by apply elem_of_nil in Hin|].
  specialize (IH u Hn Hin). lia.
Qed.

(** ** What a marble delivers *)

Lemma elem_of_nexts m t x : (t, x) ∈ nexts m ↔ (t, Next x) ∈ m.
Proof.
  unfold nexts. rewrite list_elem_of_omap. split.
  - intros ([u n] & Hin & Heq). simpl in Heq. by destruct n; simplify_eq.
  - intros Hin. by exists (t, Next x).
Qed.

Lemma elem_of_values m x : x ∈ values m ↔ ∃ t, (t, Next x) ∈ m.
Proof.
  unfold values. rewrite list_elem_of_fmap. split.
  - intros ([t y] & -> & Hin). exists t. by apply elem_of_nexts.
  - intros [t Hin]. exists (t, x). split; [done|]. by apply elem_of_nexts.
Qed.

Lemma elem_of_errors m e : e ∈ errors m ↔ ∃ t, (t, Error e) ∈ m.
Proof.
  unfold errors. rewrite list_elem_of_omap. split.
  - intros ([u n] & Hin & Heq). simpl in Heq. destruct n; simplify_eq.
    by exists u.
  - intros [t Hin]. by exists (t, Error e).
Qed.

Lemma errors_nil_iff m : errors m = [] ↔ ∀ t e, (t, Error e) ∉ m.
Proof.
  split.
  - intros Hm t e Hin. assert (e ∈ errors m) as He by (apply elem_of_errors; eauto).
    rewrite Hm in He. by apply not_elem_of_nil in He.
  - intros Hm. apply elem_of_nil_inv. intros e [t Hin]%elem_of_errors.
    by apply (Hm t e).
Qed.

Lemma errors_nil_elem_of m t e : errors m = [] → (t, Error e) ∈ m → False.
Proof. intros Hm. by apply errors_nil_iff. Qed.

Lemma values_app m1 m2 : values (m1 ++ m2) = values m1 ++ values m2.
Proof. unfold values, nexts. by rewrite omap_app, fmap_app. Qed.

Lemma errors_app m1 m2 : errors (m1 ++ m2) = errors m1 ++ errors m2.
Proof. unfold errors. by rewrite omap_app. Qed.
End MarbleFacts.
(** ** Facts on the operators *)

Section OperatorFacts.
Context {A B : Type}.
Implicit Types (m : Marble A) (t lo hi : Time).

Lemma ofArray_wf (xs : list A) : observable_wf (ofArray xs).
Proof.
  intros t. unfold ofArray. apply marble_wf_app with t; [|simpl; by case_bool_decide].
  induction xs as [|x xs IH]; simpl; repeat case_bool_decide; (done || lia).
Qed.

Lemma errors_app_nil m1 m2 :
  errors (m1 ++ m2) = [] ↔ errors m1 = [] ∧ errors m2 = [].
Proof. rewrite errors_app. apply app_nil. Qed.

Lemma values_ofArray (xs : list A) t : values (ofArray xs t) = xs.
Proof.
  unfold ofArray. rewrite values_app, app_nil_r.
  induction xs as [|x xs IH]; [done|]. cbn. f_equal. apply IH.
Qed.

Lemma elem_of_ofArray_Next (xs : list A) t u x :
  (u, Next x) ∈ ofArray xs t ↔ u = t ∧ x ∈ xs.
Proof.
  unfold ofArray. rewrite elem_of_app, list_elem_of_singleton, list_elem_of_fmap.
  split.
  - intros [(y & [= -> ->] & Hin)|[=]]. by split.
  - intros [-> Hin]. left. by exists x.
Qed.

Lemma errors_ofArray (xs : list A) t : errors (ofArray xs t) = [].
Proof.
  unfold ofArray. rewrite errors_app, app_nil_r.
  by induction xs as [|x xs IH].
Qed.

Lemma marble_wf_cast (f : A → B) lo m :
  marble_wf lo m = true →
  marble_wf lo (prod_map id (notification_map f) <$> m) = true.
Proof.
  revert lo. induction m as [|[u n] m IH]; intros lo; [done|].
  rewrite fmap_cons. unfold prod_map at 1. simpl fst; simpl snd.
  rewrite !marble_wf_cons. intros [? Hn]. split; [done|].
  destruct n; simpl in *; [by apply IH | by subst | by subst].
Qed.

Lemma castObservable_wf (f : A → B) (o : Observable A) :
  observable_wf o → observable_wf (castObservable f o).
Proof. intros Ho t. apply marble_wf_cast, Ho. Qed.

Lemma elem_of_castObservable (f : A → B) (o : Observable A) t u n :
  (u, n) ∈ castObservable f o t ↔
  ∃ n', (u, n') ∈ o t ∧ n = notification_map f n'.
Proof.
  unfold castObservable. rewrite list_elem_of_fmap. split.
  - intros ([u' n'] & [= -> ->] & Hin). by exists n'.
  - intros (n' & Hin & ->). by exists (u, n').
Qed.

(** [map] *)

Lemma rxMap_go_wf (f : A → Throws B) lo m :
  marble_wf lo m = true → marble_wf lo (rxMap_go f m) = true.
Proof.
  revert lo. induction m as [|[u n] m IH]; intros lo; [done|].
  rewrite marble_wf_cons. intros [? Hn].
  destruct n as [x|e|]; simpl in Hn; simpl rxMap_go.
  - destruct (f x); apply marble_wf_cons; simpl; auto.
  - by apply marble_wf_cons.
  - by apply marble_wf_cons.
Qed.

Lemma rxMap_wf (f : A → Throws B) (o : Observable A) :
  observable_wf o → observable_wf (rxMap f o).
Proof. intros Ho t. apply rxMap_go_wf, Ho. Qed.

(** Where a notification of [map(f)] comes from. *)
Lemma elem_of_rxMap_go (f : A → Throws B) m u n :
  (u, n) ∈ rxMap_go f m →
  match n with
  | Next y => ∃ x, (u, Next x) ∈ m ∧ f x = inr y
  | Error e => (u, Error e) ∈ m ∨ ∃ x, (u, Next x) ∈ m ∧ f x = inl e
  | Complete => (u, Complete) ∈ m
  end.
Proof.
  induction m as [|[t [x|e|]] m IH]; simpl.
  - by intros ?%elem_of_nil.
  - destruct (f x) as [e|y] eqn:Hfx.
    + intros [= -> ->]%list_elem_of_singleton. right. exists x.
      split; [left | done].
    + intros [[= -> ->]|Hin]%elem_of_cons; [exists x; split; [left | done]|].
      apply IH in Hin. destruct n as [y'|e'|].
      * destruct Hin as (x' & ? & ?). exists x'. split; [by right | done].
      * destruct Hin as [?|(x' & ? & ?)]; [left; by right|].
        right. exists x'. split; [by right | done].
      * by right.
  - intros [= -> ->]%list_elem_of_singleton. left. left.
  - intros [= -> ->]%list_elem_of_singleton. left.
Qed.

Lemma values_castObservable (f : A → B) (o : Observable A) t :
  values (castObservable f o t) = f <$> values (o t).
Proof.
  unfold castObservable, values, nexts.
  induction (o t) as [|[u [x|e|]] m IH]; simpl; [done | by f_equal | done..].
Qed.

Lemma errors_castObservable (f : A → B) (o : Observable A) t :
  errors (castObservable f o t) = errors (o t).
Proof.
  unfold castObservable, errors.
  induction (o t) as [|[u [x|e|]] m IH]; simpl; [done | done | by f_equal | done].
Qed.

Lemma rxMap_go_ext (f g : A → Throws B) m :
  (∀ x, x ∈ values m → f x = g x) → rxMap_go f m = rxMap_go g m.
Proof.
  induction m as [|[u [x|e|]] m IH]; intros Hfg; [done| |done..]. simpl.
  rewrite <- (Hfg x) by (apply elem_of_values; exists u; left).
  destruct (f x); [done|]. f_equal. apply IH. intros y [t Hy]%elem_of_values.
  apply Hfg, elem_of_values. exists t. by right.
Qed.

(** Whatever [map(f)] delivers is the image of a value of the source. *)
Lemma elem_of_values_rxMap (f : A → Throws B) (o : Observable A) t y :
  y ∈ values (rxMap f o t) → ∃ x, x ∈ values (o t) ∧ f x = inr y.
Proof.
  intros [u Hin]%elem_of_values. apply elem_of_rxMap_go in Hin as (x & Hx & Hfx).
  exists x. split; [|done]. apply elem_of_values. eauto.
Qed.

(** A total callback on a marble without error yields a marble without
    error. *)
Lemma errors_rxMap_go (f : A → Throws B) m :
  (∀ x, x ∈ values m → isThrow (f x) = false) →
  errors m = [] → errors (rxMap_go f m) = [].
Proof.
  intros Hf Hm. apply errors_nil_iff. intros u e Hin.
  apply elem_of_rxMap_go in Hin as [Hin|(x & Hin & Hfx)].
  - by apply (proj1 (errors_nil_iff m) Hm u e).
  - assert (isThrow (f x) = false) as Hx by (apply Hf, elem_of_values; eauto).
    by rewrite Hfx in Hx.
Qed.
End OperatorFacts.

(** A callback that returns on every value of a well-formed marble maps
    every value of it. *)
Lemma elem_of_rxMap_go_total {A B : Type} (f : A → Throws B) lo m u x y :
  (∀ x', x' ∈ values m → isThrow (f x') = false) →
  marble_wf lo m = true → (u, Next x) ∈ m → f x = inr y →
  (u, Next y) ∈ rxMap_go f m.
Proof.
  revert lo. induction m as [|[t n] m IH]; intros lo Htotal Hwf Hin Hfx.
  { by apply elem_of_nil in Hin. }
  apply marble_wf_cons in Hwf as [_ Hwf].
  apply elem_of_cons in Hin as [[= <- <-]|Hin]; simpl.
  { rewrite Hfx. left. }
  destruct n as [x'|e|]; simpl in Hwf; [|subst; by apply elem_of_nil in Hin..].
  pose proof (Htotal x') as Hx'. destruct (f x') as [e|y'].
  { discriminate Hx'. apply elem_of_values. exists t. left. }
  right. apply (IH t); [|done..]. intros x'' [t' Hx'']%elem_of_values.
  apply Htotal, elem_of_values. exists t'. by right.
Qed.

(** A callback that computes [g] maps the values of a well-formed
    marble by [g]. *)
Lemma values_rxMap_go_total {A B : Type} (f : A → Throws B) (g : A → B) lo m :
  (∀ x, f x = inr (g x)) → marble_wf lo m = true →
  values (rxMap_go f m) = g <$> values m.
Proof.
  intros Hf. revert lo. induction m as [|[t n] m IH]; intros lo Hwf; [done|].
  apply marble_wf_cons in Hwf as [_ Hwf].
  destruct n as [x|e|]; simpl in Hwf |- *; [|by subst..].
  rewrite Hf. cbn. f_equal. by apply (IH t).
Qed.

(** A callback that computes [g] turns a well-formed marble into the
    marble of the values mapped by [g]: [map] is a cast. *)
Lemma rxMap_go_total {A B : Type} (f : A → Throws B) (g : A → B) lo m :
  (∀ x, f x = inr (g x)) → marble_wf lo m = true →
  rxMap_go f m = prod_map id (notification_map g) <$> m.
Proof.
  intros Hf. revert lo. induction m as [|[t n] m IH]; intros lo Hwf; [done|].
  apply marble_wf_cons in Hwf as [_ Hwf].
  destruct n as [x|e|]; simpl in Hwf |- *; [|by subst..].
  rewrite Hf. f_equal. by apply (IH t).
Qed.

(** Only the last notification of a well-formed marble is terminal. *)
Lemma marble_wf_app_inv {A : Type} lo (l : Marble A) e r :
  marble_wf lo (l ++ e :: r) = true → Forall (λ e', isTerminal e'.2 = false) l.
Proof.
  revert lo. induction l as [|[t n] l IH]; intros lo Hwf; [constructor|].
  rewrite <- app_comm_cons in Hwf. apply marble_wf_cons in Hwf as [_ Hwf].
  destruct (isTerminal n) eqn:Hn; [by destruct l|].
  constructor; [done | by apply (IH t)].
Qed.

(** ** Observables up to what a subscriber sees *)

Section ObservableEquiv.
Context {A B : Type}.

#[export] Instance Observable_equivalence : Equivalence (≡@{Observable A}).
Proof.
  split; [by intros o t | by intros o1 o2 H t |].
  intros o1 o2 o3 H1 H2 t. by rewrite H1.
Qed.

#[export] Instance Throws_Observable_equivalence
  : Equivalence (≡@{Throws (Observable A)}).
Proof. apply sum_relation_equiv; apply _. Qed.

#[export] Instance returns_Observable_proper
  : Proper ((≡) ==> (≡)) (returns (A:=Observable A)).
Proof. intros o1 o2 H. by constructor. Qed.

#[export] Instance rxMap_proper
  : Proper (pointwise_relation A (=) ==> (≡) ==> (≡)) (rxMap (B:=B)).
Proof.
  intros f g Hfg o1 o2 Ho t. unfold rxMap. rewrite (Ho t).
  apply rxMap_go_ext. intros x _. apply Hfg.
Qed.

#[export] Instance castObservable_proper (f : A → B)
  : Proper ((≡) ==> (≡)) (castObservable f).
Proof. intros o1 o2 Ho t. unfold castObservable. by rewrite (Ho t). Qed.
End ObservableEquiv.
