(* ===== verification/SwitchMap.v ===== *)
(** * [switchMap]

    [switchMap] is the state machine of RxJS's [SwitchMapSubscriber]: at
    most one inner subscription is active; a new outer value unsubscribes
    the active one; an exception thrown by the projection, an error of
    the outer or of the active inner subscription ends the output; the
    output completes once the outer and the active inner subscription
    have completed.  The facts: the output of well-formed marbles is well
    formed; every notification of the output has an origin in the outer
    or in one inner marble; an exception of the projection reaches the
    output. *)

From S2P Require Import Prelude Observable.

(** The inner subscription of a [switchMap]. *)
Inductive Inner (B : Type) : Type :=
| Errored                    (* it sent an error: the output has ended *)
| Inactive                   (* there is none, or it has completed *)
| Active (rest : Marble B).  (* what it has yet to send *)
Arguments Errored {B}.
Arguments Inactive {B}.
Arguments Active {B} _.

Section SwitchMap.
Context {A B : Type} (project : A → Throws (Observable B)).

(** Forward what the inner subscription sends at the times [keep]
    selects, a prefix of [inner]: values go out, an error ends the
    output, completion is kept for the end of the outer. *)
Fixpoint drain (keep : Time → bool) (inner : Marble B)
    : Marble B * Inner B :=
  match inner with
  | [] => ([], Active [])
  | (t, n) :: rest =>
      if keep t then
        match n with
        | Next y => let '(out, st) := drain keep rest in ((t, Next y) :: out, st)
        | Error e => ([(t, Error e)], Errored)
        | Complete => ([], Inactive)
        end
      else ([], Active inner)
  end.

Definition drain_inner (keep : Time → bool) (st : Inner B)
    : Marble B * Inner B :=
  match st with
  | Active m => drain keep m
  | _ => ([], st)
  end.

(** Everything the inner subscription sends up to and including its
    terminal notification. *)
Fixpoint flush (inner : Marble B) : Marble B :=
  match inner with
  | [] => []
  | (t, n) :: rest => (t, n) :: (if isTerminal n then [] else flush rest)
  end.

(** The outer has completed at [t]: the output ends with the inner. *)
Definition finish (t : Time) (st : Inner B) : Marble B :=
  match st with
  | Errored => []
  | Inactive => [(t, Complete)]
  | Active m => flush m
  end.

Definition before (t : Time) : Time → bool := λ u, bool_decide (u < t).
Definition upto (t : Time) : Time → bool := λ u, bool_decide (u ≤ t).
Definition always : Time → bool := λ _, true.

(** One outer value at [t]: project it, subscribe to the result and
    forward what it sends inside [subscribe]. *)
Definition subscribeInner (t : Time) (v : A) : Marble B * Inner B :=
  match project v with
  | inl e => ([(t, Error e)], Errored)
  | inr o => drain (upto t) (o t)
  end.

(** One notification [n] of the outer at [t], the inner subscription being
    [st]; [continue] is the rest of the run, from the new inner
    subscription. *)
Definition onOuter (t : Time) (n : Notification A) (st : Inner B)
    (continue : Inner B → Marble B) : Marble B :=
  match n with
  | Next v => let '(out, st') := subscribeInner t v in out ++ continue st'
  | Error e => [(t, Error e)]
  | Complete => finish t st
  end.

Fixpoint switchMap_go (outer : Marble A) (st : Inner B) : Marble B :=
  match outer with
  | [] => (drain_inner always st).1
  | (t, n) :: outer' =>
      let '(out, st') := drain_inner (before t) st in
      out ++
      match st' with
      | Errored => []
      | _ => onOuter t n st' (switchMap_go outer')
      end
  end.

Definition switchMap (outer : Observable A) : Observable B :=
  λ t, switchMap_go (outer t) Inactive.

(** What the active inner subscription has yet to send is a well-formed
    marble. *)
Definition inner_wf (lo : Time) (st : Inner B) : Prop :=
  match st with
  | Active m => marble_wf lo m = true
  | _ => True
  end.
(** The three ways a step of the machine can leave the output and the
    inner subscription, [hi] being the time of the step. *)
Definition step_wf (lo hi : Time) (r : Marble B * Inner B) : Prop :=
  match r with
  | (out, Errored) => marble_wf lo out = true
  | (out, st) => marble_open lo hi out = true ∧ inner_wf hi st
  end.

(** Where a notification of the output of [switchMap] comes from: the
    inner subscription the run starts with, the inner subscription made
    for a value of the outer, an exception of the projection, or the
    outer itself. *)
Inductive origin (outer : Marble A) (st : Inner B) (u : Time)
    : Notification B → Prop :=
| from_initial inner n :
    st = Active inner → (u, n) ∈ inner → origin outer st u n
| from_inner t v o n :
    (t, Next v) ∈ outer → project v = inr o → (u, n) ∈ o t →
    origin outer st u n
| from_throw v e :
    (u, Next v) ∈ outer → project v = inl e → origin outer st u (Error e)
| from_outer_error e :
    (u, Error e) ∈ outer → origin outer st u (Error e)
| from_outer_complete :
    (u, Complete) ∈ outer → origin outer st u Complete.
End SwitchMap.

(** ** Facts on [switchMap] *)

Section SwitchMapFacts.
Context {A B : Type} (project : A → Throws (Observable B)).
Implicit Types (outer : Marble A) (inner out rest : Marble B) (st : Inner B).
Implicit Types (t u lo hi : Time) (keep : Time → bool).

(** What [drain] forwards is an open stretch, or a marble that ends with
    an error; what it leaves is well formed. *)
Lemma drain_wf keep lo hi inner :
  marble_wf lo inner = true → lo ≤ hi → (∀ u, keep u = true → u ≤ hi) →
  match drain keep inner with
  | (out, Errored) => marble_wf lo out = true
  | (out, Inactive) => marble_open lo hi out = true
  | (out, Active rest) =>
      marble_open lo hi out = true ∧ marble_wf lo rest = true
  end.
Proof.
  intros Hwf Hhi Hkeep. revert lo Hwf Hhi.
  induction inner as [|[u n] inner IH]; intros lo Hwf Hhi; simpl.
  { split; [by apply bool_decide_eq_true | done]. }
  destruct (keep u) eqn:Hu; [|split; [by apply bool_decide_eq_true | done]].
  apply Hkeep in Hu. apply marble_wf_cons in Hwf as [Hlo Hn].
  destruct n as [y|e|]; simpl in Hn.
  - specialize (IH u Hn Hu). destruct (drain keep inner) as [out [| |rest]].
    + apply marble_wf_cons. by split.
    + apply marble_open_cons. by repeat split.
    + destruct IH as [IH1 IH2]. split.
      * apply marble_open_cons. by repeat split.
      * by apply marble_wf_weaken with u.
  - apply marble_wf_cons. by split.
  - by apply bool_decide_eq_true.
Qed.

(** What [drain (before t)] leaves starts at [t] or later. *)
Lemma drain_before_rest t lo inner out rest :
  marble_wf lo inner = true → drain (before t) inner = (out, Active rest) →
  marble_wf t rest = true.
Proof.
  revert lo out. induction inner as [|[u n] inner IH]; intros lo out Hwf; simpl.
  { by intros [= <- <-]. }
  apply marble_wf_cons in Hwf as [Hlo Hn]. unfold before at 1.
  case_bool_decide as Hu.
  - destruct n as [y|e|]; simpl in Hn; [|done..].
    destruct (drain (before t) inner) as [out' st] eqn:Hd.
    intros [= <- ->]. by eapply IH.
  - intros [= <- <-]. apply marble_wf_cons. split; [lia | done].
Qed.

Lemma flush_wf lo inner : marble_wf lo inner = true → flush inner = inner.
Proof.
  revert lo. induction inner as [|[u n] inner IH]; intros lo; [done|].
  rewrite marble_wf_cons. intros [_ Hn]. simpl.
  destruct (isTerminal n); [by subst | f_equal; by eapply IH].
Qed.

(** [drain] forwards notifications of the inner marble, at the times it
    selects, and never the completion. *)
Lemma elem_of_drain keep inner u n :
  (u, n) ∈ (drain keep inner).1 →
  (u, n) ∈ inner ∧ keep u = true ∧ isComplete n = false.
Proof.
  induction inner as [|[t [y|e|]] inner IH]; simpl.
  - by intros ?%elem_of_nil.
  - destruct (keep t) eqn:Ht; [|by intros ?%elem_of_nil].
    destruct (drain keep inner) as [out st]. simpl in *.
    intros [[= -> ->]|Hin]%elem_of_cons; [by repeat split; [left|..]|].
    destruct (IH Hin) as (? & ? & ?). by repeat split; [right|..].
  - destruct (keep t) eqn:Ht; [|by intros ?%elem_of_nil].
    intros [= -> ->]%list_elem_of_singleton. by repeat split; [left|..].
  - destruct (keep t) eqn:Ht; by intros ?%elem_of_nil.
Qed.

Lemma elem_of_flush inner u n : (u, n) ∈ flush inner → (u, n) ∈ inner.
Proof.
  induction inner as [|[t n'] inner IH]; [done|]. simpl.
  intros [->|Hin]%elem_of_cons; [left|right].
  destruct (isTerminal n'); [by apply elem_of_nil in Hin | auto].
Qed.

Lemma switchMap_go_Errored outer : switchMap_go project outer Errored = [].
Proof. by destruct outer as [|[t n] outer]. Qed.
End SwitchMapFacts.

(** ** [switchMap] preserves well-formedness *)

Section SwitchMapWf.
Context {A B : Type} (project : A → Throws (Observable B)).
Context (project_wf : ∀ v o, project v = inr o → observable_wf o).
Implicit Types (outer : Marble A) (inner out rest : Marble B) (st : Inner B).
Implicit Types (t u lo hi : Time) (n : Notification A).

Lemma drain_fst_wf keep lo inner :
  marble_wf lo inner = true → marble_wf lo (drain keep inner).1 = true.
Proof.
  revert lo. induction inner as [|[u n] inner IH]; intros lo Hwf; [done|].
  apply marble_wf_cons in Hwf as [Hlo Hn]. simpl.
  destruct (keep u); [|done]. destruct n as [y|e|]; simpl in Hn.
  - specialize (IH u Hn). destruct (drain keep inner) as [out st].
    apply marble_wf_cons. by split.
  - apply marble_wf_cons. by split.
  - done.
Qed.

Lemma drain_inner_wf t lo st :
  inner_wf lo st → lo ≤ t → step_wf lo t (drain_inner (before t) st).
Proof.
  intros Hst Hlo. destruct st as [| |inner]; simpl.
  - done.
  - split; [by apply bool_decide_eq_true | done].
  - simpl in Hst. pose proof (drain_wf (before t) lo t inner Hst Hlo) as Hd.
    destruct (drain (before t) inner) as [out [| |rest]] eqn:Hdrain; simpl.
    + apply Hd. unfold before. intros u ?%bool_decide_eq_true. lia.
    + split; [|done]. apply Hd. unfold before. intros u ?%bool_decide_eq_true. lia.
    + split; [|by eapply drain_before_rest].
      apply Hd. unfold before. intros u ?%bool_decide_eq_true. lia.
Qed.

Lemma subscribeInner_wf t v : step_wf t t (subscribeInner project t v).
Proof.
  unfold subscribeInner. destruct (project v) as [e|o] eqn:Hv; simpl.
  { by case_bool_decide. }
  pose proof (drain_wf (upto t) t t (o t) (project_wf v o Hv t) (le_n t)) as Hd.
  destruct (drain (upto t) (o t)) as [out [| |rest]]; simpl;
    [|split; [|done]|]; apply Hd; unfold upto; by intros u ?%bool_decide_eq_true.
Qed.

Lemma step_wf_app lo hi out st (continue : Inner B → Marble B) :
  step_wf lo hi (out, st) → continue Errored = [] →
  (inner_wf hi st → marble_wf hi (continue st) = true) →
  marble_wf lo (out ++ continue st) = true.
Proof.
  intros Hstep Herr Hk. destruct st as [| |rest]; simpl in Hstep.
  - by rewrite Herr, app_nil_r.
  - destruct Hstep. apply marble_wf_app with hi; auto.
  - destruct Hstep. apply marble_wf_app with hi; auto.
Qed.

Lemma onOuter_wf t n st (continue : Inner B → Marble B) :
  inner_wf t st → continue Errored = [] →
  (isTerminal n = false → ∀ st', inner_wf t st' → marble_wf t (continue st') = true) →
  marble_wf t (onOuter project t n st continue) = true.
Proof.
  intros Hst Herr Hk. destruct n as [v|e|]; simpl.
  - pose proof (subscribeInner_wf t v) as Hs.
    destruct (subscribeInner project t v) as [out st'].
    apply step_wf_app with t; auto.
  - by case_bool_decide.
  - destruct st as [| |rest]; simpl; [done | by case_bool_decide|].
    by rewrite (flush_wf t).
Qed.

Lemma switchMap_go_wf outer st lo :
  marble_wf lo outer = true → inner_wf lo st →
  marble_wf lo (switchMap_go project outer st) = true.
Proof.
  revert st lo. induction outer as [|[t n] outer IH]; intros st lo Hwf Hst.
  - destruct st as [| |inner]; simpl; [done..|]. by apply drain_fst_wf.
  - apply marble_wf_cons in Hwf as [Hlo Hn]. simpl.
    pose proof (drain_inner_wf t lo st Hst Hlo) as Hd.
    destruct (drain_inner (before t) st) as [out st'].
    apply (step_wf_app lo t out st'
             (λ st', match st' with Errored => [] | _ => _ end)); [done..|].
    intros Hst'.
    assert (marble_wf t (onOuter project t n st' (switchMap_go project outer)) = true)
      as Hon.
    { apply onOuter_wf; [done | apply switchMap_go_Errored|].
      intros Hterm st'' Hst''. rewrite Hterm in Hn. by apply IH. }
    by destruct st'.
Qed.

Lemma switchMap_wf (outer : Observable A) :
  observable_wf outer → observable_wf (switchMap project outer).
Proof. intros Ho t. by apply switchMap_go_wf; [apply Ho|]. Qed.
End SwitchMapWf.

Section SwitchMapOrigin.
Context {A B : Type} (project : A → Throws (Observable B)).
Implicit Types (outer : Marble A) (inner out rest : Marble B) (st : Inner B).
Implicit Types (t u : Time) (keep : Time → bool).

Lemma drain_rest_subseteq keep inner out rest :
  drain keep inner = (out, Active rest) → rest ⊆ inner.
Proof.
  revert out. induction inner as [|[t n] inner IH]; intros out; simpl.
  { by intros [= <- <-]. }
  destruct (keep t); [|by intros [= <- <-]].
  destruct n as [y|e|]; [|done..].
  destruct (drain keep inner) as [out' st'] eqn:Hd. intros [= <- ->].
  intros e He. right. by eapply IH.
Qed.

Lemma elem_of_drain_inner keep st u n :
  (u, n) ∈ (drain_inner keep st).1 → ∃ inner, st = Active inner ∧ (u, n) ∈ inner.
Proof.
  destruct st as [| |inner]; simpl; [by intros ?%elem_of_nil..|].
  intros (? & _)%elem_of_drain. by exists inner.
Qed.

Lemma drain_inner_rest keep st out rest :
  drain_inner keep st = (out, Active rest) →
  ∃ inner, st = Active inner ∧ rest ⊆ inner.
Proof.
  destruct st as [| |inner]; simpl; [done..|].
  intros ?%drain_rest_subseteq. by exists inner.
Qed.

(** The origin of a notification of the rest of the run is its origin in
    the whole run. *)
Lemma origin_continue outer st st' t v out u n :
  subscribeInner project t v = (out, st') →
  origin project outer st' u n →
  origin project ((t, Next v) :: outer) st u n.
Proof.
  intros Hsub Ho. destruct Ho as [inner n Hst Hin|t' v' o n Hout Hv Hin|
    v' e Hout Hv|e Hout|Hout].
  - unfold subscribeInner in Hsub. destruct (project v) as [e|o] eqn:Hv.
    { by simplify_eq. }
    subst st'. apply drain_rest_subseteq in Hsub.
    eapply from_inner; [left | done | by apply Hsub].
  - eapply from_inner; [by right | done..].
  - eapply from_throw; [by right | done].
  - apply from_outer_error. by right.
  - apply from_outer_complete. by right.
Qed.

Lemma origin_onOuter outer st t n0 u n :
  (∀ st', (u, n) ∈ switchMap_go project outer st' → origin project outer st' u n) →
  (u, n) ∈ onOuter project t n0 st (switchMap_go project outer) →
  (∃ rest, st = Active rest ∧ (u, n) ∈ rest) ∨
  origin project ((t, n0) :: outer) Inactive u n.
Proof.
  intros IH. destruct n0 as [v|e|]; simpl.
  - destruct (subscribeInner project t v) as [out st'] eqn:Hsub.
    intros [Hin|Hin]%elem_of_app; right.
    + unfold subscribeInner in Hsub. destruct (project v) as [e|o] eqn:Hv.
      * simplify_eq. apply list_elem_of_singleton in Hin as [= -> ->].
        eapply from_throw; [left | done].
      * replace out with (drain (upto t) (o t)).1 in Hin by (by rewrite Hsub).
        apply elem_of_drain in Hin as (Hin & _).
        eapply from_inner; [left | done..].
    + eapply origin_continue; [done | by apply IH].
  - intros [= -> ->]%list_elem_of_singleton. right. apply from_outer_error. left.
  - destruct st as [| |rest]; simpl.
    + by intros ?%elem_of_nil.
    + intros [= -> ->]%list_elem_of_singleton. right.
      apply from_outer_complete. left.
    + intros ?%elem_of_flush. left. by exists rest.
Qed.

Lemma origin_initial outer st u n :
  origin project outer Inactive u n → origin project outer st u n.
Proof.
  intros Ho. destruct Ho; [done|..].
  - by eapply from_inner.
  - by eapply from_throw.
  - by apply from_outer_error.
  - by apply from_outer_complete.
Qed.

(** Every notification of the output has an origin. *)
Lemma elem_of_switchMap_go outer st u n :
  (u, n) ∈ switchMap_go project outer st → origin project outer st u n.
Proof.
  revert st. induction outer as [|[t n0] outer IH]; intros st; simpl.
  - intros (inner & -> & Hin)%elem_of_drain_inner. by eapply from_initial.
  - destruct (drain_inner (before t) st) as [out st'] eqn:Hd.
    intros [Hin|Hin]%elem_of_app.
    + replace out with (drain_inner (before t) st).1 in Hin by (by rewrite Hd).
      apply elem_of_drain_inner in Hin as (inner & -> & Hin).
      by eapply from_initial.
    + assert ((u, n) ∈ onOuter project t n0 st' (switchMap_go project outer))
        as Hon by (destruct st'; [by apply elem_of_nil in Hin | done..]).
      apply origin_onOuter in Hon as [(rest & -> & Hrest)|Ho]; [| |done].
      * apply drain_inner_rest in Hd as (inner & -> & Hsub).
        eapply from_initial; [done | by apply Hsub].
      * by apply origin_initial.
Qed.
End SwitchMapOrigin.

(** ** Errors reach the output *)

Section SwitchMapErrors.
Context {A B : Type} (project : A → Throws (Observable B)).
Implicit Types (outer : Marble A) (inner out rest : Marble B) (st : Inner B).
Implicit Types (t u lo : Time) (keep : Time → bool).

Lemma drain_Errored keep inner out :
  drain keep inner = (out, Errored) → errors out ≠ [].
Proof.
  revert out. induction inner as [|[t n] inner IH]; intros out; simpl; [done|].
  destruct (keep t); [|done]. destruct n as [y|e|]; [|by intros [= <-]|done].
  destruct (drain keep inner) as [out' st'] eqn:Hd. intros [= <- ->].
  by apply (IH out').
Qed.

Lemma subscribeInner_Errored t v out :
  subscribeInner project t v = (out, Errored) → errors out ≠ [].
Proof.
  unfold subscribeInner. destruct (project v); [by intros [= <-]|].
  apply drain_Errored.
Qed.

Lemma errors_app_l (m1 m2 : Marble B) : errors m1 ≠ [] → errors (m1 ++ m2) ≠ [].
Proof. rewrite errors_app. by destruct (errors m1). Qed.

Lemma errors_app_r (m1 m2 : Marble B) : errors m2 ≠ [] → errors (m1 ++ m2) ≠ [].
Proof. rewrite errors_app. by destruct (errors m1), (errors m2). Qed.

Lemma Errored_cases st : st = Errored ∨ st ≠ Errored.
Proof. destruct st; [by left | by right..]. Qed.

Lemma drain_inner_Errored keep st out :
  st ≠ Errored → drain_inner keep st = (out, Errored) → errors out ≠ [].
Proof.
  destruct st as [| |inner]; simpl; [done..|]. intros _. apply drain_Errored.
Qed.

(** If the projection throws on a value of a well-formed outer marble,
    the output carries an error: that one or an earlier one. *)
Lemma switchMap_go_throws outer st lo t v e :
  marble_wf lo outer = true → st ≠ Errored →
  (t, Next v) ∈ outer → project v = inl e →
  errors (switchMap_go project outer st) ≠ [].
Proof.
  intros Hwf Hst Hin Hv. revert st lo Hwf Hst.
  induction outer as [|[t0 n0] outer IH]; intros st lo Hwf Hst.
  { by apply elem_of_nil in Hin. }
  apply marble_wf_cons in Hwf as [_ Hn0]. simpl.
  destruct (drain_inner (before t0) st) as [out st'] eqn:Hd.
  destruct (Errored_cases st') as [->|Hst'].
  { apply errors_app_l. by eapply drain_inner_Errored. }
  apply errors_app_r.
  enough (errors (onOuter project t0 n0 st' (switchMap_go project outer)) ≠ [])
    by (by destruct st').
  apply elem_of_cons in Hin as [[= <- <-]|Hin]; simpl.
  - unfold subscribeInner. rewrite Hv. by apply errors_app_l.
  - destruct n0 as [v0|e0|]; simpl in Hn0 |- *;
      [|subst; by apply elem_of_nil in Hin..].
    destruct (subscribeInner project t0 v0) as [out' st''] eqn:Hsub.
    destruct (Errored_cases st'') as [->|Hst''].
    + apply errors_app_l. by eapply subscribeInner_Errored.
    + apply errors_app_r. by eapply (IH Hin).
Qed.
End SwitchMapErrors.

(** ** The output of [switchMap], by kind of notification *)

Section SwitchMapElems.
Context {A B : Type} (project : A → Throws (Observable B)).
Implicit Types (outer : Observable A) (t u : Time).

(** A value of the output is a value of the inner observable that the
    projection returned for a value of the outer. *)
Lemma elem_of_switchMap_Next outer t0 u y :
  (u, Next y) ∈ switchMap project outer t0 →
  ∃ t v o, (t, Next v) ∈ outer t0 ∧ project v = inr o ∧ (u, Next y) ∈ o t.
Proof.
  intros Hin%elem_of_switchMap_go.
  inversion Hin as [inner n Hst|t v o n Hout Hv Ho| | |]; simplify_eq.
  by exists t, v, o.
Qed.

(** An error of the output is an error of an inner observable, an
    exception of the projection, or an error of the outer. *)
Lemma elem_of_switchMap_Error outer t0 u e :
  (u, Error e) ∈ switchMap project outer t0 →
  (∃ t v o, (t, Next v) ∈ outer t0 ∧ project v = inr o ∧ (u, Error e) ∈ o t) ∨
  (∃ v, (u, Next v) ∈ outer t0 ∧ project v = inl e) ∨
  (u, Error e) ∈ outer t0.
Proof.
  intros Hin%elem_of_switchMap_go.
  inversion Hin as [inner n Hst|t v o n Hout Hv Ho|v e' Hout Hv|e' Hout|];
    simplify_eq.
  - left. by exists t, v, o.
  - right. left. by exists v.
  - by right; right.
Qed.

(** No error comes out when none goes in and the projection is total on
    what the outer delivers. *)
Lemma errors_switchMap outer t0 :
  errors (outer t0) = [] →
  (∀ v, v ∈ values (outer t0) → isThrow (project v) = false) →
  (∀ v o t, v ∈ values (outer t0) → project v = inr o → errors (o t) = []) →
  errors (switchMap project outer t0) = [].
Proof.
  intros Hout Htotal Hinner. apply errors_nil_iff. intros u e Hin.
  apply elem_of_switchMap_Error in Hin as [(t & v & o & Hv & Hp & Ho)|[(v & Hv & Hp)|Ho]].
  - assert (v ∈ values (outer t0)) as Hval by (apply elem_of_values; eauto).
    by apply (proj1 (errors_nil_iff _) (Hinner v o t Hval Hp) u e).
  - assert (v ∈ values (outer t0)) as Hval by (apply elem_of_values; eauto).
    apply Htotal in Hval. by rewrite Hp in Hval.
  - by apply (proj1 (errors_nil_iff _) Hout u e).
Qed.

(** Whatever the inner observables deliver, the output delivers. *)
Lemma switchMap_delivers (P : B → Prop) outer t0 :
  (∀ v o t, v ∈ values (outer t0) → project v = inr o →
     ∀ y, y ∈ values (o t) → P y) →
  ∀ y, y ∈ values (switchMap project outer t0) → P y.
Proof.
  intros Hinner y [u Hin]%elem_of_values.
  apply elem_of_switchMap_Next in Hin as (t & v & o & Hv & Hp & Ho).
  apply (Hinner v o t); [|done|]; apply elem_of_values; eauto.
Qed.
End SwitchMapElems.

(** ** Projections that agree on what the outer delivers *)

Section SwitchMapExt.
Context {A B : Type} (project project' : A → Throws (Observable B)).

Lemma subscribeInner_ext t v :
  project v ≡ project' v →
  subscribeInner project t v = subscribeInner project' t v.
Proof.
  unfold subscribeInner. intros [e e' ->|o o' Ho]; [done|]. by rewrite (Ho t).
Qed.

Lemma switchMap_go_ext (outer : Marble A) (st : Inner B) :
  (∀ v, v ∈ values outer → project v ≡ project' v) →
  switchMap_go project outer st = switchMap_go project' outer st.
Proof.
  revert st. induction outer as [|[t n] outer IH]; intros st Hext; [done|].
  simpl. destruct (drain_inner (before t) st) as [out st']. f_equal.
  destruct n as [v|e|]; [|done..].
  assert (∀ st'', switchMap_go project outer st''
                   = switchMap_go project' outer st'') as Hgo.
  { intros st''. apply IH. intros v' [u Hv']%elem_of_values.
    apply Hext, elem_of_values. exists u. by right. }
  unfold onOuter.
  rewrite (subscribeInner_ext t v)
    by (apply Hext, elem_of_values; exists t; left).
  destruct st'; [done|..];
    (destruct (subscribeInner project' t v); by rewrite Hgo).
Qed.

Lemma switchMap_ext (outer : Observable A) t :
  (∀ v, v ∈ values (outer t) → project v ≡ project' v) →
  switchMap project outer t = switchMap project' outer t.
Proof. apply switchMap_go_ext. Qed.
End SwitchMapExt.

#[export] Instance switchMap_proper {A B : Type}
  : Proper (pointwise_relation A (≡) ==> (≡) ==> (≡)) (switchMap (B:=B)).
Proof.
  intros p1 p2 Hp o1 o2 Ho t. unfold switchMap. rewrite (Ho t).
  apply switchMap_go_ext. intros v _. apply Hp.
Qed.
