(* ===== verification/Switching.v ===== *)
(** * Which inner subscription a [switchMap] listens to

    A value of the inner observable subscribed to at [t] comes out at [u]
    exactly when that subscription has not been superseded by then: [u]
    is the turn of the subscription itself, or the outer has sent nothing
    since, or what it sent next is its completion, or it sent it after
    [u].  [live] says so of the rest of the outer marble;
    [switchMap_go_live] is the soundness of the characterisation (what
    comes out is live) and [switchMap_go_latest] its completeness (what is
    live comes out, in a run without error). *)

From S2P Require Import Prelude Observable SwitchMap.

(** The active inner subscription stays active through [u], [rest] being
    what the outer has yet to send. *)
Definition live0 {A : Type} (u : Time) (rest : Marble A) : bool :=
  match rest with
  | [] => true
  | (t', n') :: _ => isComplete n' || bool_decide (u < t')
  end.

(** The subscription made at [t] is the one listened to at [u]. *)
Definition live {A : Type} (t u : Time) (rest : Marble A) : bool :=
  bool_decide (u ≤ t) || live0 u rest.

(** A test on times that, once it fails, fails from then on. *)
Definition downward (keep : Time → bool) : Prop :=
  ∀ a b, a ≤ b → keep b = true → keep a = true.

Section Heard.
Context {A B : Type} (project : A → Throws (Observable B)).

(** The value [y] at [u] is a value of the inner subscription the run
    starts with, still active at [u]. *)
Definition heard0 (outer : Marble A) (st : Inner B) (u : Time) (y : B) : Prop :=
  ∃ inner, st = Active inner ∧ (u, Next y) ∈ inner ∧ live0 u outer = true.

(** The value [y] at [u] is a value of the inner subscription made for a
    value of the outer, live at [u]. *)
Definition heard (outer : Marble A) (u : Time) (y : B) : Prop :=
  ∃ l t v o r,
    outer = l ++ (t, Next v) :: r ∧ project v = inr o ∧
    (u, Next y) ∈ o t ∧ live t u r = true.
End Heard.

(** ** What [drain] forwards and what it leaves *)

Section Drain.
Context {B : Type}.
Implicit Types (inner out rest : Marble B) (st : Inner B).
Implicit Types (t u lo : Time) (keep : Time → bool) (y : B).

Lemma downward_before t : downward (before t).
Proof.
  intros a b Hab. unfold before. rewrite !bool_decide_eq_true. lia.
Qed.

Lemma downward_upto t : downward (upto t).
Proof.
  intros a b Hab. unfold upto. rewrite !bool_decide_eq_true. lia.
Qed.

Lemma downward_always : downward always.
Proof. done. Qed.

Lemma elem_of_drain_inner_keep keep st u (n : Notification B) :
  (u, n) ∈ (drain_inner keep st).1 →
  ∃ inner, st = Active inner ∧ (u, n) ∈ inner ∧ keep u = true.
Proof.
  destruct st as [| |inner]; simpl; [by intros ?%elem_of_nil..|].
  intros (? & ? & _)%elem_of_drain. by exists inner.
Qed.

(** A value of a well-formed inner marble is forwarded or left for
    later. *)
Lemma drain_Next_cases keep lo inner u y :
  marble_wf lo inner = true → (u, Next y) ∈ inner →
  (u, Next y) ∈ (drain keep inner).1 ∨
  ∃ rest, (drain keep inner).2 = Active rest ∧ (u, Next y) ∈ rest ∧
          marble_wf lo rest = true.
Proof.
  revert lo. induction inner as [|[t n] inner IH]; intros lo Hwf Hin.
  { by apply elem_of_nil in Hin. }
  simpl. destruct (keep t); [|right; by exists ((t, n) :: inner)].
  apply marble_wf_cons in Hwf as [Hlo Hn].
  apply elem_of_cons in Hin as [[= <- <-]|Hin].
  { destruct (drain keep inner). left. left. }
  destruct n as [x|e|]; simpl in Hn; [|subst; by apply elem_of_nil in Hin..].
  destruct (IH t Hn Hin) as [Hout|(rest & Hst & Hrest & Hwf)];
    destruct (drain keep inner) as [out st]; simpl in *.
  - left. by right.
  - right. exists rest. split_and!; [done..|]. by apply marble_wf_weaken with t.
Qed.

(** A value at a time that the test selects is forwarded. *)
Lemma drain_keeps keep lo inner u y :
  downward keep → marble_wf lo inner = true → (u, Next y) ∈ inner →
  keep u = true → (u, Next y) ∈ (drain keep inner).1.
Proof.
  intros Hkeep. revert lo. induction inner as [|[t n] inner IH];
    intros lo Hwf Hin Hu.
  { by apply elem_of_nil in Hin. }
  apply marble_wf_cons in Hwf as [Hlo Hn]. simpl.
  apply elem_of_cons in Hin as [[= <- <-]|Hin].
  { rewrite Hu. destruct (drain keep inner). left. }
  destruct n as [x|e|]; simpl in Hn; [|subst; by apply elem_of_nil in Hin..].
  rewrite (Hkeep t u) by (done || by eapply marble_wf_elem_of).
  specialize (IH t Hn Hin Hu). destruct (drain keep inner). by right.
Qed.
End Drain.

(** ** What comes out is live *)

Section Live.
Context {A B : Type} (project : A → Throws (Observable B)).
Implicit Types (outer : Marble A) (inner out rest : Marble B) (st : Inner B).
Implicit Types (t u lo : Time) (y : B).

Lemma heard_cons outer t v u y :
  (∀ st, (u, Next y) ∈ switchMap_go project outer st →
         heard0 outer st u y ∨ heard project outer u y) →
  (u, Next y) ∈ onOuter project t (Next v) Inactive (switchMap_go project outer) →
  heard project ((t, Next v) :: outer) u y.
Proof.
  intros IH. simpl. unfold subscribeInner.
  destruct (project v) as [e|o] eqn:Hv.
  { rewrite switchMap_go_Errored.
    by intros [?%list_elem_of_singleton|?%elem_of_nil]%elem_of_app. }
  destruct (drain (upto t) (o t)) as [out st'] eqn:Hd.
  intros [Hin|Hin]%elem_of_app.
  - replace out with (drain (upto t) (o t)).1 in Hin by (by rewrite Hd).
    apply elem_of_drain in Hin as (Hin & Hu & _).
    exists [], t, v, o, outer. split_and!; [done..|].
    unfold live. unfold upto in Hu. by rewrite Hu.
  - destruct (IH _ Hin) as [(rest & -> & Hrest & Hlive)|
      (l & t' & v' & o' & r & -> & Hv' & Ho' & Hlive)].
    + apply drain_rest_subseteq in Hd. exists [], t, v, o, outer.
      split_and!; [done | done | by apply Hd|].
      unfold live. by rewrite Hlive, orb_true_r.
    + by exists ((t, Next v) :: l), t', v', o', r.
Qed.

(** Soundness: a value of the output is a value of a live inner
    subscription. *)
Lemma switchMap_go_live outer st u y :
  (u, Next y) ∈ switchMap_go project outer st →
  heard0 outer st u y ∨ heard project outer u y.
Proof.
  revert st. induction outer as [|[t1 n1] outer IH]; intros st; simpl.
  { intros (inner & -> & Hin & _)%elem_of_drain_inner_keep. left. by exists inner. }
  destruct (drain_inner (before t1) st) as [out st'] eqn:Hd.
  intros [Hin|Hin]%elem_of_app.
  - left. replace out with (drain_inner (before t1) st).1 in Hin by (by rewrite Hd).
    apply elem_of_drain_inner_keep in Hin as (inner & -> & Hin & Hu).
    exists inner. split_and!; [done..|]. simpl. unfold before in Hu.
    by rewrite Hu, orb_true_r.
  - assert ((u, Next y) ∈ onOuter project t1 n1 st' (switchMap_go project outer))
      as Hon by (destruct st'; [by apply elem_of_nil in Hin | done..]).
    destruct n1 as [v|e|].
    + right. by apply heard_cons.
    + by apply list_elem_of_singleton in Hon.
    + left. destruct st' as [| |rest]; simpl in Hon;
        [by apply elem_of_nil in Hon | by apply list_elem_of_singleton in Hon|].
      apply elem_of_flush in Hon.
      apply drain_inner_rest in Hd as (inner & -> & Hsub).
      exists inner. split_and!; [done | by apply Hsub | done].
Qed.

Lemma switchMap_live (outer : Observable A) t0 u y :
  (u, Next y) ∈ switchMap project outer t0 → heard project (outer t0) u y.
Proof.
  intros [(inner & ? & _)|H]%switchMap_go_live; [done|exact H].
Qed.
End Live.

(** ** What is live comes out *)

Section Latest.
Context {A B : Type} (project : A → Throws (Observable B)).
Implicit Types (outer : Marble A) (inner out rest : Marble B) (st : Inner B).
Implicit Types (t u lo : Time) (y : B).

(** A value of the initial inner subscription comes out when that
    subscription stays active through its time. *)
Lemma switchMap_go_heard0 outer inner lo u y :
  marble_wf lo inner = true → (u, Next y) ∈ inner → live0 u outer = true →
  (u, Next y) ∈ switchMap_go project outer (Active inner).
Proof.
  intros Hwf Hin Hlive. destruct outer as [|[t' n'] outer]; simpl.
  { by eapply drain_keeps; [apply downward_always|..]. }
  pose proof (drain_keeps (before t') lo inner u y (downward_before t') Hwf Hin)
    as Hkeep.
  destruct (drain_Next_cases (before t') lo inner u y Hwf Hin)
    as [Hd|(rest & Hst & Hrest & Hwf')];
    destruct (drain (before t') inner) as [out st'] eqn:Hdr; simpl in *.
  { apply elem_of_app. by left. }
  subst st'. apply elem_of_app. apply orb_true_iff in Hlive as [Hc|Hu].
  - right. destruct n'; try done. simpl. by rewrite (flush_wf lo).
  - left. by apply Hkeep.
Qed.

(** A run without error that takes a value of the outer goes on from the
    subscription to its projection. *)
Lemma switchMap_go_Next_step t v outer st :
  st ≠ Errored →
  errors (switchMap_go project ((t, Next v) :: outer) st) = [] →
  ∃ out0 out1 st',
    switchMap_go project ((t, Next v) :: outer) st =
      out0 ++ out1 ++ switchMap_go project outer st' ∧
    subscribeInner project t v = (out1, st') ∧ st' ≠ Errored ∧
    errors (switchMap_go project outer st') = [].
Proof.
  intros Hst. simpl.
  destruct (drain_inner (before t) st) as [out0 st0] eqn:Hd0.
  destruct (subscribeInner project t v) as [out1 st'] eqn:Hs.
  intros [Herr0 Herr]%errors_app_nil.
  assert (st0 ≠ Errored) as Hst0
    by (intros ->; by apply (drain_inner_Errored _ _ _ Hst) in Hd0).
  assert (errors (out1 ++ switchMap_go project outer st') = []) as Herr'
    by (by destruct st0).
  apply errors_app_nil in Herr' as [Herr1 Herr2].
  exists out0, out1, st'. split_and!; [by destruct st0 | done | | done].
  intros ->. by apply subscribeInner_Errored in Hs.
Qed.

(** Completeness: in a run without error, every value of a live inner
    subscription comes out. *)
Lemma switchMap_go_latest l t v o r st lo u y :
  marble_wf lo (l ++ (t, Next v) :: r) = true → st ≠ Errored →
  project v = inr o → marble_wf t (o t) = true →
  (u, Next y) ∈ o t → live t u r = true →
  errors (switchMap_go project (l ++ (t, Next v) :: r) st) = [] →
  (u, Next y) ∈ switchMap_go project (l ++ (t, Next v) :: r) st.
Proof.
  intros Hwf Hst Hv Ho Hin Hlive. revert st lo Hwf Hst.
  induction l as [|[t1 n1] l IH]; intros st lo Hwf Hst Herr;
    rewrite <- 1?app_comm_cons in *; rewrite 1?app_nil_l in *.
  - destruct (switchMap_go_Next_step _ _ _ _ Hst Herr)
      as (out0 & out1 & st' & -> & Hs & _ & _).
    rewrite !elem_of_app. right. unfold subscribeInner in Hs. rewrite Hv in Hs.
    apply orb_true_iff in Hlive as [Hu|Hlive].
    { left. replace out1 with (drain (upto t) (o t)).1 by (by rewrite Hs).
      by eapply drain_keeps; [apply downward_upto|..]. }
    destruct (drain_Next_cases (upto t) t (o t) u y Ho Hin)
      as [Hd|(rest & Hrest & Hy & Hwf')]; rewrite Hs in *; simpl in *.
    + by left.
    + right. subst st'. by apply switchMap_go_heard0 with t.
  - apply marble_wf_cons in Hwf as [_ Hwf].
    destruct n1 as [v1|e|]; simpl in Hwf; [|by destruct l..].
    destruct (switchMap_go_Next_step _ _ _ _ Hst Herr)
      as (out0 & out1 & st' & Heq & _ & Hst' & Herr').
    rewrite Heq, !elem_of_app. right. right. by apply IH with t1.
Qed.

Lemma switchMap_latest (outer : Observable A) t0 u y :
  observable_wf outer →
  (∀ v o, project v = inr o → observable_wf o) →
  errors (switchMap project outer t0) = [] →
  heard project (outer t0) u y → (u, Next y) ∈ switchMap project outer t0.
Proof.
  intros Houter Hproject Herr (l & t & v & o & r & Heq & Hv & Hin & Hlive).
  unfold switchMap in *. rewrite Heq in *.
  apply switchMap_go_latest with o t0; try done.
  - rewrite <- Heq. apply Houter.
  - by apply (Hproject v).
Qed.

(** In a run without error, what comes out is exactly what is live. *)
Lemma elem_of_switchMap_heard (outer : Observable A) t0 u y :
  observable_wf outer →
  (∀ v o, project v = inr o → observable_wf o) →
  errors (switchMap project outer t0) = [] →
  (u, Next y) ∈ switchMap project outer t0 ↔ heard project (outer t0) u y.
Proof.
  intros Houter Hproject Herr.
  split; [apply switchMap_live | by apply switchMap_latest].
Qed.
End Latest.
