(* ===== verification/Completion.v ===== *)
(** * When the output completes

    A subscriber is done with an observable when it has received its
    completion.  The output of [map] completes when the source does and
    the callback never throws; the output of [switchMap] completes when
    the outer completes, every inner observable completes, and no error
    ends the run first: the completion of the output is the later of the
    completion of the outer and that of the last inner subscription. *)

From S2P Require Import Prelude Observable SwitchMap.

(** The inner subscription has completed or will. *)
Definition inner_completes {B : Type} (st : Inner B) : bool :=
  match st with
  | Errored => false
  | Inactive => true
  | Active m => completes m
  end.

Section MarbleCompletion.
Context {A B : Type}.
Implicit Types (m : Marble A) (t : Time).

Lemma completes_app m1 m2 : completes (m1 ++ m2) = completes m1 || completes m2.
Proof. apply existsb_app. Qed.

Lemma completes_ofArray (xs : list A) t : completes (ofArray xs t) = true.
Proof. unfold ofArray. rewrite completes_app. simpl. by rewrite orb_true_r. Qed.

Lemma completes_castObservable (f : A → B) (o : Observable A) t :
  completes (castObservable f o t) = completes (o t).
Proof.
  unfold castObservable, completes.
  induction (o t) as [|[u [x|e|]] m IH]; simpl; by rewrite ?IH.
Qed.

(** [map] with a callback that returns on every value forwards the
    completion of a source without error. *)
Lemma completes_rxMap_go (f : A → Throws B) m :
  (∀ x, x ∈ values m → isThrow (f x) = false) →
  errors m = [] → completes m = true → completes (rxMap_go f m) = true.
Proof.
  induction m as [|[t [x|e|]] m IH]; intros Htotal Herr Hc; simpl in *;
    [done| |done..].
  pose proof (Htotal x) as Hx. destruct (f x) as [e|y].
  { discriminate Hx. apply elem_of_values. exists t. left. }
  apply IH; [|done..]. intros x' [t' Hx']%elem_of_values.
  apply Htotal, elem_of_values. exists t'. by right.
Qed.
End MarbleCompletion.

Section SwitchMapCompletion.
Context {A B : Type} (project : A → Throws (Observable B)).
Implicit Types (outer : Marble A) (m out rest : Marble B) (st : Inner B).
Implicit Types (t : Time) (keep : Time → bool).

(** What [drain] leaves of an inner marble that completes still
    completes, unless an error came first. *)
Lemma drain_completes keep m :
  completes m = true → errors (drain keep m).1 = [] →
  inner_completes (drain keep m).2 = true.
Proof.
  induction m as [|[t n] m IH]; simpl; [done|]. intros Hc Herr.
  destruct (keep t); [|done]. destruct n as [y|e|]; [|done..].
  destruct (drain keep m) as [out st]. by apply IH.
Qed.

Lemma drain_inner_completes keep st :
  inner_completes st = true → errors (drain_inner keep st).1 = [] →
  inner_completes (drain_inner keep st).2 = true.
Proof. destruct st as [| |m]; [done..|]. apply drain_completes. Qed.

Lemma flush_completes m :
  completes m = true → errors (flush m) = [] → completes (flush m) = true.
Proof.
  induction m as [|[t n] m IH]; [done|]. simpl.
  destruct n as [y|e|]; simpl; [apply IH | done..].
Qed.

Lemma subscribeInner_completes t v out st :
  (∀ o, project v = inr o → completes (o t) = true) →
  subscribeInner project t v = (out, st) → errors out = [] →
  inner_completes st = true.
Proof.
  unfold subscribeInner. intros Hinner Hs Herr.
  destruct (project v) as [e|o]; [by simplify_eq|].
  pose proof (drain_completes (upto t) (o t) (Hinner o eq_refl)) as Hd.
  rewrite Hs in Hd. by apply Hd.
Qed.

(** In a run without error, the output completes when the outer and
    every inner observable do. *)
Lemma switchMap_go_completes outer st :
  completes outer = true → inner_completes st = true →
  (∀ t v o, (t, Next v) ∈ outer → project v = inr o → completes (o t) = true) →
  errors (switchMap_go project outer st) = [] →
  completes (switchMap_go project outer st) = true.
Proof.
  revert st. induction outer as [|[t n] outer IH];
    intros st Hc Hst Hinner Herr; [done|].
  simpl in Herr |- *.
  pose proof (drain_inner_completes (before t) st Hst) as Hst'.
  destruct (drain_inner (before t) st) as [out0 st'].
  apply errors_app_nil in Herr as [Herr0 Herr]. specialize (Hst' Herr0).
  rewrite completes_app. apply orb_true_iff. right.
  destruct n as [v|e|]; simpl in Hc, Herr |- *.
  - destruct (subscribeInner project t v) as [out1 st''] eqn:Hs.
    assert (errors (out1 ++ switchMap_go project outer st'') = []) as Herr'
      by (by destruct st').
    apply errors_app_nil in Herr' as [Herr1 Herr2].
    enough (completes (out1 ++ switchMap_go project outer st'') = true)
      by (by destruct st').
    rewrite completes_app. apply orb_true_iff. right.
    apply IH; [done| |intros t' v' o' Hin; apply Hinner; by right|done].
    eapply subscribeInner_completes; [|done..].
    intros o Ho. eapply Hinner; [left | done].
  - by destruct st'.
  - destruct st' as [| |rest]; [done..|]. by apply flush_completes.
Qed.

Lemma switchMap_completes (outer : Observable A) t0 :
  completes (outer t0) = true →
  (∀ v o t, v ∈ values (outer t0) → project v = inr o → completes (o t) = true) →
  errors (switchMap project outer t0) = [] →
  completes (switchMap project outer t0) = true.
Proof.
  intros Hc Hinner Herr. apply switchMap_go_completes; [done..| |done].
  intros t v o Hv. apply Hinner, elem_of_values. by exists t.
Qed.
End SwitchMapCompletion.
