(* ===== verification/Sequence.v ===== *)
(** * The values of a run, in order

    The sequence of values that comes out of a [switchMap] whose outer
    marble sends values that are each answered at once by a single value
    (a snapshot mirrored by an array of one element), then one value that
    is answered by an observable, then at most its completion: the
    mirrored values in their order, followed by every value of that
    observable. *)

From S2P Require Import Prelude Observable SwitchMap.

(** The values the inner subscription has yet to send. *)
Definition inner_values {B : Type} (st : Inner B) : list B :=
  match st with
  | Active m => values m
  | _ => []
  end.

(** The outer value [e] is answered in its turn by the single value [y]. *)
Definition answered_at_once {A B : Type} (project : A → Throws (Observable B))
    (e : Time * Notification A) (y : B) : Prop :=
  ∃ v o, e.2 = Next v ∧ project v = inr o ∧
         o e.1 = [(e.1, Next y); (e.1, Complete)].

(** What comes out for outer values that are each answered at once: the
    answers, at the times of the values. *)
Definition answers {A B : Type} (l : Marble A) (ys : list B) : Marble B :=
  zip_with (λ e y, (e.1, Next y)) l ys.

Section Drain.
Context {B : Type}.
Implicit Types (m out rest : Marble B) (st : Inner B).
Implicit Types (t lo : Time) (keep : Time → bool).

Lemma values_cons t (n : Notification B) m :
  values ((t, n) :: m) =
    match n with Next y => y :: values m | _ => values m end.
Proof. by destruct n. Qed.

(** [drain] loses no value of a well-formed marble. *)
Lemma drain_values keep lo m :
  marble_wf lo m = true →
  values (drain keep m).1 ++ inner_values (drain keep m).2 = values m.
Proof.
  revert lo. induction m as [|[t n] m IH]; intros lo Hwf; [done|].
  simpl drain. destruct (keep t); [|done].
  apply marble_wf_cons in Hwf as [_ Hwf].
  destruct n as [y|e|]; simpl in Hwf; [|by subst..].
  specialize (IH t Hwf). destruct (drain keep m) as [out st].
  rewrite (values_cons t (Next y) m), <- IH. simpl fst; simpl snd.
  by rewrite values_cons.
Qed.

Lemma drain_always_rest m : inner_values (drain always m).2 = [].
Proof.
  induction m as [|[t [y|e|]] m IH]; simpl; [done| |done..].
  by destruct (drain always m).
Qed.

Lemma drain_rest_wf keep lo m rest :
  marble_wf lo m = true → (drain keep m).2 = Active rest →
  marble_wf lo rest = true.
Proof.
  revert lo. induction m as [|[t n] m IH]; intros lo Hwf; simpl.
  { by intros [= <-]. }
  destruct (keep t); [|by intros [= <-]].
  apply marble_wf_cons in Hwf as [Hlo Hwf].
  destruct n as [y|e|]; simpl in Hwf; [|done..].
  specialize (IH t Hwf). destruct (drain keep m) as [out st]. simpl in *.
  intros Hst. apply marble_wf_weaken with t; auto.
Qed.

(** An inner marble that stays open comes out whole, whatever part of
    it is forwarded first. *)
Lemma drain_always_open m :
  Forall (λ e, isTerminal e.2 = false) m → (drain always m).1 = m.
Proof.
  induction 1 as [|[t [y|e|]] m Hn Hm IH]; [done| |done..].
  cbn [drain]. change (always t) with true. cbv iota.
  destruct (drain always m). simpl in *. by f_equal.
Qed.

Lemma drain_open keep m :
  Forall (λ e, isTerminal e.2 = false) m →
  ((drain keep m).1 ++ (drain_inner always (drain keep m).2).1)%list = m.
Proof.
  induction 1 as [|[t n] m Hn Hm IH]; [done|]. simpl drain.
  destruct n as [y|e|]; [|done..]. destruct (keep t).
  - destruct (drain keep m) as [out st]. simpl in *. by f_equal.
  - apply (drain_always_open ((t, Next y) :: m)). by constructor.
Qed.
End Drain.

Section Sequence.
Context {A B : Type} (project : A → Throws (Observable B)).
Implicit Types (outer l r : Marble A) (m out rest : Marble B) (st : Inner B).
Implicit Types (t lo : Time) (ys : list B).

(** Once the outer has nothing to send but its completion, what comes
    out is what the inner subscription has yet to send. *)
Lemma values_switchMap_go_end r st lo :
  inner_wf lo st → Forall (λ e, isComplete e.2 = true) r →
  values (switchMap_go project r st) = inner_values st.
Proof.
  intros Hst Hr. destruct st as [| |m]; [by destruct r as [|[??]?]| |].
  { destruct r as [|[t' n'] r']; [done|].
    apply Forall_cons in Hr as [Hn' _]. by destruct n'. }
  simpl in Hst. destruct r as [|[t' n'] r']; simpl.
  { rewrite <- (drain_values always lo m Hst).
    by rewrite drain_always_rest, app_nil_r. }
  apply Forall_cons in Hr as [Hn' _]. destruct n'; try done.
  rewrite <- (drain_values (before t') lo m Hst).
  pose proof (drain_rest_wf (before t') lo m) as Hrest.
  destruct (drain (before t') m) as [out [| |rest]]; simpl in *;
    rewrite values_app; [done..|].
  by rewrite (flush_wf lo) by auto.
Qed.

(** The last value of the outer is answered by every value of its
    observable. *)
Lemma values_switchMap_go_last t v o r :
  project v = inr o → marble_wf t (o t) = true →
  Forall (λ e, isComplete e.2 = true) r →
  values (switchMap_go project ((t, Next v) :: r) Inactive) = values (o t).
Proof.
  intros Hv Ho Hr. simpl. unfold subscribeInner. rewrite Hv.
  rewrite <- (drain_values (upto t) t (o t) Ho).
  pose proof (drain_rest_wf (upto t) t (o t)) as Hrest.
  destruct (drain (upto t) (o t)) as [out st]. simpl in *.
  rewrite values_app. f_equal. apply values_switchMap_go_end with t; [|done].
  destruct st; simpl; auto.
Qed.

(** A value of the outer that is answered at once leaves no inner
    subscription behind. *)
Lemma switchMap_go_at_once e y outer :
  answered_at_once project e y →
  switchMap_go project (e :: outer) Inactive =
    (e.1, Next y) :: switchMap_go project outer Inactive.
Proof.
  destruct e as [t n]. intros (v & o & Hn & Hv & Ho). simpl in *. subst n.
  simpl. unfold subscribeInner. rewrite Hv, Ho. simpl.
  unfold upto. by rewrite !bool_decide_eq_true_2.
Qed.

(** When every value of the outer is answered at once and the outer
    stays open, the answers are all that comes out. *)
Lemma switchMap_go_all_at_once l ys :
  Forall2 (answered_at_once project) l ys →
  switchMap_go project l Inactive = answers l ys.
Proof.
  induction 1 as [|e y l ys He Hl IH]; [done|].
  rewrite (switchMap_go_at_once e y) by done. unfold answers. simpl.
  by f_equal.
Qed.

(** When the outer stays open after a value that is answered by an
    observable that stays open, all of that observable comes out. *)
Lemma switchMap_go_last_open t v o :
  project v = inr o → Forall (λ e, isTerminal e.2 = false) (o t) →
  switchMap_go project [(t, Next v)] Inactive = o t.
Proof.
  intros Hv Ho. simpl. unfold subscribeInner. rewrite Hv.
  pose proof (drain_open (upto t) (o t) Ho) as Hd.
  by destruct (drain (upto t) (o t)) as [out st].
Qed.

Lemma switchMap_go_open l ys t v o :
  Forall2 (answered_at_once project) l ys →
  project v = inr o → Forall (λ e, isTerminal e.2 = false) (o t) →
  switchMap_go project (l ++ [(t, Next v)]) Inactive =
    (answers l ys ++ o t)%list.
Proof.
  intros Hl Hv Ho. induction Hl as [|e y l ys He Hl IH].
  { by apply switchMap_go_last_open. }
  rewrite <- app_comm_cons, (switchMap_go_at_once e y) by done.
  unfold answers. simpl. by f_equal.
Qed.

(** The outer values that are answered at once, one after the other. *)
Lemma answers_snoc l ys t (n : Notification A) y :
  length l = length ys →
  answers (l ++ [(t, n)]) (ys ++ [y]) = (answers l ys ++ [(t, Next y)])%list.
Proof. intros. unfold answers. by rewrite zip_with_app. Qed.

Lemma Forall2_answered_snoc l ys e y :
  Forall2 (answered_at_once project) l ys → answered_at_once project e y →
  Forall2 (answered_at_once project) (l ++ [e]) (ys ++ [y]).
Proof. intros. apply Forall2_app; by repeat constructor. Qed.

(** The values of the run: the values answered at once, then the values
    of the observable that answers the last value of the outer. *)
Lemma values_switchMap_go_at_once l ys t v o r :
  Forall2 (answered_at_once project) l ys →
  project v = inr o → marble_wf t (o t) = true →
  Forall (λ e, isComplete e.2 = true) r →
  values (switchMap_go project (l ++ (t, Next v) :: r) Inactive) =
    ys ++ values (o t).
Proof.
  intros Hl Hv Ho Hr. induction Hl as [|e y l ys He Hl IH].
  { by apply values_switchMap_go_last. }
  rewrite <- app_comm_cons, (switchMap_go_at_once e y) by done.
  cbn. by rewrite <- IH.
Qed.
End Sequence.
