(* ===== verification/Windows.v ===== *)
(** * The output of [switchMap], in order

    The values of a run of [switchMap] without error, with their times
    and in the order in which they come out: for every value of the
    outer in turn, the values of its inner observable that are sent
    while that subscription is the one listened to ([live]).  [windows]
    is this declarative reading of the operator; [switchMap_nexts] says
    that the state machine of [SwitchMap] computes it. *)

From S2P Require Import Prelude Observable SwitchMap Switching.

(** The values of a marble at the times [keep] selects. *)
Definition window {B : Type} (keep : Time → bool) (m : Marble B)
    : list (Time * B) :=
  List.filter (λ e, keep e.1) (nexts m).

(** The values, with their times, that the inner subscription has yet
    to send. *)
Definition inner_nexts {B : Type} (st : Inner B) : list (Time * B) :=
  match st with
  | Active m => nexts m
  | _ => []
  end.

Section Windows.
Context {A B : Type} (project : A → Throws (Observable B)).

(** For every value of the outer, the values of its inner observable
    while it is listened to; the run ends with an error or the
    completion of the outer, or when the projection throws. *)
Fixpoint windows (outer : Marble A) : list (Time * B) :=
  match outer with
  | (t, Next v) :: rest =>
      match project v with
      | inr o => window (λ u, live t u rest) (o t) ++ windows rest
      | inl _ => []
      end
  | _ => []
  end.

(** The inner subscription is none, or one that is well formed and
    sends no error. *)
Definition inner_ok (lo : Time) (st : Inner B) : Prop :=
  match st with
  | Active m => marble_wf lo m = true ∧ errors m = []
  | Inactive => True
  | Errored => False
  end.

(** Every inner observable of the run is well formed and sends no
    error, and the projection does not throw. *)
Definition inners_ok (outer : Marble A) : Prop :=
  ∀ t v, (t, Next v) ∈ outer →
    ∃ o, project v = inr o ∧ marble_wf t (o t) = true ∧ errors (o t) = [].
End Windows.

(** ** What [drain] forwards and leaves, as windows *)

Section Drain.
Context {B : Type}.
Implicit Types (m out rest : Marble B) (st : Inner B).
Implicit Types (t u lo : Time) (keep g : Time → bool).

Lemma nexts_cons t (n : Notification B) m :
  nexts ((t, n) :: m) =
    match n with Next y => (t, y) :: nexts m | _ => nexts m end.
Proof. by destruct n. Qed.

Lemma nexts_app m1 m2 : nexts (m1 ++ m2) = nexts m1 ++ nexts m2.
Proof. unfold nexts. apply omap_app. Qed.

Lemma filter_false {X : Type} (l : list X) : List.filter (λ _, false) l = [].
Proof. by induction l. Qed.

Lemma errors_cons_nil t (n : Notification B) m :
  errors ((t, n) :: m) = [] → (∀ e, n ≠ Error e) ∧ errors m = [].
Proof. destruct n; simpl; [done | done | done]. Qed.

(** The times of the values of a well-formed marble. *)
Lemma nexts_wf lo m e : marble_wf lo m = true → e ∈ nexts m → lo ≤ e.1.
Proof.
  destruct e as [u y]. intros Hwf Hin%elem_of_nexts.
  by eapply marble_wf_elem_of.
Qed.

(** Beyond the first time a downward test rejects, it selects
    nothing. *)
Lemma window_none keep g lo m :
  downward keep → marble_wf lo m = true → keep lo = false →
  window (λ u, keep u || g u) m = window g m.
Proof.
  intros Hkeep Hwf Hlo. unfold window. apply List.filter_ext_in.
  intros e He%list_elem_of_In. apply (nexts_wf lo) in He; [|done].
  destruct (keep e.1) eqn:Hk; [|done].
  by rewrite (Hkeep lo e.1) in Hlo.
Qed.

(** What [drain] forwards is the window of its test; of what it leaves,
    any other window is taken later. *)
Lemma drain_window keep g lo m :
  downward keep → marble_wf lo m = true → errors m = [] →
  nexts (drain keep m).1 ++
    List.filter (λ e, g e.1) (inner_nexts (drain keep m).2) =
  window (λ u, keep u || g u) m.
Proof.
  intros Hkeep. revert lo. induction m as [|[t n] m IH]; intros lo Hwf Herr.
  { done. }
  apply marble_wf_cons in Hwf as [Hlo Hwf].
  apply errors_cons_nil in Herr as [Hn Herr]. cbn [drain].
  destruct (keep t) eqn:Ht.
  - destruct n as [y|e|]; simpl in Hwf; [|by destruct (Hn e)|by subst].
    specialize (IH t Hwf Herr). destruct (drain keep m) as [out st].
    simpl in *. unfold window in *. rewrite nexts_cons. simpl.
    by rewrite Ht, <- IH.
  - simpl. symmetry. apply (window_none keep g t); [done| |done].
    apply marble_wf_cons. split; [lia|done].
Qed.

(** What [drain] leaves is an inner subscription of the same kind. *)
Lemma drain_inner_ok keep lo m :
  marble_wf lo m = true → errors m = [] →
  match (drain keep m).2 with
  | Active rest => marble_wf lo rest = true ∧ errors rest = []
  | Inactive => True
  | Errored => False
  end.
Proof.
  revert lo. induction m as [|[t n] m IH]; intros lo Hwf Herr; [done|].
  pose proof Hwf as Hwf0. apply marble_wf_cons in Hwf as [Hlo Hwf].
  pose proof Herr as Herr0. apply errors_cons_nil in Herr as [Hn Herr].
  cbn [drain]. destruct (keep t); [|done].
  destruct n as [y|e|]; simpl in Hwf; [|by destruct (Hn e)|done].
  specialize (IH t Hwf Herr). destruct (drain keep m) as [out [| |rest]];
    simpl in *; [done..|].
  destruct IH as [IH1 IH2]. split; [by apply marble_wf_weaken with t | done].
Qed.
End Drain.

(** ** The state machine computes the windows *)

Section SwitchMapWindows.
Context {A B : Type} (project : A → Throws (Observable B)).
Implicit Types (outer : Marble A) (m out rest : Marble B) (st : Inner B).
Implicit Types (t u lo : Time) (keep g : Time → bool).

Lemma inner_ok_weaken lo lo' st :
  lo' ≤ lo → inner_ok lo st → inner_ok lo' st.
Proof.
  intros Hlo. destruct st as [| |m]; simpl; [done..|].
  intros [Hwf Herr]. split; [by apply marble_wf_weaken with lo | done].
Qed.

Lemma drain_inner_window keep g lo st :
  downward keep → inner_ok lo st →
  nexts (drain_inner keep st).1 ++
    List.filter (λ e, g e.1) (inner_nexts (drain_inner keep st).2) =
  List.filter (λ e, keep e.1 || g e.1) (inner_nexts st) ∧
  inner_ok lo (drain_inner keep st).2.
Proof.
  intros Hkeep. destruct st as [| |m]; simpl; [done..|].
  intros [Hwf Herr]. split; [by apply (drain_window keep g lo)|].
  pose proof (drain_inner_ok keep lo m Hwf Herr) as Hok.
  by destruct (drain keep m).2.
Qed.

Lemma inners_ok_cons t n outer :
  inners_ok project ((t, n) :: outer) → inners_ok project outer.
Proof. intros Hok t' v Hin. apply Hok. by right. Qed.

(** One value of the outer: the window of its inner observable, then
    the rest of the run. *)
Lemma onOuter_Next_nexts t v o st outer :
  project v = inr o → marble_wf t (o t) = true → errors (o t) = [] →
  (∀ st', inner_ok t st' →
     nexts (switchMap_go project outer st') =
       List.filter (λ e, live0 e.1 outer) (inner_nexts st') ++
       windows project outer) →
  nexts (onOuter project t (Next v) st (switchMap_go project outer)) =
    window (λ u, live t u outer) (o t) ++ windows project outer.
Proof.
  intros Hv Hwf Herr IH. simpl. unfold subscribeInner. rewrite Hv.
  destruct (drain_inner_window (upto t) (λ u, live0 u outer) t (Active (o t)))
    as [Ho Hst2]; [apply downward_upto | done |].
  simpl in Ho, Hst2. destruct (drain (upto t) (o t)) as [out2 st2].
  cbn [fst snd] in Ho, Hst2.
  rewrite nexts_app, (IH st2) by done. by rewrite app_assoc, Ho.
Qed.

(** The values of a run from the inner subscription [st]: what [st]
    sends until the outer sends its next notification, then the windows
    of the outer. *)
Lemma switchMap_go_nexts outer st lo :
  inner_ok lo st → inners_ok project outer →
  nexts (switchMap_go project outer st) =
    List.filter (λ e, live0 e.1 outer) (inner_nexts st) ++
    windows project outer.
Proof.
  revert st lo. induction outer as [|[t n] outer IH]; intros st lo Hst Hok.
  { destruct (drain_inner_window always (λ _, false) lo st) as [Hd _];
      [done..|].
    rewrite filter_false, app_nil_r in Hd. cbn [switchMap_go windows live0].
    by rewrite Hd, app_nil_r. }
  pose proof (inners_ok_cons _ _ _ Hok) as Hok'.
  cbn [switchMap_go].
  destruct (drain_inner_window (before t) (λ _, isComplete n) lo st)
    as [Hd Hst']; [apply downward_before | done |].
  destruct (drain_inner (before t) st) as [out st'] eqn:Hdrain.
  cbn [fst snd] in Hd, Hst'. rewrite nexts_app.
  assert (List.filter (λ e, live0 e.1 ((t, n) :: outer)) (inner_nexts st) =
          nexts out ++ List.filter (λ _, isComplete n) (inner_nexts st')) as ->.
  { rewrite Hd. apply List.filter_ext. intros e. simpl. unfold before.
    apply orb_comm. }
  rewrite <- app_assoc. f_equal.
  assert (st' ≠ Errored) as Hne by (by intros ->).
  destruct n as [v|e|].
  - destruct (Hok t v) as (o & Hv & Hwf & Herr); [by left|].
    rewrite filter_false. cbn [windows]. rewrite Hv.
    rewrite <- (onOuter_Next_nexts t v o st') by eauto.
    by destruct st'.
  - rewrite filter_false. by destruct st'.
  - rewrite List.filter_true. destruct st' as [| |rest]; [done..|].
    simpl. destruct Hst' as [Hwf _]. by rewrite (flush_wf lo), app_nil_r.
Qed.

(** The windows depend on the projection through the marbles of its
    results at the values of the outer only. *)
Lemma windows_ext (project' : A → Throws (Observable B)) outer :
  (∀ v, v ∈ values outer → project v ≡ project' v) →
  windows project outer = windows project' outer.
Proof.
  induction outer as [|[t [v|e|]] outer IH]; intros Hp; [done| |done..].
  cbn [windows]. rewrite IH by (intros v' Hv'; apply Hp; by right).
  destruct (Hp v) as [e e' _|o o' Ho]; [by left|done|]. by rewrite (Ho t).
Qed.

(** The values of a run of [switchMap], with their times and in order:
    the windows of the outer. *)
Lemma switchMap_nexts (outer : Observable A) t0 :
  inners_ok project (outer t0) →
  nexts (switchMap project outer t0) = windows project (outer t0).
Proof.
  intros Hok. unfold switchMap.
  by rewrite (switchMap_go_nexts _ Inactive 0).
Qed.
End SwitchMapWindows.
