(* ===== verification/Models.v ===== *)
(** * The domain objects, as far as the service reads them

    [Item], [Bundle] and [Bitstream] (imports of lines 13-17),
    [FindListOptions] (line 25) and [FollowLinkConfig] (line 8).  Of a
    bundle the service reads [_links.bitstreams.href] (line 64) and tests
    whether it is an empty object (lines 75, 111); of a bitstream it reads
    [name] (line 116).  [Any] is the dynamic type of what flows through
    the [as any] casts of lines 87, 92, 136, 141 and 164. *)

From S2P Require Import Prelude EmptyUtil RemoteData.

Record Item : Type := mkItem {
  item_uuid : string;
}.

Record HALLink : Type := mkHALLink {
  href : string;
}.

Record BundleLinks : Type := mkBundleLinks {
  bitstreams : HALLink;
}.

(** What a slot of type [Bundle] holds at run time: the object without
    own property, or a bundle with its links. *)
Inductive Bundle : Type :=
| EmptyBundle
| mkBundle (bundle_name : string) (links : BundleLinks).

(** [bundle._links] *)
Definition _links (bundle : Bundle) : option BundleLinks :=
  match bundle with
  | EmptyBundle => None
  | mkBundle _ links => Some links
  end.

#[export] Instance Bundle_JsEmpty : JsEmpty Bundle :=
  λ bundle, match bundle with EmptyBundle => true | mkBundle _ _ => false end.

Record Bitstream : Type := mkBitstream {
  bitstream_uuid : string;
  name : string;
}.

(** [{ elementsPerPage, currentPage, sort, filters }], every property
    optional. *)
Record FindListOptions : Type := mkFindListOptions {
  elementsPerPage : option Z;
  currentPage : option Z;
  sort : option string;
  filters : list (string * string);
}.

(** A relation to resolve along with a request, and the relations to
    resolve on what it yields. *)
Unset Elimination Schemes.
Inductive FollowLinkConfig : Type :=
| followLink (relationName : string) (linksToFollow : list FollowLinkConfig).
Set Elimination Schemes.

(** The values that leave the service under a type they do not have. *)
Inductive Any : Type :=
| AnyBitstream (b : Bitstream)
| AnyBundle (b : Bundle)
| AnyPaginatedList (l : PaginatedList Bitstream).

#[export] Instance Item_eq_dec : EqDecision Item.
Proof. solve_decision. Defined.
#[export] Instance HALLink_eq_dec : EqDecision HALLink.
Proof. solve_decision. Defined.
#[export] Instance BundleLinks_eq_dec : EqDecision BundleLinks.
Proof. solve_decision. Defined.
#[export] Instance Bundle_eq_dec : EqDecision Bundle.
Proof. solve_decision. Defined.
#[export] Instance Bitstream_eq_dec : EqDecision Bitstream.
Proof. solve_decision. Defined.
#[export] Instance FindListOptions_eq_dec : EqDecision FindListOptions.
Proof. solve_decision. Defined.
#[export] Instance Any_eq_dec : EqDecision Any.
Proof. solve_decision. Defined.

(** The run-time type tests on a payload. *)
Definition isBitstream (x : Any) : bool :=
  match x with AnyBitstream _ => true | _ => false end.

Definition isPaginatedList (x : Any) : bool :=
  match x with AnyPaginatedList _ => true | _ => false end.

(** A wrapper has the declared payload type when its payload is absent
    or passes the type test. *)
Definition rd_typed (test : Any → bool) (rd : RemoteData Any) : bool :=
  match payload rd with
  | None => true
  | Some x => test x
  end.

(** ** Facts *)

Lemma Bundle_isEmptyObject_false (bundle : Bundle) :
  isEmptyObject bundle = false ↔ is_Some (_links bundle).
Proof. destruct bundle; simpl; split; (done || by inversion 1). Qed.

Lemma Bundle_isNotEmpty_links (obj : option Bundle) :
  isNotEmpty obj = true ↔ ∃ bundle links, obj = Some bundle ∧ _links bundle = Some links.
Proof.
  rewrite isNotEmpty_true. split.
  - intros (b & -> & Hb). apply Bundle_isEmptyObject_false in Hb as [l Hl].
    by exists b, l.
  - intros (b & l & -> & Hl). exists b. split; [done|].
    apply Bundle_isEmptyObject_false. by exists l.
Qed.
