(* ===== verification/Decorators.v ===== *)
(** * Class decorators: [@Injectable] and [@dataService]

    The class of [bitstream-data.service.ts] is decorated twice (lines
    31-34).  The specification describes what the two decorators are
    for: [@dataService(BITSTREAM)] is a registration, keyed by the tag
    of a resource type, that wires the class into a lookup table;
    [@Injectable({ providedIn: 'root' })] makes the class a service
    that the application provides once.  What the decorators have
    recorded is a [Metadata]; a decorator is a function of the class it
    is put on that updates it.  The decorators of a class are applied
    from the last to the first.

    The decorators are not part of the sources.  The model has what the
    specification says of them and nothing of their checks and errors;
    what a second registration for a resource type does is not
    specified, and the table of the model holds the last one.  The
    injector of the framework is not modelled. *)

From stdpp Require Import gmap.
From S2P Require Import Prelude EmptyUtil.

Local Open Scope js_scope.
Local Open Scope string_scope.

(** [new ResourceType(value)] *)
Record ResourceType : Type := mkResourceType {
  value : string;
}.

#[export] Instance ResourceType_eq_dec : EqDecision ResourceType.
Proof. solve_decision. Defined.

(** [BITSTREAM] of [shared/bitstream.resource-type] (line 14) *)
Definition BITSTREAM : ResourceType := mkResourceType "bitstream".

(** A class, as a decorator sees it: its name. *)
Definition Class : Type := string.

(** [dataServiceMap]: the data service of a resource type;
    [providers]: where an injectable class is provided. *)
Record Metadata : Type := mkMetadata {
  dataServiceMap : gmap string Class;
  providers : gmap Class string;
}.

#[export] Instance Metadata_eq_dec : EqDecision Metadata.
Proof. solve_decision. Defined.

#[export] Instance Metadata_empty : Empty Metadata := mkMetadata ∅ ∅.

Definition Decorator : Type := Class → Metadata → Metadata.

(** [dataService(resourceType)]: the class is entered in the table as
    the data service of the resource type. *)
Definition dataService_decorator (resourceType : ResourceType) : Decorator :=
  λ target metadata,
    mkMetadata (<[value resourceType := target]> (dataServiceMap metadata))
      (providers metadata).

(** [getDataServiceFor(resourceType)]: the lookup in the table *)
Definition getDataServiceFor (resourceType : ResourceType)
    (metadata : Metadata) : option Class :=
  dataServiceMap metadata !! value resourceType.

(** [{ providedIn }], the argument of [@Injectable] *)
Record InjectableOptions : Type := mkInjectableOptions {
  providedIn : string;
}.

(** [Injectable(options)]: the class is provided where the options
    say. *)
Definition Injectable (options : InjectableOptions) : Decorator :=
  λ target metadata,
    mkMetadata (dataServiceMap metadata)
      (<[target := providedIn options]> (providers metadata)).

(** The decorators [@d1 ... @dn class target]: [dn] is applied first,
    [d1] last. *)
Definition decorate (decorators : list Decorator) (target : Class)
    (metadata : Metadata) : Metadata :=
  foldr (λ decorator metadata', decorator target metadata') metadata
    decorators.

(** ** Facts *)

Section Decorators.
Implicit Types (type : ResourceType) (target : Class) (metadata : Metadata).

(** What a lookup finds after a registration. *)
Lemma getDataServiceFor_dataService type type' target metadata :
  getDataServiceFor type' (dataService_decorator type target metadata) =
  if decide (value type = value type') then Some target
  else getDataServiceFor type' metadata.
Proof.
  unfold getDataServiceFor. simpl. case_decide as Heq.
  - by rewrite Heq, lookup_insert_eq.
  - by rewrite lookup_insert_ne.
Qed.
End Decorators.
