(* ===== verification/Hypermedia.v ===== *)
(** * Hypermedia: the representation of a resource and its relations

    What the server sends of a resource, after the specification of the
    transport boundary: the tag of its type, the address of the
    resource, and its relations by name, a relation being given by the
    address of what it links to ([_links]) or by the representation of
    what it links to, inline ([_embedded]).  The two objects are maps
    from the name of the relation.  [embed] is how the remote-data
    builder merges what it has resolved of a relation into a
    representation.

    A link descriptor ([Models.FollowLinkConfig]) is a tree; its
    induction principle gives the property for the descriptors below
    ([FollowLinkConfig_ind]).  [resolved] says that a representation
    carries inline whatever a descriptor asks to be resolved of it. *)

From stdpp Require Import gmap.
From S2P Require Import Prelude Models Decorators.

(** ** Representations *)

Unset Elimination Schemes.
Inductive Representation : Type :=
| mkRepresentation (type : ResourceType) (self : string)
    (links : gmap string string) (embedded : gmap string Representation).
Set Elimination Schemes.

(** [type] *)
Definition hal_type (r : Representation) : ResourceType :=
  match r with mkRepresentation type _ _ _ => type end.

(** [_links.self.href] *)
Definition hal_self (r : Representation) : string :=
  match r with mkRepresentation _ self _ _ => self end.

(** [_links], without [self] *)
Definition hal_links (r : Representation) : gmap string string :=
  match r with mkRepresentation _ _ links _ => links end.

(** [_embedded] *)
Definition hal_embedded (r : Representation) : gmap string Representation :=
  match r with mkRepresentation _ _ _ embedded => embedded end.

(** A resource without relations. *)
Definition unrelated (type : ResourceType) (self : string) : Representation :=
  mkRepresentation type self ∅ ∅.

(** The representation with a resource inline under the name of a
    relation. *)
Definition embed (relationName : string) (resource r : Representation)
    : Representation :=
  mkRepresentation (hal_type r) (hal_self r) (hal_links r)
    (<[relationName := resource]> (hal_embedded r)).

(** Whether a relation is present on a representation. *)
Definition related (relationName : string) (r : Representation) : bool :=
  bool_decide (is_Some (hal_embedded r !! relationName)) ||
  bool_decide (is_Some (hal_links r !! relationName)).

(** ** Link descriptors *)

(** The induction principle of the tree of descriptors. *)
Definition FollowLinkConfig_ind (P : FollowLinkConfig → Prop)
    (Hlink : ∀ relationName linksToFollow,
       Forall P linksToFollow → P (followLink relationName linksToFollow))
    : ∀ d, P d :=
  fix go d :=
    match d with
    | followLink relationName linksToFollow =>
        Hlink relationName linksToFollow
          ((fix all l : Forall P l :=
              match l with
              | [] => List.Forall_nil P
              | d' :: l' => @List.Forall_cons _ P d' l' (go d') (all l')
              end) linksToFollow)
    end.

(** The name of the relation of a descriptor, and the descriptors
    below it *)
Definition relationName (d : FollowLinkConfig) : string :=
  match d with followLink relationName _ => relationName end.

Definition below (d : FollowLinkConfig) : list FollowLinkConfig :=
  match d with followLink _ linksToFollow => linksToFollow end.

(** A descriptor names no relation twice on the same resource. *)
Fixpoint distinct (d : FollowLinkConfig) : bool :=
  match d with
  | followLink _ linksToFollow =>
      bool_decide (NoDup (relationName <$> linksToFollow)) &&
      forallb distinct linksToFollow
  end.

(** A representation is resolved for a descriptor when the relation is
    inline and what is inline is resolved for the descriptors below, or
    when the relation is not present. *)
Fixpoint resolved (d : FollowLinkConfig) (r : Representation) : bool :=
  match d with
  | followLink relationName linksToFollow =>
      match hal_embedded r !! relationName with
      | Some resource => forallb (λ d', resolved d' resource) linksToFollow
      | None => bool_decide (hal_links r !! relationName = None)
      end
  end.

Section Facts.
Implicit Types (r resource : Representation) (d : FollowLinkConfig).

Lemma hal_self_embed relationName resource r :
  hal_self (embed relationName resource r) = hal_self r.
Proof. done. Qed.

Lemma hal_links_embed relationName resource r :
  hal_links (embed relationName resource r) = hal_links r.
Proof. done. Qed.

Lemma hal_embedded_embed relationName resource r :
  hal_embedded (embed relationName resource r) !! relationName = Some resource.
Proof. apply lookup_insert_eq. Qed.

Lemma hal_embedded_embed_ne relationName name' resource r :
  relationName ≠ name' →
  hal_embedded (embed relationName resource r) !! name' =
    hal_embedded r !! name'.
Proof. intros. by apply lookup_insert_ne. Qed.

(** A relation that is not present stays absent in what is merged
    under another name, and one that is present stays present. *)
Lemma related_embed relationName resource r :
  related relationName (embed relationName resource r) = true.
Proof.
  unfold related. rewrite hal_embedded_embed.
  by rewrite bool_decide_eq_true_2.
Qed.

Lemma related_embed_ne relationName name' resource r :
  relationName ≠ name' →
  related name' (embed relationName resource r) = related name' r.
Proof.
  intros. unfold related. by rewrite hal_embedded_embed_ne, hal_links_embed.
Qed.

(** Whether a representation is resolved for a descriptor is a matter
    of the relation of the descriptor alone. *)
Lemma resolved_ext d r r' :
  hal_embedded r' !! relationName d = hal_embedded r !! relationName d →
  hal_links r' !! relationName d = hal_links r !! relationName d →
  resolved d r' = resolved d r.
Proof. destruct d as [name nested]. simpl. by intros -> ->. Qed.

Lemma resolved_embedded d r resource :
  hal_embedded r !! relationName d = Some resource →
  resolved d r = forallb (λ d', resolved d' resource) (below d).
Proof. destruct d as [name nested]. simpl. by intros ->. Qed.

Lemma resolved_unrelated_to d r :
  related (relationName d) r = false → resolved d r = true.
Proof.
  destruct d as [name nested]. unfold related. simpl.
  intros [He%bool_decide_eq_false Hl%bool_decide_eq_false]%orb_false_iff.
  apply eq_None_not_Some in He, Hl. rewrite He. by apply bool_decide_eq_true.
Qed.

(** A resource without relations is resolved for every descriptor. *)
Lemma resolved_unrelated d type self :
  resolved d (unrelated type self) = true.
Proof. by destruct d. Qed.
End Facts.
