(* ===== verification/Tracker.v ===== *)
(** * The request tracker: one fetch per key

    The table of the requests that the data services share, after the
    specification of the request tracker and of the object cache.  A
    request is known by its key, the address and the options of what is
    asked for: a bundle of an item, a page of a collection, or a
    resource that another links to.  The table is the log of what happened to it, in the
    order in which it happened: a key was fetched, a key was
    invalidated, the keys of a resource type were invalidated.  The
    response to a fetch arrives [responseTime] turns after the fetch and
    is kept for [timeToLive] turns; an entry that has been invalidated
    or has outlived that time is stale, and a stale entry is not
    served: the next caller fetches again.

    [getOrCreate] is the one operation through which a caller asks for
    a key: it fetches when no entry of the key is live, and leaves the
    table as it is when one is.  The invariants of the tables that the
    operations build from the empty table: the log is in the order of
    time, and no key is fetched while an entry of it is live. *)

From stdpp Require Import relations.
From S2P Require Import Prelude Observable Models Decorators.

(** ** Keys, actions and the log *)

(** What a request asks for: the bundle of an item with a name, the
    page of the collection at an address that the options select, or
    the resource of a type at an address, which is how the data service
    of that type is asked for what a relation links to. *)
Inductive RequestKey : Type :=
| BundleOf (item : Item) (bundleName : string)
| CollectionAt (href : string) (options : option FindListOptions)
| ResourceAt (type : ResourceType) (href : string).

#[export] Instance RequestKey_eq_dec : EqDecision RequestKey.
Proof. solve_decision. Defined.

(** [BUNDLE] of [shared/bundle.resource-type] *)
Definition BUNDLE : ResourceType := mkResourceType "bundle"%string.

(** The type of the resource a key asks for; the collections of this
    service hold bitstreams. *)
Definition keyType (key : RequestKey) : ResourceType :=
  match key with
  | BundleOf _ _ => BUNDLE
  | CollectionAt _ _ => BITSTREAM
  | ResourceAt type _ => type
  end.

Inductive Action : Type :=
| Fetch (key : RequestKey)
| Invalidate (key : RequestKey)
| InvalidateByType (type : ResourceType).

#[export] Instance Action_eq_dec : EqDecision Action.
Proof. solve_decision. Defined.

Definition Log : Type := list (Time * Action).

(** The turns the transport takes to answer a key, and the turns a
    response is kept. *)
Record Timing : Type := mkTiming {
  responseTime : RequestKey → nat;
  timeToLive : nat;
}.

(** The time of the last action of a log. *)
Definition latest (log : Log) : Time := max_list_with fst log.

(** Whether an action makes the entry of a key stale. *)
Definition stales (action : Action) (key : RequestKey) : bool :=
  match action with
  | Fetch _ => false
  | Invalidate k => bool_decide (k = key)
  | InvalidateByType type => bool_decide (keyType key = type)
  end.

(** What an action at or before [t] does to the fetch that serves
    [key] at [t]. *)
Definition track (key : RequestKey) (t : Time) (sent : option Time)
    (e : Time * Action) : option Time :=
  if bool_decide (e.1 ≤ t) then
    match e.2 with
    | Fetch k => if bool_decide (k = key) then Some e.1 else sent
    | action => if stales action key then None else sent
    end
  else sent.

(** The time of the fetch of [key] that has not been invalidated up to
    [t]. *)
Definition fetchedAt (key : RequestKey) (t : Time) (log : Log)
    : option Time :=
  foldl (track key t) None log.

(** The fetches of a log: the calls of the transport. *)
Definition transportCalls (log : Log) : list (Time * RequestKey) :=
  omap (λ e, match e.2 with Fetch key => Some (e.1, key) | _ => None end) log.

Section Tracker.
Context (timing : Timing).

(** The response to a fetch made at [sent] has outlived its time at
    [t]. *)
Definition expired (key : RequestKey) (sent t : Time) : bool :=
  bool_decide (sent + responseTime timing key + timeToLive timing < t).

(** The live entry of [key] at [t]: the time of the fetch that serves a
    caller at [t]. *)
Definition liveAt (key : RequestKey) (t : Time) (log : Log) : option Time :=
  match fetchedAt key t log with
  | Some sent => if expired key sent t then None else Some sent
  | None => None
  end.

(** The object cache: the time at which the response that is held for
    [key] at [t] has arrived. *)
Definition cachedSince (key : RequestKey) (t : Time) (log : Log)
    : option Time :=
  match liveAt key t log with
  | Some sent =>
      if bool_decide (sent + responseTime timing key ≤ t)
      then Some (sent + responseTime timing key) else None
  | None => None
  end.

(** [getOrCreate(key, fetchFn)] at [t] *)
Definition getOrCreate (key : RequestKey) (t : Time) (log : Log) : Log :=
  match liveAt key t log with
  | Some _ => log
  | None => log ++ [(t, Fetch key)]
  end.

(** [invalidate(key)] at [t] *)
Definition invalidate (key : RequestKey) (t : Time) (log : Log) : Log :=
  log ++ [(t, Invalidate key)].

(** [invalidateByType(resourceType)] at [t] *)
Definition invalidateByType (type : ResourceType) (t : Time) (log : Log)
    : Log :=
  log ++ [(t, InvalidateByType type)].

(** The operations on the table, none of them before the last action
    of the log. *)
Inductive tracker_step : relation Log :=
| step_getOrCreate key t log :
    latest log ≤ t → tracker_step log (getOrCreate key t log)
| step_invalidate key t log :
    latest log ≤ t → tracker_step log (invalidate key t log)
| step_invalidateByType type t log :
    latest log ≤ t → tracker_step log (invalidateByType type t log).

(** The log is in the order of time. *)
Definition chronological (log : Log) : Prop :=
  ∀ l1 e l2, log = l1 ++ e :: l2 → latest l1 ≤ e.1.

(** No key is fetched while an entry of it is live. *)
Definition singleFlight (log : Log) : Prop :=
  ∀ l1 t key l2, log = l1 ++ (t, Fetch key) :: l2 → liveAt key t l1 = None.
End Tracker.

(** ** Facts on the log *)

Section LogFacts.
Implicit Types (key : RequestKey) (t u sent : Time) (log : Log).
Implicit Types (action : Action) (e : Time * Action) (live : option Time).

Lemma latest_app log log' : latest (log ++ log') = latest log `max` latest log'.
Proof.
  unfold latest. induction log as [|e log IH]; [done|].
  cbn [app max_list_with]. rewrite IH. lia.
Qed.

Lemma latest_snoc log e : latest (log ++ [e]) = latest log `max` e.1.
Proof.
  rewrite latest_app. change (latest [e]) with (e.1 `max` 0). lia.
Qed.

Lemma fetchedAt_snoc key t log e :
  fetchedAt key t (log ++ [e]) = track key t (fetchedAt key t log) e.
Proof. unfold fetchedAt. by rewrite foldl_snoc. Qed.

(** An action of the future changes nothing. *)
Lemma track_future key t live e : t < e.1 → track key t live e = live.
Proof. intros. unfold track. by rewrite bool_decide_eq_false_2 by lia. Qed.

(** Once the action is in the past, it does the same to every caller. *)
Lemma track_past key t t' live e :
  e.1 ≤ t → t ≤ t' → track key t' live e = track key t live e.
Proof. intros. unfold track. by rewrite !bool_decide_eq_true_2 by lia. Qed.

(** A fetch of another key changes nothing. *)
Lemma track_other key key' t u live :
  key' ≠ key → track key t live (u, Fetch key') = live.
Proof.
  intros. unfold track. simpl. rewrite (bool_decide_eq_false_2 (key' = key)) by done.
  by case_bool_decide.
Qed.

(** The fetch that serves a caller was made before the caller asks. *)
Lemma fetchedAt_le key t log sent : fetchedAt key t log = Some sent → sent ≤ t.
Proof.
  revert sent. induction log as [|e log IH] using rev_ind; [done|].
  intros sent. rewrite fetchedAt_snoc. unfold track.
  case_bool_decide; [|by auto]. destruct e.2 as [k|k|type].
  - case_bool_decide; [|by auto]. intros [= <-]. lia.
  - destruct (stales _ _); [done | by auto].
  - destruct (stales _ _); [done | by auto].
Qed.

(** After the last action of the log the table does not change. *)
Lemma fetchedAt_later key t t' log :
  latest log ≤ t → t ≤ t' → fetchedAt key t' log = fetchedAt key t log.
Proof.
  intros Hlog Ht. induction log as [|e log IH] using rev_ind; [done|].
  rewrite latest_snoc in Hlog. rewrite !fetchedAt_snoc, IH by lia.
  apply track_past; lia.
Qed.

(** The fetches of a log that grows. *)
Lemma transportCalls_snoc log e :
  transportCalls (log ++ [e]) =
    transportCalls log ++
    match e.2 with Fetch key => [(e.1, key)] | _ => [] end.
Proof.
  unfold transportCalls. rewrite omap_app. f_equal.
  by destruct e as [u [k|k|type]].
Qed.
End LogFacts.

(** ** Facts on the live entries *)

Section LiveFacts.
Context (timing : Timing).
Implicit Types (key : RequestKey) (t u sent : Time) (log : Log).
Implicit Types (action : Action) (e : Time * Action).

Lemma liveAt_Some key t log sent :
  liveAt timing key t log = Some sent ↔
  fetchedAt key t log = Some sent ∧
  t ≤ sent + responseTime timing key + timeToLive timing.
Proof.
  unfold liveAt, expired. destruct (fetchedAt key t log) as [s|].
  - case_bool_decide; split.
    + done.
    + intros [[= <-] ?]. lia.
    + intros [= <-]. split; [done | lia].
    + by intros [[= <-] _].
  - by split; [|intros []].
Qed.

Lemma liveAt_le key t log sent : liveAt timing key t log = Some sent → sent ≤ t.
Proof. intros [? _]%liveAt_Some. by eapply fetchedAt_le. Qed.

(** An action of the future changes nothing. *)
Lemma liveAt_future key t log e :
  t < e.1 → liveAt timing key t (log ++ [e]) = liveAt timing key t log.
Proof. intros. unfold liveAt. by rewrite fetchedAt_snoc, track_future. Qed.

(** A key that has just been fetched is live. *)
Lemma liveAt_fetch key t log :
  liveAt timing key t (log ++ [(t, Fetch key)]) = Some t.
Proof.
  apply liveAt_Some. split; [|lia]. rewrite fetchedAt_snoc. unfold track.
  simpl. by rewrite !bool_decide_eq_true_2.
Qed.

(** So it is to later callers, until it has outlived its time. *)
Lemma liveAt_fetched key t u log :
  u ≤ t → t ≤ u + responseTime timing key + timeToLive timing →
  liveAt timing key t (log ++ [(u, Fetch key)]) = Some u.
Proof.
  intros. apply liveAt_Some. split; [|done]. rewrite fetchedAt_snoc.
  unfold track. simpl. by rewrite !bool_decide_eq_true_2.
Qed.

(** A response that has outlived its time serves nobody. *)
Lemma liveAt_expired key t u log :
  u + responseTime timing key + timeToLive timing < t →
  liveAt timing key t (log ++ [(u, Fetch key)]) = None.
Proof.
  intros. unfold liveAt. rewrite fetchedAt_snoc. unfold track. simpl.
  rewrite (bool_decide_eq_true_2 (u ≤ t)) by lia.
  rewrite (bool_decide_eq_true_2 (key = key)) by done.
  unfold expired. by rewrite bool_decide_eq_true_2.
Qed.

(** The fetch of a key leaves the other keys as they are. *)
Lemma liveAt_fetch_ne key key' t u log :
  key' ≠ key →
  liveAt timing key t (log ++ [(u, Fetch key')]) = liveAt timing key t log.
Proof. intros. unfold liveAt. by rewrite fetchedAt_snoc, track_other. Qed.

(** A live entry stays live until it is invalidated or has outlived
    its time. *)
Lemma liveAt_later key t t' log sent :
  latest log ≤ t → t ≤ t' → liveAt timing key t log = Some sent →
  t' ≤ sent + responseTime timing key + timeToLive timing →
  liveAt timing key t' log = Some sent.
Proof.
  intros Hlog Ht [Hsent _]%liveAt_Some Hlive. apply liveAt_Some.
  by rewrite (fetchedAt_later key t t').
Qed.

(** What the cache holds has been fetched and has arrived. *)
Lemma cachedSince_Some key t log arrival :
  cachedSince timing key t log = Some arrival ↔
  ∃ sent, liveAt timing key t log = Some sent ∧
          arrival = sent + responseTime timing key ∧ arrival ≤ t.
Proof.
  unfold cachedSince. destruct (liveAt timing key t log) as [sent|].
  - case_bool_decide; split.
    + intros [= <-]. by exists sent.
    + by intros (? & [= <-] & -> & _).
    + done.
    + intros (? & [= <-] & -> & ?). lia.
  - split; [done | by intros (? & ? & _)].
Qed.

(** ** [getOrCreate] *)

Lemma getOrCreate_live key t log sent :
  liveAt timing key t log = Some sent → getOrCreate timing key t log = log.
Proof. unfold getOrCreate. by intros ->. Qed.

Lemma getOrCreate_fresh key t log :
  liveAt timing key t log = None →
  getOrCreate timing key t log = log ++ [(t, Fetch key)].
Proof. unfold getOrCreate. by intros ->. Qed.

(** Whoever asks for a key is served: by the live entry, or by the fetch
    that the call makes. *)
Lemma liveAt_getOrCreate key t log :
  liveAt timing key t (getOrCreate timing key t log) =
    Some (default t (liveAt timing key t log)).
Proof.
  destruct (liveAt timing key t log) as [sent|] eqn:Hlive.
  - by rewrite (getOrCreate_live _ _ _ sent).
  - rewrite getOrCreate_fresh by done. apply liveAt_fetch.
Qed.

Lemma liveAt_getOrCreate_ne key key' t u log :
  key' ≠ key →
  liveAt timing key u (getOrCreate timing key' t log) = liveAt timing key u log.
Proof.
  intros. unfold getOrCreate. destruct (liveAt timing key' t log); [done|].
  by apply liveAt_fetch_ne.
Qed.

Lemma latest_getOrCreate key t log :
  latest log ≤ t → latest (getOrCreate timing key t log) ≤ t.
Proof.
  intros. unfold getOrCreate. destruct (liveAt timing key t log); [done|].
  rewrite latest_snoc. simpl. lia.
Qed.

(** The calls of the transport: one more when no entry was live. *)
Lemma transportCalls_getOrCreate key t log :
  transportCalls (getOrCreate timing key t log) =
    transportCalls log ++
    match liveAt timing key t log with Some _ => [] | None => [(t, key)] end.
Proof.
  unfold getOrCreate. destruct (liveAt timing key t log).
  - by rewrite app_nil_r.
  - by rewrite transportCalls_snoc.
Qed.

(** A second caller for the same key, while the entry that served the
    first is live, is served by it: the table does not change. *)
Lemma getOrCreate_again key t t' log sent :
  latest log ≤ t → t ≤ t' →
  liveAt timing key t (getOrCreate timing key t log) = Some sent →
  t' ≤ sent + responseTime timing key + timeToLive timing →
  getOrCreate timing key t' (getOrCreate timing key t log) =
    getOrCreate timing key t log.
Proof.
  intros Hlog Ht Hsent Hlive. apply getOrCreate_live with sent.
  apply liveAt_later with t; auto using latest_getOrCreate.
Qed.

(** ** Invalidation *)

(** An invalidated key is not live. *)
Lemma liveAt_invalidate key t u log :
  u ≤ t → liveAt timing key t (invalidate key u log) = None.
Proof.
  intros. unfold liveAt, invalidate. rewrite fetchedAt_snoc. unfold track.
  simpl. by rewrite !bool_decide_eq_true_2.
Qed.

Lemma liveAt_invalidateByType key t u log :
  u ≤ t → liveAt timing key t (invalidateByType (keyType key) u log) = None.
Proof.
  intros. unfold liveAt, invalidateByType. rewrite fetchedAt_snoc.
  unfold track. simpl. by rewrite !bool_decide_eq_true_2.
Qed.

Lemma liveAt_invalidate_ne key key' t u log :
  key' ≠ key → liveAt timing key t (invalidate key' u log) = liveAt timing key t log.
Proof.
  intros. unfold liveAt, invalidate. rewrite fetchedAt_snoc. unfold track.
  simpl. rewrite (bool_decide_eq_false_2 (key' = key)) by done.
  by case_bool_decide.
Qed.

(** The invalidation of a resource type leaves the keys of the other
    types as they are. *)
Lemma liveAt_invalidateByType_ne key type t u log :
  keyType key ≠ type →
  liveAt timing key t (invalidateByType type u log) = liveAt timing key t log.
Proof.
  intros. unfold liveAt, invalidateByType. rewrite fetchedAt_snoc.
  unfold track. simpl. rewrite (bool_decide_eq_false_2 (keyType key = type))
    by done.
  by case_bool_decide.
Qed.

(** After the invalidation of a key the next caller fetches, whatever
    the table held. *)
Lemma getOrCreate_invalidate key t u log :
  u ≤ t →
  getOrCreate timing key t (invalidate key u log) =
    invalidate key u log ++ [(t, Fetch key)].
Proof. intros. by apply getOrCreate_fresh, liveAt_invalidate. Qed.

(** Invalidating a key twice is invalidating it once. *)
Lemma invalidate_twice key key' t u u' log :
  u ≤ u' →
  liveAt timing key' t (invalidate key u' (invalidate key u log)) =
    liveAt timing key' t (invalidate key u log).
Proof.
  intros. unfold liveAt, invalidate. rewrite (fetchedAt_snoc _ _ (_ ++ _)).
  destruct (decide (u' ≤ t)); [|by rewrite track_future by (simpl; lia)].
  rewrite fetchedAt_snoc. unfold track. simpl.
  rewrite (bool_decide_eq_true_2 (u ≤ t)), (bool_decide_eq_true_2 (u' ≤ t)) by lia.
  by case_bool_decide.
Qed.

(** A key that was never fetched has no entry. *)
Lemma fetchedAt_unknown key t log :
  (∀ u, (u, Fetch key) ∉ log) → fetchedAt key t log = None.
Proof.
  induction log as [|e log IH] using rev_ind; [done|]. intros Hlog.
  rewrite fetchedAt_snoc, IH.
  2:{ intros u Hin. apply (Hlog u), elem_of_app. by left. }
  unfold track. destruct e as [u [k|k|type]]; simpl.
  - rewrite (bool_decide_eq_false_2 (k = key)); [by case_bool_decide|].
    intros ->. apply (Hlog u), elem_of_app. right. by apply list_elem_of_singleton.
  - by repeat case_bool_decide.
  - by repeat case_bool_decide.
Qed.

(** Invalidating a key that was never fetched changes no entry. *)
Lemma invalidate_unknown key key' t u log :
  (∀ u', (u', Fetch key) ∉ log) →
  liveAt timing key' t (invalidate key u log) = liveAt timing key' t log.
Proof.
  intros Hlog. destruct (decide (key = key')) as [<-|Hne].
  - unfold liveAt, invalidate. rewrite fetchedAt_snoc, fetchedAt_unknown by done.
    unfold track. simpl. by repeat case_bool_decide.
  - by apply liveAt_invalidate_ne.
Qed.
End LiveFacts.

(** ** The invariants of the table *)

Section Invariants.
Context (timing : Timing).
Implicit Types (key : RequestKey) (t u sent : Time) (log : Log).
Implicit Types (e : Time * Action).

Lemma chronological_snoc log e :
  chronological log → latest log ≤ e.1 → chronological (log ++ [e]).
Proof.
  intros Hlog He l1 e' l2 [(-> & -> & ->)|(l2' & -> & ->)]%snoc_split; [done|].
  by apply (Hlog l1 e' l2').
Qed.

Lemma singleFlight_snoc log e :
  singleFlight timing log →
  (∀ key, e.2 = Fetch key → liveAt timing key e.1 log = None) →
  singleFlight timing (log ++ [e]).
Proof.
  intros Hlog He l1 t key l2 [(-> & -> & ->)|(l2' & -> & ->)]%snoc_split.
  - by apply He.
  - by apply (Hlog l1 t key l2').
Qed.

Lemma tracker_step_latest log log' :
  tracker_step timing log log' → latest log ≤ latest log'.
Proof.
  destruct 1 as [key t log Ht|key t log Ht|type t log Ht];
    unfold getOrCreate, invalidate, invalidateByType;
    try destruct (liveAt _ _ _ _); rewrite ?latest_snoc; lia.
Qed.

Lemma tracker_step_chronological log log' :
  tracker_step timing log log' → chronological log → chronological log'.
Proof.
  destruct 1 as [key t log Ht|key t log Ht|type t log Ht]; intros Hlog;
    unfold getOrCreate, invalidate, invalidateByType;
    try destruct (liveAt _ _ _ _); auto using chronological_snoc.
Qed.

Lemma tracker_step_singleFlight log log' :
  tracker_step timing log log' →
  singleFlight timing log → singleFlight timing log'.
Proof.
  destruct 1 as [key t log Ht|key t log Ht|type t log Ht]; intros Hlog;
    unfold getOrCreate, invalidate, invalidateByType.
  - destruct (liveAt timing key t log) eqn:Hlive; [done|].
    apply singleFlight_snoc; [done|]. by intros k [= <-].
  - by apply singleFlight_snoc.
  - by apply singleFlight_snoc.
Qed.

(** Every table that the operations build from the empty table is in
    the order of time and fetches no key that is live. *)
Lemma tracker_invariants log :
  rtc (tracker_step timing) [] log →
  chronological log ∧ singleFlight timing log.
Proof.
  revert log. apply rtc_ind_r.
  - split; intros [|??] ?; intros; simplify_eq.
  - intros log log' _ Hstep [Hc Hs].
    eauto using tracker_step_chronological, tracker_step_singleFlight.
Qed.

(** Actions that do not invalidate a key that is fetched leave it
    fetched, by the same fetch or by a later one. *)
Lemma fetchedAt_kept key t u log log' :
  fetchedAt key t log = Some u →
  Forall (λ e, stales e.2 key = false ∧ u ≤ e.1) log' →
  ∃ u', fetchedAt key t (log ++ log') = Some u' ∧ u ≤ u'.
Proof.
  intros Hu. induction log' as [|e log' IH] using rev_ind; intros Hl.
  { rewrite app_nil_r. eauto. }
  apply Forall_app in Hl as [Hl [[He Hle] _]%Forall_cons].
  destruct (IH Hl) as (u' & Hu' & ?). rewrite app_assoc, fetchedAt_snoc, Hu'.
  unfold track. case_bool_decide; [|by eauto].
  destruct e as [v [k|k|type]]; simpl in *; rewrite ?He;
    [case_bool_decide|..]; eauto.
Qed.

Lemma latest_elem_of log e : e ∈ log → e.1 ≤ latest log.
Proof.
  unfold latest, Time. induction 1 as [e log|e e' log _ IH];
    cbn [max_list_with]; lia.
Qed.

Lemma latest_middle log e log' : e.1 ≤ latest (log ++ e :: log').
Proof. apply latest_elem_of, elem_of_app. right. by left. Qed.

(** At most one fetch of a key is on its way: two fetches of a key
    without an invalidation of the key in between are further apart
    than the time of the response and the time it is kept. *)
Lemma singleFlight_apart log l1 t1 key l2 t2 l3 :
  chronological log → singleFlight timing log →
  log = l1 ++ (t1, Fetch key) :: l2 ++ (t2, Fetch key) :: l3 →
  Forall (λ e, stales e.2 key = false) l2 →
  t1 + responseTime timing key + timeToLive timing < t2.
Proof.
  intros Hc Hs Hlog Hl2.
  pose proof (Hs (l1 ++ (t1, Fetch key) :: l2) t2 key l3) as Hlive.
  pose proof (Hc (l1 ++ (t1, Fetch key) :: l2) (t2, Fetch key) l3) as Ht2.
  rewrite <- app_assoc in Hlive, Ht2. specialize (Hlive Hlog).
  specialize (Ht2 Hlog).
  assert (t1 ≤ t2) as Ht1.
  { etrans; [apply (latest_middle l1 (t1, Fetch key) l2) | done]. }
  destruct (fetchedAt_kept key t2 t1 (l1 ++ [(t1, Fetch key)]) l2)
    as (u & Hu & Hle).
  - rewrite fetchedAt_snoc. unfold track. simpl.
    by rewrite !bool_decide_eq_true_2.
  - rewrite Forall_forall in Hl2. apply Forall_forall. intros e He.
    split; [by apply Hl2|].
    apply list_elem_of_split in He as (l2a & l2b & ->).
    pose proof (Hc (l1 ++ (t1, Fetch key) :: l2a) e
                  (l2b ++ (t2, Fetch key) :: l3)) as He.
    etrans; [apply (latest_middle l1 (t1, Fetch key) l2a) | apply He].
    rewrite Hlog. by simplify_list_eq.
  - rewrite <- app_assoc in Hu. simpl in Hu. unfold liveAt in Hlive.
    rewrite Hu in Hlive. unfold expired in Hlive. case_bool_decide; [lia|done].
Qed.
End Invariants.
