(* ===== verification/Pagination.v ===== *)
(** * Pages of a collection

    How a collection endpoint cuts the sequence it holds into the page
    that [FindListOptions] asks for: [elementsPerPage] elements from the
    one at which page [currentPage] starts, pages being counted from 1.
    The counters are numbers of the client, hence [Z], and
    [elementsPerPage] may be as large as [Number.MAX_SAFE_INTEGER]:
    [takeZ] and [dropZ] recurse on the list and never on the counter.
    They are [take] and [drop] of the standard library at the counter's
    [Z.to_nat]; the pages of a collection, in order, are the collection. *)

From S2P Require Import Prelude RemoteData Models.

Local Open Scope Z_scope.

Section Pagination.
Context {T : Type}.
Implicit Types (l : list T) (n m k : Z).

(** The first [n] elements *)
Fixpoint takeZ (n : Z) (l : list T) : list T :=
  match l with
  | [] => []
  | x :: l' => if bool_decide (0 < n) then x :: takeZ (n - 1) l' else []
  end.

(** All but the first [n] elements *)
Fixpoint dropZ (n : Z) (l : list T) : list T :=
  match l with
  | [] => []
  | x :: l' => if bool_decide (0 < n) then dropZ (n - 1) l' else l
  end.

(** Page [k] of pages of [n] elements *)
Definition pageAt (n k : Z) (l : list T) : list T :=
  takeZ n (dropZ ((k - 1) * n) l).

(** The page size and the page number a request asks for: the server's
    default size and the first page when the options do not say. *)
Definition pageSize (defaultSize : Z) (options : option FindListOptions) : Z :=
  default defaultSize (options ≫= elementsPerPage).

Definition pageNumber (options : option FindListOptions) : Z :=
  default 1 (options ≫= currentPage).

(** The page of [l] that the options ask for, and the number of elements
    of [l]. *)
Definition paginate (defaultSize : Z) (options : option FindListOptions)
    (l : list T) : PaginatedList T :=
  mkPaginatedList (Z.of_nat (length l))
    (Some (pageAt (pageSize defaultSize options) (pageNumber options) l)).

(** ** [takeZ] and [dropZ] are [take] and [drop] *)

Lemma takeZ_take n l : takeZ n l = take (Z.to_nat n) l.
Proof.
  revert n. induction l as [|x l IH]; intros n; simpl.
  { by rewrite take_nil. }
  case_bool_decide as Hn.
  - rewrite IH. replace (Z.to_nat n) with (S (Z.to_nat (n - 1))) by lia. done.
  - by replace (Z.to_nat n) with 0%nat by lia.
Qed.

Lemma dropZ_drop n l : dropZ n l = drop (Z.to_nat n) l.
Proof.
  revert n. induction l as [|x l IH]; intros n; simpl.
  { by rewrite drop_nil. }
  case_bool_decide as Hn.
  - rewrite IH. replace (Z.to_nat n) with (S (Z.to_nat (n - 1))) by lia. done.
  - by replace (Z.to_nat n) with 0%nat by lia.
Qed.

Lemma takeZ_dropZ n l : (takeZ n l ++ dropZ n l)%list = l.
Proof. rewrite takeZ_take, dropZ_drop. apply take_drop. Qed.

(** A page that is at least as large as the collection is the
    collection. *)
Lemma takeZ_all n l : Z.of_nat (length l) ≤ n → takeZ n l = l.
Proof. intros Hn. rewrite takeZ_take. apply take_ge. lia. Qed.

(** A page that is smaller than the collection is full. *)
Lemma length_takeZ n l :
  Z.of_nat (length (takeZ n l)) = Z.max 0 (Z.min n (Z.of_nat (length l))).
Proof. rewrite takeZ_take, length_take. lia. Qed.

(** A page of one element holds the first element, if there is one. *)
Lemma takeZ_1 l : takeZ 1 l = option_list (head l).
Proof. by destruct l as [|x [|y l]]. Qed.

Lemma takeZ_nonpos n l : n ≤ 0 → takeZ n l = [].
Proof.
  intros Hn. destruct l; simpl; [done|].
  by rewrite bool_decide_eq_false_2 by lia.
Qed.

Lemma dropZ_0 l : dropZ 0 l = l.
Proof. by destruct l. Qed.

Lemma pageAt_first n l : pageAt n 1 l = takeZ n l.
Proof. unfold pageAt. by rewrite Z.mul_0_l, dropZ_0. Qed.

(** A page is a stretch of the collection: what comes before it, the
    page, and what comes after it. *)
Lemma pageAt_stretch n k l :
  ∃ l1 l2, l = (l1 ++ pageAt n k l ++ l2)%list ∧
           length l1 = (Z.to_nat ((k - 1) * n) `min` length l)%nat.
Proof.
  unfold pageAt. exists (takeZ ((k - 1) * n) l), (dropZ n (dropZ ((k - 1) * n) l)).
  split; [by rewrite !takeZ_dropZ | by rewrite takeZ_take, length_take].
Qed.

(** ** The pages of a collection *)

Lemma takeZ_takeZ_dropZ n m l :
  0 ≤ n → 0 ≤ m → (takeZ n l ++ takeZ m (dropZ n l))%list = takeZ (n + m) l.
Proof.
  intros Hn Hm. rewrite !takeZ_take, dropZ_drop, take_take_drop.
  by rewrite Z2Nat.inj_add.
Qed.

(** The first [m] pages, one after the other, are the first [m * n]
    elements. *)
Lemma concat_pageAt (m : nat) n l :
  0 < n →
  concat ((λ k, pageAt n k l) <$> seqZ 1 (Z.of_nat m)) = takeZ (Z.of_nat m * n) l.
Proof.
  intros Hn. induction m as [|m IH].
  { simpl. by rewrite takeZ_nonpos. }
  rewrite seqZ_S, fmap_app, concat_app, IH. simpl.
  rewrite app_nil_r. unfold pageAt.
  replace (1 + Z.of_nat m - 1) with (Z.of_nat m) by lia.
  rewrite takeZ_takeZ_dropZ by lia. f_equal. lia.
Qed.

(** Round trip: enough pages to hold the collection, one after the
    other, are the collection. *)
Lemma concat_pages (m : nat) n l :
  0 < n → Z.of_nat (length l) ≤ Z.of_nat m * n →
  concat ((λ k, pageAt n k l) <$> seqZ 1 (Z.of_nat m)) = l.
Proof. intros Hn Hm. by rewrite concat_pageAt, takeZ_all. Qed.

(** Searching the pages in order finds what searching the collection
    finds. *)
Lemma find_takeZ_all (P : T → bool) n l :
  Z.of_nat (length l) ≤ n → find P (takeZ n l) = find P l.
Proof. intros Hn. by rewrite takeZ_all. Qed.
End Pagination.
