(* ===== verification/Collaborators.v ===== *)
(** * The services the class calls

    [BitstreamDataService] extends [DataService<Bitstream>] (line 35),
    of which it calls [findAllByHref] (line 64) and inherits [findAll],
    the request for the collection at the endpoint of its [linkPath]
    (line 40), and is injected a [BundleDataService] (line 52), of which
    it calls [findByItemAndName] (lines 73, 109, 159).  Neither is part
    of the sources: each is a record of operations, and a class of what
    the caller relies on. *)

From S2P Require Import Prelude EmptyUtil RemoteData Observable SwitchMap Models.

(** [findAll(options?, ...linksToFollow)] and
    [findAllByHref(href, options?, ...linksToFollow)] *)
Record DataService (T : Type) : Type := mkDataService {
  findAll :
    option FindListOptions → list FollowLinkConfig →
    Observable (RemoteData (PaginatedList T));
  findAllByHref :
    string → option FindListOptions → list FollowLinkConfig →
    Observable (RemoteData (PaginatedList T));
}.
Arguments mkDataService {T} _ _.
Arguments findAll {T} _ _ _.
Arguments findAllByHref {T} _ _ _ _.

(** [findByItemAndName(item, bundleName)] *)
Record BundleDataService : Type := mkBundleDataService {
  findByItemAndName : Item → string → Observable (RemoteData Bundle);
}.

(** ** What the services promise *)

(** Whatever a marble delivers satisfies [P]. *)
Definition delivers {A : Type} (P : A → Prop) (o : Observable A) : Prop :=
  ∀ t x, x ∈ values (o t) → P x.

(** A marble delivers no error. *)
Definition errorFree {A : Type} (o : Observable A) : Prop :=
  ∀ t, errors (o t) = [].

(** The stream of a request is a well-formed marble; failures are
    wrappers that have failed, never error notifications; every wrapper
    encodes one state of the lifecycle. *)
Class DataServiceOk {T : Type} (s : DataService T) : Prop := {
  findAllByHref_wf href options links :
    observable_wf (findAllByHref s href options links);
  findAllByHref_errorFree href options links :
    errorFree (findAllByHref s href options links);
  findAllByHref_rd_wf href options links :
    delivers (λ rd, rd_wf rd = true) (findAllByHref s href options links);
}.

Class BundleDataServiceOk (s : BundleDataService) : Prop := {
  findByItemAndName_wf item bundleName :
    observable_wf (findByItemAndName s item bundleName);
  findByItemAndName_errorFree item bundleName :
    errorFree (findByItemAndName s item bundleName);
  findByItemAndName_rd_wf item bundleName :
    delivers (λ rd, rd_wf rd = true) (findByItemAndName s item bundleName);
}.

(** A bundle service that never delivers the empty object as a bundle. *)
Class BundleDataServiceTyped (s : BundleDataService) : Prop := {
  findByItemAndName_typed item bundleName :
    delivers (λ rd, payload rd ≠ Some EmptyBundle)
      (findByItemAndName s item bundleName);
}.

(** ** Cold marbles keep the promises *)

Section Cold.
Context {A : Type}.
Implicit Types (m : Marble A) (t : Time).

Lemma cold_marble_wf lo t m :
  marble_wf lo m = true → marble_wf (t + lo) (cold m t) = true.
Proof.
  unfold cold. revert lo. induction m as [|[u n] m IH]; intros lo; [done|].
  rewrite fmap_cons. unfold prod_map at 1, id. simpl fst; simpl snd.
  rewrite !marble_wf_cons. intros [? Hn]. split; [lia|].
  destruct (isTerminal n); [by subst | by apply IH].
Qed.

Lemma cold_wf m : marble_wf 0 m = true → observable_wf (cold m).
Proof.
  intros Hm t. rewrite <- (Nat.add_0_r t) at 1. by apply cold_marble_wf.
Qed.

Lemma elem_of_cold m t u n : (u, n) ∈ cold m t ↔ ∃ d, u = t + d ∧ (d, n) ∈ m.
Proof.
  unfold cold. rewrite list_elem_of_fmap. split.
  - intros ([d n'] & [= -> ->] & Hin). by exists d.
  - intros (d & -> & Hin). by exists (d, n).
Qed.

Lemma values_cold m t : values (cold m t) = values m.
Proof.
  unfold values, nexts, cold.
  induction m as [|[u [x|e|]] m IH]; simpl; [done | by f_equal | done..].
Qed.

Lemma errors_cold m t : errors (cold m t) = errors m.
Proof.
  unfold errors, cold.
  induction m as [|[u [x|e|]] m IH]; simpl; [done | done | by f_equal | done].
Qed.

Lemma cold_delivers (P : A → Prop) m :
  Forall P (values m) → delivers P (cold m).
Proof. intros Hm t x. rewrite values_cold. by apply Forall_forall. Qed.
End Cold.

#[export] Hint Resolve findAllByHref_wf findAllByHref_errorFree
  findByItemAndName_wf findByItemAndName_errorFree : bds.
