(* ===== verification/BitstreamDataService.v ===== *)
(** * [BitstreamDataService]

    The class of [src/app/core/data/bitstream-data.service.ts], one
    definition per decorator, per method and per arrow function, in the
    order of the source; an expression the source repeats is one
    definition.  A method takes [this], the record of the collaborators the
    class calls.  Every function that reads a property of a value that
    may be [undefined] returns in [Throws]; the operators [switchMap] and
    [rxMap] turn what it throws into the error of the stream. *)

From S2P Require Import Prelude EmptyUtil RemoteData Observable SwitchMap Models.
From S2P Require Import Decorators Collaborators.

Local Open Scope js_scope.
Local Open Scope string_scope.
Local Open Scope Z_scope.

(** Lines 31-33: [@Injectable({ providedIn: 'root' })] *)
Definition BitstreamDataService_Injectable : Decorator :=
  Injectable (mkInjectableOptions "root").

(** Line 34: [@dataService(BITSTREAM)] *)
Definition BitstreamDataService_dataService : Decorator :=
  dataService_decorator BITSTREAM.

(** Lines 31-35: the two decorators on the class; what evaluating the
    module does to the metadata *)
Definition BitstreamDataService_decorated : Metadata → Metadata :=
  decorate [BitstreamDataService_Injectable; BitstreamDataService_dataService]
    "BitstreamDataService".

(** Lines 35-55: the class, with the inherited [DataService<Bitstream>]
    and the injected bundle service. *)
Record BitstreamDataService : Type := mkBitstreamDataService {
  dataService : DataService Bitstream;
  bundleService : BundleDataService;
}.

(** Line 40 *)
Definition linkPath : string := "bitstreams".

(** Lines 42-55: the constructor.  Each of its ten parameters is a
    parameter property: the constructor assigns it to the member of the
    same name.  [super()] (line 54) takes no argument: the methods that
    the class inherits from [DataService<Bitstream>] read the members
    of the instance, the ten services and [linkPath] (line 40).  The
    base class and the services are not part of the sources: [super],
    the inherited methods as a function of the members of the instance,
    and the types of the services are parameters. *)
Section Constructor.
Context {RequestService RemoteDataBuildService Store CommunityDataService
         ObjectCacheService HALEndpointService NotificationsService HttpClient
         DSOChangeAnalyzer : Type}.
Context (super : RequestService → RemoteDataBuildService → Store →
                 CommunityDataService → ObjectCacheService →
                 HALEndpointService → NotificationsService → HttpClient →
                 DSOChangeAnalyzer → BundleDataService → string →
                 DataService Bitstream).

Definition constructor
    (requestService : RequestService)
    (rdbService : RemoteDataBuildService)
    (store : Store)
    (cds : CommunityDataService)
    (objectCache : ObjectCacheService)
    (halService : HALEndpointService)
    (notificationsService : NotificationsService)
    (http : HttpClient)
    (comparator : DSOChangeAnalyzer)
    (bundleService : BundleDataService) : BitstreamDataService :=
  mkBitstreamDataService
    (super requestService rdbService store cds objectCache halService
       notificationsService http comparator bundleService linkPath)
    bundleService.
End Constructor.

(** Lines 73 and 109: ['THUMBNAIL'], the name of the bundle of the
    thumbnails *)
Definition THUMBNAIL : string := "THUMBNAIL".

(** [Number.MAX_SAFE_INTEGER] (line 112) *)
Definition MAX_SAFE_INTEGER : Z := 9007199254740991.

(** Line 76: [{ elementsPerPage: 1 }] *)
Definition firstElementOnly : FindListOptions :=
  mkFindListOptions (Some 1) undefined undefined [].

(** Line 112: [{ elementsPerPage: Number.MAX_SAFE_INTEGER }] *)
Definition allElements : FindListOptions :=
  mkFindListOptions (Some MAX_SAFE_INTEGER) undefined undefined [].

Section Methods.
Context (this : BitstreamDataService).

(** Lines 63-65 *)
Definition findAllByBundle (bundle : option Bundle)
    (options : option FindListOptions) (linksToFollow : list FollowLinkConfig)
    : Throws (Observable (RemoteData (PaginatedList Bitstream))) :=
  links <-! prop "_links" _links bundle ;
  bitstreams <-! prop "bitstreams" bitstreams links ;
  returns (findAllByHref this.(dataService) (href bitstreams) options linksToFollow).

(** Lines 78 and 114: the guard of the two [map] callbacks,
    [hasValue(bitstreamRD.payload) && hasValue(bitstreamRD.payload.page)] *)
Definition hasPage (bitstreamRD : RemoteData (PaginatedList Bitstream))
    : bool :=
  hasValue (payload bitstreamRD) && hasValue (payload bitstreamRD ≫= page).

(** Lines 79-85 and 119-125:
    [new RemoteData(false, false, true, undefined, bitstream)] *)
Definition successWith (bitstream : option Bitstream) : RemoteData Any :=
  mkRemoteData false false true undefined (AnyBitstream <$> bitstream).

(** Lines 92, 141 and 164: [[bundleRD as any]], the array that
    [switchMap] subscribes to as to an observable *)
Definition mirror (bundleRD : RemoteData Bundle)
    : Observable (RemoteData Any) :=
  ofArray [rd_cast AnyBundle bundleRD].

(** Lines 77-89: the callback of [map] in [getThumbnailFor] *)
Definition getThumbnailFor_map
    (bitstreamRD : RemoteData (PaginatedList Bitstream))
    : Throws (RemoteData Any) :=
  if hasPage bitstreamRD then
    page <-! prop "page" page (payload bitstreamRD) ;
    first <-! prop "0" (λ l : list Bitstream, l !! 0%nat) page ;
    returns (successWith first)
  else returns (rd_cast AnyPaginatedList bitstreamRD).

(** Lines 74-94: the callback of [switchMap] in [getThumbnailFor] *)
Definition getThumbnailFor_switchMap (bundleRD : RemoteData Bundle)
    : Throws (Observable (RemoteData Any)) :=
  if isNotEmpty (payload bundleRD) then
    bitstreams <-! findAllByBundle (payload bundleRD) (Some firstElementOnly) [] ;
    returns (rxMap getThumbnailFor_map bitstreams)
  else returns (mirror bundleRD).

(** Lines 72-96 *)
Definition getThumbnailFor (item : Item) : Observable (RemoteData Any) :=
  switchMap getThumbnailFor_switchMap
    (findByItemAndName this.(bundleService) item THUMBNAIL).

(** Lines 115-117: the predicate of [find] *)
Definition isMatchingThumbnail (bitstreamInOriginal thumbnail : Bitstream)
    : bool :=
  String.prefix (name bitstreamInOriginal) (name thumbnail).

(** Line 131:
    [new RemoteDataError(404, '404', 'No matching thumbnail found')] *)
Definition noMatchingThumbnailError : RemoteDataError :=
  mkRemoteDataError 404 "404" "No matching thumbnail found".

(** Lines 127-133: the wrapper of the synthesized failure *)
Definition noMatchingThumbnail : RemoteData Any :=
  mkRemoteData false false false (Some noMatchingThumbnailError) undefined.

(** Lines 113-138: the callback of [map] in [getMatchingThumbnail] *)
Definition getMatchingThumbnail_map (bitstreamInOriginal : Bitstream)
    (bitstreamRD : RemoteData (PaginatedList Bitstream))
    : Throws (RemoteData Any) :=
  if hasPage bitstreamRD then
    page <-! prop "page" page (payload bitstreamRD) ;
    matchingThumbnail <-!
      prop "find" (find (isMatchingThumbnail bitstreamInOriginal)) page ;
    if hasValue matchingThumbnail then returns (successWith matchingThumbnail)
    else returns noMatchingThumbnail
  else returns (rd_cast AnyPaginatedList bitstreamRD).

(** Lines 110-143: the callback of [switchMap] in [getMatchingThumbnail] *)
Definition getMatchingThumbnail_switchMap (bitstreamInOriginal : Bitstream)
    (bundleRD : RemoteData Bundle) : Throws (Observable (RemoteData Any)) :=
  if isNotEmpty (payload bundleRD) then
    bitstreams <-! findAllByBundle (payload bundleRD) (Some allElements) [] ;
    returns (rxMap (getMatchingThumbnail_map bitstreamInOriginal) bitstreams)
  else returns (mirror bundleRD).

(** Lines 108-145 *)
Definition getMatchingThumbnail (item : Item) (bitstreamInOriginal : Bitstream)
    : Observable (RemoteData Any) :=
  switchMap (getMatchingThumbnail_switchMap bitstreamInOriginal)
    (findByItemAndName this.(bundleService) item THUMBNAIL).

(** Lines 160-166: the callback of [switchMap] in
    [findAllByItemAndBundleName].  Line 162 has no cast: the union type
    of the two results is what TypeScript infers, and
    [castObservable (rd_cast AnyPaginatedList)] embeds the wrappers of a
    page into the type [Any] of the other result. *)
Definition findAllByItemAndBundleName_switchMap
    (options : option FindListOptions) (linksToFollow : list FollowLinkConfig)
    (bundleRD : RemoteData Bundle) : Throws (Observable (RemoteData Any)) :=
  if hasValue (payload bundleRD) then
    bitstreams <-! findAllByBundle (payload bundleRD) options linksToFollow ;
    returns (castObservable (rd_cast AnyPaginatedList) bitstreams)
  else returns (mirror bundleRD).

(** Lines 158-168 *)
Definition findAllByItemAndBundleName (item : Item) (bundleName : string)
    (options : option FindListOptions) (linksToFollow : list FollowLinkConfig)
    : Observable (RemoteData Any) :=
  switchMap (findAllByItemAndBundleName_switchMap options linksToFollow)
    (findByItemAndName this.(bundleService) item bundleName).
End Methods.
