(* ===== verification/RestServer.v ===== *)
(** * A REST server behind the two data services

    An implementation of the collaborators of the class, after the
    specification: a request is tracked by an entry that is configured,
    dispatched and completed by the response of the server
    ([RequestEntry], [entry_step]); the remote-data builder shows every
    state of the entry as a wrapper ([toRemoteData]); the stream of a
    request is the sequence of these snapshots ([snapshots]); the server
    answers a collection address with the page that the options ask for,
    the lookup of a bundle with the bundle, and anything it does not know
    with [404] ([getCollection], [getBundle]).  The endpoint resolver
    looks a link path up among the [endpoints] of the server
    ([resolve]), and the inherited [findAll] requests the collection at
    the address it finds ([DataService_findAll]).  [restClient] is the
    class that [constructor] makes of such a server.  The services keep
    the promises of [Collaborators].

    Here every request is a fetch of its own.  The services that share
    a fetch among callers, and answer from what has arrived, are those
    of [Served] over the table of [Tracker].  The services of this file
    leave [linksToFollow] alone; the server has the representation of
    every bitstream and the resources by address ([representationOf],
    [getResource]), of which the builder of [Links] resolves the
    relations. *)

From stdpp Require Import gmap.
From S2P Require Import Prelude EmptyUtil RemoteData Observable SwitchMap Models.
From S2P Require Import Hypermedia Pagination Collaborators BitstreamDataService.

Local Open Scope string_scope.

(** ** The lifecycle of a request *)

(** What the transport delivers: a body, or the error of a response
    that is not a success. *)
Inductive Response (T : Type) : Type :=
| Ok (body : T)
| NotOk (error : RemoteDataError).
Arguments Ok {T} _.
Arguments NotOk {T} _.

(** The entry of a request in the tracker. *)
Inductive RequestEntry (T : Type) : Type :=
| Configured                          (* registered, not yet sent *)
| Dispatched                          (* sent, the response is awaited *)
| Completed (response : Response T).  (* the response has arrived *)
Arguments Configured {T}.
Arguments Dispatched {T}.
Arguments Completed {T} _.

(** The transitions of an entry. *)
Inductive entry_step {T : Type} : relation (RequestEntry T) :=
| step_dispatch : entry_step Configured Dispatched
| step_complete response : entry_step Dispatched (Completed response).

(** The wrapper that shows the state of an entry. *)
Definition toRemoteData {T : Type} (entry : RequestEntry T) : RemoteData T :=
  match entry with
  | Configured => mkRemoteData true false false None None
  | Dispatched => mkRemoteData false true false None None
  | Completed (Ok body) => mkRemoteData false false true None (Some body)
  | Completed (NotOk error) => mkRemoteData false false false (Some error) None
  end.

(** The entries of a request that is sent in the turn in which it is
    made and answered [responseTime] turns later. *)
Definition entries {T : Type} (responseTime : nat) (response : Response T)
    : Marble (RequestEntry T) :=
  [(0, Next Configured); (0, Next Dispatched);
   (responseTime, Next (Completed response))].

(** The stream of a request: a snapshot of every state of its entry.
    It stays open, for the snapshots of a later refresh. *)
Definition snapshots {T : Type} (responseTime : nat) (response : Response T)
    : Observable (RemoteData T) :=
  castObservable toRemoteData (cold (entries responseTime response)).

(** ** The server *)

(** The addresses that the root of the server gives, by link path; the
    links of the bundles, by item and name; the collections, by
    address; how the server sorts and filters a collection; its default
    page size and the turns it takes to answer; the representation in
    which it sends a bitstream, with the relations of the bitstream;
    the resources that the relations link to, by address, and the turns
    it takes to answer a request for one. *)
Record RestServer : Type := mkRestServer {
  endpoints : gmap string string;
  bundleOf : gmap (string * string) BundleLinks;
  collectionAt : gmap string (list Bitstream);
  arrange : option string → list (string * string) → list Bitstream →
            list Bitstream;
  defaultPageSize : Z;
  bundleTime : Item → string → nat;
  collectionTime : string → option FindListOptions → nat;
  representationOf : Bitstream → Representation;
  resourceAt : gmap string Representation;
  resourceTime : string → nat;
}.

Definition notFound : RemoteDataError :=
  mkRemoteDataError 404 "Not Found" "The requested resource was not found".

(** ** The endpoint resolver *)

(** [resolve(resourceType, relation?)]: the address that the root gives
    for a link path, followed by the segment of a relation; none when
    the root does not know the link path. *)
Definition resolve (halService : gmap string string) (linkPath : string)
    (relation : option string) : option string :=
  root ← halService !! linkPath ;
  Some match relation with
       | Some relationName => root +:+ "/" +:+ relationName
       | None => root
       end.

Definition endpointNotFound (linkPath : string) : RemoteDataError :=
  mkRemoteDataError 404 "EndpointNotFound" ("No endpoint for " +:+ linkPath).

(** [DataService.findAll]: the request for the collection at the
    endpoint of the link path of the service; without endpoint, a
    failure at once. *)
Definition DataService_findAll {T : Type} (halService : gmap string string)
    (linkPath : string)
    (findAllByHref : string → option FindListOptions → list FollowLinkConfig →
                     Observable (RemoteData (PaginatedList T)))
    (options : option FindListOptions) (linksToFollow : list FollowLinkConfig)
    : Observable (RemoteData (PaginatedList T)) :=
  match resolve halService linkPath None with
  | Some href => findAllByHref href options linksToFollow
  | None =>
      λ t, [(t, Next (toRemoteData (Completed (NotOk (endpointNotFound linkPath)))))]
  end.

Section Server.
Context (server : RestServer).

(** [GET] on the address of a collection, with the options as query
    parameters *)
Definition getCollection (href : string) (options : option FindListOptions)
    : Response (PaginatedList Bitstream) :=
  match collectionAt server !! href with
  | Some l =>
      Ok (paginate (defaultPageSize server) options
            (arrange server (options ≫= sort)
               (default [] (filters <$> options)) l))
  | None => NotOk notFound
  end.

(** [GET] on the address of a resource *)
Definition getResource (href : string) : Response Representation :=
  match resourceAt server !! href with
  | Some resource => Ok resource
  | None => NotOk notFound
  end.

(** The bundle of an item with a given name *)
Definition getBundle (item : Item) (bundleName : string) : Response Bundle :=
  match bundleOf server !! (item_uuid item, bundleName) with
  | Some links => Ok (mkBundle bundleName links)
  | None => NotOk notFound
  end.

(** [DataService.findAllByHref] *)
Definition restFindAllByHref (href : string) (options : option FindListOptions)
    (linksToFollow : list FollowLinkConfig)
    : Observable (RemoteData (PaginatedList Bitstream)) :=
  snapshots (collectionTime server href options) (getCollection href options).

(** [BundleDataService.findByItemAndName] *)
Definition restFindByItemAndName (item : Item) (bundleName : string)
    : Observable (RemoteData Bundle) :=
  snapshots (bundleTime server item bundleName) (getBundle item bundleName).

(** The inherited [DataService<Bitstream>] of a class with a link path *)
Definition restDataService (linkPath : string) : DataService Bitstream :=
  mkDataService
    (DataService_findAll (endpoints server) linkPath restFindAllByHref)
    restFindAllByHref.

(** The class on top of the server *)
Definition restClient : BitstreamDataService :=
  constructor (λ _ _ _ _ _ _ _ _ _ _, restDataService) () () () () () () () () ()
    (mkBundleDataService restFindByItemAndName).
End Server.

(** A server that returns a collection as it is when no order and no
    filter is asked for. *)
Class RestServerOk (server : RestServer) : Prop := {
  arrange_default l : arrange server None [] l = l;
}.

(** ** Facts on the lifecycle *)

Section Lifecycle.
Context {T : Type}.
Implicit Types (entry : RequestEntry T) (response : Response T).
Implicit Types (responseTime : nat) (t : Time).

(** The wrapper of an entry shows the state of the entry. *)
Lemma rd_state_toRemoteData entry :
  rd_state (toRemoteData entry) =
    match entry with
    | Configured => RequestPending
    | Dispatched => ResponsePending
    | Completed (Ok _) => Success
    | Completed (NotOk _) => Failed
    end.
Proof. by destruct entry as [| |[]]. Qed.

(** Every wrapper the builder makes encodes one state. *)
Lemma rd_wf_toRemoteData entry : rd_wf (toRemoteData entry) = true.
Proof. by destruct entry as [| |[]]. Qed.

(** A completed entry is final. *)
Lemma entry_step_Completed response entry :
  ¬ entry_step (Completed response) entry.
Proof. inversion 1. Qed.

(** An entry moves forward only: what can be reached from the
    configured entry is that entry, the dispatched one, or a completed
    one. *)
Lemma rtc_entry_step entry entry' :
  rtc entry_step entry entry' →
  entry' = entry ∨
  (entry = Configured ∧ entry' ≠ Configured) ∨
  (entry = Dispatched ∧ ∃ response, entry' = Completed response).
Proof.
  induction 1 as [|e1 e2 e3 Hstep _ IH]; [by left|].
  destruct Hstep; destruct IH as [->|[[? ?]|[? [r ->]]]]; simplify_eq; eauto.
Qed.

(** The entries of a request are a run of the tracker. *)
Lemma entries_run responseTime response :
  rtc entry_step Configured (Completed response) ∧
  values (entries responseTime response) =
    [Configured; Dispatched; Completed response].
Proof.
  split; [|done].
  eapply rtc_l; [constructor|]. eapply rtc_l; [constructor|]. done.
Qed.

Lemma snapshots_eq responseTime response t :
  snapshots responseTime response t =
    [(t, Next (toRemoteData Configured)); (t, Next (toRemoteData Dispatched));
     (t + responseTime, Next (toRemoteData (Completed response)))].
Proof.
  unfold snapshots, castObservable, cold, entries. simpl.
  by rewrite Nat.add_0_r.
Qed.

Lemma snapshots_wf responseTime response :
  observable_wf (snapshots responseTime response).
Proof.
  intros t. rewrite snapshots_eq. simpl.
  by rewrite !bool_decide_eq_true_2 by lia.
Qed.

Lemma snapshots_errorFree responseTime response :
  errorFree (snapshots responseTime response).
Proof. intros t. by rewrite snapshots_eq. Qed.

Lemma snapshots_rd_wf responseTime response :
  delivers (λ rd, rd_wf rd = true) (snapshots responseTime response).
Proof.
  intros t rd [u Hin]%elem_of_values. rewrite snapshots_eq in Hin.
  rewrite !elem_of_cons, elem_of_nil in Hin.
  destruct Hin as [?|[?|[?|[]]]]; simplify_eq;
    [apply (rd_wf_toRemoteData Configured)
    |apply (rd_wf_toRemoteData Dispatched)
    |apply (rd_wf_toRemoteData (Completed response))].
Qed.

(** The snapshots of a request stay open. *)
Lemma snapshots_open responseTime response t :
  Forall (λ e, isTerminal e.2 = false) (snapshots responseTime response t).
Proof. rewrite snapshots_eq. by repeat constructor. Qed.
End Lifecycle.

(** ** The services keep their promises *)

(** The bundle service never delivers the empty object. *)
#[export] Instance restBundleService_typed (server : RestServer) :
  BundleDataServiceTyped (mkBundleDataService (restFindByItemAndName server)).
Proof.
  split. intros item bundleName t rd [u Hin]%elem_of_values. simpl in Hin.
  unfold restFindByItemAndName in Hin. rewrite snapshots_eq in Hin.
  rewrite !elem_of_cons, elem_of_nil in Hin. unfold getBundle in Hin.
  destruct Hin as [?|[?|[?|[]]]]; simplify_eq; [done..|].
  by destruct (bundleOf server !! _).
Qed.

#[export] Instance restDataService_ok (server : RestServer) linkPath :
  DataServiceOk (restDataService server linkPath).
Proof.
  split; intros href options links; simpl;
    [apply snapshots_wf | apply snapshots_errorFree | apply snapshots_rd_wf].
Qed.

#[export] Instance restBundleService_ok (server : RestServer) :
  BundleDataServiceOk (mkBundleDataService (restFindByItemAndName server)).
Proof.
  split; intros item bundleName; simpl;
    [apply snapshots_wf | apply snapshots_errorFree | apply snapshots_rd_wf].
Qed.
