(* ===== verification/Served.v ===== *)
(** * The data services over a table of requests

    The two data services when a request is not always a fetch of its
    own.  A [Schedule] says by which fetch the caller of a key is
    served: by a fetch of its own in the turn of the call ([unshared],
    the services of [RestServer]), or by the live entry of the request
    tracker ([Tracker.liveAt]).  The remote-data builder shows a caller
    the entry of the fetch from the turn of the call on ([since]): the
    whole lifecycle to the caller who fetched, the pending entry and
    then the response to a caller who came while the response was on
    its way, the response alone to a caller who came after it had
    arrived.  A caller whose request the schedule does not know waits
    for the request to be sent ([unsent]).

    The builder makes a wrapper of the entry of the request and of the
    object that the cache holds: while a collection is fetched again,
    the pending wrappers carry the page of the earlier response
    ([holding], [revalidating]); with a cache that holds nothing
    ([noCache]) they carry none.

    [cachingClient] is the class that [constructor] makes of these
    services, [servedClient] the one whose cache holds nothing;
    [ServedBy] says of a class that its services are those of a schedule
    on a server, [PagesServedBy] says so of the requests without link
    descriptors only (which is what the thumbnail operations need, and
    what a builder that resolves relations still promises),
    [RevalidatedBy] that its collections are shown with what a cache
    holds: the theorems on the operations rely on these. *)

From stdpp Require Import gmap.
From S2P Require Import Prelude EmptyUtil RemoteData Observable SwitchMap Models.
From S2P Require Import Tracker Pagination Collaborators BitstreamDataService.
From S2P Require Import RestServer.

(** By which fetch the caller of a key at a time is served. *)
Definition Schedule : Type := RequestKey → Time → option Time.

(** Every caller fetches. *)
Definition unshared : Schedule := λ _ t, Some t.

(** The page that the object cache holds of the collection at an
    address, from an earlier response. *)
Definition ObjectCache : Type :=
  string → option FindListOptions → option (PaginatedList Bitstream).

(** The cache that holds nothing. *)
Definition noCache : ObjectCache := λ _ _, None.

(** The turns the server takes to answer a key. *)
Definition latency (server : RestServer) (key : RequestKey) : nat :=
  match key with
  | BundleOf item bundleName => bundleTime server item bundleName
  | CollectionAt href options => collectionTime server href options
  | ResourceAt _ href => resourceTime server href
  end.

Section Views.
Context {T : Type}.

(** The pending wrappers that a caller at [t] receives of a request
    sent at [sent] and answered [responseTime] turns later. *)
Definition waiting (sent : Time) (responseTime : nat) (t : Time)
    : Marble (RemoteData T) :=
  if bool_decide (t ≤ sent) then
    [(t, Next (toRemoteData Configured)); (t, Next (toRemoteData Dispatched))]
  else if bool_decide (sent + responseTime ≤ t) then []
  else [(t, Next (toRemoteData Dispatched))].

(** The turn in which that caller receives the response. *)
Definition seenAt (sent : Time) (responseTime : nat) (t : Time) : Time :=
  (sent + responseTime) `max` t.

(** The stream of that caller. *)
Definition since (sent : Time) (responseTime : nat) (response : Response T)
    : Observable (RemoteData T) :=
  λ t, waiting sent responseTime t ++
       [(seenAt sent responseTime t, Next (toRemoteData (Completed response)))].

(** The stream of a request that is never sent. *)
Definition unsent : Observable (RemoteData T) :=
  λ t, [(t, Next (toRemoteData Configured))].

(** The wrapper of an entry with the object that the cache holds: the
    flags and the error are those of the entry, the payload is the
    object. *)
Definition holding (held : option T) (rd : RemoteData T) : RemoteData T :=
  mkRemoteData (isRequestPending rd) (isResponsePending rd) (hasSucceeded rd)
    (error rd) held.

(** The stream of that caller when the cache holds an object of the
    request: the pending wrappers carry the object. *)
Definition revalidating (held : option T) (sent : Time) (responseTime : nat)
    (response : Response T) : Observable (RemoteData T) :=
  λ t, (prod_map id (notification_map (holding held)) <$>
          waiting sent responseTime t) ++
       [(seenAt sent responseTime t, Next (toRemoteData (Completed response)))].
End Views.

Section Served.
Context (schedule : Schedule) (server : RestServer).

(** The stream of a request for [key], to which the server answers
    [response]. *)
Definition served {T : Type} (key : RequestKey) (response : Response T)
    : Observable (RemoteData T) :=
  λ t, match schedule key t with
       | Some sent => since sent (latency server key) response t
       | None => unsent t
       end.

(** The same, shown with what the cache holds. *)
Definition revalidated {T : Type} (held : option T) (key : RequestKey)
    (response : Response T) : Observable (RemoteData T) :=
  λ t, match schedule key t with
       | Some sent => revalidating held sent (latency server key) response t
       | None => unsent t
       end.

(** [DataService.findAllByHref] *)
Definition servedFindAllByHref (objectCache : ObjectCache) (href : string)
    (options : option FindListOptions) (linksToFollow : list FollowLinkConfig)
    : Observable (RemoteData (PaginatedList Bitstream)) :=
  revalidated (objectCache href options) (CollectionAt href options)
    (getCollection server href options).

(** [BundleDataService.findByItemAndName] *)
Definition servedFindByItemAndName (item : Item) (bundleName : string)
    : Observable (RemoteData Bundle) :=
  served (BundleOf item bundleName) (getBundle server item bundleName).
End Served.

(** The inherited [DataService<Bitstream>], whose methods read the
    request service, the object cache, the endpoints, the transport and
    the link path among the members of the instance. *)
Definition DataService_super (requestService : Schedule)
    (rdbService store cds : unit) (objectCache : ObjectCache)
    (halService : gmap string string) (notificationsService : unit)
    (http : RestServer) (comparator : unit) (bundleService : BundleDataService)
    (linkPath : string) : DataService Bitstream :=
  mkDataService
    (DataService_findAll halService linkPath
       (servedFindAllByHref requestService http objectCache))
    (servedFindAllByHref requestService http objectCache).

(** The class over a schedule, a cache and a server *)
Definition cachingClient (schedule : Schedule) (objectCache : ObjectCache)
    (server : RestServer) : BitstreamDataService :=
  constructor DataService_super schedule () () () objectCache
    (endpoints server) () server ()
    (mkBundleDataService (servedFindByItemAndName schedule server)).

(** The class whose cache holds nothing *)
Definition servedClient (schedule : Schedule) (server : RestServer)
    : BitstreamDataService :=
  cachingClient schedule noCache server.

(** The bundle service of [this] is that of a schedule on a server. *)
Class BundlesServedBy (this : BitstreamDataService) (schedule : Schedule)
    (server : RestServer) : Prop := {
  served_findByItemAndName item bundleName t :
    findByItemAndName this.(bundleService) item bundleName t =
      served schedule server (BundleOf item bundleName)
        (getBundle server item bundleName) t;
}.

(** So are its collections, asked for without link descriptors. *)
Class PagesServedBy (this : BitstreamDataService) (schedule : Schedule)
    (server : RestServer) : Prop := {
  pages_bundles :: BundlesServedBy this schedule server;
  pages_findAllByHref href options t :
    findAllByHref this.(dataService) href options [] t =
      served schedule server (CollectionAt href options)
        (getCollection server href options) t;
}.

(** So are the two services of [this], whatever the link descriptors. *)
Class ServedBy (this : BitstreamDataService) (schedule : Schedule)
    (server : RestServer) : Prop := {
  served_bundles :: BundlesServedBy this schedule server;
  served_findAllByHref href options linksToFollow t :
    findAllByHref this.(dataService) href options linksToFollow t =
      served schedule server (CollectionAt href options)
        (getCollection server href options) t;
}.

(** The collections of [this] are shown with what a cache holds. *)
Class RevalidatedBy (this : BitstreamDataService) (schedule : Schedule)
    (objectCache : ObjectCache) (server : RestServer) : Prop := {
  revalidated_bundles :: BundlesServedBy this schedule server;
  revalidated_findAllByHref href options linksToFollow t :
    findAllByHref this.(dataService) href options linksToFollow t =
      revalidated schedule server (objectCache href options)
        (CollectionAt href options) (getCollection server href options) t;
}.

#[export] Instance served_pages this schedule server
    `{!ServedBy this schedule server} : PagesServedBy this schedule server.
Proof. split; [apply _|intros; apply served_findAllByHref]. Qed.

(** ** Facts on the views *)

Section ViewFacts.
Context {T : Type}.
Implicit Types (sent t : Time) (responseTime : nat) (response : Response T).

(** The caller who fetches sees the two pending entries, and the
    response when the server has taken its time. *)
Lemma waiting_own responseTime t :
  waiting (T:=T) t responseTime t =
    [(t, Next (toRemoteData Configured)); (t, Next (toRemoteData Dispatched))].
Proof. unfold waiting. by rewrite bool_decide_eq_true_2. Qed.

Lemma seenAt_own responseTime t : seenAt t responseTime t = t + responseTime.
Proof. unfold seenAt. lia. Qed.

Lemma seenAt_ge sent responseTime t : t ≤ seenAt sent responseTime t.
Proof. unfold seenAt. lia. Qed.

(** Nobody waits longer than the caller who fetches. *)
Lemma seenAt_le sent responseTime t :
  sent ≤ t → seenAt sent responseTime t ≤ t + responseTime.
Proof. unfold seenAt. lia. Qed.

Lemma snapshots_since responseTime response t :
  snapshots responseTime response t = since t responseTime response t.
Proof. unfold since. by rewrite snapshots_eq, waiting_own, seenAt_own. Qed.

(** Whoever waits receives pending wrappers without payload, in the
    turn of the call. *)
Lemma elem_of_waiting sent responseTime t e :
  e ∈ waiting (T:=T) sent responseTime t →
  e = (t, Next (toRemoteData Configured)) ∨
  e = (t, Next (toRemoteData Dispatched)).
Proof.
  unfold waiting. repeat case_bool_decide;
    rewrite ?elem_of_cons, elem_of_nil; tauto.
Qed.

Lemma waiting_wf sent responseTime t m :
  marble_wf t m = true →
  marble_wf t (waiting (T:=T) sent responseTime t ++ m) = true.
Proof.
  intros Hm. unfold waiting. repeat case_bool_decide; simpl; [|done|];
    by rewrite ?bool_decide_eq_true_2.
Qed.

Lemma since_wf sent responseTime response t :
  marble_wf t (since sent responseTime response t) = true.
Proof.
  apply waiting_wf. simpl. rewrite bool_decide_eq_true_2; [done|].
  apply seenAt_ge.
Qed.

Lemma since_errorFree sent responseTime response t :
  errors (since sent responseTime response t) = [].
Proof. unfold since, waiting. by repeat case_bool_decide. Qed.

Lemma since_rd_wf sent responseTime response t rd :
  rd ∈ values (since sent responseTime response t) → rd_wf rd = true.
Proof.
  intros [u Hin]%elem_of_values. unfold since in Hin.
  apply elem_of_app in Hin as [[?|?]%elem_of_waiting|?%list_elem_of_singleton];
    simplify_eq; [done..|apply (rd_wf_toRemoteData (Completed response))].
Qed.

(** The streams stay open. *)
Lemma since_open sent responseTime response t :
  Forall (λ e, isTerminal e.2 = false) (since sent responseTime response t).
Proof.
  unfold since, waiting. repeat case_bool_decide; by repeat constructor.
Qed.

(** A cache that holds nothing changes nothing. *)
Lemma revalidating_None sent responseTime response t :
  revalidating None sent responseTime response t =
    since sent responseTime response t.
Proof. unfold revalidating, since, waiting. by repeat case_bool_decide. Qed.

(** The wrappers of a caller who waits, with the object of the cache:
    as many, in the turn of the call, pending, and with the object. *)
Lemma elem_of_waiting_holding held sent responseTime t e :
  e ∈ prod_map id (notification_map (holding held)) <$>
        waiting (T:=T) sent responseTime t →
  e = (t, Next (holding held (toRemoteData Configured))) ∨
  e = (t, Next (holding held (toRemoteData Dispatched))).
Proof.
  intros (e' & -> & [->| ->]%elem_of_waiting)%list_elem_of_fmap; tauto.
Qed.

Lemma revalidating_wf held sent responseTime response t :
  marble_wf t (revalidating held sent responseTime response t) = true.
Proof.
  pose proof (seenAt_ge sent responseTime t).
  unfold revalidating, waiting. repeat case_bool_decide; simpl;
    by rewrite ?bool_decide_eq_true_2.
Qed.

Lemma revalidating_errorFree held sent responseTime response t :
  errors (revalidating held sent responseTime response t) = [].
Proof. unfold revalidating, waiting. by repeat case_bool_decide. Qed.

Lemma revalidating_rd_wf held sent responseTime response t rd :
  rd ∈ values (revalidating held sent responseTime response t) →
  rd_wf rd = true.
Proof.
  intros [u Hin]%elem_of_values. unfold revalidating in Hin.
  apply elem_of_app in Hin
    as [[?|?]%elem_of_waiting_holding|?%list_elem_of_singleton];
    simplify_eq; [done..|apply (rd_wf_toRemoteData (Completed response))].
Qed.
End ViewFacts.

(** ** The services keep their promises *)

Section ServedFacts.
Context (schedule : Schedule) (server : RestServer).

Lemma served_wf {T : Type} key (response : Response T) :
  observable_wf (served schedule server key response).
Proof.
  intros t. unfold served. destruct (schedule key t); [apply since_wf|].
  simpl. by rewrite bool_decide_eq_true_2.
Qed.

Lemma served_errorFree {T : Type} key (response : Response T) :
  errorFree (served schedule server key response).
Proof.
  intros t. unfold served. destruct (schedule key t); [apply since_errorFree|done].
Qed.

Lemma served_rd_wf {T : Type} key (response : Response T) :
  delivers (λ rd, rd_wf rd = true) (served schedule server key response).
Proof.
  intros t rd. unfold served. destruct (schedule key t); [apply since_rd_wf|].
  intros [u Hin]%elem_of_values. apply list_elem_of_singleton in Hin.
  by simplify_eq.
Qed.

Lemma revalidated_None {T : Type} key (response : Response T) t :
  revalidated schedule server None key response t =
    served schedule server key response t.
Proof.
  unfold revalidated, served. destruct (schedule key t); [|done].
  apply revalidating_None.
Qed.

Lemma revalidated_wf {T : Type} held key (response : Response T) :
  observable_wf (revalidated schedule server held key response).
Proof.
  intros t. unfold revalidated.
  destruct (schedule key t); [apply revalidating_wf|].
  simpl. by rewrite bool_decide_eq_true_2.
Qed.

Lemma revalidated_errorFree {T : Type} held key (response : Response T) :
  errorFree (revalidated schedule server held key response).
Proof.
  intros t. unfold revalidated.
  destruct (schedule key t); [apply revalidating_errorFree|done].
Qed.

Lemma revalidated_rd_wf {T : Type} held key (response : Response T) :
  delivers (λ rd, rd_wf rd = true)
    (revalidated schedule server held key response).
Proof.
  intros t rd. unfold revalidated.
  destruct (schedule key t); [apply revalidating_rd_wf|].
  intros [u Hin]%elem_of_values. apply list_elem_of_singleton in Hin.
  by simplify_eq.
Qed.

(** Without a table the services are those of [RestServer]. *)
Lemma served_unshared {T : Type} key (response : Response T) t :
  served unshared server key response t =
    snapshots (latency server key) response t.
Proof. by rewrite snapshots_since. Qed.

#[export] Instance servedDataService_ok objectCache bundleService linkPath :
  DataServiceOk
    (DataService_super schedule () () () objectCache (endpoints server) ()
       server () bundleService linkPath).
Proof.
  split; intros href options links; simpl;
    [apply revalidated_wf | apply revalidated_errorFree
    |apply revalidated_rd_wf].
Qed.

#[export] Instance servedBundleService_ok :
  BundleDataServiceOk
    (mkBundleDataService (servedFindByItemAndName schedule server)).
Proof.
  split; intros item bundleName; simpl;
    [apply served_wf | apply served_errorFree | apply served_rd_wf].
Qed.

#[export] Instance cachingClient_revalidated objectCache :
  RevalidatedBy (cachingClient schedule objectCache server) schedule
    objectCache server.
Proof. by repeat split. Qed.

#[export] Instance servedClient_served :
  ServedBy (servedClient schedule server) schedule server.
Proof. repeat split; intros; simpl; done || apply revalidated_None. Qed.
End ServedFacts.

#[export] Instance restClient_served (server : RestServer) :
  ServedBy (restClient server) unshared server.
Proof. repeat split; intros; simpl; by rewrite served_unshared. Qed.
