(* ===== verification/ObjectStore.v ===== *)
(** * The object cache: a normalised store of representations

    The store of the object cache, after the specification of the
    object cache: an entry holds the raw representation of a resource
    under its address, with the turn in which it was written and
    whether it is stale.  [put] writes a representation and, under
    their own addresses, the resources that it carries inline, at any
    depth (the store is normalised); [get] reads an entry, stale or not
    (a stale entry is still shown while the resource is fetched again);
    [invalidateEntry] and [invalidateEntriesByType] are [invalidate]
    and [invalidateByType] of the cache, named apart from the
    operations of the request tracker through which the callers reach
    them.  An entry is stale when it has been invalidated or has
    outlived its time to live.

    The store is written by what happens to the table of requests: the
    response to the fetch of a resource is [put] in the turn in which
    it arrives, an invalidation of the table invalidates the entries in
    its turn ([cacheLog], the actions on the store in the order of
    time; [storeAt], the store that they leave at a time).

    The theorems: what is put is read back as it was put, until it is
    invalidated or has outlived its time; the resources that a
    representation carries inline are read back under their addresses;
    an invalidated entry keeps its representation; every entry of the
    store of a server whose resources carry inline what their
    addresses hold is the resource at its address ([storeAt_consistent]);
    and the view that the request tracker has of the cache
    ([Tracker.cachedSince]) is implemented by the store: a resource
    that the table holds is an entry of the store that is not stale
    ([cachedSince_held]).  The store may hold more: a resource that
    arrives inline in the response to another request is written
    without a fetch of its own. *)

From stdpp Require Import gmap sorting.
From S2P Require Import Prelude Observable Models Decorators Hypermedia.
From S2P Require Import Tracker RestServer.

(** ** Entries and the store *)

(** [CacheEntry]: [{ key, rawRepresentation, timestamp, isStale }] *)
Record CacheEntry : Type := mkCacheEntry {
  cacheKey : string;
  rawRepresentation : Representation;
  timestamp : Time;
  isStale : bool;
}.

Abbreviation ObjectStore := (gmap string CacheEntry).

(** The resources that a representation carries inline, at any depth *)
Fixpoint embeddedOf (r : Representation) : list Representation :=
  map_fold (λ _ resource l, resource :: embeddedOf resource ++ l) []
    (hal_embedded r).

(** The entry of a representation written at [t] *)
Definition written (key : string) (representation : Representation)
    (t : Time) : CacheEntry :=
  mkCacheEntry key representation t false.

(** A resource that arrived inline is written under its own address. *)
Definition write (t : Time) (store : ObjectStore) (resource : Representation)
    : ObjectStore :=
  <[hal_self resource := written (hal_self resource) resource t]> store.

(** [put(key, representation)] at [t]: the resources inline first, the
    representation itself last *)
Definition put (key : string) (representation : Representation) (t : Time)
    (store : ObjectStore) : ObjectStore :=
  <[key := written key representation t]>
    (foldl (write t) store (embeddedOf representation)).

Definition markStale (entry : CacheEntry) : CacheEntry :=
  mkCacheEntry (cacheKey entry) (rawRepresentation entry) (timestamp entry)
    true.

(** [invalidate(key)] *)
Definition invalidateEntry (key : string) (store : ObjectStore)
    : ObjectStore :=
  alter markStale key store.

(** [invalidateByType(resourceType)] *)
Definition invalidateEntriesByType (type : ResourceType) (store : ObjectStore)
    : ObjectStore :=
  (λ entry, if bool_decide (hal_type (rawRepresentation entry) = type)
            then markStale entry else entry) <$> store.

(** An entry has outlived its time to live at [now]. *)
Definition outlived (timeToLive : nat) (now : Time) (entry : CacheEntry)
    : bool :=
  bool_decide (timestamp entry + timeToLive < now).

(** [get(key)] at [now]: the entry, stale when it has been invalidated
    or has outlived its time *)
Definition get (timeToLive : nat) (now : Time) (key : string)
    (store : ObjectStore) : option CacheEntry :=
  (λ entry, if outlived timeToLive now entry then markStale entry else entry)
    <$> store !! key.

(** ** The store of a table of requests *)

Inductive CacheAction : Type :=
| Put (key : string) (representation : Representation)
| InvalidateEntry (key : string)
| InvalidateEntriesByType (type : ResourceType).

Definition perform (store : ObjectStore) (e : Time * CacheAction)
    : ObjectStore :=
  match e.2 with
  | Put key representation => put key representation e.1 store
  | InvalidateEntry key => invalidateEntry key store
  | InvalidateEntriesByType type => invalidateEntriesByType type store
  end.

(** Whether an action makes the entry at an address, of a resource of a
    type, stale. *)
Definition hits (key : string) (type : ResourceType) (action : CacheAction)
    : bool :=
  match action with
  | Put _ _ => false
  | InvalidateEntry k => bool_decide (k = key)
  | InvalidateEntriesByType ty => bool_decide (ty = type)
  end.

Section Replay.
Context (server : RestServer) (timing : Timing).

(** What an action of the table does to the store, and when: the
    response to the fetch of a resource is written when it arrives, a
    failure is not written; the pages of collections and the bundles
    are not held by the store. *)
Definition cacheEvent (e : Time * Action) : option (Time * CacheAction) :=
  match e.2 with
  | Fetch (ResourceAt type href) =>
      match getResource server href with
      | Ok resource =>
          Some (e.1 + responseTime timing (ResourceAt type href),
                Put href resource)
      | NotOk _ => None
      end
  | Fetch _ => None
  | Invalidate (ResourceAt _ href) => Some (e.1, InvalidateEntry href)
  | Invalidate _ => None
  | InvalidateByType type => Some (e.1, InvalidateEntriesByType type)
  end.

(** One action on the store is not after another. *)
Definition earlier (e e' : Time * CacheAction) : Prop := e.1 ≤ e'.1.

#[export] Instance earlier_dec e e' : Decision (earlier e e').
Proof. unfold earlier. apply _. Defined.

(** The actions on the store, in the order of time *)
Definition cacheLog (log : Log) : list (Time * CacheAction) :=
  merge_sort earlier (omap cacheEvent log).

(** The store at [now] *)
Definition storeAt (now : Time) (log : Log) : ObjectStore :=
  foldl perform ∅ (filter (λ e, e.1 ≤ now) (cacheLog log)).

(** The key of a resource names the type that the server gives the
    resource. *)
Definition wellTyped (key : RequestKey) : bool :=
  match key with
  | ResourceAt type href =>
      match resourceAt server !! href with
      | Some resource => bool_decide (hal_type resource = type)
      | None => true
      end
  | _ => true
  end.

Definition typed (log : Log) : bool :=
  forallb (λ e : Time * Action,
             match e.2 with
             | Fetch key | Invalidate key => wellTyped key
             | InvalidateByType _ => true
             end) log.

(** What a resource of the server carries inline is what the server
    has at its address. *)
Definition coherent : Prop :=
  map_Forall (λ _ resource,
                Forall (λ x, resourceAt server !! hal_self x = Some x)
                  (embeddedOf resource))
    (resourceAt server).

(** Every entry of a store is the resource at its address. *)
Definition consistent (store : ObjectStore) : Prop :=
  map_Forall (λ key entry,
                cacheKey entry = key ∧
                resourceAt server !! key = Some (rawRepresentation entry))
    store.
End Replay.

(** ** Reading what has been written *)

Section Store.
Implicit Types (store : ObjectStore) (entry : CacheEntry).
Implicit Types (key address : string) (r x : Representation).
Implicit Types (t now : Time) (timeToLive : nat).

Lemma foldl_write_snoc t store l x :
  foldl (write t) store (l ++ [x]) =
    <[hal_self x := written (hal_self x) x t]> (foldl (write t) store l).
Proof. by rewrite foldl_app. Qed.

(** The resources written inline: an address holds what it held, or a
    resource that arrived inline. *)
Lemma lookup_writes t store l address :
  foldl (write t) store l !! address = store !! address ∧
    address ∉ hal_self <$> l ∨
  ∃ x, x ∈ l ∧ hal_self x = address ∧
       foldl (write t) store l !! address = Some (written address x t).
Proof.
  induction l as [|x l IH] using rev_ind;
    [left; split; [done|apply not_elem_of_nil]|].
  rewrite foldl_write_snoc, fmap_app.
  destruct (decide (hal_self x = address)) as [<-|Hne].
  - right. exists x. rewrite lookup_insert_eq, elem_of_app.
    split_and!; [right; by apply list_elem_of_singleton|done..].
  - rewrite lookup_insert_ne by done.
    destruct IH as [[-> Hnot]|(x' & ? & ? & ->)]; [left|right].
    + split; [done|]. rewrite not_elem_of_app. split; [done|].
      by intros ->%list_elem_of_singleton.
    + exists x'. rewrite elem_of_app. auto.
Qed.

Lemma lookup_put key r t store address :
  put key r t store !! address =
    if decide (key = address) then Some (written key r t)
    else foldl (write t) store (embeddedOf r) !! address.
Proof. unfold put. by rewrite lookup_insert. Qed.

(** Round trip: what is put under a key is what is read under the key,
    with the turn in which it was put; it is stale when it has outlived
    its time. *)
Lemma get_put timeToLive now key r t store :
  get timeToLive now key (put key r t store) =
    Some (mkCacheEntry key r t (bool_decide (t + timeToLive < now))).
Proof.
  unfold get. rewrite lookup_put, decide_True by done. simpl.
  unfold outlived. simpl. by case_bool_decide.
Qed.

Lemma get_put_fresh timeToLive now key r t store :
  now ≤ t + timeToLive →
  get timeToLive now key (put key r t store) = Some (written key r t).
Proof. intros. rewrite get_put, bool_decide_eq_false_2; [done|lia]. Qed.

(** The store is normalised: a resource that a representation carries
    inline is read under its own address, as long as no two of them
    share an address. *)
Lemma lookup_writes_NoDup t store l x :
  NoDup (hal_self <$> l) → x ∈ l →
  foldl (write t) store l !! hal_self x = Some (written (hal_self x) x t).
Proof.
  induction l as [|x' l IH] using rev_ind; [by intros _ ?%elem_of_nil|].
  rewrite fmap_app, foldl_write_snoc. simpl.
  intros [Hl [Hnot _]]%NoDup_app [Hin| ->%list_elem_of_singleton]%elem_of_app.
  - rewrite lookup_insert_ne; [by apply IH|].
    intros Heq. apply (Hnot (hal_self x)).
    + apply list_elem_of_fmap. by exists x.
    + rewrite Heq. by apply list_elem_of_singleton.
  - by rewrite lookup_insert_eq.
Qed.

Lemma get_put_embedded timeToLive now key r x t store :
  NoDup (hal_self <$> embeddedOf r) → x ∈ embeddedOf r → hal_self x ≠ key →
  now ≤ t + timeToLive →
  get timeToLive now (hal_self x) (put key r t store) =
    Some (written (hal_self x) x t).
Proof.
  intros Hnodup Hin Hne Hnow. unfold get.
  rewrite lookup_put, decide_False by done.
  rewrite lookup_writes_NoDup by done. simpl.
  unfold outlived. simpl. rewrite bool_decide_eq_false_2; [done|lia].
Qed.

(** A key that is neither written nor inline is left as it is. *)
Lemma lookup_put_ne key r t store address :
  key ≠ address → address ∉ hal_self <$> embeddedOf r →
  put key r t store !! address = store !! address.
Proof.
  intros Hne Hnot. rewrite lookup_put, decide_False by done.
  destruct (lookup_writes t store (embeddedOf r) address)
    as [[-> _]|(x & Hin & <- & _)]; [done|].
  destruct Hnot. apply list_elem_of_fmap. by exists x.
Qed.

(** Stale while it is fetched again: an invalidated entry is still
    read, with its representation and its time stamp, as a stale
    one. *)
Lemma get_invalidateEntry timeToLive now key store :
  get timeToLive now key (invalidateEntry key store) =
    markStale <$> get timeToLive now key store.
Proof.
  unfold get, invalidateEntry. rewrite lookup_alter_eq.
  destruct (store !! key) as [entry|]; [|done]. simpl.
  unfold outlived. simpl. by case_bool_decide.
Qed.

Lemma get_invalidateEntry_ne timeToLive now key key' store :
  key' ≠ key →
  get timeToLive now key (invalidateEntry key' store) =
    get timeToLive now key store.
Proof. intros. unfold get, invalidateEntry. by rewrite lookup_alter_ne. Qed.

Lemma markStale_idemp entry : markStale (markStale entry) = markStale entry.
Proof. done. Qed.

(** Invalidation is idempotent, and does nothing to a key that the
    store does not hold. *)
Lemma invalidateEntry_idemp key store :
  invalidateEntry key (invalidateEntry key store) = invalidateEntry key store.
Proof.
  unfold invalidateEntry. rewrite alter_alter_eq. apply alter_ext.
  intros entry _. apply markStale_idemp.
Qed.

Lemma invalidateEntry_unknown key store :
  store !! key = None → invalidateEntry key store = store.
Proof. apply alter_id'. Qed.

(** The entries of a type are stale after the invalidation of the
    type, and the others are as they were. *)
Lemma get_invalidateEntriesByType timeToLive now key type store :
  get timeToLive now key (invalidateEntriesByType type store) =
    (λ entry, if bool_decide (hal_type (rawRepresentation entry) = type)
              then markStale entry else entry)
      <$> get timeToLive now key store.
Proof.
  unfold get, invalidateEntriesByType. rewrite lookup_fmap.
  destruct (store !! key) as [entry|]; [|done]. simpl.
  unfold outlived. by repeat (case_bool_decide; simpl).
Qed.

(** A resource without relations carries nothing inline. *)
Lemma embeddedOf_unrelated type self : embeddedOf (unrelated type self) = [].
Proof. done. Qed.
End Store.

(** ** The store of a table: every entry is the resource at its address *)

Section Consistency.
Context (server : RestServer) (timing : Timing).
Implicit Types (store : ObjectStore) (entry : CacheEntry).
Implicit Types (key address href : string) (r x : Representation).
Implicit Types (t now arrival sent : Time) (log : Log).
Implicit Types (events : list (Time * CacheAction)).

#[export] Instance earlier_total : Total earlier.
Proof. intros e e'. unfold earlier. lia. Qed.

#[export] Instance earlier_trans : Transitive earlier.
Proof. intros e1 e2 e3. unfold earlier. lia. Qed.

(** The actions on the store are those that the actions of the table
    cause, in the order of time. *)
Lemma elem_of_cacheLog log e :
  e ∈ cacheLog server timing log ↔
  ∃ e0, e0 ∈ log ∧ cacheEvent server timing e0 = Some e.
Proof.
  unfold cacheLog. by rewrite merge_sort_Permutation, list_elem_of_omap.
Qed.

Lemma cacheLog_sorted log : StronglySorted earlier (cacheLog server timing log).
Proof. apply StronglySorted_merge_sort; apply _. Qed.

(** What is written is what the server has at the address. *)
Lemma cacheLog_Put log t key r :
  (t, Put key r) ∈ cacheLog server timing log →
  resourceAt server !! key = Some r.
Proof.
  intros ([u action] & _ & Hevent)%elem_of_cacheLog. revert Hevent.
  unfold cacheEvent, getResource. simpl.
  destruct action as [[| |type href]|[| |type href]|type]; try done.
  destruct (resourceAt server !! href) as [resource|] eqn:Hr; [|done].
  by intros [= _ <- <-].
Qed.

Lemma consistent_writes store l t :
  Forall (λ x, resourceAt server !! hal_self x = Some x) l →
  consistent server store → consistent server (foldl (write t) store l).
Proof.
  intros Hl Hstore address entry Hentry.
  destruct (lookup_writes t store l address)
    as [[Heq _]|(x & Hin & <- & Heq)]; rewrite Heq in Hentry.
  - by apply Hstore.
  - injection Hentry as <-. split; [done|].
    by apply (proj1 (Forall_forall _ _) Hl).
Qed.

Lemma consistent_put store key r t :
  resourceAt server !! key = Some r →
  Forall (λ x, resourceAt server !! hal_self x = Some x) (embeddedOf r) →
  consistent server store → consistent server (put key r t store).
Proof.
  intros Hr Hl Hstore. unfold put. apply map_Forall_insert_2; [done|].
  by apply consistent_writes.
Qed.

Lemma consistent_invalidateEntry store key :
  consistent server store → consistent server (invalidateEntry key store).
Proof.
  intros Hstore address entry. unfold invalidateEntry.
  destruct (decide (key = address)) as [->|Hne].
  - rewrite lookup_alter_eq.
    destruct (store !! address) as [entry'|] eqn:Hentry; [|done].
    intros [= <-]. by apply (Hstore _ _ Hentry).
  - rewrite lookup_alter_ne by done. apply Hstore.
Qed.

Lemma consistent_invalidateEntriesByType store type :
  consistent server store →
  consistent server (invalidateEntriesByType type store).
Proof.
  intros Hstore address entry. unfold invalidateEntriesByType.
  rewrite lookup_fmap.
  destruct (store !! address) as [entry'|] eqn:Hentry; [|done].
  intros [= <-]. destruct (Hstore _ _ Hentry). by case_bool_decide.
Qed.

(** The invariant of the store: whatever the table has been through,
    every entry of the store is the resource that the server has at
    its address. *)
Lemma storeAt_consistent now log :
  coherent server → consistent server (storeAt server timing now log).
Proof.
  intros Hserver. unfold storeAt.
  assert (Forall (λ e, e ∈ cacheLog server timing log)
            (filter (λ e, e.1 ≤ now) (cacheLog server timing log))) as Hin.
  { apply Forall_forall. by intros e [_ ?]%list_elem_of_filter. }
  induction (filter _ _) as [|[t action] events IH] using rev_ind;
    [apply map_Forall_empty|].
  apply Forall_app in Hin as [Hevents [He _]%Forall_cons].
  rewrite foldl_app. simpl. specialize (IH Hevents).
  destruct action as [key r| key | type]; unfold perform; simpl.
  - apply cacheLog_Put in He. apply consistent_put; [done| |done].
    by apply (Hserver key r).
  - by apply consistent_invalidateEntry.
  - by apply consistent_invalidateEntriesByType.
Qed.
End Consistency.

(** ** The store implements the cache of the request tracker *)

Section Held.
Context (server : RestServer) (timing : Timing).
Implicit Types (store : ObjectStore) (entry : CacheEntry).
Implicit Types (key : RequestKey) (href address : string).
Implicit Types (r : Representation).
Implicit Types (t now arrival sent : Time) (log : Log).
Implicit Types (events : list (Time * CacheAction)).

Lemma chronological_snoc_inv log (e : Time * Action) :
  chronological (log ++ [e]) → chronological log ∧ latest log ≤ e.1.
Proof.
  intros Hlog. split.
  - intros l1 e' l2 ->. apply (Hlog l1 e' (l2 ++ [e])).
    by rewrite <- app_assoc.
  - by apply (Hlog log e []).
Qed.

(** The fetch that serves a key is an action of the table, and the
    actions that invalidate the key, up to the time of the caller, are
    not after it. *)
Lemma fetchedAt_unstaled key now log sent :
  chronological log → fetchedAt key now log = Some sent →
  (sent, Fetch key) ∈ log ∧
  ∀ t action, (t, action) ∈ log → stales action key = true → t ≤ now →
              t ≤ sent.
Proof.
  induction log as [|[u a] log IH] using rev_ind; [done|].
  intros [Hlog Hu]%chronological_snoc_inv. rewrite fetchedAt_snoc.
  setoid_rewrite elem_of_app. setoid_rewrite list_elem_of_singleton.
  unfold track. simpl in *. case_bool_decide as Hnow.
  - destruct a as [k|k|type]; simpl.
    + case_bool_decide as Hk.
      * intros [= <-]. subst k. split; [by right|].
        intros t action [Hin%latest_elem_of|[= -> ->]]; [simpl in *; lia|done].
      * intros [Hin Hun]%IH; [|done]. split; [by left|].
        intros t action [?|[= -> ->]]; [by apply Hun|done].
    + case_bool_decide as Hk; [done|].
      intros [Hin Hun]%IH; [|done]. split; [by left|].
      intros t action [?|[= -> ->]]; [by apply Hun|].
      simpl. by rewrite bool_decide_eq_false_2.
    + case_bool_decide as Hk; [done|].
      intros [Hin Hun]%IH; [|done]. split; [by left|].
      intros t action [?|[= -> ->]]; [by apply Hun|].
      simpl. by rewrite bool_decide_eq_false_2.
  - intros [Hin Hun]%IH; [|done]. split; [by left|].
    intros t action [?|[= -> ->]]; [by apply Hun|lia].
Qed.

(** An action that does not hit an entry leaves it as it is, or writes
    it again. *)
Lemma perform_held store t action href r arrival entry :
  coherent server →
  (∀ address r', action = Put address r' →
     resourceAt server !! address = Some r') →
  resourceAt server !! href = Some r →
  hits href (hal_type r) action = false → arrival ≤ t →
  store !! href = Some entry → rawRepresentation entry = r →
  isStale entry = false → arrival ≤ timestamp entry →
  ∃ entry', perform store (t, action) !! href = Some entry' ∧
            rawRepresentation entry' = r ∧ isStale entry' = false ∧
            arrival ≤ timestamp entry' ∧
            (timestamp entry' = timestamp entry ∨ timestamp entry' = t).
Proof.
  intros Hserver Haction Hr Hhits Ht Hentry Hrep Hstale Harrival.
  destruct action as [address r'|address|type]; unfold perform; simpl in *.
  - rewrite lookup_put. case_decide as Hkey.
    + subst address. rewrite (Haction href r' eq_refl) in Hr.
      injection Hr as ->. exists (written href r t). split_and!; simpl; auto.
    + destruct (lookup_writes t store (embeddedOf r') href)
        as [[-> _]|(x & Hin & Hx & ->)];
        [exists entry; split_and!; auto|].
      exists (written href x t). split_and!; simpl; auto.
      pose proof (Hserver address r' (Haction address r' eq_refl)) as Hall.
      apply (proj1 (Forall_forall _ _) Hall) in Hin. congruence.
  - apply bool_decide_eq_false in Hhits. unfold invalidateEntry.
    rewrite lookup_alter_ne by done. exists entry. split_and!; auto.
  - apply bool_decide_eq_false in Hhits. unfold invalidateEntriesByType.
    rewrite lookup_fmap, Hentry. simpl.
    rewrite bool_decide_eq_false_2 by congruence.
    exists entry. split_and!; auto.
Qed.

(** A resource that has been written is held, and is not stale, as
    long as no later action on the store hits its entry. *)
Lemma replay_held events now arrival href r :
  StronglySorted earlier events → coherent server →
  (∀ t address r', (t, Put address r') ∈ events →
     resourceAt server !! address = Some r') →
  (arrival, Put href r) ∈ events → arrival ≤ now →
  (∀ t action, (t, action) ∈ events → arrival ≤ t → t ≤ now →
               hits href (hal_type r) action = false) →
  ∃ entry,
    foldl perform ∅ (filter (λ e, e.1 ≤ now) events) !! href = Some entry ∧
    rawRepresentation entry = r ∧ isStale entry = false ∧
    arrival ≤ timestamp entry.
Proof.
  intros Hsorted Hserver.
  induction events as [|[t action] events IH] using rev_ind;
    [by intros _ ?%elem_of_nil|].
  apply StronglySorted_app in Hsorted as (Hbefore & Hsorted & _).
  intros Hput Hin Hnow Hhits. rewrite filter_app, foldl_app.
  assert (resourceAt server !! href = Some r) as Hr by by eapply Hput.
  assert (∀ e, e ∈ events → e ∈ events ++ [(t, action)]) as Hsub
    by (intros e ?; apply elem_of_app; by left).
  assert ((t, action) ∈ events ++ [(t, action)]) as Hlast
    by (apply elem_of_app; right; by apply list_elem_of_singleton).
  apply elem_of_app in Hin as [Hin|[= <- <-]%list_elem_of_singleton].
  - destruct (IH Hsorted) as (entry & Hentry & Hrep & Hstale & Harrival);
      [by eauto..|].
    destruct (decide (t ≤ now)) as [Ht|Ht].
    + rewrite filter_cons_True, filter_nil by done. simpl.
      assert (arrival ≤ t) as Hle
        by (apply (Hbefore (arrival, Put href r) (t, action)); [done|];
            by apply list_elem_of_singleton).
      destruct (perform_held
                  (foldl perform ∅ (filter (λ e, e.1 ≤ now) events))
                  t action href r arrival entry)
        as (entry' & ? & ? & ? & ? & _);
        [done|by intros ?? ->; apply (Hput t)|done|by apply (Hhits t)
        |done..|].
      by exists entry'.
    + rewrite filter_cons_False, filter_nil by done. simpl. eauto.
  - rewrite filter_cons_True, filter_nil by done. simpl. unfold perform.
    simpl. rewrite lookup_put, decide_True by done.
    exists (written href r arrival). auto.
Qed.

(** Refinement: the resource that the table of requests holds at a
    time is an entry of the store at that time, with the
    representation that the server has at its address, and it is not
    stale. *)
Lemma cachedSince_held type href r now log arrival :
  chronological log → typed server log = true → coherent server →
  resourceAt server !! href = Some r → hal_type r = type →
  0 < responseTime timing (ResourceAt type href) →
  cachedSince timing (ResourceAt type href) now log = Some arrival →
  ∃ entry,
    get (timeToLive timing) now href (storeAt server timing now log) =
      Some entry ∧
    rawRepresentation entry = r ∧ isStale entry = false ∧
    arrival ≤ timestamp entry.
Proof.
  intros Hlog Htyped Hserver Hr Htype Hrt
    (sent & [Hsent Hlive]%liveAt_Some & -> & Harrived)%cachedSince_Some.
  destruct (fetchedAt_unstaled _ _ _ _ Hlog Hsent) as [Hin Hun].
  destruct (replay_held (cacheLog server timing log) now
              (sent + responseTime timing (ResourceAt type href)) href r)
    as (entry & Hentry & Hrep & Hstale & Harrival);
    [apply cacheLog_sorted|done|intros ???; apply cacheLog_Put| |done| |].
  - apply elem_of_cacheLog. eexists. split; [done|].
    unfold cacheEvent, getResource. simpl. by rewrite Hr.
  - intros t action ([u a] & Hin' & Hevent)%elem_of_cacheLog Hge Hle.
    apply not_true_is_false. intros Hhits.
    pose proof (proj1 (forallb_forall _ _) Htyped (u, a)
                  (proj1 (list_elem_of_In _ _) Hin')) as Ha.
    assert (stales a (ResourceAt type href) = true ∧ u = t) as [Hstales ->].
    { revert Hevent Ha. unfold cacheEvent, getResource, wellTyped.
      destruct a as [[| |type' href']|[| |type' href']|type']; simpl;
        try done.
      - destruct (resourceAt server !! href'); [|done].
        intros [= <- <-]. done.
      - intros [= <- <-]. simpl in Hhits.
        apply bool_decide_eq_true in Hhits as ->. rewrite Hr.
        intros <-%bool_decide_eq_true. subst type.
        split; [by apply bool_decide_eq_true|done].
      - intros [= <- <-] _. simpl in Hhits.
        apply bool_decide_eq_true in Hhits as ->.
        split; [by apply bool_decide_eq_true|done]. }
    pose proof (Hun t a Hin' Hstales Hle). lia.
  - exists entry. unfold get, storeAt. rewrite Hentry. simpl.
    unfold outlived. rewrite bool_decide_eq_false_2; [done|lia].
Qed.
End Held.
