(* ===== verification/Links.v ===== *)
(** * The remote-data builder: the relations of a payload

    Link resolution, after the specification of the remote-data
    builder.  When the payload of the primary request is there, the
    builder resolves every link descriptor whose relation is present on
    it: a relation that the payload carries inline costs no request; a
    relation given by an address is asked of the data service of its
    type, which is a tracked request for the resource at that address
    ([Tracker.ResourceAt]); the descriptors below a descriptor are
    resolved on what the relation yields, when that is there.  The
    requests of one payload are made side by side, so that what is
    resolved is there when the last response is ([both]).  What has
    been resolved is merged into the payload under the name of its
    relation ([merged]).  A nested request that fails makes the whole
    resolution fail, with [linkResolutionError] of that failure.

    [follow] resolves one descriptor, [followLinks] the descriptors of a
    request on one representation, [followPage] on every element of a
    page.  [linked] is the stream of a request with link descriptors:
    the pending wrappers of the primary request; when its payload is
    there and relations are still on their way, a pending wrapper that
    carries the payload ([nestedPending]); in the turn in which the last
    of them is there, the wrapper of the success, or of the failure of
    the first relation that failed.  [nestedRequests] is what the
    resolution of a page asks of the request tracker in the turn in
    which the page is there. *)

From stdpp Require Import gmap.
From S2P Require Import Prelude EmptyUtil RemoteData Observable SwitchMap Models.
From S2P Require Import Hypermedia Decorators Tracker Pagination Collaborators.
From S2P Require Import BitstreamDataService RestServer Served.

(** ** Resolutions *)

(** When and with what something settles that the builder waits for;
    nothing of what never settles. *)
Definition Resolution (T : Type) : Type := option (Time * Response T).

(** What is there at once. *)
Definition resolvedAt {T : Type} (u : Time) (x : T) : Resolution T :=
  Some (u, Ok x).

(** Two resolutions side by side: both have settled when the later of
    them has; the first failure is the failure of both. *)
Definition both {A B C : Type} (f : A → B → C)
    (x : Resolution A) (y : Resolution B) : Resolution C :=
  match x, y with
  | Some (v, a), Some (w, b) =>
      Some (v `max` w,
            match a, b with
            | Ok a', Ok b' => Ok (f a' b')
            | NotOk error, _ => NotOk error
            | Ok _, NotOk error => NotOk error
            end)
  | _, _ => None
  end.

(** The same resolution of something else. *)
Definition resolution_map {A B : Type} (f : A → B) (x : Resolution A)
    : Resolution B :=
  prod_map id (λ a, match a with Ok a' => Ok (f a') | NotOk e => NotOk e end)
    <$> x.

(** A descriptor without descriptors below *)
Definition flat (d : FollowLinkConfig) : bool :=
  match d with
  | followLink _ [] => true
  | followLink _ (_ :: _) => false
  end.

(** The failure of a resolution in which the request for a relation
    has failed: the status of that failure, and a message that names
    the relation. *)
Definition linkResolutionError (relationName : string)
    (error : RemoteDataError) : RemoteDataError :=
  mkRemoteDataError (statusCode error) (statusText error)
    ("The link " +:+ relationName +:+ " could not be resolved: " +:+
     message error).

(** The representation with what has been resolved of a relation; a
    relation that is not present leaves it as it is. *)
Definition merged (d : FollowLinkConfig) (resource : option Representation)
    (r : Representation) : Representation :=
  from_option (λ x, embed (relationName d) x r) r resource.

(** ** Following the descriptors *)

Section Follow.
Context (schedule : Schedule) (server : RestServer).
Context (linkType : string → ResourceType).

(** The descriptors of a list, each resolved by [follow] on the same
    representation from the same turn on, and merged into it. *)
Definition followAll
    (follow : FollowLinkConfig → Representation → Time →
              Resolution (option Representation))
    (linksToFollow : list FollowLinkConfig) (r : Representation) (u : Time)
    : Resolution Representation :=
  foldr (λ d rest, both (merged d) (follow d r u) rest) (resolvedAt u r)
    linksToFollow.

(** One descriptor on a representation that is there at [u]: what its
    relation yields, with the descriptors below resolved on it. *)
Fixpoint follow (d : FollowLinkConfig) (r : Representation) (u : Time)
    : Resolution (option Representation) :=
  match d with
  | followLink relationName linksToFollow =>
      match hal_embedded r !! relationName with
      | Some resource =>
          resolution_map Some (followAll follow linksToFollow resource u)
      | None =>
          match hal_links r !! relationName with
          | Some href =>
              match schedule (ResourceAt (linkType relationName) href) u,
                    getResource server href with
              | Some sent, Ok resource =>
                  resolution_map Some
                    (followAll follow linksToFollow resource
                       (seenAt sent (resourceTime server href) u))
              | Some sent, NotOk error =>
                  Some (seenAt sent (resourceTime server href) u,
                        NotOk (linkResolutionError relationName error))
              | None, _ => None
              end
          | None => resolvedAt u None
          end
      end
  end.

(** The descriptors of a request on a representation *)
Definition followLinks : list FollowLinkConfig → Representation → Time →
    Resolution Representation :=
  followAll follow.

(** The descriptors of a request on every element of a page *)
Definition followPage (linksToFollow : list FollowLinkConfig)
    (elements : list Bitstream) (u : Time) : Resolution (list Representation) :=
  foldr (λ bitstream rest,
           both cons
             (followLinks linksToFollow (representationOf server bitstream) u)
             rest)
    (resolvedAt u []) elements.

(** ** The stream of a request with link descriptors *)

(** The wrapper of a payload whose relations are on their way: the
    response is pending, the payload is there. *)
Definition nestedPending {T : Type} (body : T) : RemoteData T :=
  holding (Some body) (toRemoteData Dispatched).

(** What a subscriber is shown from the turn [u] on in which the
    payload is there: the pending wrapper with the payload, when
    relations are on their way; the wrapper of what the resolution
    settles with, when it does, a success carrying the payload with
    what has been resolved, as far as the type of the payload keeps
    it ([enrich]). *)
Definition composite {T R : Type} (enrich : T → R → T) (body : T)
    (resolution : Resolution R) (u : Time) : Marble (RemoteData T) :=
  match resolution with
  | Some (v, response) =>
      (if bool_decide (v ≤ u) then [] else [(u, Next (nestedPending body))]) ++
      [(v, Next (toRemoteData
                   (Completed match response with
                              | Ok x => Ok (enrich body x)
                              | NotOk error => NotOk error
                              end)))]
  | None => [(u, Next (nestedPending body))]
  end.

(** The stream of a request for [key] to which the server answers
    [response], the relations of the payload being resolved by
    [resolve]. *)
Definition linked {T R : Type} (key : RequestKey) (response : Response T)
    (resolve : T → Time → Resolution R) (enrich : T → R → T)
    : Observable (RemoteData T) :=
  λ t, match schedule key t with
       | Some sent =>
           let u := seenAt sent (latency server key) t in
           waiting sent (latency server key) t ++
           match response with
           | Ok body => composite enrich body (resolve body u) u
           | NotOk error => [(u, Next (toRemoteData (Completed (NotOk error))))]
           end
       | None => unsent t
       end.

(** The elements of a page *)
Definition elementsOf (paginatedList : PaginatedList Bitstream)
    : list Bitstream :=
  default [] (page paginatedList).

(** [DataService.findAllByHref]: a bitstream of the model keeps
    nothing of its relations. *)
Definition linkedFindAllByHref (href : string) (options : option FindListOptions)
    (linksToFollow : list FollowLinkConfig)
    : Observable (RemoteData (PaginatedList Bitstream)) :=
  linked (CollectionAt href options) (getCollection server href options)
    (λ paginatedList, followPage linksToFollow (elementsOf paginatedList))
    (λ paginatedList _, paginatedList).

(** [DataService.findByHref], of the data service of a type, on
    representations: the resource at an address, with what has been
    resolved of its relations. *)
Definition findByHref (type : ResourceType) (href : string)
    (linksToFollow : list FollowLinkConfig)
    : Observable (RemoteData Representation) :=
  linked (ResourceAt type href) (getResource server href)
    (followLinks linksToFollow) (λ _ resolved, resolved).
End Follow.

(** ** What the resolution asks of the tracker *)

Section Requests.
Context (server : RestServer) (linkType : string → ResourceType).

(** The key of the request that one descriptor makes for a
    representation, when its relation is given by an address. *)
Definition nestedKey (r : Representation) (d : FollowLinkConfig)
    : option RequestKey :=
  match hal_embedded r !! relationName d with
  | Some _ => None
  | None => ResourceAt (linkType (relationName d)) <$>
              hal_links r !! relationName d
  end.

(** The keys that the descriptors ask for on the elements of a page, in
    the order of the elements and of the descriptors. *)
Definition nestedKeys (linksToFollow : list FollowLinkConfig)
    (elements : list Bitstream) : list RequestKey :=
  bitstream ← elements ;
  omap (nestedKey (representationOf server bitstream)) linksToFollow.

(** The table after the relations of a page that is there at [u] have
    been asked for. *)
Definition nestedRequests (timing : Timing)
    (linksToFollow : list FollowLinkConfig) (elements : list Bitstream)
    (u : Time) (log : Log) : Log :=
  foldl (λ log key, getOrCreate timing key u log) log
    (nestedKeys linksToFollow elements).
End Requests.

(** ** Facts on resolutions *)

(** A resolution that does not settle before [u]; one that settles with
    a success. *)
Definition notBefore {T : Type} (u : Time) (x : Resolution T) : Prop :=
  ∀ v response, x = Some (v, response) → u ≤ v.

Definition succeeds {T : Type} (x : Resolution T) : Prop :=
  ∃ v body, x = Some (v, Ok body).

Section ResolutionFacts.
Context {A B C : Type}.
Implicit Types (f : A → B → C) (x : Resolution A) (y : Resolution B).
Implicit Types (u v : Time).

Lemma notBefore_resolvedAt u (a : A) : notBefore u (resolvedAt u a).
Proof. by intros v response [= <- <-]. Qed.

Lemma notBefore_le u u' x : u ≤ u' → notBefore u' x → notBefore u x.
Proof. intros ? Hx v response Hv%Hx. lia. Qed.

Lemma notBefore_both f x y u :
  notBefore u x ∨ notBefore u y → notBefore u (both f x y).
Proof.
  intros Hxy v response. unfold both.
  destruct x as [[v1 a]|]; [|done]. destruct y as [[v2 b]|]; [|done].
  intros [= <- _].
  destruct Hxy as [Hx|Hy];
    [specialize (Hx v1 a eq_refl)|specialize (Hy v2 b eq_refl)]; lia.
Qed.

Lemma notBefore_map (g : A → B) x u :
  notBefore u x → notBefore u (resolution_map g x).
Proof.
  intros Hx v response. destruct x as [[v1 a]|]; [|done].
  intros [= <- _]. by apply (Hx v1 a).
Qed.

(** Both settle exactly when each does, and succeed exactly when each
    does. *)
Lemma both_is_Some f x y : is_Some (both f x y) ↔ is_Some x ∧ is_Some y.
Proof.
  rewrite !is_Some_alt. unfold both.
  destruct x as [[v1 a]|], y as [[v2 b]|]; tauto.
Qed.

Lemma both_succeeds f x y : succeeds (both f x y) ↔ succeeds x ∧ succeeds y.
Proof.
  unfold succeeds, both. split.
  - intros (v & c & Hc).
    destruct x as [[v1 [a|e]]|], y as [[v2 [b|e']]|]; simplify_eq.
    split; eauto.
  - intros [(v1 & a & ->) (v2 & b & ->)]. eauto.
Qed.

Lemma succeeds_map (g : A → B) x : succeeds (resolution_map g x) ↔ succeeds x.
Proof.
  unfold succeeds. destruct x as [[v1 [a|e]]|]; simpl;
    split; intros (v & body & ?); simplify_eq; eauto.
Qed.

Lemma succeeds_is_Some x : succeeds x → is_Some x.
Proof. by intros (v & body & ->). Qed.

(** A failure of both is a failure of one of them. *)
Lemma both_NotOk f x y v error :
  both f x y = Some (v, NotOk error) →
  (∃ v', x = Some (v', NotOk error)) ∨ (∃ v', y = Some (v', NotOk error)).
Proof.
  unfold both. destruct x as [[v1 [a|e]]|], y as [[v2 [b|e']]|];
    intros; simplify_eq; eauto.
Qed.

Lemma resolution_map_NotOk (g : A → B) x v error :
  resolution_map g x = Some (v, NotOk error) → x = Some (v, NotOk error).
Proof. destruct x as [[v1 [a|e]]|]; simpl; intros; by simplify_eq. Qed.

(** A success of both is a success of each. *)
Lemma both_Ok f x y v c :
  both f x y = Some (v, Ok c) →
  ∃ v1 a v2 b, x = Some (v1, Ok a) ∧ y = Some (v2, Ok b) ∧ c = f a b.
Proof.
  unfold both. destruct x as [[v1 [a|e]]|], y as [[v2 [b|e']]|];
    intros; simplify_eq. by exists v1, a, v2, b.
Qed.

Lemma resolution_map_Ok (g : A → B) x v b :
  resolution_map g x = Some (v, Ok b) → ∃ a, x = Some (v, Ok a) ∧ b = g a.
Proof.
  destruct x as [[v1 [a|e]]|]; simpl; intros; simplify_eq. by exists a.
Qed.

(** What has settled and has not succeeded has failed. *)
Lemma not_succeeds x :
  is_Some x → ¬ succeeds x → ∃ v error, x = Some (v, NotOk error).
Proof.
  intros [[v [a|e]] ->] Hx; [|by eauto]. destruct Hx. by exists v, a.
Qed.
End ResolutionFacts.

(** ** Facts on the descriptors *)

Section FollowFacts.
Context (schedule : Schedule) (server : RestServer).
Context (linkType : string → ResourceType).
Implicit Types (d : FollowLinkConfig) (r resource : Representation).
Implicit Types (linksToFollow : list FollowLinkConfig) (u v : Time).
Implicit Types (elements : list Bitstream).

Lemma followLinks_nil r u :
  followLinks schedule server linkType [] r u = resolvedAt u r.
Proof. done. Qed.

Lemma followLinks_cons d linksToFollow r u :
  followLinks schedule server linkType (d :: linksToFollow) r u =
    both (merged d) (follow schedule server linkType d r u)
      (followLinks schedule server linkType linksToFollow r u).
Proof. done. Qed.

Lemma followPage_cons linksToFollow bitstream elements u :
  followPage schedule server linkType linksToFollow (bitstream :: elements) u =
    both cons
      (followLinks schedule server linkType linksToFollow
         (representationOf server bitstream) u)
      (followPage schedule server linkType linksToFollow elements u).
Proof. done. Qed.

(** The three cases of a descriptor: the relation is inline; it is
    given by an address; it is not present. *)
Lemma follow_embedded relationName linksToFollow r resource u :
  hal_embedded r !! relationName = Some resource →
  follow schedule server linkType (followLink relationName linksToFollow) r u =
    resolution_map Some
      (followLinks schedule server linkType linksToFollow resource u).
Proof. simpl. by intros ->. Qed.

Lemma follow_linked relationName linksToFollow r href u :
  hal_embedded r !! relationName = None →
  hal_links r !! relationName = Some href →
  follow schedule server linkType (followLink relationName linksToFollow) r u =
    match schedule (ResourceAt (linkType relationName) href) u,
          getResource server href with
    | Some sent, Ok resource =>
        resolution_map Some
          (followLinks schedule server linkType linksToFollow resource
             (seenAt sent (resourceTime server href) u))
    | Some sent, NotOk error =>
        Some (seenAt sent (resourceTime server href) u,
              NotOk (linkResolutionError relationName error))
    | None, _ => None
    end.
Proof. simpl. by intros -> ->. Qed.

Lemma follow_unrelated d r u :
  related (relationName d) r = false →
  follow schedule server linkType d r u = resolvedAt u None.
Proof.
  destruct d as [relationName linksToFollow]. unfold related. simpl.
  intros [He%bool_decide_eq_false Hl%bool_decide_eq_false]%orb_false_iff.
  apply eq_None_not_Some in He, Hl. by rewrite He, Hl.
Qed.

(** Nothing is resolved before the representation is there. *)
Lemma followAll_notBefore getter linksToFollow r u :
  notBefore u (followAll getter linksToFollow r u).
Proof.
  induction linksToFollow as [|d l IH]; [apply notBefore_resolvedAt|].
  apply notBefore_both. by right.
Qed.

Lemma followPage_notBefore linksToFollow elements u :
  notBefore u (followPage schedule server linkType linksToFollow elements u).
Proof.
  induction elements as [|bitstream l IH]; [apply notBefore_resolvedAt|].
  apply notBefore_both. by right.
Qed.
(** The descriptors whose relations are not present ask for nothing
    and leave the representation as it is. *)
Lemma followLinks_unrelated linksToFollow r u :
  Forall (λ d, related (relationName d) r = false) linksToFollow →
  followLinks schedule server linkType linksToFollow r u = resolvedAt u r.
Proof.
  induction 1 as [|d l Hd _ IH]; [done|].
  rewrite followLinks_cons, follow_unrelated, IH by done.
  unfold both, resolvedAt. by rewrite Nat.max_id.
Qed.

Lemma followPage_unrelated linksToFollow elements u :
  Forall (λ bitstream,
            Forall (λ d, related (relationName d)
                           (representationOf server bitstream) = false)
              linksToFollow) elements →
  followPage schedule server linkType linksToFollow elements u =
    resolvedAt u (representationOf server <$> elements).
Proof.
  induction 1 as [|bitstream l Hd _ IH]; [done|].
  rewrite followPage_cons, followLinks_unrelated, IH by done.
  unfold both, resolvedAt. by rewrite Nat.max_id.
Qed.

Lemma followPage_nil elements u :
  followPage schedule server linkType [] elements u =
    resolvedAt u (representationOf server <$> elements).
Proof. apply followPage_unrelated, Forall_forall. by constructor. Qed.

(** The resolution of a page succeeds exactly when that of every
    descriptor on every element does, and settles exactly when each of
    them does. *)
Lemma followLinks_succeeds linksToFollow r u :
  succeeds (followLinks schedule server linkType linksToFollow r u) ↔
  Forall (λ d, succeeds (follow schedule server linkType d r u)) linksToFollow.
Proof.
  induction linksToFollow as [|d l IH].
  - split; [by constructor|]. intros _. by exists u, r.
  - rewrite followLinks_cons, both_succeeds, Forall_cons. by rewrite IH.
Qed.

Lemma followPage_succeeds linksToFollow elements u :
  succeeds (followPage schedule server linkType linksToFollow elements u) ↔
  Forall (λ bitstream,
            succeeds (followLinks schedule server linkType linksToFollow
                        (representationOf server bitstream) u)) elements.
Proof.
  induction elements as [|bitstream l IH].
  - split; [by constructor|]. intros _. by exists u, [].
  - rewrite followPage_cons, both_succeeds, Forall_cons. by rewrite IH.
Qed.

Lemma followLinks_is_Some linksToFollow r u :
  is_Some (followLinks schedule server linkType linksToFollow r u) ↔
  Forall (λ d, is_Some (follow schedule server linkType d r u)) linksToFollow.
Proof.
  induction linksToFollow as [|d l IH].
  - split; [by constructor|]. by intros _.
  - rewrite followLinks_cons, both_is_Some, Forall_cons. by rewrite IH.
Qed.

Lemma followPage_is_Some linksToFollow elements u :
  is_Some (followPage schedule server linkType linksToFollow elements u) ↔
  Forall (λ bitstream,
            is_Some (followLinks schedule server linkType linksToFollow
                       (representationOf server bitstream) u)) elements.
Proof.
  induction elements as [|bitstream l IH].
  - split; [by constructor|]. by intros _.
  - rewrite followPage_cons, both_is_Some, Forall_cons. by rewrite IH.
Qed.

(** A failure of a resolution is the failure of a relation whose
    resource the server does not have. *)
Lemma followAll_NotOk getter linksToFollow r u v error :
  followAll getter linksToFollow r u = Some (v, NotOk error) →
  ∃ d v', d ∈ linksToFollow ∧ getter d r u = Some (v', NotOk error).
Proof.
  induction linksToFollow as [|d l IH] in v |- *; [done|].
  intros [[v' Hd]|[v' (d' & w & ? & ?)%IH]]%both_NotOk.
  - exists d, v'. split; [by left|done].
  - exists d', w. split; [by right|done].
Qed.

Lemma follow_error d r u v error :
  follow schedule server linkType d r u = Some (v, NotOk error) →
  ∃ relationName, error = linkResolutionError relationName notFound.
Proof.
  revert r u v.
  induction d as [relationName linksToFollow IH] using FollowLinkConfig_ind.
  intros r u v. simpl.
  assert (∀ resource w,
    resolution_map Some
      (followAll (follow schedule server linkType) linksToFollow resource w)
      = Some (v, NotOk error) →
    ∃ name, error = linkResolutionError name notFound) as Hbelow.
  { intros resource w (d & v' & Hd & Hfail)%resolution_map_NotOk%followAll_NotOk.
    eapply Forall_forall in IH; [|done]. by eapply IH. }
  destruct (hal_embedded r !! relationName) as [resource|]; [by apply Hbelow|].
  destruct (hal_links r !! relationName) as [href|]; [|done].
  destruct (schedule _ _) as [sent|]; [|done]. unfold getResource.
  destruct (resourceAt server !! href) as [resource|]; [by apply Hbelow|].
  intros [= <- <-]. by exists relationName.
Qed.

Lemma followPage_error linksToFollow elements u v error :
  followPage schedule server linkType linksToFollow elements u =
    Some (v, NotOk error) →
  ∃ relationName, error = linkResolutionError relationName notFound.
Proof.
  induction elements as [|bitstream l IH] in v |- *; [done|].
  rewrite followPage_cons.
  intros [[v' (d & w & _ & Hd)%followAll_NotOk]|[v' ?%IH]]%both_NotOk; [|done].
  by apply follow_error in Hd.
Qed.

(** A relation whose resource the server does not have fails. *)
Lemma follow_notFound relationName linksToFollow r href sent u :
  hal_embedded r !! relationName = None →
  hal_links r !! relationName = Some href →
  schedule (ResourceAt (linkType relationName) href) u = Some sent →
  resourceAt server !! href = None →
  follow schedule server linkType (followLink relationName linksToFollow) r u =
    Some (seenAt sent (resourceTime server href) u,
          NotOk (linkResolutionError relationName notFound)).
Proof.
  intros He Hl Hsent Hnone. rewrite (follow_linked _ _ _ href) by done.
  unfold getResource. by rewrite Hsent, Hnone.
Qed.

(** *** What a success has merged *)

(** What the resolution of a list of descriptors has merged, given what
    the resolution of each of them yields: the representation is the
    same resource with the same links; the relations that the list does
    not name are as they were; the representation is resolved for every
    descriptor of the list. *)
Lemma followAll_resolved getter linksToFollow r u v r' :
  NoDup (relationName <$> linksToFollow) →
  Forall (λ d, ∀ w x, getter d r u = Some (w, Ok x) →
            match x with
            | Some resource =>
                forallb (λ d', resolved d' resource) (below d) = true
            | None => related (relationName d) r = false
            end) linksToFollow →
  followAll getter linksToFollow r u = Some (v, Ok r') →
  hal_type r' = hal_type r ∧ hal_self r' = hal_self r ∧
  hal_links r' = hal_links r ∧
  (∀ name, name ∉ relationName <$> linksToFollow →
           hal_embedded r' !! name = hal_embedded r !! name) ∧
  Forall (λ d, resolved d r' = true) linksToFollow.
Proof.
  induction linksToFollow as [|d l IH] in v, r' |- *.
  { intros _ _ [= <- <-]. by split_and!. }
  rewrite fmap_cons, NoDup_cons, Forall_cons.
  intros [Hd Hl] [Hyields Hbelow]
    (v1 & x & v2 & r'' & Hx & Hrest & ->)%both_Ok.
  destruct (IH _ _ Hl Hbelow Hrest) as (Htype & Hself & Hlinks & Hframe & Hres).
  apply Hyields in Hx.
  assert (∀ name, name ≠ relationName d →
            hal_embedded (merged d x r'') !! name = hal_embedded r'' !! name)
    as Hmerged.
  { intros name Hne. destruct x as [resource|]; [|done].
    by apply hal_embedded_embed_ne. }
  split_and!; [by destruct x..| |].
  - intros name [Hne Hnot]%not_elem_of_cons.
    rewrite Hmerged by done. by apply Hframe.
  - constructor.
    + destruct x as [resource|]; simpl.
      * by rewrite (resolved_embedded _ _ resource)
          by apply hal_embedded_embed.
      * apply resolved_unrelated_to. unfold related in *.
        by rewrite Hframe, Hlinks.
    + apply Forall_forall. intros d' Hin. rewrite Forall_forall in Hres.
      rewrite <- (Hres d' Hin). apply resolved_ext.
      * apply Hmerged. intros Heq. apply Hd. rewrite <- Heq.
        by apply list_elem_of_fmap_2.
      * by destruct x.
Qed.

(** What a descriptor yields: what its relation links to, resolved for
    the descriptors below, or nothing when the relation is not
    present. *)
Lemma follow_resolved d r u w x :
  distinct d = true →
  follow schedule server linkType d r u = Some (w, Ok x) →
  match x with
  | Some resource => forallb (λ d', resolved d' resource) (below d) = true
  | None => related (relationName d) r = false
  end.
Proof.
  revert r u w x.
  induction d as [name nested IH] using FollowLinkConfig_ind.
  intros r u w x Hdistinct. simpl in Hdistinct.
  apply andb_true_iff in Hdistinct as [Hnodup%bool_decide_eq_true Hnested].
  rewrite forallb_forall in Hnested.
  assert (∀ resource u',
    resolution_map Some
      (followAll (follow schedule server linkType) nested resource u')
      = Some (w, Ok x) →
    match x with
    | Some resource' => forallb (λ d', resolved d' resource') nested = true
    | None => related name r = false
    end) as Hbelow.
  { intros resource u' (r' & Hr' & ->)%resolution_map_Ok.
    apply followAll_resolved in Hr' as (_ & _ & _ & _ & Hres); [|done|].
    - apply forallb_forall. intros d' Hd'%list_elem_of_In.
      rewrite Forall_forall in Hres. by apply Hres.
    - rewrite Forall_forall in IH. apply Forall_forall.
      intros d' Hd' w' x'. by apply IH, Hnested, list_elem_of_In. }
  simpl.
  destruct (hal_embedded r !! name) as [resource|] eqn:He; [by apply Hbelow|].
  destruct (hal_links r !! name) as [href|] eqn:Hl.
  - destruct (schedule _ _) as [sent|]; [|done].
    destruct (getResource server href); [by apply Hbelow|done].
  - intros [= <- <-]. unfold related. rewrite He, Hl.
    by rewrite !bool_decide_eq_false_2 by (by intros [? ?]).
Qed.

(** The success of a resolution is the resource with every relation
    that the descriptors name and it has, inline. *)
Lemma followLinks_resolved linksToFollow r u v r' :
  NoDup (relationName <$> linksToFollow) →
  Forall (λ d, distinct d = true) linksToFollow →
  followLinks schedule server linkType linksToFollow r u = Some (v, Ok r') →
  hal_type r' = hal_type r ∧ hal_self r' = hal_self r ∧
  hal_links r' = hal_links r ∧
  Forall (λ d, resolved d r' = true) linksToFollow.
Proof.
  intros Hnodup Hdistinct Hr'.
  apply followAll_resolved in Hr' as (? & ? & ? & _ & ?); [done..|].
  eapply Forall_impl; [done|]. intros d Hd w x. by apply follow_resolved.
Qed.

(** So the resolution of a page with such a relation on one of its
    elements does not succeed. *)
Lemma followPage_notFound
    linksToFollow elements bitstream relationName nested href u :
  bitstream ∈ elements →
  followLink relationName nested ∈ linksToFollow →
  hal_embedded (representationOf server bitstream) !! relationName = None →
  hal_links (representationOf server bitstream) !! relationName = Some href →
  resourceAt server !! href = None →
  ¬ succeeds (followPage schedule server linkType linksToFollow elements u).
Proof.
  intros Hb Hd He Hl Hnone Hpage%followPage_succeeds.
  eapply Forall_forall in Hpage; [|done].
  apply followLinks_succeeds in Hpage.
  eapply Forall_forall in Hpage as (v & body & Hv); [|done].
  rewrite (follow_linked _ _ _ href) in Hv by done.
  unfold getResource in Hv. rewrite Hnone in Hv.
  by destruct (schedule _ _).
Qed.
End FollowFacts.

(** ** Facts on the stream of a request with link descriptors *)

Section LinkedFacts.
Context (schedule : Schedule) (server : RestServer).
Context {T R : Type} (enrich : T → R → T).
Implicit Types (body : T) (resolution : Resolution R) (u v t : Time).
Implicit Types (response : Response T) (resolve : T → Time → Resolution R).
Implicit Types (key : RequestKey) (rd : RemoteData T).

Lemma rd_wf_nestedPending body : rd_wf (nestedPending body) = true.
Proof. done. Qed.

Lemma composite_wf body resolution u :
  notBefore u resolution →
  marble_wf u (composite enrich body resolution u) = true.
Proof.
  intros Hu. unfold composite. destruct resolution as [[v a]|].
  - specialize (Hu v a eq_refl). case_bool_decide; simpl;
      by rewrite !bool_decide_eq_true_2.
  - simpl. by rewrite bool_decide_eq_true_2.
Qed.

Lemma composite_errorFree body resolution u :
  errors (composite enrich body resolution u) = [].
Proof.
  unfold composite. destruct resolution as [[v a]|]; [|done].
  by case_bool_decide.
Qed.

Lemma composite_open body resolution u :
  Forall (λ e, isTerminal e.2 = false) (composite enrich body resolution u).
Proof.
  unfold composite. destruct resolution as [[v a]|];
    [case_bool_decide|]; by repeat constructor.
Qed.

(** What the subscriber is shown once the payload is there: the pending
    wrapper with the payload, or the wrapper of what the resolution has
    settled with. *)
Lemma elem_of_composite body resolution u e :
  e ∈ composite enrich body resolution u →
  e = (u, Next (nestedPending body)) ∨
  ∃ v a, resolution = Some (v, a) ∧
         e = (v, Next (toRemoteData
                         (Completed match a with
                                    | Ok x => Ok (enrich body x)
                                    | NotOk error => NotOk error
                                    end))).
Proof.
  unfold composite. destruct resolution as [[v a]|].
  - intros [Hin|Hin%list_elem_of_singleton]%elem_of_app; [|by eauto].
    case_bool_decide; [by apply elem_of_nil in Hin|].
    apply list_elem_of_singleton in Hin. by left.
  - intros ?%list_elem_of_singleton. by left.
Qed.

(** A success is shown only of a resolution that has succeeded. *)
Lemma composite_hasSucceeded body resolution u rd :
  rd ∈ values (composite enrich body resolution u) → hasSucceeded rd = true →
  succeeds resolution.
Proof.
  intros [v Hin]%elem_of_values Hrd.
  apply elem_of_composite in Hin as [?|(w & a & -> & ?)]; simplify_eq.
  destruct a as [x|error]; [by exists w, x|done].
Qed.

(** The last wrapper of a resolution that has failed is the failure. *)
Lemma composite_failed body u v error :
  last (composite enrich body (Some (v, NotOk error) : Resolution R) u) =
    Some (v, Next (toRemoteData (Completed (NotOk error)))).
Proof. unfold composite. apply last_snoc. Qed.

(** A resolution that is there at once shows the success alone. *)
Lemma composite_resolvedAt body (x : R) u :
  composite enrich body (resolvedAt u x) u =
    [(u, Next (toRemoteData (Completed (Ok (enrich body x)))))].
Proof. unfold composite, resolvedAt. by rewrite bool_decide_eq_true_2. Qed.

Lemma linked_wf key response resolve :
  (∀ body u, notBefore u (resolve body u)) →
  observable_wf (linked schedule server key response resolve enrich).
Proof.
  intros Hresolve t. unfold linked. destruct (schedule key t) as [sent|].
  2:{ simpl. by rewrite bool_decide_eq_true_2. }
  pose proof (seenAt_ge sent (latency server key) t).
  apply waiting_wf. destruct response as [body|error].
  - eapply marble_wf_weaken; [done|]. by apply composite_wf.
  - simpl. by rewrite bool_decide_eq_true_2.
Qed.

Lemma linked_errorFree key response resolve :
  errorFree (linked schedule server key response resolve enrich).
Proof.
  intros t. unfold linked. destruct (schedule key t) as [sent|]; [|done].
  unfold errors. rewrite omap_app. fold (errors (waiting (T:=T) sent
    (latency server key) t)).
  destruct response as [body|error].
  - fold (errors (composite enrich body
       (resolve body (seenAt sent (latency server key) t))
       (seenAt sent (latency server key) t))).
    rewrite composite_errorFree. unfold waiting. by repeat case_bool_decide.
  - unfold waiting. by repeat case_bool_decide.
Qed.

Lemma linked_rd_wf key response resolve :
  delivers (λ rd, rd_wf rd = true)
    (linked schedule server key response resolve enrich).
Proof.
  intros t rd [u Hin]%elem_of_values. unfold linked in Hin.
  destruct (schedule key t) as [sent|].
  2:{ apply list_elem_of_singleton in Hin. by simplify_eq. }
  apply elem_of_app in Hin as [[?|?]%elem_of_waiting|Hin]; simplify_eq;
    [done..|].
  destruct response as [body|error].
  - apply elem_of_composite in Hin as [?|(v & a & _ & ?)]; simplify_eq; [done|].
    apply (rd_wf_toRemoteData (Completed _)).
  - apply list_elem_of_singleton in Hin. simplify_eq.
    apply (rd_wf_toRemoteData (Completed (NotOk error))).
Qed.

Lemma linked_open key response resolve t :
  Forall (λ e, isTerminal e.2 = false)
    (linked schedule server key response resolve enrich t).
Proof.
  unfold linked. destruct (schedule key t) as [sent|]; [|by repeat constructor].
  apply Forall_app. split.
  - unfold waiting. repeat case_bool_decide; by repeat constructor.
  - destruct response; [apply composite_open|by repeat constructor].
Qed.

(** A request whose payload has nothing to resolve is the request
    without link descriptors. *)
Lemma linked_served key response resolve t :
  (∀ body u, ∃ x, resolve body u = resolvedAt u x ∧ enrich body x = body) →
  linked schedule server key response resolve enrich t =
    served schedule server key response t.
Proof.
  intros Hresolve. unfold linked, served, since.
  destruct (schedule key t) as [sent|]; [|done]. f_equal.
  destruct response as [body|error]; [|done].
  destruct (Hresolve body (seenAt sent (latency server key) t))
    as (x & -> & Hx).
  by rewrite composite_resolvedAt, Hx.
Qed.

(** A success is told only of a payload whose resolution has succeeded,
    and carries the payload with what has been resolved. *)
Lemma linked_hasSucceeded key response resolve t rd :
  rd ∈ values (linked schedule server key response resolve enrich t) →
  hasSucceeded rd = true →
  ∃ body u v x, response = Ok body ∧ resolve body u = Some (v, Ok x) ∧
                rd = toRemoteData (Completed (Ok (enrich body x))).
Proof.
  intros [w Hin]%elem_of_values Hrd. unfold linked in Hin.
  destruct (schedule key t) as [sent|].
  2:{ apply list_elem_of_singleton in Hin. by simplify_eq. }
  apply elem_of_app in Hin as [[?|?]%elem_of_waiting|Hin]; simplify_eq.
  destruct response as [body|error].
  2:{ apply list_elem_of_singleton in Hin. by simplify_eq. }
  apply elem_of_composite in Hin as [?|(v & [x|error] & Hv & ?)]; simplify_eq.
  by exists body, (seenAt sent (latency server key) t), v, x.
Qed.

(** A request that the schedule serves and that the server cannot
    answer settles with the failure, when the response is there. *)
Lemma linked_NotOk key error resolve sent t :
  schedule key t = Some sent →
  linked schedule server key (NotOk error) resolve enrich t =
    since sent (latency server key) (NotOk error) t.
Proof. unfold linked. by intros ->. Qed.
End LinkedFacts.

(** ** Facts on [findByHref] *)

Section FindByHref.
Context (schedule : Schedule) (server : RestServer).
Context (linkType : string → ResourceType).
Implicit Types (type : ResourceType) (href : string) (t : Time).
Implicit Types (linksToFollow : list FollowLinkConfig).

Lemma findByHref_wf type href linksToFollow :
  observable_wf (findByHref schedule server linkType type href linksToFollow).
Proof. apply linked_wf. intros. apply followAll_notBefore. Qed.

Lemma findByHref_rd_wf type href linksToFollow :
  delivers (λ rd, rd_wf rd = true)
    (findByHref schedule server linkType type href linksToFollow).
Proof. apply linked_rd_wf. Qed.

(** Without link descriptors the resource is told as it is. *)
Lemma findByHref_nil type href t :
  findByHref schedule server linkType type href [] t =
    served schedule server (ResourceAt type href) (getResource server href) t.
Proof. apply linked_served. intros body u. by exists body. Qed.

(** An address at which the server has nothing yields the 404 of the
    transport. *)
Lemma findByHref_notFound type href linksToFollow sent t :
  schedule (ResourceAt type href) t = Some sent →
  resourceAt server !! href = None →
  findByHref schedule server linkType type href linksToFollow t =
    since sent (resourceTime server href) (NotOk notFound) t.
Proof.
  intros Hsent Hnone. unfold findByHref, getResource. rewrite Hnone.
  by apply linked_NotOk.
Qed.

(** A success carries the resource that the server has at the address,
    with every relation that the descriptors name and the resource has
    inline, and inline what the descriptors below name. *)
Lemma findByHref_resolved type href linksToFollow t rd :
  NoDup (relationName <$> linksToFollow) →
  Forall (λ d, distinct d = true) linksToFollow →
  rd ∈ values (findByHref schedule server linkType type href linksToFollow t) →
  hasSucceeded rd = true →
  ∃ resource resolved',
    resourceAt server !! href = Some resource ∧
    payload rd = Some resolved' ∧
    hal_type resolved' = hal_type resource ∧
    hal_self resolved' = hal_self resource ∧
    hal_links resolved' = hal_links resource ∧
    Forall (λ d, resolved d resolved' = true) linksToFollow.
Proof.
  intros Hnodup Hdistinct Hin Hrd.
  apply linked_hasSucceeded in Hin as (body & u & v & x & Hbody & Hx & ->);
    [|done].
  unfold getResource in Hbody.
  destruct (resourceAt server !! href) as [resource|]; [|done].
  injection Hbody as <-. exists resource, x. split_and!; [done..| | | |];
    by eapply followLinks_resolved.
Qed.
End FindByHref.

(** ** Facts on the requests *)

Section RequestFacts.
Context (timing : Timing).
Implicit Types (key : RequestKey) (keys fetched : list RequestKey).
Implicit Types (u : Time) (log : Log).

(** Callers of one turn, one after the other: every key that no entry
    serves is fetched, once. *)
Lemma getOrCreate_all_transportCalls keys u log :
  ∃ fetched,
    transportCalls (foldl (λ log key, getOrCreate timing key u log) log keys) =
      transportCalls log ++ (pair u <$> fetched) ∧
    NoDup fetched ∧
    ∀ key, key ∈ fetched ↔ key ∈ keys ∧ liveAt timing key u log = None.
Proof.
  induction keys as [|k keys IH] in log |- *.
  { exists []. rewrite app_nil_r. split_and!; [done|constructor|set_solver]. }
  destruct (IH (getOrCreate timing k u log)) as (fetched & Hcalls & Hnodup & Hin).
  simpl. rewrite Hcalls, transportCalls_getOrCreate.
  destruct (liveAt timing k u log) as [sent|] eqn:Hk.
  - exists fetched. rewrite app_nil_r. split_and!; [done..|]. intros key.
    rewrite Hin, (getOrCreate_live _ _ _ _ sent), elem_of_cons by done.
    naive_solver.
  - exists (k :: fetched). rewrite <- app_assoc. split_and!; [done| |].
    + constructor; [|done]. rewrite Hin, liveAt_getOrCreate, Hk. naive_solver.
    + intros key. rewrite !elem_of_cons, Hin.
      destruct (decide (key = k)) as [->|Hne]; [naive_solver|].
      rewrite liveAt_getOrCreate_ne by done. naive_solver.
Qed.

(** The keys that are not asked for are served as before. *)
Lemma liveAt_getOrCreate_all_ne keys key t u log :
  key ∉ keys →
  liveAt timing key t
    (foldl (λ log key, getOrCreate timing key u log) log keys) =
  liveAt timing key t log.
Proof.
  induction keys as [|k keys IH] using rev_ind; [done|].
  rewrite not_elem_of_app, list_elem_of_singleton. intros [? ?].
  rewrite foldl_app. simpl. rewrite liveAt_getOrCreate_ne by done. by apply IH.
Qed.

(** And every key is served afterwards. *)
Lemma getOrCreate_all_live keys key u log :
  key ∈ keys →
  is_Some (liveAt timing key u
             (foldl (λ log key, getOrCreate timing key u log) log keys)).
Proof.
  induction keys as [|k keys IH] using rev_ind; [by intros ?%elem_of_nil|].
  rewrite foldl_app. simpl. intros [Hin| ->%list_elem_of_singleton]%elem_of_app.
  - destruct (decide (key = k)) as [->|Hne].
    + rewrite liveAt_getOrCreate. by eexists.
    + rewrite liveAt_getOrCreate_ne by done. by apply IH.
  - rewrite liveAt_getOrCreate. by eexists.
Qed.
End RequestFacts.

Section NestedFacts.
Context (schedule : Schedule) (server : RestServer).
Context (linkType : string → ResourceType).
Implicit Types (d : FollowLinkConfig) (r : Representation) (u : Time).
Implicit Types (linksToFollow : list FollowLinkConfig) (key : RequestKey).
Implicit Types (elements : list Bitstream).

(** The relations are asked for by address, of the data service of
    their type. *)
Lemma nestedKey_ResourceAt r d key :
  nestedKey linkType r d = Some key →
  ∃ href, hal_embedded r !! relationName d = None ∧
          hal_links r !! relationName d = Some href ∧
          key = ResourceAt (linkType (relationName d)) href.
Proof.
  unfold nestedKey. destruct (hal_embedded r !! _); [done|].
  intros (href & ? & ->)%fmap_Some. by exists href.
Qed.

Lemma elem_of_nestedKeys linksToFollow elements key :
  key ∈ nestedKeys server linkType linksToFollow elements ↔
  ∃ bitstream d, bitstream ∈ elements ∧ d ∈ linksToFollow ∧
    nestedKey linkType (representationOf server bitstream) d = Some key.
Proof.
  unfold nestedKeys. rewrite list_elem_of_bind.
  setoid_rewrite list_elem_of_omap. split.
  - intros (bitstream & (d & ? & ?) & ?). by exists bitstream, d.
  - intros (bitstream & d & ? & ? & ?). exists bitstream. eauto.
Qed.

(** A descriptor without descriptors below settles when its request is
    served. *)
Lemma follow_flat_is_Some d r u :
  flat d = true →
  (∀ key, nestedKey linkType r d = Some key → is_Some (schedule key u)) →
  is_Some (follow schedule server linkType d r u).
Proof.
  destruct d as [relationName [|? ?]]; [|done]. intros _. unfold nestedKey.
  simpl. destruct (hal_embedded r !! relationName); [done|].
  destruct (hal_links r !! relationName) as [href|]; [|done]. simpl.
  intros Hserved. destruct (Hserved _ eq_refl) as [sent ->].
  by destruct (getResource server href).
Qed.

Lemma followPage_flat_is_Some linksToFollow elements u :
  Forall (λ d, flat d = true) linksToFollow →
  (∀ key, key ∈ nestedKeys server linkType linksToFollow elements →
          is_Some (schedule key u)) →
  is_Some (followPage schedule server linkType linksToFollow elements u).
Proof.
  intros Hflat Hserved. apply followPage_is_Some, Forall_forall.
  intros bitstream Hb. apply followLinks_is_Some, Forall_forall. intros d Hd.
  apply follow_flat_is_Some; [by eapply Forall_forall in Hflat|].
  intros key Hkey. apply Hserved, elem_of_nestedKeys. eauto.
Qed.
End NestedFacts.
