(* ===== verification/Samples.v ===== *)
(** * Sample data and a sample server

    Concrete wrappers, bundles and bitstreams, and implementations of the
    two collaborator interfaces that answer with cold marbles, together
    with the proofs that they keep the promises of [Collaborators], and a
    REST server with one bundle.  [linkedRest] is that server with
    bitstreams that link to their format, [brokenRest] the same without
    the format.  The theorems of [Snapshots], [Streams], [EndToEnd] and
    the files after it are applied to them. *)

From stdpp Require Import gmap.
From S2P Require Import Prelude EmptyUtil RemoteData Observable SwitchMap Models.
From S2P Require Import Hypermedia Decorators Collaborators.
From S2P Require Import BitstreamDataService RestServer.

Local Open Scope string_scope.

Module Sample.
Definition pendingRD {T : Type} : RemoteData T :=
  mkRemoteData true true false None None.
Definition successRD {T : Type} (x : T) : RemoteData T :=
  mkRemoteData false false true None (Some x).
Definition failedRD {T : Type} (code : Z) (text msg : string) : RemoteData T :=
  mkRemoteData false false false (Some (mkRemoteDataError code text msg)) None.
(** A failed wrapper that still carries the payload of an earlier
    success. *)
Definition staleRD {T : Type} (x : T) : RemoteData T :=
  mkRemoteData false false false
    (Some (mkRemoteDataError 500 "500" "Internal Server Error")) (Some x).

Definition item : Item := mkItem "item-1".
Definition thumbnails : Bundle :=
  mkBundle "THUMBNAIL" (mkBundleLinks (mkHALLink "/api/core/bundles/7/bitstreams")).
Definition cover : Bitstream := mkBitstream "b-1" "cover.jpg".
Definition paper : Bitstream := mkBitstream "b-2" "paper.pdf.jpg".
Definition original : Bitstream := mkBitstream "b-0" "paper.pdf".
Definition pageOf (l : list Bitstream) : PaginatedList Bitstream :=
  mkPaginatedList (Z.of_nat (length l)) (Some l).
Definition noPage : PaginatedList Bitstream := mkPaginatedList 0 None.

(** A bundle service that answers every request with the same cold
    marble, and a data service that answers with a cold marble chosen by
    the address, for [findAll] by the link path of the class. *)
Definition bundlesOf (m : Marble (RemoteData Bundle)) : BundleDataService :=
  mkBundleDataService (λ _ _, cold m).
Definition pagesOf (m : string → Marble (RemoteData (PaginatedList Bitstream)))
    : DataService Bitstream :=
  mkDataService (λ _ _, cold (m linkPath)) (λ href _ _, cold (m href)).

(** The bundle is pending at 0 and arrives at 2; its page is pending at 0
    and arrives at 3, counted from the request. *)
Definition bundleMarble : Marble (RemoteData Bundle) :=
  [(0, Next pendingRD); (2, Next (successRD thumbnails)); (2, Complete)].
Definition pageMarble (href : string)
    : Marble (RemoteData (PaginatedList Bitstream)) :=
  [(0, Next pendingRD); (3, Next (successRD (pageOf [cover; paper]))); (3, Complete)].
Definition server : BitstreamDataService :=
  mkBitstreamDataService (pagesOf pageMarble) (bundlesOf bundleMarble).

(** The same server, whose bundle service delivers the empty object. *)
Definition emptyBundleMarble : Marble (RemoteData Bundle) :=
  [(0, Next pendingRD); (2, Next (successRD EmptyBundle)); (2, Complete)].
Definition emptyServer : BitstreamDataService :=
  mkBitstreamDataService (pagesOf pageMarble) (bundlesOf emptyBundleMarble).

(** A bundle service that delivers the bundle twice, at 2 and at 4. *)
Definition refreshedBundleMarble : Marble (RemoteData Bundle) :=
  [(0, Next pendingRD); (2, Next (successRD thumbnails));
   (4, Next (successRD thumbnails))].
Definition refreshingServer : BitstreamDataService :=
  mkBitstreamDataService (pagesOf pageMarble) (bundlesOf refreshedBundleMarble).

(** A REST server that holds the THUMBNAIL bundle of the item with its
    two bitstreams, answers the lookup of a bundle after 2 turns and a
    request for bitstreams after 3, and returns collections as they
    are; its bitstreams have no relations. *)
Definition rest : RestServer :=
  mkRestServer
    {[ "bitstreams" := "/api/core/bitstreams" ]}
    {[ ("item-1", "THUMBNAIL") :=
         mkBundleLinks (mkHALLink "/api/core/bundles/7/bitstreams") ]}
    {[ "/api/core/bundles/7/bitstreams" := [cover; paper] ]}
    (λ _ _ l, l) 20 (λ _ _, 2) (λ _ _, 3)
    (λ bitstream,
       unrelated BITSTREAM ("/api/core/bitstreams/" +:+ bitstream_uuid bitstream))
    ∅ (λ _, 0).

(** The same server, whose bitstreams link to their format, which the
    server sends after 4 turns; the same, which does not have the
    format; the types of the relations. *)
Definition withFormat (bitstream : Bitstream) : Representation :=
  mkRepresentation BITSTREAM
    ("/api/core/bitstreams/" +:+ bitstream_uuid bitstream)
    {[ "format" := "/api/core/bitstreamformats/3" ]} ∅.
Definition jpeg : Representation :=
  unrelated (mkResourceType "bitstreamformat") "/api/core/bitstreamformats/3".
Definition linkedRest : RestServer :=
  mkRestServer (endpoints rest) (bundleOf rest) (collectionAt rest)
    (arrange rest) (defaultPageSize rest) (bundleTime rest)
    (collectionTime rest) withFormat
    {[ "/api/core/bitstreamformats/3" := jpeg ]} (λ _, 4).
Definition brokenRest : RestServer :=
  mkRestServer (endpoints rest) (bundleOf rest) (collectionAt rest)
    (arrange rest) (defaultPageSize rest) (bundleTime rest)
    (collectionTime rest) withFormat ∅ (λ _, 4).
Definition linkType (relationName : string) : ResourceType :=
  if decide (relationName = "format") then mkResourceType "bitstreamformat"
  else mkResourceType relationName.
End Sample.

(** ** The sample services keep the promises *)

(** A bundle service of cold marbles keeps its promises when its marble
    is well formed, carries no error, and delivers well-formed wrappers. *)
Lemma bundlesOf_ok (m : Marble (RemoteData Bundle)) :
  marble_wf 0 m = true → errors m = [] →
  Forall (λ rd, rd_wf rd = true) (values m) →
  BundleDataServiceOk (Sample.bundlesOf m).
Proof.
  intros Hwf Herr Hrd. split; intros item bundleName; simpl.
  - by apply cold_wf.
  - intros t. by rewrite errors_cold.
  - by apply cold_delivers.
Qed.

Lemma pagesOf_ok (m : string → Marble (RemoteData (PaginatedList Bitstream))) :
  (∀ href, marble_wf 0 (m href) = true) → (∀ href, errors (m href) = []) →
  (∀ href, Forall (λ rd, rd_wf rd = true) (values (m href))) →
  DataServiceOk (Sample.pagesOf m).
Proof.
  intros Hwf Herr Hrd. split; intros href options links; simpl.
  - by apply cold_wf.
  - intros t. by rewrite errors_cold.
  - by apply cold_delivers.
Qed.

#[export] Instance rest_ok : RestServerOk Sample.rest.
Proof. by split. Qed.

#[export] Instance linkedRest_ok : RestServerOk Sample.linkedRest.
Proof. by split. Qed.

#[export] Instance brokenRest_ok : RestServerOk Sample.brokenRest.
Proof. by split. Qed.

#[export] Instance server_pages_ok : DataServiceOk (Sample.pagesOf Sample.pageMarble).
Proof. apply pagesOf_ok; intros href; [done | done | by repeat constructor]. Qed.

#[export] Instance server_bundles_ok :
  BundleDataServiceOk (Sample.bundlesOf Sample.bundleMarble).
Proof. apply bundlesOf_ok; [done | done | by repeat constructor]. Qed.

#[export] Instance emptyServer_bundles_ok :
  BundleDataServiceOk (Sample.bundlesOf Sample.emptyBundleMarble).
Proof. apply bundlesOf_ok; [done | done | by repeat constructor]. Qed.

#[export] Instance refreshingServer_bundles_ok :
  BundleDataServiceOk (Sample.bundlesOf Sample.refreshedBundleMarble).
Proof. apply bundlesOf_ok; [done | done | by repeat constructor]. Qed.
