(* ===== verification/Snapshots.v ===== *)
(** * The callbacks, one snapshot at a time

    Each callback of the service is a function of one [RemoteData]
    snapshot.  [Spec] says what each of them computes, as a total
    function by cases on what the snapshot carries; the equations of the
    section [Equations] relate the guarded code to it; the theorems state
    what follows: the result on every branch, that no callback throws
    where its guard holds, which wrappers are well formed and well typed
    on the way out, and what the search for the matching thumbnail
    finds. *)

From S2P Require Import Prelude EmptyUtil RemoteData Observable SwitchMap Models.
From S2P Require Import Collaborators BitstreamDataService Samples.

Local Open Scope string_scope.

(** The page of a snapshot, when the snapshot has a payload and the
    payload a page. *)
Definition pageOfRD {T : Type} (rd : RemoteData (PaginatedList T))
    : option (list T) :=
  payload rd ≫= page.

(** ** The specification of the callbacks *)

Module Spec.
(** The thumbnail of a page snapshot: a success with the first element of
    the page when there is a page, the snapshot itself otherwise. *)
Definition thumbnailOf (bitstreamRD : RemoteData (PaginatedList Bitstream))
    : RemoteData Any :=
  match pageOfRD bitstreamRD with
  | Some pg => mkRemoteData false false true None (AnyBitstream <$> head pg)
  | None => rd_cast AnyPaginatedList bitstreamRD
  end.

(** The thumbnail that matches an original: a success with the first
    element of the page whose name extends the name of the original, a
    404 when the page has none, the snapshot itself when there is no
    page. *)
Definition matchingThumbnailOf (original : Bitstream)
    (bitstreamRD : RemoteData (PaginatedList Bitstream)) : RemoteData Any :=
  match pageOfRD bitstreamRD with
  | Some pg =>
      match find (λ x, String.prefix (name original) (name x)) pg with
      | Some x => mkRemoteData false false true None (Some (AnyBitstream x))
      | None =>
          mkRemoteData false false false
            (Some (mkRemoteDataError 404 "404" "No matching thumbnail found"))
            None
      end
  | None => rd_cast AnyPaginatedList bitstreamRD
  end.

(** The stream for one snapshot of a bundle: the request for the
    bitstreams behind its link, passed through [answer], when the
    snapshot carries a bundle with links; the snapshot itself, once,
    otherwise. *)
Definition bitstreamsOf (this : BitstreamDataService)
    (options : option FindListOptions) (linksToFollow : list FollowLinkConfig)
    (answer : Observable (RemoteData (PaginatedList Bitstream)) →
              Observable (RemoteData Any))
    (bundleRD : RemoteData Bundle) : Observable (RemoteData Any) :=
  match payload bundleRD ≫= _links with
  | Some links =>
      answer (findAllByHref this.(dataService) (href (bitstreams links))
                options linksToFollow)
  | None => ofArray [rd_cast AnyBundle bundleRD]
  end.
End Spec.

(** ** The equations of the callbacks *)

Section Equations.
Context (this : BitstreamDataService).
Implicit Types (bitstreamRD : RemoteData (PaginatedList Bitstream)).
Implicit Types (bundleRD : RemoteData Bundle) (bundle : option Bundle).
Implicit Types (options : option FindListOptions).
Implicit Types (linksToFollow : list FollowLinkConfig).

(** The guard shared by the two callbacks of [map], and the read it
    protects. *)
Lemma page_guard_Some (rd : RemoteData (PaginatedList Bitstream)) pg :
  pageOfRD rd = Some pg →
  hasPage rd = true ∧ prop "page" page (payload rd) = returns (Some pg).
Proof.
  unfold pageOfRD, hasPage. destruct (payload rd) as [pl|]; simpl; [|done].
  by intros ->.
Qed.

Lemma page_guard_None (rd : RemoteData (PaginatedList Bitstream)) :
  pageOfRD rd = None → hasPage rd = false.
Proof.
  unfold pageOfRD, hasPage. destruct (payload rd) as [pl|]; simpl; [|done].
  by intros ->.
Qed.

Lemma getThumbnailFor_map_eq bitstreamRD :
  getThumbnailFor_map bitstreamRD = returns (Spec.thumbnailOf bitstreamRD).
Proof.
  unfold getThumbnailFor_map, Spec.thumbnailOf.
  destruct (pageOfRD bitstreamRD) as [pg|] eqn:Hpg.
  - destruct (page_guard_Some _ _ Hpg) as [-> ->]. simpl.
    by rewrite head_lookup.
  - by rewrite (page_guard_None _ Hpg).
Qed.

Lemma getMatchingThumbnail_map_eq bitstreamInOriginal bitstreamRD :
  getMatchingThumbnail_map bitstreamInOriginal bitstreamRD =
    returns (Spec.matchingThumbnailOf bitstreamInOriginal bitstreamRD).
Proof.
  unfold getMatchingThumbnail_map, Spec.matchingThumbnailOf.
  destruct (pageOfRD bitstreamRD) as [pg|] eqn:Hpg.
  - destruct (page_guard_Some _ _ Hpg) as [-> ->]. simpl.
    unfold isMatchingThumbnail. by destruct (find _ pg).
  - by rewrite (page_guard_None _ Hpg).
Qed.

(** [findAllByBundle] returns on a bundle with links, and throws on
    anything else. *)
Lemma findAllByBundle_links bundle links options linksToFollow :
  bundle ≫= _links = Some links →
  findAllByBundle this bundle options linksToFollow =
    returns (findAllByHref this.(dataService) (href (bitstreams links))
               options linksToFollow).
Proof. destruct bundle as [[|nm l]|]; simpl; [done | | done]. by intros [= ->]. Qed.

Lemma findAllByBundle_no_links bundle options linksToFollow :
  bundle ≫= _links = None →
  isThrow (findAllByBundle this bundle options linksToFollow) = true.
Proof. by destruct bundle as [[|nm l]|]. Qed.

(** [isNotEmpty] holds of a bundle exactly when it has links. *)
Lemma isNotEmpty_links bundle :
  isNotEmpty bundle = hasValue (bundle ≫= _links).
Proof. by destruct bundle as [[|nm l]|]. Qed.

(** A projection guarded by [isNotEmpty] is the specification. *)
Lemma guarded_request_eq options linksToFollow answer bundleRD :
  (if isNotEmpty (payload bundleRD) then
     (bitstreams <-! findAllByBundle this (payload bundleRD) options linksToFollow ;
      returns (answer bitstreams))%js
   else returns (ofArray [rd_cast AnyBundle bundleRD])) =
  returns (Spec.bitstreamsOf this options linksToFollow answer bundleRD).
Proof.
  rewrite isNotEmpty_links. unfold Spec.bitstreamsOf.
  destruct (payload bundleRD ≫= _links) as [links|] eqn:Hl; simpl; [|done].
  by rewrite (findAllByBundle_links _ _ _ _ Hl).
Qed.

Lemma getThumbnailFor_switchMap_eq bundleRD :
  getThumbnailFor_switchMap this bundleRD =
    returns (Spec.bitstreamsOf this (Some firstElementOnly) []
               (rxMap getThumbnailFor_map) bundleRD).
Proof. apply guarded_request_eq. Qed.

Lemma getMatchingThumbnail_switchMap_eq bitstreamInOriginal bundleRD :
  getMatchingThumbnail_switchMap this bitstreamInOriginal bundleRD =
    returns (Spec.bitstreamsOf this (Some allElements) []
               (rxMap (getMatchingThumbnail_map bitstreamInOriginal)) bundleRD).
Proof. apply guarded_request_eq. Qed.

(** The projection guarded by [hasValue] is the specification, except on
    the empty object, where it throws. *)
Lemma findAllByItemAndBundleName_switchMap_eq options linksToFollow bundleRD :
  payload bundleRD ≠ Some EmptyBundle →
  findAllByItemAndBundleName_switchMap this options linksToFollow bundleRD =
    returns (Spec.bitstreamsOf this options linksToFollow
               (castObservable (rd_cast AnyPaginatedList)) bundleRD).
Proof.
  unfold findAllByItemAndBundleName_switchMap, Spec.bitstreamsOf.
  by destruct (payload bundleRD) as [[|nm l]|].
Qed.

Lemma findAllByItemAndBundleName_switchMap_empty options linksToFollow bundleRD :
  payload bundleRD = Some EmptyBundle →
  isThrow (findAllByItemAndBundleName_switchMap this options linksToFollow bundleRD)
    = true.
Proof.
  unfold findAllByItemAndBundleName_switchMap. by intros ->.
Qed.
End Equations.

(** ** Facts on the specification *)

Section SpecFacts.
Implicit Types (bitstreamRD : RemoteData (PaginatedList Bitstream)).

Lemma thumbnailOf_rd_wf bitstreamRD :
  rd_wf bitstreamRD = true → rd_wf (Spec.thumbnailOf bitstreamRD) = true.
Proof.
  unfold Spec.thumbnailOf. destruct (pageOfRD bitstreamRD); [done|].
  by rewrite rd_wf_cast.
Qed.

Lemma matchingThumbnailOf_rd_wf original bitstreamRD :
  rd_wf bitstreamRD = true →
  rd_wf (Spec.matchingThumbnailOf original bitstreamRD) = true.
Proof.
  unfold Spec.matchingThumbnailOf.
  destruct (pageOfRD bitstreamRD) as [pg|]; [by destruct (find _ pg)|].
  by rewrite rd_wf_cast.
Qed.

(** The search settles with the first match of the page. *)
Lemma matchingThumbnailOf_first original bitstreamRD l1 x l2 :
  pageOfRD bitstreamRD = Some (l1 ++ x :: l2)%list →
  isMatchingThumbnail original x = true →
  Forall (λ y, isMatchingThumbnail original y = false) l1 →
  Spec.matchingThumbnailOf original bitstreamRD =
    mkRemoteData false false true None (Some (AnyBitstream x)).
Proof.
  intros Hpg Hx Hl1. unfold Spec.matchingThumbnailOf. rewrite Hpg.
  assert (find (isMatchingThumbnail original) (l1 ++ x :: l2)%list = Some x)
    as Hfind by (apply find_some_first; by exists l1, l2).
  unfold isMatchingThumbnail in Hfind. by rewrite Hfind.
Qed.

Lemma thumbnailOf_typed bitstreamRD :
  rd_typed isBitstream (Spec.thumbnailOf bitstreamRD) = true ↔
  payload bitstreamRD = None ∨ is_Some (pageOfRD bitstreamRD).
Proof.
  unfold Spec.thumbnailOf, rd_typed.
  destruct (pageOfRD bitstreamRD) as [pg|] eqn:Hpg; simpl.
  - split; [by right | by destruct (head pg)].
  - destruct (payload bitstreamRD); simpl;
      (split; [by (done || left) | by (done || intros [?|[]])]).
Qed.
End SpecFacts.

(** ** [getThumbnailFor]: the callback of [map] *)

Section GetThumbnailForMap.
Implicit Types bitstreamRD : RemoteData (PaginatedList Bitstream).

(** C8: on a snapshot that carries a page, the callback returns a
    settled, successful wrapper without error whose payload is the first
    element of the page ([undefined] when the page is empty). *)
Theorem getThumbnailFor_map_first bitstreamRD pg :
  pageOfRD bitstreamRD = Some pg →
  getThumbnailFor_map bitstreamRD =
    returns (mkRemoteData false false true None (AnyBitstream <$> head pg)).
Proof.
  intros Hpg. rewrite getThumbnailFor_map_eq. unfold Spec.thumbnailOf.
  by rewrite Hpg.
Qed.

(** On a snapshot without payload, or whose payload has no page, the
    callback returns the snapshot itself, unchanged but for the type it
    is declared at. *)
Theorem getThumbnailFor_map_mirror bitstreamRD :
  pageOfRD bitstreamRD = None →
  getThumbnailFor_map bitstreamRD =
    returns (rd_cast AnyPaginatedList bitstreamRD).
Proof.
  intros Hpg. rewrite getThumbnailFor_map_eq. unfold Spec.thumbnailOf.
  by rewrite Hpg.
Qed.

(** The callback never throws: its guard covers every property it
    reads. *)
Theorem getThumbnailFor_map_total bitstreamRD :
  isThrow (getThumbnailFor_map bitstreamRD) = false.
Proof. by rewrite getThumbnailFor_map_eq. Qed.

(** The callback keeps wrappers well formed: a well-formed snapshot
    comes out as a wrapper that encodes one state of the lifecycle. *)
Theorem getThumbnailFor_map_rd_wf bitstreamRD rd :
  rd_wf bitstreamRD = true → getThumbnailFor_map bitstreamRD = returns rd →
  rd_wf rd = true.
Proof.
  intros Hwf. rewrite getThumbnailFor_map_eq. intros [= <-].
  by apply thumbnailOf_rd_wf.
Qed.

(** C40: the wrapper that comes out has the declared payload type
    [Bitstream] exactly when the snapshot has no payload or has a page: a
    payload without page leaves as a paginated list under the type
    [RemoteData<Bitstream>]. *)
Theorem getThumbnailFor_map_typed bitstreamRD rd :
  getThumbnailFor_map bitstreamRD = returns rd →
  rd_typed isBitstream rd = true ↔
  payload bitstreamRD = None ∨ is_Some (pageOfRD bitstreamRD).
Proof.
  rewrite getThumbnailFor_map_eq. intros [= <-]. apply thumbnailOf_typed.
Qed.
End GetThumbnailForMap.

(** ** [getMatchingThumbnail]: the predicate and the callback of [map] *)

Section GetMatchingThumbnailMap.
Implicit Types bitstreamRD : RemoteData (PaginatedList Bitstream).
Implicit Types bitstreamInOriginal thumbnail : Bitstream.

(** A thumbnail matches exactly when its name is the name of the
    original followed by some suffix. *)
Theorem isMatchingThumbnail_iff bitstreamInOriginal thumbnail :
  isMatchingThumbnail bitstreamInOriginal thumbnail = true ↔
  ∃ suffix, name thumbnail = (name bitstreamInOriginal ++ suffix)%string.
Proof. apply prefix_iff_app. Qed.

(** C6: on a snapshot with a page, the callback returns a success whose
    payload is the first bitstream of the page, in the order of the
    server, whose name starts with the name of the original. *)
Theorem getMatchingThumbnail_map_found bitstreamInOriginal bitstreamRD l1 x l2 :
  pageOfRD bitstreamRD = Some (l1 ++ x :: l2)%list →
  isMatchingThumbnail bitstreamInOriginal x = true →
  Forall (λ y, isMatchingThumbnail bitstreamInOriginal y = false) l1 →
  getMatchingThumbnail_map bitstreamInOriginal bitstreamRD =
    returns (mkRemoteData false false true None (Some (AnyBitstream x))).
Proof.
  intros Hpg Hx Hl1. rewrite getMatchingThumbnail_map_eq.
  by rewrite (matchingThumbnailOf_first _ _ _ _ _ Hpg Hx Hl1).
Qed.

(** C38: the search by prefix can take the thumbnail of another
    bitstream: when the name of the original is a prefix of the name of
    another bitstream, and the thumbnail of that other bitstream (its
    name followed by ".jpg") is the first match on the page, the callback
    returns it as the thumbnail of the original, whatever follows on the
    page, the thumbnail named after the original included. *)
Theorem getMatchingThumbnail_map_clash
    bitstreamInOriginal other bitstreamRD l1 x l2 :
  pageOfRD bitstreamRD = Some (l1 ++ x :: l2)%list →
  Forall (λ y, isMatchingThumbnail bitstreamInOriginal y = false) l1 →
  String.prefix (name bitstreamInOriginal) (name other) = true →
  name x = (name other ++ ".jpg")%string →
  getMatchingThumbnail_map bitstreamInOriginal bitstreamRD =
    returns (mkRemoteData false false true None (Some (AnyBitstream x))).
Proof.
  intros Hpg Hl1 Hother Hx. rewrite getMatchingThumbnail_map_eq.
  rewrite (matchingThumbnailOf_first _ _ _ _ _ Hpg); [done| |done].
  unfold isMatchingThumbnail. rewrite Hx.
  eapply prefix_trans; [done | apply prefix_app].
Qed.

(** C7: on a snapshot with a page none of whose bitstreams matches, the
    callback returns the settled failure with status code 404, status
    text "404" and message "No matching thumbnail found". *)
Theorem getMatchingThumbnail_map_not_found bitstreamInOriginal bitstreamRD pg :
  pageOfRD bitstreamRD = Some pg →
  Forall (λ y, isMatchingThumbnail bitstreamInOriginal y = false) pg →
  getMatchingThumbnail_map bitstreamInOriginal bitstreamRD =
    returns (mkRemoteData false false false
               (Some (mkRemoteDataError 404 "404" "No matching thumbnail found"))
               None).
Proof.
  intros Hpg Hnone. rewrite getMatchingThumbnail_map_eq.
  unfold Spec.matchingThumbnailOf. rewrite Hpg.
  apply find_none_iff in Hnone. unfold isMatchingThumbnail in Hnone.
  by rewrite Hnone.
Qed.

(** The callback never throws. *)
Theorem getMatchingThumbnail_map_total bitstreamInOriginal bitstreamRD :
  isThrow (getMatchingThumbnail_map bitstreamInOriginal bitstreamRD) = false.
Proof. by rewrite getMatchingThumbnail_map_eq. Qed.

(** A bitstream that comes out as the matching thumbnail belongs to
    the page of the snapshot and its name starts with the name of the
    original. *)
Theorem getMatchingThumbnail_map_sound bitstreamInOriginal bitstreamRD rd x :
  getMatchingThumbnail_map bitstreamInOriginal bitstreamRD = returns rd →
  payload rd = Some (AnyBitstream x) →
  isMatchingThumbnail bitstreamInOriginal x = true ∧
  ∃ pg, pageOfRD bitstreamRD = Some pg ∧ x ∈ pg.
Proof.
  rewrite getMatchingThumbnail_map_eq. unfold Spec.matchingThumbnailOf.
  destruct (pageOfRD bitstreamRD) as [pg|] eqn:Hpg.
  - destruct (find _ pg) as [y|] eqn:Hfind; intros [= <-]; [|done].
    intros [= ->]. apply find_some in Hfind as [Hin Hx].
    split; [done|]. exists pg. by rewrite list_elem_of_In.
  - intros [= <-]. simpl. by destruct (payload bitstreamRD).
Qed.

(** The callback keeps wrappers well formed. *)
Theorem getMatchingThumbnail_map_rd_wf bitstreamInOriginal bitstreamRD rd :
  rd_wf bitstreamRD = true →
  getMatchingThumbnail_map bitstreamInOriginal bitstreamRD = returns rd →
  rd_wf rd = true.
Proof.
  intros Hwf. rewrite getMatchingThumbnail_map_eq. intros [= <-].
  by apply matchingThumbnailOf_rd_wf.
Qed.
End GetMatchingThumbnailMap.

(** ** [findAllByBundle] and the callbacks of [switchMap] *)

Section SwitchMapCallbacks.
Context (this : BitstreamDataService).
Implicit Types (bundleRD : RemoteData Bundle) (bundle : option Bundle).
Implicit Types (options : option FindListOptions).
Implicit Types (linksToFollow : list FollowLinkConfig).

(** [findAllByBundle] throws exactly on the values that [isNotEmpty]
    rejects: [undefined] and the empty object. *)
Theorem findAllByBundle_throws bundle options linksToFollow :
  isThrow (findAllByBundle this bundle options linksToFollow) = isEmpty bundle.
Proof. by destruct bundle as [[|nm l]|]. Qed.

(** On a snapshot with a bundle that has links, the projection of
    [getThumbnailFor] asks for the bitstreams of the bundle, one element
    per page, follows no link, and maps the answer through the callback
    of [map]. *)
Theorem getThumbnailFor_switchMap_request bundleRD links :
  payload bundleRD ≫= _links = Some links →
  getThumbnailFor_switchMap this bundleRD =
    returns (rxMap getThumbnailFor_map
               (findAllByHref this.(dataService) (href (bitstreams links))
                  (Some (mkFindListOptions (Some 1%Z) None None [])) [])).
Proof.
  intros Hl. rewrite getThumbnailFor_switchMap_eq. unfold Spec.bitstreamsOf.
  by rewrite Hl.
Qed.

(** C39: on a snapshot without bundle, or with the empty object for a
    bundle, the projection of [getThumbnailFor] makes no request: it
    emits the snapshot itself, once, and completes. *)
Theorem getThumbnailFor_switchMap_mirror bundleRD t :
  isNotEmpty (payload bundleRD) = false →
  ∃ o, getThumbnailFor_switchMap this bundleRD = returns o ∧
       o t = [(t, Next (rd_cast AnyBundle bundleRD)); (t, Complete)].
Proof.
  intros Hg. rewrite getThumbnailFor_switchMap_eq. eexists. split; [done|].
  unfold Spec.bitstreamsOf. rewrite isNotEmpty_links in Hg.
  by destruct (payload bundleRD ≫= _links).
Qed.

(** The projection of [getThumbnailFor] never throws: [isNotEmpty]
    guards every read of [findAllByBundle]. *)
Theorem getThumbnailFor_switchMap_total bundleRD :
  isThrow (getThumbnailFor_switchMap this bundleRD) = false.
Proof. by rewrite getThumbnailFor_switchMap_eq. Qed.

(** On a snapshot with a bundle that has links, the projection of
    [getMatchingThumbnail] asks for the bitstreams of the bundle in one
    page of [Number.MAX_SAFE_INTEGER] = 2^53 - 1 elements. *)
Theorem getMatchingThumbnail_switchMap_request bitstreamInOriginal bundleRD links :
  payload bundleRD ≫= _links = Some links →
  getMatchingThumbnail_switchMap this bitstreamInOriginal bundleRD =
    returns (rxMap (getMatchingThumbnail_map bitstreamInOriginal)
               (findAllByHref this.(dataService) (href (bitstreams links))
                  (Some (mkFindListOptions (Some (2 ^ 53 - 1)%Z) None None []))
                  [])).
Proof.
  intros Hl. rewrite getMatchingThumbnail_switchMap_eq.
  unfold Spec.bitstreamsOf. by rewrite Hl.
Qed.

(** The projection of [getMatchingThumbnail] never throws. *)
Theorem getMatchingThumbnail_switchMap_total bitstreamInOriginal bundleRD :
  isThrow (getMatchingThumbnail_switchMap this bitstreamInOriginal bundleRD) = false.
Proof. by rewrite getMatchingThumbnail_switchMap_eq. Qed.

(** On a snapshot with a bundle that has links, the projection of
    [findAllByItemAndBundleName] passes the caller's options and links to
    follow on to [findAllByHref] and returns the answer as it is. *)
Theorem findAllByItemAndBundleName_switchMap_request
    options linksToFollow bundleRD links :
  payload bundleRD ≫= _links = Some links →
  findAllByItemAndBundleName_switchMap this options linksToFollow bundleRD =
    returns (castObservable (rd_cast AnyPaginatedList)
               (findAllByHref this.(dataService) (href (bitstreams links))
                  options linksToFollow)).
Proof.
  intros Hl. rewrite findAllByItemAndBundleName_switchMap_eq.
  - unfold Spec.bitstreamsOf. by rewrite Hl.
  - intros Hpl. by rewrite Hpl in Hl.
Qed.

(** The projection of [findAllByItemAndBundleName], guarded by
    [hasValue] only, throws exactly on the snapshots whose payload is the
    empty object. *)
Theorem findAllByItemAndBundleName_switchMap_throws
    options linksToFollow bundleRD :
  isThrow (findAllByItemAndBundleName_switchMap this options linksToFollow bundleRD)
    = true ↔
  payload bundleRD = Some EmptyBundle.
Proof.
  split; [|apply findAllByItemAndBundleName_switchMap_empty].
  intros Hthrow. destruct (decide (payload bundleRD = Some EmptyBundle)); [done|].
  by rewrite findAllByItemAndBundleName_switchMap_eq in Hthrow.
Qed.
End SwitchMapCallbacks.

#[export] Hint Resolve getThumbnailFor_map_eq getMatchingThumbnail_map_eq
  getThumbnailFor_switchMap_total getMatchingThumbnail_switchMap_total : bds.

(** ** Witnesses *)

Lemma getThumbnailFor_map_first_witness :
  getThumbnailFor_map (Sample.successRD (Sample.pageOf [Sample.cover; Sample.paper])) =
    returns (Sample.successRD (AnyBitstream Sample.cover)).
Proof.
  by apply (getThumbnailFor_map_first
              (Sample.successRD (Sample.pageOf [Sample.cover; Sample.paper]))
              [Sample.cover; Sample.paper]).
Defined.

Lemma getThumbnailFor_map_mirror_witness :
  getThumbnailFor_map Sample.pendingRD = returns Sample.pendingRD.
Proof. exact (getThumbnailFor_map_mirror Sample.pendingRD eq_refl). Defined.

Lemma getThumbnailFor_map_rd_wf_witness :
  rd_wf (Sample.successRD (AnyBitstream Sample.cover)) = true.
Proof.
  by apply (getThumbnailFor_map_rd_wf
              (Sample.successRD (Sample.pageOf [Sample.cover]))).
Defined.

Lemma getThumbnailFor_map_typed_witness :
  rd_typed isBitstream (rd_cast AnyPaginatedList (Sample.successRD Sample.noPage))
    = true ↔
  payload (Sample.successRD Sample.noPage) = None ∨
  is_Some (pageOfRD (Sample.successRD Sample.noPage)).
Proof.
  by apply (getThumbnailFor_map_typed (Sample.successRD Sample.noPage)).
Defined.

Lemma getMatchingThumbnail_map_found_witness :
  getMatchingThumbnail_map Sample.original
    (Sample.successRD (Sample.pageOf [Sample.cover; Sample.paper])) =
    returns (Sample.successRD (AnyBitstream Sample.paper)).
Proof.
  apply (getMatchingThumbnail_map_found Sample.original _ [Sample.cover]
           Sample.paper []); [done | done | by repeat constructor].
Defined.

Lemma getMatchingThumbnail_map_clash_witness :
  getMatchingThumbnail_map Sample.original
    (Sample.successRD
       (Sample.pageOf [Sample.cover; mkBitstream "b-4" "paper.pdf.txt.jpg";
                       Sample.paper])) =
    returns (Sample.successRD (AnyBitstream (mkBitstream "b-4" "paper.pdf.txt.jpg"))).
Proof.
  apply (getMatchingThumbnail_map_clash Sample.original
           (mkBitstream "b-3" "paper.pdf.txt") _ [Sample.cover]
           (mkBitstream "b-4" "paper.pdf.txt.jpg") [Sample.paper]);
    [done | by repeat constructor | done | done].
Defined.

Lemma getMatchingThumbnail_map_not_found_witness :
  getMatchingThumbnail_map Sample.original
    (Sample.successRD (Sample.pageOf [Sample.cover])) =
    returns (Sample.failedRD 404 "404" "No matching thumbnail found").
Proof.
  apply (getMatchingThumbnail_map_not_found Sample.original _ [Sample.cover]);
    [done | by repeat constructor].
Defined.

Lemma getMatchingThumbnail_map_sound_witness :
  isMatchingThumbnail Sample.original Sample.paper = true ∧
  ∃ pg, pageOfRD (Sample.successRD (Sample.pageOf [Sample.cover; Sample.paper]))
          = Some pg ∧ Sample.paper ∈ pg.
Proof.
  by apply (getMatchingThumbnail_map_sound Sample.original
              (Sample.successRD (Sample.pageOf [Sample.cover; Sample.paper]))
              (Sample.successRD (AnyBitstream Sample.paper))).
Defined.

Lemma getMatchingThumbnail_map_rd_wf_witness :
  rd_wf (Sample.failedRD (T:=Any) 404 "404" "No matching thumbnail found") = true.
Proof.
  by apply (getMatchingThumbnail_map_rd_wf Sample.original
              (Sample.successRD (Sample.pageOf [Sample.cover]))).
Defined.

Lemma getThumbnailFor_switchMap_request_witness :
  getThumbnailFor_switchMap Sample.server (Sample.successRD Sample.thumbnails) =
    returns (rxMap getThumbnailFor_map
               (findAllByHref Sample.server.(dataService)
                  "/api/core/bundles/7/bitstreams"
                  (Some (mkFindListOptions (Some 1%Z) None None [])) [])).
Proof.
  by apply (getThumbnailFor_switchMap_request Sample.server
              (Sample.successRD Sample.thumbnails)
              (mkBundleLinks (mkHALLink "/api/core/bundles/7/bitstreams"))).
Defined.

Lemma getThumbnailFor_switchMap_mirror_witness :
  ∃ o, getThumbnailFor_switchMap Sample.server (Sample.successRD EmptyBundle) =
         returns o ∧
       o 5 = [(5, Next (Sample.successRD (AnyBundle EmptyBundle))); (5, Complete)].
Proof.
  by apply (getThumbnailFor_switchMap_mirror Sample.server
              (Sample.successRD EmptyBundle) 5).
Defined.

Lemma getMatchingThumbnail_switchMap_request_witness :
  getMatchingThumbnail_switchMap Sample.server Sample.original
    (Sample.successRD Sample.thumbnails) =
    returns (rxMap (getMatchingThumbnail_map Sample.original)
               (findAllByHref Sample.server.(dataService)
                  "/api/core/bundles/7/bitstreams"
                  (Some (mkFindListOptions (Some 9007199254740991%Z) None None []))
                  [])).
Proof.
  by apply (getMatchingThumbnail_switchMap_request Sample.server Sample.original
              (Sample.successRD Sample.thumbnails)
              (mkBundleLinks (mkHALLink "/api/core/bundles/7/bitstreams"))).
Defined.

Lemma findAllByItemAndBundleName_switchMap_request_witness :
  findAllByItemAndBundleName_switchMap Sample.server None []
    (Sample.successRD Sample.thumbnails) =
    returns (castObservable (rd_cast AnyPaginatedList)
               (findAllByHref Sample.server.(dataService)
                  "/api/core/bundles/7/bitstreams" None [])).
Proof.
  by apply (findAllByItemAndBundleName_switchMap_request Sample.server None []
              (Sample.successRD Sample.thumbnails)
              (mkBundleLinks (mkHALLink "/api/core/bundles/7/bitstreams"))).
Defined.
