(* ===== verification/Streams.v ===== *)
(** * The operations, as marbles

    What a subscriber of [getThumbnailFor], [getMatchingThumbnail] and
    [findAllByItemAndBundleName] receives, in terms of what the bundle
    service and [findAllByHref] send.  [Reference] is the specification
    of the three operations: one [switchMap] over the snapshots of the
    bundle whose projection is the total function [Spec.bitstreamsOf].
    The sections [Requests] and [Mapped] prove, once for every
    projection that follows the specification, what the theorems then
    state of each operation: it is its reference, as observables; its
    wrappers, with their times and in order, are the windows of the
    answers to the snapshots of the bundle ([heardOf]); it delivers
    exactly the answers to the snapshots of the bundle that have not
    been superseded; the sequence of wrappers of the usual run; the
    scenarios of the specification; when a subscription completes; that
    marbles stay well formed and wrappers well formed and well typed;
    where errors come from.  The theorems that rely on the promises of
    the collaborators take them as instances of the classes of
    [Collaborators]. *)

From S2P Require Import Prelude EmptyUtil RemoteData Observable SwitchMap.
From S2P Require Import Switching Completion Sequence Windows Models.
From S2P Require Import Collaborators BitstreamDataService Samples Snapshots.

Local Open Scope string_scope.

(** The snapshot of the bundle comes out as it is, when it arrives. *)
Definition mirrored (bundleRD : RemoteData Bundle) (t u : Time)
    (rd : RemoteData Any) : Prop :=
  u = t ∧ rd = rd_cast AnyBundle bundleRD.

(** A projection that, where it returns, returns what the specification
    says. *)
Definition projects_to (this : BitstreamDataService)
    (options : option FindListOptions) (linksToFollow : list FollowLinkConfig)
    (answer : Observable (RemoteData (PaginatedList Bitstream)) →
              Observable (RemoteData Any))
    (project : RemoteData Bundle → Throws (Observable (RemoteData Any)))
    : Prop :=
  ∀ bundleRD o, project bundleRD = returns o →
    o = Spec.bitstreamsOf this options linksToFollow answer bundleRD.

(** The values of an operation, with their times and in order: for
    every snapshot of the bundle in turn, what the stream that the
    specification gives for it sends while the snapshot is the latest. *)
Definition heardOf (this : BitstreamDataService)
    (options : option FindListOptions) (linksToFollow : list FollowLinkConfig)
    (answer : Observable (RemoteData (PaginatedList Bitstream)) →
              Observable (RemoteData Any))
    (bundles : Marble (RemoteData Bundle)) : list (Time * RemoteData Any) :=
  windows
    (λ bundleRD,
       returns (Spec.bitstreamsOf this options linksToFollow answer bundleRD))
    bundles.

(** ** The specification of the operations *)

Module Reference.
(** Switch, on every snapshot of the bundle, to the stream the
    specification gives for it. *)
Definition request (this : BitstreamDataService)
    (options : option FindListOptions) (linksToFollow : list FollowLinkConfig)
    (answer : Observable (RemoteData (PaginatedList Bitstream)) →
              Observable (RemoteData Any))
    (bundles : Observable (RemoteData Bundle)) : Observable (RemoteData Any) :=
  switchMap
    (λ bundleRD,
       returns (Spec.bitstreamsOf this options linksToFollow answer bundleRD))
    bundles.

Definition thumbnailFor (this : BitstreamDataService) (item : Item)
    : Observable (RemoteData Any) :=
  request this (Some firstElementOnly) []
    (rxMap (λ rd, returns (Spec.thumbnailOf rd)))
    (findByItemAndName this.(bundleService) item "THUMBNAIL").

Definition matchingThumbnail (this : BitstreamDataService) (item : Item)
    (original : Bitstream) : Observable (RemoteData Any) :=
  request this (Some allElements) []
    (rxMap (λ rd, returns (Spec.matchingThumbnailOf original rd)))
    (findByItemAndName this.(bundleService) item "THUMBNAIL").

Definition allByItemAndBundleName (this : BitstreamDataService) (item : Item)
    (bundleName : string) (options : option FindListOptions)
    (linksToFollow : list FollowLinkConfig) : Observable (RemoteData Any) :=
  request this options linksToFollow (castObservable (rd_cast AnyPaginatedList))
    (findByItemAndName this.(bundleService) item bundleName).
End Reference.

(** ** A [switchMap] whose projection follows the specification *)

Section Requests.
Context (this : BitstreamDataService).
Context (options : option FindListOptions).
Context (linksToFollow : list FollowLinkConfig).
Context (answer : Observable (RemoteData (PaginatedList Bitstream)) →
                  Observable (RemoteData Any)).
Context (project : RemoteData Bundle → Throws (Observable (RemoteData Any))).
Context (Hproject : projects_to this options linksToFollow answer project).
Context (outer : Observable (RemoteData Bundle)).
Implicit Types (t u : Time) (rd : RemoteData Any).

(** A value of the output is a snapshot of the bundle without links,
    mirrored, or a value of the answer to the request for the links of a
    snapshot. *)
Lemma requests_Next t0 u rd :
  (u, Next rd) ∈ switchMap project outer t0 →
  ∃ t bundleRD,
    (t, Next bundleRD) ∈ outer t0 ∧ isThrow (project bundleRD) = false ∧
    ((payload bundleRD ≫= _links = None ∧ mirrored bundleRD t u rd) ∨
     ∃ links,
       payload bundleRD ≫= _links = Some links ∧
       (u, Next rd) ∈
         answer (findAllByHref this.(dataService) (href (bitstreams links))
                   options linksToFollow) t).
Proof.
  intros (t & bundleRD & o & Hout & Hp & Ho)%elem_of_switchMap_Next.
  exists t, bundleRD. split; [done|]. split; [by rewrite Hp|].
  apply Hproject in Hp as ->. unfold Spec.bitstreamsOf in Ho.
  destruct (payload bundleRD ≫= _links) as [links|]; [right; by exists links|].
  left. split; [done|]. apply elem_of_ofArray_Next in Ho as [-> Hrd].
  by apply list_elem_of_singleton in Hrd.
Qed.

(** A value of the output is a value of the stream the specification
    gives for a snapshot of the bundle that has not been superseded. *)
Lemma requests_live t0 u rd :
  (u, Next rd) ∈ switchMap project outer t0 →
  ∃ l t bundleRD r,
    outer t0 = (l ++ (t, Next bundleRD) :: r)%list ∧ live t u r = true ∧
    isThrow (project bundleRD) = false ∧
    (u, Next rd) ∈
      Spec.bitstreamsOf this options linksToFollow answer bundleRD t.
Proof.
  intros (l & t & bundleRD & o & r & Heq & Hp & Ho & Hlive)%switchMap_live.
  exists l, t, bundleRD, r. split_and!; [done | done | by rewrite Hp|].
  by apply Hproject in Hp as ->.
Qed.

(** The stream the specification gives for a snapshot is well formed and
    free of errors when the answer is. *)
Lemma bitstreamsOf_wf `{!DataServiceOk this.(dataService)} bundleRD :
  (∀ o, observable_wf o → observable_wf (answer o)) →
  observable_wf (Spec.bitstreamsOf this options linksToFollow answer bundleRD).
Proof.
  intros Ha. unfold Spec.bitstreamsOf.
  destruct (payload bundleRD ≫= _links);
    [apply Ha, findAllByHref_wf | apply ofArray_wf].
Qed.

Lemma bitstreamsOf_errorFree `{!DataServiceOk this.(dataService)} bundleRD :
  (∀ o, errorFree o → errorFree (answer o)) →
  errorFree (Spec.bitstreamsOf this options linksToFollow answer bundleRD).
Proof.
  intros Ha. unfold Spec.bitstreamsOf.
  destruct (payload bundleRD ≫= _links);
    [apply Ha, findAllByHref_errorFree | intros t; apply errors_ofArray].
Qed.

Lemma requests_wf `{!DataServiceOk this.(dataService)} :
  (∀ o, observable_wf o → observable_wf (answer o)) →
  observable_wf outer → observable_wf (switchMap project outer).
Proof.
  intros Ha Ho. apply switchMap_wf; [|done].
  intros v o ->%Hproject. by apply bitstreamsOf_wf.
Qed.

Lemma requests_errors `{!DataServiceOk this.(dataService)} t0 :
  (∀ o, errorFree o → errorFree (answer o)) →
  errors (outer t0) = [] →
  (∀ v, v ∈ values (outer t0) → isThrow (project v) = false) →
  errors (switchMap project outer t0) = [].
Proof.
  intros Ha Ho Htotal. apply errors_switchMap; [done..|].
  intros v o t _ ->%Hproject. by apply bitstreamsOf_errorFree.
Qed.

(** In a subscription without error, every value of the stream the
    specification gives for a snapshot that has not been superseded comes
    out. *)
Lemma requests_latest `{!DataServiceOk this.(dataService)} t0 l t bundleRD r u rd :
  (∀ o, observable_wf o → observable_wf (answer o)) →
  observable_wf outer → errors (switchMap project outer t0) = [] →
  outer t0 = (l ++ (t, Next bundleRD) :: r)%list → live t u r = true →
  isThrow (project bundleRD) = false →
  (u, Next rd) ∈
    Spec.bitstreamsOf this options linksToFollow answer bundleRD t →
  (u, Next rd) ∈ switchMap project outer t0.
Proof.
  intros Ha Ho Herr Heq Hlive Hp Hin. apply switchMap_latest; [done| |done|].
  - intros v o ->%Hproject. by apply bitstreamsOf_wf.
  - destruct (project bundleRD) as [e|o] eqn:Hpo; [done|].
    exists l, t, bundleRD, o, r. split_and!; [done..| |done].
    by rewrite (Hproject _ _ Hpo).
Qed.

(** The values of a subscription in which the projection does not
    throw, with their times and in order. *)
Lemma requests_nexts `{!DataServiceOk this.(dataService)} t0 :
  (∀ o, observable_wf o → observable_wf (answer o)) →
  (∀ o, errorFree o → errorFree (answer o)) →
  (∀ v, v ∈ values (outer t0) → isThrow (project v) = false) →
  nexts (switchMap project outer t0) =
    heardOf this options linksToFollow answer (outer t0).
Proof.
  intros Hwf Herr Htotal.
  assert (∀ v, v ∈ values (outer t0) →
    project v =
      returns (Spec.bitstreamsOf this options linksToFollow answer v)) as Hp.
  { intros v Hv. specialize (Htotal v Hv).
    destruct (project v) as [e|o] eqn:Hpo; [done|].
    by rewrite (Hproject _ _ Hpo). }
  rewrite switchMap_nexts.
  - apply windows_ext. intros v Hv. by rewrite (Hp v Hv).
  - intros t v Hin. eexists. split; [apply Hp, elem_of_values; by exists t|].
    split; [by apply bitstreamsOf_wf | by apply bitstreamsOf_errorFree].
Qed.

(** A subscription without error completes when the snapshots of the
    bundle and the answers to every request do. *)
Lemma requests_completes t0 :
  (∀ href t,
     completes (answer (findAllByHref this.(dataService) href
                          options linksToFollow) t) = true) →
  completes (outer t0) = true → errors (switchMap project outer t0) = [] →
  completes (switchMap project outer t0) = true.
Proof.
  intros Ha Hc Herr. apply switchMap_completes; [done| |done].
  intros v o t _ ->%Hproject. unfold Spec.bitstreamsOf.
  destruct (payload v ≫= _links); [apply Ha | apply completes_ofArray].
Qed.

(** A snapshot without links is answered at once by itself. *)
Lemma mirrors_at_once (l : Marble (RemoteData Bundle)) :
  Forall (λ e, isTerminal e.2 = false) l →
  Forall (λ b, isThrow (project b) = false ∧ payload b ≫= _links = None)
    (values l) →
  Forall2 (answered_at_once project) l (rd_cast AnyBundle <$> values l).
Proof.
  induction l as [|[t n] l IH]; [constructor|].
  intros [Hn Hl]%Forall_cons. destruct n as [b|e|]; [|done..].
  rewrite Sequence.values_cons, fmap_cons.
  intros [[Hp Hb] Hbs]%Forall_cons. constructor; [|by apply IH].
  destruct (project b) as [e|o] eqn:Hpo; [done|]. exists b, o.
  split_and!; [done..|]. rewrite (Hproject _ _ Hpo). unfold Spec.bitstreamsOf.
  by rewrite Hb.
Qed.

(** The values of a subscription in which only the last snapshot of the
    bundle has links, in order: the earlier snapshots, then every value
    of the answer to the request for the last. *)
Lemma requests_values `{!DataServiceOk this.(dataService)}
    t0 l t bundleRD r links :
  (∀ o, observable_wf o → observable_wf (answer o)) → observable_wf outer →
  outer t0 = (l ++ (t, Next bundleRD) :: r)%list →
  Forall (λ b, isThrow (project b) = false ∧ payload b ≫= _links = None)
    (values l) →
  isThrow (project bundleRD) = false →
  payload bundleRD ≫= _links = Some links →
  Forall (λ e, isComplete e.2 = true) r →
  values (switchMap project outer t0) =
    ((rd_cast AnyBundle <$> values l) ++
     values (answer (findAllByHref this.(dataService) (href (bitstreams links))
                       options linksToFollow) t))%list.
Proof.
  intros Ha Ho Heq Hl Hp Hb Hr. unfold switchMap. rewrite Heq.
  destruct (project bundleRD) as [e|o] eqn:Hpo; [done|].
  pose proof (Hproject _ _ Hpo) as Ho'. unfold Spec.bitstreamsOf in Ho'.
  rewrite Hb in Ho'. subst o.
  apply values_switchMap_go_at_once; [|done| |done].
  - apply mirrors_at_once; [|done]. eapply marble_wf_app_inv.
    rewrite <- Heq. apply Ho.
  - apply Ha, findAllByHref_wf.
Qed.

(** Nothing comes out before the snapshot it comes from has come in. *)
Lemma requests_causal t0 t u (bundleRD : RemoteData Bundle)
    {X : Type} (o : Observable X) (x : X) :
  observable_wf outer → observable_wf o →
  (t, Next bundleRD) ∈ outer t0 → (u, Next x) ∈ o t → (t0 ≤ t ≤ u)%nat.
Proof.
  intros Ho Hwf Hin Hx.
  split; [apply (marble_wf_elem_of _ _ _ _ (Ho t0) Hin)
         |apply (marble_wf_elem_of _ _ _ _ (Hwf t) Hx)].
Qed.

(** What holds of the mirrored snapshots and of the answers holds of the
    output. *)
Lemma requests_delivers (P : RemoteData Any → Prop) t0 :
  (∀ bundleRD, bundleRD ∈ values (outer t0) →
     isThrow (project bundleRD) = false → payload bundleRD ≫= _links = None →
     P (rd_cast AnyBundle bundleRD)) →
  (∀ href, delivers P
     (answer (findAllByHref this.(dataService) href options linksToFollow))) →
  ∀ rd, rd ∈ values (switchMap project outer t0) → P rd.
Proof.
  intros Hmirror Hanswer rd [u Hin]%elem_of_values.
  apply requests_Next in Hin
    as (t & bundleRD & Hb & Hp & [[Hl [_ ->]]|(links & _ & Hx)]).
  - apply Hmirror; [apply elem_of_values; eauto | done..].
  - eapply Hanswer, elem_of_values; eauto.
Qed.
End Requests.

(** The specification of a snapshot depends on the answer only up to
    what a subscriber sees. *)
Lemma bitstreamsOf_equiv this options linksToFollow answer answer' bundleRD :
  (∀ o, answer o ≡ answer' o) →
  Spec.bitstreamsOf this options linksToFollow answer bundleRD ≡
  Spec.bitstreamsOf this options linksToFollow answer' bundleRD.
Proof.
  intros Ha. unfold Spec.bitstreamsOf.
  by destruct (payload bundleRD ≫= _links).
Qed.

(** ** The projections of the three operations follow the specification *)

Section Projections.
Context (this : BitstreamDataService).

Lemma getThumbnailFor_projects :
  projects_to this (Some firstElementOnly) [] (rxMap getThumbnailFor_map)
    (getThumbnailFor_switchMap this).
Proof. intros v o. rewrite getThumbnailFor_switchMap_eq. by intros [= <-]. Qed.

Lemma getMatchingThumbnail_projects bitstreamInOriginal :
  projects_to this (Some allElements) []
    (rxMap (getMatchingThumbnail_map bitstreamInOriginal))
    (getMatchingThumbnail_switchMap this bitstreamInOriginal).
Proof.
  intros v o. rewrite getMatchingThumbnail_switchMap_eq. by intros [= <-].
Qed.

Lemma findAllByItemAndBundleName_projects options linksToFollow :
  projects_to this options linksToFollow
    (castObservable (rd_cast AnyPaginatedList))
    (findAllByItemAndBundleName_switchMap this options linksToFollow).
Proof.
  intros v o Hp. destruct (decide (payload v = Some EmptyBundle)) as [He|Hne].
  - apply (findAllByItemAndBundleName_switchMap_empty this options linksToFollow)
      in He. by rewrite Hp in He.
  - rewrite findAllByItemAndBundleName_switchMap_eq in Hp by done.
    by injection Hp as <-.
Qed.

(** A snapshot on which the projection of [findAllByItemAndBundleName]
    returns has links or no payload. *)
Lemma findAllByItemAndBundleName_switchMap_returns
    options linksToFollow (bundleRD : RemoteData Bundle) :
  isThrow (findAllByItemAndBundleName_switchMap this options linksToFollow bundleRD)
    = false →
  payload bundleRD ≫= _links = None → payload bundleRD = None.
Proof.
  unfold findAllByItemAndBundleName_switchMap.
  by destruct (payload bundleRD) as [[|nm l]|].
Qed.
End Projections.

#[export] Hint Resolve getThumbnailFor_projects getMatchingThumbnail_projects
  findAllByItemAndBundleName_projects : bds.

(** ** Switching between requests mapped by a total callback *)

Section Mapped.
Context (this : BitstreamDataService).
Context `{!DataServiceOk this.(dataService)}.
Context (options : option FindListOptions).
Context (linksToFollow : list FollowLinkConfig).
Context (f : RemoteData (PaginatedList Bitstream) → Throws (RemoteData Any)).
Context (spec : RemoteData (PaginatedList Bitstream) → RemoteData Any).
Context (Hf : ∀ x, f x = returns (spec x)).
Context (project : RemoteData Bundle → Throws (Observable (RemoteData Any))).
Context (Hproject : projects_to this options linksToFollow (rxMap f) project).
Context (Htotal : ∀ v, isThrow (project v) = false).
Context (outer : Observable (RemoteData Bundle)).
Context (outer_wf : observable_wf outer).
Context (outer_errorFree : errorFree outer).

Lemma mapped_wf : observable_wf (switchMap project outer).
Proof.
  apply (requests_wf _ _ _ _ _ Hproject); [done| |done]. intros o. apply rxMap_wf.
Qed.

Lemma mapped_errorFree : errorFree (switchMap project outer).
Proof.
  intros t0. apply (requests_errors _ _ _ _ _ Hproject); [done| |done|auto].
  intros o Herr t. apply errors_rxMap_go; [|apply Herr].
  intros x _. by rewrite Hf.
Qed.

(** What the specification gives for a snapshot, spelled out. *)
Lemma elem_of_bitstreamsOf_mapped bundleRD t u rd :
  (u, Next rd) ∈ Spec.bitstreamsOf this options linksToFollow (rxMap f) bundleRD t ↔
  (isNotEmpty (payload bundleRD) = false ∧ mirrored bundleRD t u rd) ∨
  ∃ links bitstreamRD,
    payload bundleRD ≫= _links = Some links ∧
    (u, Next bitstreamRD) ∈
      findAllByHref this.(dataService) (href (bitstreams links))
        options linksToFollow t ∧
    f bitstreamRD = returns rd.
Proof.
  rewrite isNotEmpty_links. unfold Spec.bitstreamsOf, mirrored.
  destruct (payload bundleRD ≫= _links) as [links|]; simpl.
  - split.
    + intros (x & Hx & Hfx)%elem_of_rxMap_go. right. by exists links, x.
    + intros [[? _]|(links' & x & [= <-] & Hx & Hfx)]; [done|].
      eapply elem_of_rxMap_go_total; [|apply findAllByHref_wf|done..].
      intros x' _. by rewrite Hf.
  - rewrite elem_of_ofArray_Next, list_elem_of_singleton.
    split; [by left | by intros [[_ ?]|(? & ? & ? & _)]].
Qed.

(** The output delivers exactly the answers to the snapshots of the
    bundle that have not been superseded. *)
Lemma mapped_switches t0 u rd :
  (u, Next rd) ∈ switchMap project outer t0 ↔
  ∃ l t bundleRD r,
    outer t0 = (l ++ (t, Next bundleRD) :: r)%list ∧ live t u r = true ∧
    ((isNotEmpty (payload bundleRD) = false ∧ mirrored bundleRD t u rd) ∨
     ∃ links bitstreamRD,
       payload bundleRD ≫= _links = Some links ∧
       (u, Next bitstreamRD) ∈
         findAllByHref this.(dataService) (href (bitstreams links))
           options linksToFollow t ∧
       f bitstreamRD = returns rd).
Proof.
  split.
  - intros (l & t & bundleRD & r & Heq & Hlive & _ & Hin)%(requests_live
      _ _ _ _ _ Hproject).
    exists l, t, bundleRD, r. by rewrite <- elem_of_bitstreamsOf_mapped.
  - intros (l & t & bundleRD & r & Heq & Hlive & Hin).
    apply elem_of_bitstreamsOf_mapped in Hin.
    eapply (requests_latest _ _ _ _ _ Hproject); eauto using mapped_errorFree.
    intros o. apply rxMap_wf.
Qed.

Lemma mapped_completes t0 :
  completes (outer t0) = true →
  (∀ href t,
     completes (findAllByHref this.(dataService) href options linksToFollow t)
       = true) →
  completes (switchMap project outer t0) = true.
Proof.
  intros Hc Hpages.
  apply (requests_completes _ _ _ _ _ Hproject); [|done|apply mapped_errorFree].
  intros href t. apply completes_rxMap_go; [|apply findAllByHref_errorFree|done].
  intros x _. by rewrite Hf.
Qed.

Lemma mapped_values t0 l t bundleRD r links :
  outer t0 = (l ++ (t, Next bundleRD) :: r)%list →
  Forall (λ b, isNotEmpty (payload b) = false) (values l) →
  payload bundleRD ≫= _links = Some links →
  Forall (λ e, isComplete e.2 = true) r →
  values (switchMap project outer t0) =
    ((rd_cast AnyBundle <$> values l) ++
     (spec <$> values (findAllByHref this.(dataService) (href (bitstreams links))
                         options linksToFollow t)))%list.
Proof.
  intros Heq Hl Hb Hr.
  rewrite (requests_values _ _ _ _ _ Hproject outer t0 l t bundleRD r links);
    [|by (intros o; apply rxMap_wf)|done|done| |done|done|done].
  - f_equal. by eapply values_rxMap_go_total; [|apply findAllByHref_wf].
  - eapply Forall_impl; [done|]. intros b Hg. split; [done|].
    simpl in Hg. rewrite isNotEmpty_links in Hg.
    by destruct (payload b ≫= _links).
Qed.

(** The stream the specification gives for a snapshot, the answer
    being mapped by a callback that follows its specification or cast. *)
Lemma bitstreamsOf_mapped bundleRD :
  Spec.bitstreamsOf this options linksToFollow (rxMap f) bundleRD ≡
  Spec.bitstreamsOf this options linksToFollow (castObservable spec) bundleRD.
Proof.
  unfold Spec.bitstreamsOf. destruct (payload bundleRD ≫= _links); [|done].
  intros t. by eapply rxMap_go_total, findAllByHref_wf.
Qed.

Lemma mapped_nexts t0 :
  nexts (switchMap project outer t0) =
    heardOf this options linksToFollow (castObservable spec) (outer t0).
Proof.
  rewrite (requests_nexts _ _ _ _ _ Hproject); [|done| | |done].
  - apply windows_ext. intros v _. constructor. apply bitstreamsOf_mapped.
  - intros o. apply rxMap_wf.
  - intros o Herr t. apply errors_rxMap_go; [|apply Herr].
    intros x _. by rewrite Hf.
Qed.

Lemma mapped_delivers (P : RemoteData Any → Prop) t0 :
  (∀ bundleRD, bundleRD ∈ values (outer t0) →
     isNotEmpty (payload bundleRD) = false → P (rd_cast AnyBundle bundleRD)) →
  (∀ href, delivers (λ x, P (spec x))
     (findAllByHref this.(dataService) href options linksToFollow)) →
  ∀ rd, rd ∈ values (switchMap project outer t0) → P rd.
Proof.
  intros Hmirror Hanswer. apply (requests_delivers _ _ _ _ _ Hproject).
  - intros bundleRD Hv _ Hl. apply Hmirror; [done|].
    by rewrite isNotEmpty_links, Hl.
  - intros href t rd (x & Hx & Hfx)%elem_of_values_rxMap.
    rewrite Hf in Hfx. injection Hfx as <-. by eapply Hanswer.
Qed.
End Mapped.

(** ** The operations are their references *)

Section Refinement.
Context (this : BitstreamDataService).
Implicit Types (item : Item).

(** C1: [getThumbnailFor] is its reference: for every subscription, the
    marble of the code, with its guards and its reads that may throw, is
    the marble of one [switchMap] over the snapshots of the THUMBNAIL
    bundle that switches to the stream [Spec.bitstreamsOf] gives, mapped
    by [Spec.thumbnailOf]. *)
Theorem getThumbnailFor_refines item :
  getThumbnailFor this item ≡ Reference.thumbnailFor this item.
Proof.
  intros t0. apply switchMap_ext. intros v _.
  rewrite getThumbnailFor_switchMap_eq.
  apply returns_Observable_proper, bitstreamsOf_equiv. intros o.
  apply rxMap_proper; [intros x; apply getThumbnailFor_map_eq | done].
Qed.

(** C2: [getMatchingThumbnail] is its reference: one [switchMap] over
    the snapshots of the THUMBNAIL bundle that switches to the request for
    all its bitstreams, mapped by [Spec.matchingThumbnailOf]. *)
Theorem getMatchingThumbnail_refines item bitstreamInOriginal :
  getMatchingThumbnail this item bitstreamInOriginal ≡
  Reference.matchingThumbnail this item bitstreamInOriginal.
Proof.
  intros t0. apply switchMap_ext. intros v _.
  rewrite getMatchingThumbnail_switchMap_eq.
  apply returns_Observable_proper, bitstreamsOf_equiv. intros o.
  apply rxMap_proper; [intros x; apply getMatchingThumbnail_map_eq | done].
Qed.

(** C9: [findAllByItemAndBundleName] is its reference for a subscription
    in which the bundle service never delivers the empty object as a
    bundle. *)
Theorem findAllByItemAndBundleName_refines
    item bundleName options linksToFollow t0 :
  Forall (λ b, payload b ≠ Some EmptyBundle)
    (values (findByItemAndName this.(bundleService) item bundleName t0)) →
  findAllByItemAndBundleName this item bundleName options linksToFollow t0 =
  Reference.allByItemAndBundleName this item bundleName options linksToFollow t0.
Proof.
  intros Hne. apply switchMap_ext. intros v Hv.
  rewrite findAllByItemAndBundleName_switchMap_eq; [done|].
  by apply (proj1 (Forall_forall _ _) Hne).
Qed.
End Refinement.

(** ** What the operations keep of the promises of the collaborators *)

Section Promises.
Context (this : BitstreamDataService).
Context `{!DataServiceOk this.(dataService)}.
Context `{!BundleDataServiceOk this.(bundleService)}.
Implicit Types (item : Item) (bundleRD : RemoteData Bundle).
Implicit Types (u : Time) (rd : RemoteData Any).

(** What the specification gives [findAllByItemAndBundleName] for a
    snapshot that does not carry the empty object, spelled out. *)
Lemma elem_of_bitstreamsOf_cast options linksToFollow bundleRD t u rd :
  payload bundleRD ≠ Some EmptyBundle →
  (u, Next rd) ∈
    Spec.bitstreamsOf this options linksToFollow
      (castObservable (rd_cast AnyPaginatedList)) bundleRD t ↔
  (payload bundleRD = None ∧ mirrored bundleRD t u rd) ∨
  ∃ links bitstreamRD,
    payload bundleRD ≫= _links = Some links ∧
    (u, Next bitstreamRD) ∈
      findAllByHref this.(dataService) (href (bitstreams links))
        options linksToFollow t ∧
    rd = rd_cast AnyPaginatedList bitstreamRD.
Proof.
  intros Hne. unfold Spec.bitstreamsOf, mirrored.
  destruct (payload bundleRD) as [[|nm links]|]; simpl; [done|..].
  - rewrite elem_of_castObservable. split.
    + intros ([x|e|] & Hx & [= ->]). right. by exists links, x.
    + intros [[? _]|(links' & x & [= <-] & Hx & ->)]; [done|]. by exists (Next x).
  - rewrite elem_of_ofArray_Next, list_elem_of_singleton.
    split; [by left | by intros [[_ ?]|(? & ? & ? & _)]].
Qed.

(** A subscription of [findAllByItemAndBundleName] in which the bundle
    service never delivers the empty object carries no error. *)
Lemma findAllByItemAndBundleName_total item bundleName options linksToFollow t0 :
  Forall (λ b, payload b ≠ Some EmptyBundle)
    (values (findByItemAndName this.(bundleService) item bundleName t0)) →
  errors (findAllByItemAndBundleName this item bundleName options linksToFollow t0)
    = [].
Proof.
  intros Hne.
  apply (requests_errors _ _ _ _ _ (findAllByItemAndBundleName_projects _ _ _));
    [done | | apply findByItemAndName_errorFree |].
  - intros o Ho t. by rewrite errors_castObservable.
  - intros v Hv. rewrite findAllByItemAndBundleName_switchMap_eq; [done|].
    by apply (proj1 (Forall_forall _ _) Hne).
Qed.

(** C4: [getThumbnailFor] delivers exactly the answers to the snapshots
    of the THUMBNAIL bundle that have not been superseded: a wrapper comes
    out at [u] if and only if the bundle service sent a snapshot at [t]
    that is still the latest at [u] (nothing after it, or its completion,
    or something later than [u], unless [u] is [t] itself) and the
    wrapper is that snapshot, which fails [isNotEmpty], mirrored at [t], or
    the image under the callback of [map] of a snapshot that
    [findAllByHref] sent at [u] for the [bitstreams] link of the bundle,
    asked for at [t] with one element per page. *)
Theorem getThumbnailFor_switches item t0 u rd :
  (u, Next rd) ∈ getThumbnailFor this item t0 ↔
  ∃ l t bundleRD r,
    findByItemAndName this.(bundleService) item "THUMBNAIL" t0 =
      (l ++ (t, Next bundleRD) :: r)%list ∧
    live t u r = true ∧
    ((isNotEmpty (payload bundleRD) = false ∧ mirrored bundleRD t u rd) ∨
     ∃ links bitstreamRD,
       payload bundleRD ≫= _links = Some links ∧
       (u, Next bitstreamRD) ∈
         findAllByHref this.(dataService) (href (bitstreams links))
           (Some firstElementOnly) [] t ∧
       getThumbnailFor_map bitstreamRD = returns rd).
Proof.
  eapply mapped_switches; eauto with bds.
Qed.

(** [getMatchingThumbnail] delivers exactly the answers to the
    snapshots of the THUMBNAIL bundle that have not been superseded: the
    snapshot itself when it fails [isNotEmpty], or the image under the
    callback of [map] of a snapshot that [findAllByHref] sent for the
    [bitstreams] link of the bundle, asked for in one page of all
    elements when the bundle snapshot arrived. *)
Theorem getMatchingThumbnail_switches item bitstreamInOriginal t0 u rd :
  (u, Next rd) ∈ getMatchingThumbnail this item bitstreamInOriginal t0 ↔
  ∃ l t bundleRD r,
    findByItemAndName this.(bundleService) item "THUMBNAIL" t0 =
      (l ++ (t, Next bundleRD) :: r)%list ∧
    live t u r = true ∧
    ((isNotEmpty (payload bundleRD) = false ∧ mirrored bundleRD t u rd) ∨
     ∃ links bitstreamRD,
       payload bundleRD ≫= _links = Some links ∧
       (u, Next bitstreamRD) ∈
         findAllByHref this.(dataService) (href (bitstreams links))
           (Some allElements) [] t ∧
       getMatchingThumbnail_map bitstreamInOriginal bitstreamRD = returns rd).
Proof.
  eapply mapped_switches; eauto with bds.
Qed.

(** In a subscription in which the bundle service never delivers
    the empty object, [findAllByItemAndBundleName] delivers exactly the
    answers to the snapshots of the named bundle that have not been
    superseded: the snapshot itself when it has no payload, or a snapshot
    that [findAllByHref] sent for the [bitstreams] link of the bundle,
    asked for with the caller's options and links to follow when the
    bundle snapshot arrived. *)
Theorem findAllByItemAndBundleName_switches
    item bundleName options linksToFollow t0 u rd :
  Forall (λ b, payload b ≠ Some EmptyBundle)
    (values (findByItemAndName this.(bundleService) item bundleName t0)) →
  (u, Next rd) ∈
    findAllByItemAndBundleName this item bundleName options linksToFollow t0 ↔
  ∃ l t bundleRD r,
    findByItemAndName this.(bundleService) item bundleName t0 =
      (l ++ (t, Next bundleRD) :: r)%list ∧
    live t u r = true ∧
    ((payload bundleRD = None ∧ mirrored bundleRD t u rd) ∨
     ∃ links bitstreamRD,
       payload bundleRD ≫= _links = Some links ∧
       (u, Next bitstreamRD) ∈
         findAllByHref this.(dataService) (href (bitstreams links))
           options linksToFollow t ∧
       rd = rd_cast AnyPaginatedList bitstreamRD).
Proof.
  intros Hne. pose proof (findAllByItemAndBundleName_projects this options
    linksToFollow) as Hproject.
  assert (∀ l t bundleRD r,
    findByItemAndName this.(bundleService) item bundleName t0 =
      (l ++ (t, Next bundleRD) :: r)%list →
    payload bundleRD ≠ Some EmptyBundle) as Hsplit.
  { intros l t bundleRD r Heq. apply (proj1 (Forall_forall _ _) Hne).
    apply elem_of_values. exists t. rewrite Heq, elem_of_app. right. left. }
  split.
  - intros (l & t & bundleRD & r & Heq & Hlive & _ & Hin)%(requests_live
      _ _ _ _ _ Hproject).
    exists l, t, bundleRD, r. split_and!; [done..|].
    by apply elem_of_bitstreamsOf_cast; [eapply Hsplit|].
  - intros (l & t & bundleRD & r & Heq & Hlive & Hin).
    apply elem_of_bitstreamsOf_cast in Hin; [|by eapply Hsplit].
    eapply (requests_latest _ _ _ _ _ Hproject); eauto using findByItemAndName_wf.
    + intros o. apply castObservable_wf.
    + by apply findAllByItemAndBundleName_total.
    + rewrite findAllByItemAndBundleName_switchMap_eq; [done | by eapply Hsplit].
Qed.

(** C5: the wrappers of [getThumbnailFor], with their times and in the
    order in which they come out, whatever the bundle service sends: for
    every snapshot of the THUMBNAIL bundle in turn, the snapshot itself
    when it fails [isNotEmpty], and otherwise the thumbnails of the
    snapshots that [findAllByHref], asked for one element per page when
    the bundle snapshot arrived, sends before the bundle service sends
    its next snapshot; what the request sends later is dropped, and
    nothing is delivered twice. *)
Theorem getThumbnailFor_nexts item t0 :
  nexts (getThumbnailFor this item t0) =
    heardOf this (Some firstElementOnly) [] (castObservable Spec.thumbnailOf)
      (findByItemAndName this.(bundleService) item "THUMBNAIL" t0).
Proof.
  eapply mapped_nexts with (f := getThumbnailFor_map); eauto with bds.
Qed.

(** C11: the wrappers of [getMatchingThumbnail], with their times and in
    order: for every snapshot of the THUMBNAIL bundle in turn, the
    snapshot itself when it fails [isNotEmpty], and otherwise the results
    of the search in the snapshots that [findAllByHref], asked for all
    bitstreams in one page, sends before the next snapshot of the
    bundle. *)
Theorem getMatchingThumbnail_nexts item bitstreamInOriginal t0 :
  nexts (getMatchingThumbnail this item bitstreamInOriginal t0) =
    heardOf this (Some allElements) []
      (castObservable (Spec.matchingThumbnailOf bitstreamInOriginal))
      (findByItemAndName this.(bundleService) item "THUMBNAIL" t0).
Proof.
  eapply mapped_nexts with (f := getMatchingThumbnail_map bitstreamInOriginal);
    eauto with bds.
Qed.

(** C12: the wrappers of [findAllByItemAndBundleName], with their times
    and in order, in a subscription in which the bundle service never
    delivers the empty object: for every snapshot of the named bundle in
    turn, the snapshot itself when it has no payload, and otherwise the
    snapshots that [findAllByHref], asked with the caller's options and
    links to follow, sends before the next snapshot of the bundle. *)
Theorem findAllByItemAndBundleName_nexts
    item bundleName options linksToFollow t0 :
  Forall (λ b, payload b ≠ Some EmptyBundle)
    (values (findByItemAndName this.(bundleService) item bundleName t0)) →
  nexts (findAllByItemAndBundleName this item bundleName options linksToFollow t0)
  = heardOf this options linksToFollow (castObservable (rd_cast AnyPaginatedList))
      (findByItemAndName this.(bundleService) item bundleName t0).
Proof.
  intros Hne.
  apply (requests_nexts _ _ _ _ _
           (findAllByItemAndBundleName_projects this options linksToFollow)).
  - done.
  - intros o. apply castObservable_wf.
  - intros o Ho t. by rewrite errors_castObservable.
  - intros v Hv. rewrite findAllByItemAndBundleName_switchMap_eq; [done|].
    by apply (proj1 (Forall_forall _ _) Hne).
Qed.

(** The thumbnail is found: when the latest snapshot of the
    THUMBNAIL bundle has links and [findAllByHref], asked at [t] for one
    element per page behind them, sends at [u] a snapshot with a page, a
    subscriber of [getThumbnailFor] receives at [u] a success whose
    payload is the first element of that page. *)
Theorem getThumbnailFor_found item t0 l t bundleRD r links u bitstreamRD pg :
  findByItemAndName this.(bundleService) item "THUMBNAIL" t0 =
    (l ++ (t, Next bundleRD) :: r)%list →
  live t u r = true →
  payload bundleRD ≫= _links = Some links →
  (u, Next bitstreamRD) ∈
    findAllByHref this.(dataService) (href (bitstreams links))
      (Some firstElementOnly) [] t →
  pageOfRD bitstreamRD = Some pg →
  (u, Next (mkRemoteData false false true None (AnyBitstream <$> head pg))) ∈
    getThumbnailFor this item t0.
Proof.
  intros Heq Hlive Hl Hx Hpg.
  eapply mapped_switches with (f := getThumbnailFor_map); eauto with bds.
  exists l, t, bundleRD, r. split_and!; [done..|]. right.
  exists links, bitstreamRD. split_and!; [done..|].
  rewrite getThumbnailFor_map_eq. unfold Spec.thumbnailOf. by rewrite Hpg.
Qed.

(** There is no THUMBNAIL bundle: every snapshot of the bundle lookup
    that carries no bundle (pending, failed, or empty) reaches the
    subscriber of [getThumbnailFor] as it is, in the turn it arrives. *)
Theorem getThumbnailFor_mirrors item t0 l t bundleRD r :
  findByItemAndName this.(bundleService) item "THUMBNAIL" t0 =
    (l ++ (t, Next bundleRD) :: r)%list →
  isNotEmpty (payload bundleRD) = false →
  (t, Next (rd_cast AnyBundle bundleRD)) ∈ getThumbnailFor this item t0.
Proof.
  intros Heq Hg.
  eapply mapped_switches with (f := getThumbnailFor_map); eauto with bds.
  exists l, t, bundleRD, r. split_and!; [done | | by left].
  unfold live. by rewrite bool_decide_eq_true_2.
Qed.

(** C16: no thumbnail matches: when the latest snapshot of the THUMBNAIL
    bundle has links and [findAllByHref], asked at [t] for all bitstreams
    behind them, sends at [u] a snapshot with a page none of whose
    bitstreams has a name that starts with the name of the original, a
    subscriber of [getMatchingThumbnail] receives at [u] the failure with
    status 404 and message "No matching thumbnail found". *)
Theorem getMatchingThumbnail_not_found
    item bitstreamInOriginal t0 l t bundleRD r links u bitstreamRD pg :
  findByItemAndName this.(bundleService) item "THUMBNAIL" t0 =
    (l ++ (t, Next bundleRD) :: r)%list →
  live t u r = true →
  payload bundleRD ≫= _links = Some links →
  (u, Next bitstreamRD) ∈
    findAllByHref this.(dataService) (href (bitstreams links))
      (Some allElements) [] t →
  pageOfRD bitstreamRD = Some pg →
  Forall (λ y, isMatchingThumbnail bitstreamInOriginal y = false) pg →
  (u, Next (mkRemoteData false false false
              (Some (mkRemoteDataError 404 "404" "No matching thumbnail found"))
              None)) ∈
    getMatchingThumbnail this item bitstreamInOriginal t0.
Proof.
  intros Heq Hlive Hl Hx Hpg Hnone.
  eapply mapped_switches
    with (f := getMatchingThumbnail_map bitstreamInOriginal); eauto with bds.
  exists l, t, bundleRD, r. split_and!; [done..|]. right.
  exists links, bitstreamRD. split_and!; [done..|].
  rewrite getMatchingThumbnail_map_eq. unfold Spec.matchingThumbnailOf.
  rewrite Hpg. apply find_none_iff in Hnone. unfold isMatchingThumbnail in Hnone.
  by rewrite Hnone.
Qed.

(** The wrappers of the usual run, in order: while the lookup of the
    THUMBNAIL bundle sends snapshots without bundle (pending ones) these
    come out as they are; when it then sends a bundle with links and
    nothing more but its completion, every snapshot that [findAllByHref]
    sends for the request made at that time comes out, mapped by
    [Spec.thumbnailOf]: pending snapshots of the page as they are, the
    page as a success with its first element. *)
Theorem getThumbnailFor_values item t0 l t bundleRD r links :
  findByItemAndName this.(bundleService) item "THUMBNAIL" t0 =
    (l ++ (t, Next bundleRD) :: r)%list →
  Forall (λ b, isNotEmpty (payload b) = false) (values l) →
  payload bundleRD ≫= _links = Some links →
  Forall (λ e, isComplete e.2 = true) r →
  values (getThumbnailFor this item t0) =
    ((rd_cast AnyBundle <$> values l) ++
     (Spec.thumbnailOf <$>
        values (findAllByHref this.(dataService) (href (bitstreams links))
                  (Some firstElementOnly) [] t)))%list.
Proof.
  eapply mapped_values with (f := getThumbnailFor_map); eauto with bds.
Qed.

(** C15: a subscription of [getThumbnailFor] completes when the bundle
    service completes and every request for bitstreams does: the
    subscriber is not left waiting. *)
Theorem getThumbnailFor_completes item t0 :
  completes (findByItemAndName this.(bundleService) item "THUMBNAIL" t0) = true →
  (∀ href t,
     completes (findAllByHref this.(dataService) href (Some firstElementOnly) [] t)
       = true) →
  completes (getThumbnailFor this item t0) = true.
Proof.
  eapply mapped_completes with (f := getThumbnailFor_map); eauto with bds.
Qed.

(** A subscription of [getMatchingThumbnail] completes when the bundle
    service completes and every request for bitstreams does. *)
Theorem getMatchingThumbnail_completes item bitstreamInOriginal t0 :
  completes (findByItemAndName this.(bundleService) item "THUMBNAIL" t0) = true →
  (∀ href t,
     completes (findAllByHref this.(dataService) href (Some allElements) [] t)
       = true) →
  completes (getMatchingThumbnail this item bitstreamInOriginal t0) = true.
Proof.
  eapply mapped_completes
    with (f := getMatchingThumbnail_map bitstreamInOriginal); eauto with bds.
Qed.

(** A subscription of [findAllByItemAndBundleName] in which the
    bundle service never delivers the empty object completes when the
    bundle service completes and every request for bitstreams does. *)
Theorem findAllByItemAndBundleName_completes
    item bundleName options linksToFollow t0 :
  Forall (λ b, payload b ≠ Some EmptyBundle)
    (values (findByItemAndName this.(bundleService) item bundleName t0)) →
  completes (findByItemAndName this.(bundleService) item bundleName t0) = true →
  (∀ href t,
     completes (findAllByHref this.(dataService) href options linksToFollow t)
       = true) →
  completes
    (findAllByItemAndBundleName this item bundleName options linksToFollow t0)
    = true.
Proof.
  intros Hne Hc Hpages.
  apply (requests_completes _ _ _ _ _ (findAllByItemAndBundleName_projects _ _ _));
    [|done|by apply findAllByItemAndBundleName_total].
  intros href t. by rewrite completes_castObservable.
Qed.

(** The marble of [getThumbnailFor] is well formed: nothing before
    the subscription, times in order, nothing after an error or the
    completion. *)
Theorem getThumbnailFor_wf item : observable_wf (getThumbnailFor this item).
Proof.
  eapply mapped_wf; eauto with bds.
Qed.

(** The marble of [getMatchingThumbnail] is well formed. *)
Theorem getMatchingThumbnail_wf item bitstreamInOriginal :
  observable_wf (getMatchingThumbnail this item bitstreamInOriginal).
Proof.
  eapply mapped_wf; eauto with bds.
Qed.

(** The marble of [findAllByItemAndBundleName] is well formed, also
    when it ends with the error of a projection that threw. *)
Theorem findAllByItemAndBundleName_wf item bundleName options linksToFollow :
  observable_wf
    (findAllByItemAndBundleName this item bundleName options linksToFollow).
Proof.
  apply (requests_wf _ _ _ _ _ (findAllByItemAndBundleName_projects _ _ _));
    [done | intros o; apply castObservable_wf | apply findByItemAndName_wf].
Qed.

(** C10: [getThumbnailFor] never sends an error notification: failures of
    the collaborators arrive as failed wrappers, and neither callback
    throws. *)
Theorem getThumbnailFor_errorFree item : errorFree (getThumbnailFor this item).
Proof.
  eapply mapped_errorFree with (f := getThumbnailFor_map); eauto with bds.
Qed.

(** C13: [getMatchingThumbnail] never sends an error notification: the
    missing thumbnail is a failed wrapper with status 404. *)
Theorem getMatchingThumbnail_errorFree item bitstreamInOriginal :
  errorFree (getMatchingThumbnail this item bitstreamInOriginal).
Proof.
  eapply mapped_errorFree
    with (f := getMatchingThumbnail_map bitstreamInOriginal); eauto with bds.
Qed.

(** C3: [findAllByItemAndBundleName] sends an error notification exactly
    when the bundle service delivers a snapshot whose payload is the
    empty object: [hasValue] lets it through to [findAllByBundle], which
    throws on reading its links. *)
Theorem findAllByItemAndBundleName_errors item bundleName options linksToFollow t0 :
  errors (findAllByItemAndBundleName this item bundleName options linksToFollow t0)
    ≠ [] ↔
  ∃ bundleRD,
    bundleRD ∈ values (findByItemAndName this.(bundleService) item bundleName t0) ∧
    payload bundleRD = Some EmptyBundle.
Proof.
  rewrite <- Exists_exists. split.
  - intros Herr. apply dec_stable. intros Hnone. apply Herr.
    apply findAllByItemAndBundleName_total, Forall_forall.
    intros v Hv Hpl. apply Hnone, Exists_exists. by exists v.
  - intros (bundleRD & [t Hin]%elem_of_values & Hpl)%Exists_exists.
    apply (findAllByItemAndBundleName_switchMap_empty this options linksToFollow)
      in Hpl.
    destruct (findAllByItemAndBundleName_switchMap _ _ _ bundleRD) as [e|o] eqn:Hp;
      [|done].
    eapply (switchMap_go_throws _ _ _ t0); [apply findByItemAndName_wf|done..].
Qed.

(** Every wrapper that [getThumbnailFor] delivers encodes one state
    of the lifecycle. *)
Theorem getThumbnailFor_rd_wf item :
  delivers (λ rd, rd_wf rd = true) (getThumbnailFor this item).
Proof.
  intros t0. eapply mapped_delivers;
    [apply getThumbnailFor_map_eq | apply getThumbnailFor_projects | |].
  - intros bundleRD Hv _. rewrite rd_wf_cast. by eapply findByItemAndName_rd_wf.
  - intros href t x Hx. apply thumbnailOf_rd_wf. by eapply findAllByHref_rd_wf.
Qed.

(** Every wrapper that [getMatchingThumbnail] delivers encodes one
    state of the lifecycle, the synthesized 404 included. *)
Theorem getMatchingThumbnail_rd_wf item bitstreamInOriginal :
  delivers (λ rd, rd_wf rd = true)
    (getMatchingThumbnail this item bitstreamInOriginal).
Proof.
  intros t0. eapply mapped_delivers;
    [apply getMatchingThumbnail_map_eq | apply getMatchingThumbnail_projects | |].
  - intros bundleRD Hv _. rewrite rd_wf_cast. by eapply findByItemAndName_rd_wf.
  - intros href t x Hx. apply matchingThumbnailOf_rd_wf.
    by eapply findAllByHref_rd_wf.
Qed.

(** Every wrapper that [findAllByItemAndBundleName] delivers encodes
    one state of the lifecycle. *)
Theorem findAllByItemAndBundleName_rd_wf item bundleName options linksToFollow :
  delivers (λ rd, rd_wf rd = true)
    (findAllByItemAndBundleName this item bundleName options linksToFollow).
Proof.
  intros t0.
  apply (requests_delivers _ _ _ _ _ (findAllByItemAndBundleName_projects _ _ _)).
  - intros bundleRD Hv _ _. rewrite rd_wf_cast. by eapply findByItemAndName_rd_wf.
  - intros href t rd. rewrite values_castObservable.
    intros (x & -> & Hx)%list_elem_of_fmap. rewrite rd_wf_cast.
    by eapply findAllByHref_rd_wf.
Qed.
End Promises.

(** ** The types of what comes out *)

Section Types.
Context (this : BitstreamDataService).
Implicit Types (item : Item).

(** C14: whatever the collaborators do, every wrapper that
    [findAllByItemAndBundleName] delivers has the declared payload type:
    a bundle snapshot is let through only without payload. *)
Theorem findAllByItemAndBundleName_typed item bundleName options linksToFollow :
  delivers (λ rd, rd_typed isPaginatedList rd = true)
    (findAllByItemAndBundleName this item bundleName options linksToFollow).
Proof.
  intros t0.
  apply (requests_delivers _ _ _ _ _ (findAllByItemAndBundleName_projects _ _ _)).
  - intros bundleRD _ Hp Hl. unfold rd_typed. simpl.
    by rewrite (findAllByItemAndBundleName_switchMap_returns _ _ _ _ Hp Hl).
  - intros href t rd. rewrite values_castObservable.
    intros (x & -> & Hx)%list_elem_of_fmap. unfold rd_typed. simpl.
    by destruct (payload x).
Qed.

(** Every wrapper that [getThumbnailFor] delivers has the declared
    payload type [Bitstream], provided the bundle service never delivers
    the empty object and every payload that [findAllByHref] delivers has
    a page. *)
Theorem getThumbnailFor_typed item :
  delivers (λ rd, payload rd ≠ Some EmptyBundle)
    (findByItemAndName this.(bundleService) item "THUMBNAIL") →
  (∀ href options links,
     delivers (λ rd, payload rd = None ∨ is_Some (pageOfRD rd))
       (findAllByHref this.(dataService) href options links)) →
  delivers (λ rd, rd_typed isBitstream rd = true) (getThumbnailFor this item).
Proof.
  intros Hbundles Hpages t0.
  apply (requests_delivers _ _ _ _ _ (getThumbnailFor_projects this)).
  - intros bundleRD Hv _ Hl. specialize (Hbundles t0 bundleRD Hv).
    unfold rd_typed. simpl in *.
    by destruct (payload bundleRD) as [[|nm l]|]; simplify_eq/=.
  - intros href t rd (x & Hx & Hfx)%elem_of_values_rxMap.
    rewrite getThumbnailFor_map_eq in Hfx. injection Hfx as <-.
    apply thumbnailOf_typed. by eapply Hpages.
Qed.
End Types.

(** ** Witnesses *)

Lemma findAllByItemAndBundleName_refines_witness :
  findAllByItemAndBundleName Sample.server Sample.item "THUMBNAIL" None [] 10 =
  Reference.allByItemAndBundleName Sample.server Sample.item "THUMBNAIL" None [] 10.
Proof.
  apply (findAllByItemAndBundleName_refines Sample.server).
  by repeat constructor.
Defined.

Lemma getThumbnailFor_switches_witness :
  (15, Next (Sample.successRD (AnyBitstream Sample.cover))) ∈
    getThumbnailFor Sample.server Sample.item 10.
Proof.
  apply (@getThumbnailFor_switches Sample.server server_pages_ok
           server_bundles_ok Sample.item 10 15).
  exists [(10, Next Sample.pendingRD)], 12, (Sample.successRD Sample.thumbnails),
    [(12, Complete)].
  split_and!; [done | done | right].
  exists (mkBundleLinks (mkHALLink "/api/core/bundles/7/bitstreams")),
    (Sample.successRD (Sample.pageOf [Sample.cover; Sample.paper])).
  split_and!; [done | vm_compute; repeat constructor | done].
Defined.

Lemma getMatchingThumbnail_switches_witness :
  (15, Next (Sample.successRD (AnyBitstream Sample.paper))) ∈
    getMatchingThumbnail Sample.server Sample.item Sample.original 10.
Proof.
  apply (@getMatchingThumbnail_switches Sample.server server_pages_ok
           server_bundles_ok Sample.item Sample.original 10 15).
  exists [(10, Next Sample.pendingRD)], 12, (Sample.successRD Sample.thumbnails),
    [(12, Complete)].
  split_and!; [done | done | right].
  exists (mkBundleLinks (mkHALLink "/api/core/bundles/7/bitstreams")),
    (Sample.successRD (Sample.pageOf [Sample.cover; Sample.paper])).
  split_and!; [done | vm_compute; repeat constructor | done].
Defined.

Lemma findAllByItemAndBundleName_switches_witness :
  (10, Next Sample.pendingRD) ∈
    findAllByItemAndBundleName Sample.refreshingServer Sample.item "ORIGINAL"
      None [] 10.
Proof.
  apply (@findAllByItemAndBundleName_switches Sample.refreshingServer
           server_pages_ok refreshingServer_bundles_ok Sample.item "ORIGINAL"
           None [] 10 10).
  { by repeat constructor. }
  exists [], 10, Sample.pendingRD,
    [(12, Next (Sample.successRD Sample.thumbnails));
     (14, Next (Sample.successRD Sample.thumbnails))].
  split_and!; [done | done | by left].
Defined.

Lemma getThumbnailFor_found_witness :
  (15, Next (Sample.successRD (AnyBitstream Sample.cover))) ∈
    getThumbnailFor Sample.refreshingServer Sample.item 8.
Proof.
  apply (@getThumbnailFor_found Sample.refreshingServer server_pages_ok
           refreshingServer_bundles_ok Sample.item 8
           [(8, Next Sample.pendingRD); (10, Next (Sample.successRD Sample.thumbnails))]
           12 (Sample.successRD Sample.thumbnails) []
           (mkBundleLinks (mkHALLink "/api/core/bundles/7/bitstreams")) 15
           (Sample.successRD (Sample.pageOf [Sample.cover; Sample.paper]))
           [Sample.cover; Sample.paper]); try done.
  vm_compute. repeat constructor.
Defined.

Lemma getThumbnailFor_mirrors_witness :
  (12, Next (Sample.successRD (AnyBundle EmptyBundle))) ∈
    getThumbnailFor Sample.emptyServer Sample.item 10.
Proof.
  by apply (@getThumbnailFor_mirrors Sample.emptyServer server_pages_ok
              emptyServer_bundles_ok Sample.item 10
              [(10, Next Sample.pendingRD)] 12 (Sample.successRD EmptyBundle)
              [(12, Complete)]).
Defined.

Lemma getMatchingThumbnail_not_found_witness :
  (15, Next (Sample.failedRD 404 "404" "No matching thumbnail found")) ∈
    getMatchingThumbnail Sample.server Sample.item (mkBitstream "b-9" "thesis.pdf") 10.
Proof.
  apply (@getMatchingThumbnail_not_found Sample.server server_pages_ok
           server_bundles_ok Sample.item (mkBitstream "b-9" "thesis.pdf") 10
           [(10, Next Sample.pendingRD)] 12 (Sample.successRD Sample.thumbnails)
           [(12, Complete)]
           (mkBundleLinks (mkHALLink "/api/core/bundles/7/bitstreams")) 15
           (Sample.successRD (Sample.pageOf [Sample.cover; Sample.paper]))
           [Sample.cover; Sample.paper]); try done.
  - vm_compute. repeat constructor.
  - by repeat constructor.
Defined.

(** The bundle arrives at 2 and again at 4; the page asked for at 2
    would arrive at 5 and is dropped, the page asked for at 4 arrives
    at 7. *)
Lemma getThumbnailFor_nexts_witness :
  nexts (getThumbnailFor Sample.refreshingServer Sample.item 0) =
    [(0, Sample.pendingRD); (2, Sample.pendingRD); (4, Sample.pendingRD);
     (7, Sample.successRD (AnyBitstream Sample.cover))].
Proof.
  etrans.
  - apply (@getThumbnailFor_nexts Sample.refreshingServer server_pages_ok
             Sample.item 0).
  - reflexivity.
Defined.

Lemma getMatchingThumbnail_nexts_witness :
  nexts (getMatchingThumbnail Sample.server Sample.item Sample.original 0) =
    heardOf Sample.server (Some allElements) []
      (castObservable (Spec.matchingThumbnailOf Sample.original))
      (findByItemAndName (bundleService Sample.server) Sample.item
         "THUMBNAIL" 0).
Proof.
  apply (@getMatchingThumbnail_nexts Sample.server server_pages_ok
           Sample.item Sample.original 0).
Defined.

Lemma findAllByItemAndBundleName_nexts_witness :
  nexts (findAllByItemAndBundleName Sample.refreshingServer Sample.item
           "ORIGINAL" None [] 0) =
    heardOf Sample.refreshingServer None []
      (castObservable (rd_cast AnyPaginatedList))
      (findByItemAndName (bundleService Sample.refreshingServer) Sample.item
         "ORIGINAL" 0).
Proof.
  apply (@findAllByItemAndBundleName_nexts Sample.refreshingServer
           server_pages_ok Sample.item "ORIGINAL" None [] 0).
  by repeat constructor.
Defined.

Lemma getThumbnailFor_values_witness :
  values (getThumbnailFor Sample.server Sample.item 10) =
    [Sample.pendingRD; Sample.pendingRD;
     Sample.successRD (AnyBitstream Sample.cover)].
Proof.
  by apply (@getThumbnailFor_values Sample.server server_pages_ok
              server_bundles_ok Sample.item 10
              [(10, Next Sample.pendingRD)] 12
              (Sample.successRD Sample.thumbnails) [(12, Complete)]
              (mkBundleLinks (mkHALLink "/api/core/bundles/7/bitstreams")));
    repeat constructor.
Defined.

Lemma getThumbnailFor_completes_witness :
  completes (getThumbnailFor Sample.server Sample.item 10) = true.
Proof.
  by apply (@getThumbnailFor_completes Sample.server server_pages_ok
              server_bundles_ok Sample.item 10).
Defined.

Lemma findAllByItemAndBundleName_completes_witness :
  completes (findAllByItemAndBundleName Sample.server Sample.item "ORIGINAL"
               None [] 10) = true.
Proof.
  apply (@findAllByItemAndBundleName_completes Sample.server server_pages_ok
           server_bundles_ok Sample.item "ORIGINAL" None [] 10); try done.
  by repeat constructor.
Defined.

Lemma getThumbnailFor_wf_witness :
  marble_wf 10 (getThumbnailFor Sample.server Sample.item 10) = true.
Proof.
  apply (@getThumbnailFor_wf Sample.server server_pages_ok server_bundles_ok).
Defined.

Lemma getMatchingThumbnail_wf_witness :
  marble_wf 10 (getMatchingThumbnail Sample.server Sample.item Sample.original 10)
    = true.
Proof.
  apply (@getMatchingThumbnail_wf Sample.server server_pages_ok server_bundles_ok).
Defined.

Lemma findAllByItemAndBundleName_wf_witness :
  marble_wf 10
    (findAllByItemAndBundleName Sample.emptyServer Sample.item "ORIGINAL" None [] 10)
    = true.
Proof.
  apply (@findAllByItemAndBundleName_wf Sample.emptyServer server_pages_ok
           emptyServer_bundles_ok).
Defined.

Lemma getThumbnailFor_errorFree_witness :
  errors (getThumbnailFor Sample.emptyServer Sample.item 10) = [].
Proof.
  apply (@getThumbnailFor_errorFree Sample.emptyServer server_pages_ok
           emptyServer_bundles_ok).
Defined.

Lemma getMatchingThumbnail_errorFree_witness :
  errors (getMatchingThumbnail Sample.emptyServer Sample.item Sample.original 10)
    = [].
Proof.
  apply (@getMatchingThumbnail_errorFree Sample.emptyServer server_pages_ok
           emptyServer_bundles_ok).
Defined.

Lemma findAllByItemAndBundleName_errors_witness :
  errors (findAllByItemAndBundleName Sample.emptyServer Sample.item "ORIGINAL"
            None [] 10) ≠ [].
Proof.
  apply (@findAllByItemAndBundleName_errors Sample.emptyServer server_pages_ok
           emptyServer_bundles_ok).
  exists (Sample.successRD EmptyBundle). split; [|done].
  vm_compute. repeat constructor.
Defined.

Lemma getThumbnailFor_rd_wf_witness :
  rd_wf (Sample.successRD (AnyBitstream Sample.cover)) = true.
Proof.
  apply (@getThumbnailFor_rd_wf Sample.server server_pages_ok server_bundles_ok
           Sample.item 10).
  vm_compute. repeat constructor.
Defined.

Lemma getMatchingThumbnail_rd_wf_witness :
  rd_wf (Sample.successRD (AnyBitstream Sample.paper)) = true.
Proof.
  apply (@getMatchingThumbnail_rd_wf Sample.server server_pages_ok
           server_bundles_ok Sample.item Sample.original 10).
  vm_compute. repeat constructor.
Defined.

Lemma findAllByItemAndBundleName_rd_wf_witness :
  rd_wf (rd_cast AnyPaginatedList
           (Sample.successRD (Sample.pageOf [Sample.cover; Sample.paper]))) = true.
Proof.
  apply (@findAllByItemAndBundleName_rd_wf Sample.server server_pages_ok
           server_bundles_ok Sample.item "THUMBNAIL" None [] 10).
  vm_compute. repeat constructor.
Defined.

(** Every wrapper that the sample server delivers for the ORIGINAL
    bundle has the declared type. *)
Lemma findAllByItemAndBundleName_typed_witness :
  Forall (λ rd, rd_typed isPaginatedList rd = true)
    (values (findAllByItemAndBundleName Sample.server Sample.item "ORIGINAL"
               None [] 10)).
Proof.
  apply Forall_forall.
  apply (findAllByItemAndBundleName_typed Sample.server Sample.item "ORIGINAL"
           None [] 10).
Defined.

Lemma getThumbnailFor_typed_witness :
  rd_typed isBitstream (Sample.successRD (AnyBitstream Sample.cover)) = true.
Proof.
  apply (getThumbnailFor_typed Sample.server Sample.item) with 10.
  - apply cold_delivers. by repeat constructor.
  - intros href options links. apply cold_delivers.
    apply Forall_cons; split; [by left|].
    apply Forall_cons; split; [right; by eexists | by apply Forall_nil].
  - vm_compute. repeat constructor.
Defined.
