(* ===== verification/EndToEnd.v ===== *)
(** * The operations on a REST server

    What a subscriber of the three operations receives when the class
    runs on the server of [RestServer].  [Direct] is the operation in
    direct style: wait for the bundle, then wait for its bitstreams, and
    say what has been found; it mentions neither [switchMap] nor pages.
    How long a caller waits for a request is left to a schedule
    ([Served]); the lemmas on the thumbnail operations ask of the class
    that its requests without link descriptors are served
    ([PagesServedBy]), those on [findAllByItemAndBundleName] that every
    request is ([ServedBy]).  The theorems of this file are about the
    class whose every request is a fetch ([unshared]), the theorems of
    [Tracked] about the class that shares its requests.

    The theorems: each operation is its direct form; the thumbnail is the
    first bitstream of the whole collection and the matching thumbnail
    is searched in the whole collection as long as the collection has at
    most [Number.MAX_SAFE_INTEGER] elements; the pages that
    [findAllByItemAndBundleName] delivers are, one after the other, the
    collection; every subscription ends with one settled wrapper after
    pending ones; the two thumbnail operations agree on an original
    without name. *)

From stdpp Require Import gmap.
From S2P Require Import Prelude EmptyUtil RemoteData Observable SwitchMap.
From S2P Require Import Sequence Models Tracker Pagination Collaborators.
From S2P Require Import BitstreamDataService RestServer Served Samples Snapshots.

Local Open Scope string_scope.

(** ** The operations in direct style *)

Module Direct.
(** The two wrappers that say that a request made at [t] is on its
    way. *)
Definition pending {T : Type} (t : Time) : Marble (RemoteData T) :=
  [(t, Next (toRemoteData Configured)); (t, Next (toRemoteData Dispatched))].

Definition failed {T : Type} (error : RemoteDataError) : RemoteData T :=
  toRemoteData (Completed (NotOk error)).

(** A success with a bitstream, or without payload. *)
Definition found (bitstream : option Bitstream) : RemoteData Any :=
  mkRemoteData false false true None (AnyBitstream <$> bitstream).

(** The options of a request for a page of [n] elements. *)
Definition perPage (n : Z) : option FindListOptions :=
  Some (mkFindListOptions (Some n) None None []).

Section Direct.
Context (schedule : Schedule) (server : RestServer).

(** Ask for a key: wait as long as the schedule says and go on in the
    turn in which the response is there; wait for ever for a request
    that the schedule does not know. *)
Definition await (key : RequestKey) (continue : Observable (RemoteData Any))
    : Observable (RemoteData Any) :=
  λ t, match schedule key t with
       | Some sent =>
           (waiting sent (latency server key) t ++
            continue (seenAt sent (latency server key) t))%list
       | None => unsent t
       end.

(** Wait for the collection at [href], then settle with what [settle]
    makes of it, or with the failure of the request. *)
Definition awaitCollection (href : string) (options : option FindListOptions)
    (settle : list Bitstream → RemoteData Any) : Observable (RemoteData Any) :=
  await (CollectionAt href options)
    (λ u, [(u, Next match collectionAt server !! href with
                    | Some l => settle l
                    | None => failed notFound
                    end)]).

(** Wait for the bundle of the item, then go on with its links, or
    settle with the failure of the lookup. *)
Definition awaitBundle (item : Item) (bundleName : string)
    (continue : BundleLinks → Observable (RemoteData Any))
    : Observable (RemoteData Any) :=
  await (BundleOf item bundleName)
    (λ u, match bundleOf server !! (item_uuid item, bundleName) with
          | Some links => continue links u
          | None => [(u, Next (failed notFound))]
          end).

(** The thumbnail of an item: the first bitstream of its THUMBNAIL
    bundle. *)
Definition thumbnailFor (item : Item) : Observable (RemoteData Any) :=
  awaitBundle item "THUMBNAIL" (λ links,
    awaitCollection (href (bitstreams links)) (perPage 1)
      (λ l, found (head l))).

(** What the search for the thumbnail of [original] in [l] settles
    with. *)
Definition searched (original : Bitstream) (l : list Bitstream)
    : RemoteData Any :=
  match find (λ x, String.prefix (name original) (name x)) l with
  | Some thumbnail => found (Some thumbnail)
  | None => failed (mkRemoteDataError 404 "404" "No matching thumbnail found")
  end.

(** The thumbnail of a bitstream of an item: the first bitstream of the
    THUMBNAIL bundle whose name starts with its name. *)
Definition matchingThumbnail (item : Item) (original : Bitstream)
    : Observable (RemoteData Any) :=
  awaitBundle item "THUMBNAIL" (λ links,
    awaitCollection (href (bitstreams links)) (perPage (2 ^ 53 - 1))
      (searched original)).

(** The same, the search being limited to the first [n] bitstreams of
    the bundle. *)
Definition matchingThumbnailWithin (n : Z) (item : Item) (original : Bitstream)
    : Observable (RemoteData Any) :=
  awaitBundle item "THUMBNAIL" (λ links,
    awaitCollection (href (bitstreams links)) (perPage n)
      (λ l, searched original (takeZ n l))).

(** A page of the bitstreams of a bundle of an item. *)
Definition allByItemAndBundleName (item : Item) (bundleName : string)
    (options : option FindListOptions) (linksToFollow : list FollowLinkConfig)
    : Observable (RemoteData Any) :=
  awaitBundle item bundleName (λ links,
    awaitCollection (href (bitstreams links)) options
      (λ l, toRemoteData (Completed (Ok (AnyPaginatedList
              (paginate (defaultPageSize server) options
                 (arrange server (options ≫= sort)
                    (default [] (filters <$> options)) l))))))).
End Direct.
End Direct.

(** The last wrapper of a marble, and the page it carries. *)
Definition settled (m : Marble (RemoteData Any)) : option (RemoteData Any) :=
  last (values m).

Definition settledPage (m : Marble (RemoteData Any)) : list Bitstream :=
  match settled m ≫= payload with
  | Some (AnyPaginatedList list) => default [] (page list)
  | _ => []
  end.

(** A marble that settles at [u]: pending wrappers, then one wrapper
    that is not pending and encodes one state, at [u], and nothing
    more. *)
Definition isPendingSnapshot (e : Time * Notification (RemoteData Any))
    : bool :=
  match e.2 with
  | Next rd => isPending rd
  | _ => false
  end.

Definition settlesAt (m : Marble (RemoteData Any)) (u : Time) : Prop :=
  ∃ l rd, m = (l ++ [(u, Next rd)])%list ∧
          forallb isPendingSnapshot l = true ∧
          isPending rd = false ∧ rd_wf rd = true.

(** The same, with the wrapper that the marble settles with. *)
Definition settlesWith (m : Marble (RemoteData Any)) (u : Time)
    (rd : RemoteData Any) : Prop :=
  ∃ l, m = (l ++ [(u, Next rd)])%list ∧ forallb isPendingSnapshot l = true.

(** What a lookup of the bitstreams of a bundle of an item settles
    with on a server, whoever fetches: what [settle] makes of the
    collection, or the failure of a request. *)
Definition outcome (server : RestServer) (item : Item) (bundleName : string)
    (settle : list Bitstream → RemoteData Any) : RemoteData Any :=
  match bundleOf server !! (item_uuid item, bundleName) with
  | Some links =>
      match collectionAt server !! href (bitstreams links) with
      | Some l => settle l
      | None => Direct.failed notFound
      end
  | None => Direct.failed notFound
  end.

(** The turn in which it settles for a caller at [t]: the turn in which
    the caller sees the bundle, or the bitstreams of the bundle when
    there is one; none when the schedule does not know one of the two
    requests. *)
Definition settledAt (schedule : Schedule) (server : RestServer) (item : Item)
    (bundleName : string) (options : option FindListOptions) (t : Time)
    : option Time :=
  match schedule (BundleOf item bundleName) t with
  | Some sent =>
      let u := seenAt sent (bundleTime server item bundleName) t in
      match bundleOf server !! (item_uuid item, bundleName) with
      | Some links =>
          match schedule (CollectionAt (href (bitstreams links)) options) u with
          | Some sent' =>
              Some (seenAt sent'
                      (collectionTime server (href (bitstreams links)) options)
                      u)
          | None => None
          end
      | None => Some u
      end
  | None => None
  end.

(** The turns an operation takes on a server: those of the lookup of
    the bundle, and those of the request for its bitstreams when there
    is a bundle. *)
Definition settleTime (server : RestServer) (item : Item)
    (bundleName : string) (options : option FindListOptions) : nat :=
  bundleTime server item bundleName +
  match bundleOf server !! (item_uuid item, bundleName) with
  | Some links => collectionTime server (href (bitstreams links)) options
  | None => 0
  end.

(** The thumbnails of the item are at most [2^53 - 1]. *)
Definition thumbnailsBounded (server : RestServer) (item : Item) : Prop :=
  ∀ links l,
    bundleOf server !! (item_uuid item, "THUMBNAIL") = Some links →
    collectionAt server !! href (bitstreams links) = Some l →
    (Z.of_nat (length l) ≤ 2 ^ 53 - 1)%Z.

(** A lookup of the bitstreams of a bundle of an item: an operation
    that, on every class whose services are those of a schedule on the
    server, settles with the outcome of its two requests in the turn in
    which the schedule serves them, and stays pending when the schedule
    does not know one of them. *)
Class Lookup (server : RestServer)
    (operation : BitstreamDataService → Observable (RemoteData Any))
    (item : Item) (bundleName : string) (options : option FindListOptions)
    (settle : list Bitstream → RemoteData Any) : Prop := {
  lookup_settlesWith this schedule `{!ServedBy this schedule server} t u :
    settledAt schedule server item bundleName options t = Some u →
    settlesWith (operation this t) u (outcome server item bundleName settle);
  lookup_pending this schedule `{!ServedBy this schedule server} t :
    settledAt schedule server item bundleName options t = None →
    forallb isPendingSnapshot (operation this t) = true;
  lookup_settled l : isPending (settle l) = false ∧ rd_wf (settle l) = true;
}.

(** ** Waiting for the bundle *)

Section Await.
Context (this : BitstreamDataService) (schedule : Schedule).
Context (server : RestServer) `{!BundlesServedBy this schedule server}.
Context (options : option FindListOptions).
Context (linksToFollow : list FollowLinkConfig).
Context (answer : Observable (RemoteData (PaginatedList Bitstream)) →
                  Observable (RemoteData Any)).
Context (project : RemoteData Bundle → Throws (Observable (RemoteData Any))).
Context (Hproject : ∀ bundleRD, payload bundleRD ≠ Some EmptyBundle →
  project bundleRD =
    returns (Spec.bitstreamsOf this options linksToFollow answer bundleRD)).
Implicit Types (item : Item) (bundleName : string) (t sent : Time).

(** A snapshot without payload is answered at once by itself. *)
Lemma pending_at_once t (e : RequestEntry Bundle) :
  payload (toRemoteData e) = None →
  answered_at_once project (t, Next (toRemoteData e))
    (rd_cast AnyBundle (toRemoteData e)).
Proof.
  intros He. eexists _, _. split_and!; [done| |].
  - apply Hproject. by rewrite He.
  - unfold Spec.bitstreamsOf. by rewrite He.
Qed.

(** So are the wrappers of a caller who waits. *)
Lemma waiting_at_once sent responseTime t :
  ∃ ys, Forall2 (answered_at_once project) (waiting sent responseTime t) ys ∧
        answers (waiting (T:=Bundle) sent responseTime t) ys =
          waiting sent responseTime t.
Proof.
  unfold waiting. repeat case_bool_decide.
  - exists [toRemoteData Configured; toRemoteData Dispatched]. split; [|done].
    repeat constructor;
      [apply (pending_at_once t Configured)
      |apply (pending_at_once t Dispatched)]; done.
  - by exists [].
  - exists [toRemoteData Dispatched]. split; [|done].
    repeat constructor. by apply (pending_at_once t Dispatched).
Qed.

(** The run of a [switchMap] over the lookup of a bundle: the pending
    snapshots of the lookup, then the answer to the request for the
    bitstreams of the bundle, or the failure of the lookup. *)
Lemma await_bundle item bundleName continue t :
  (∀ links u,
     bundleOf server !! (item_uuid item, bundleName) = Some links →
     answer (findAllByHref this.(dataService) (href (bitstreams links))
               options linksToFollow) u = continue links u) →
  (∀ links u, Forall (λ e, isTerminal e.2 = false) (continue links u)) →
  switchMap project (findByItemAndName this.(bundleService) item bundleName) t =
    Direct.awaitBundle schedule server item bundleName continue t.
Proof.
  intros Hanswer Hopen. unfold switchMap. rewrite served_findByItemAndName.
  unfold served, Direct.awaitBundle, Direct.await.
  destruct (schedule (BundleOf item bundleName) t) as [sent|].
  2:{ etrans; [|reflexivity].
      apply (switchMap_go_all_at_once project (unsent t)
               [toRemoteData Configured]).
      repeat constructor. by apply (pending_at_once t Configured). }
  unfold since, getBundle.
  destruct (waiting_at_once sent (latency server (BundleOf item bundleName)) t)
    as (ys & Hys & <-).
  destruct (bundleOf server !! (item_uuid item, bundleName)) as [links|].
  - rewrite <- Hanswer by done. apply switchMap_go_open; [done| |].
    + by rewrite Hproject.
    + rewrite Hanswer by done. apply Hopen.
  - rewrite <- (answers_snoc _ _ _ (Next (toRemoteData (Completed (NotOk notFound)))))
      by (by eapply Forall2_length).
    apply switchMap_go_all_at_once, Forall2_answered_snoc; [done|].
    by apply (pending_at_once _ (Completed (NotOk notFound))).
Qed.
End Await.

(** ** Waiting for the bitstreams *)

Section Answers.
Context (this : BitstreamDataService) (schedule : Schedule).
Context (server : RestServer) `{!PagesServedBy this schedule server}.
Context `{!RestServerOk server}.
Implicit Types (href : string) (options : option FindListOptions).
Implicit Types (original : Bitstream) (t : Time).

Lemma awaitCollection_open href options settle t :
  Forall (λ e, isTerminal e.2 = false)
    (Direct.awaitCollection schedule server href options settle t).
Proof.
  unfold Direct.awaitCollection, Direct.await.
  destruct (schedule _ t); [|by repeat constructor].
  unfold waiting. repeat case_bool_decide; by repeat constructor.
Qed.

(** The stream of a request, cast by a function that leaves the pending
    wrappers as they are. *)
Lemma cast_served {T : Type} (spec : RemoteData T → RemoteData Any)
    key (response : Response T) t :
  spec (toRemoteData Configured) = toRemoteData Configured →
  spec (toRemoteData Dispatched) = toRemoteData Dispatched →
  prod_map id (notification_map spec) <$> served schedule server key response t
  = Direct.await schedule server key
      (λ u, [(u, Next (spec (toRemoteData (Completed response))))]) t.
Proof.
  intros Hc Hd. unfold served, Direct.await. simpl in Hc, Hd.
  destruct (schedule key t); [|by simpl; rewrite Hc].
  unfold since, waiting. repeat case_bool_decide; simpl;
    by rewrite ?Hc, ?Hd.
Qed.

(** The same for the callback of a [map] that follows its
    specification. *)
Lemma rxMap_served (f : RemoteData (PaginatedList Bitstream) →
                        Throws (RemoteData Any))
    (spec : RemoteData (PaginatedList Bitstream) → RemoteData Any)
    href options t :
  (∀ rd, f rd = returns (spec rd)) →
  spec (toRemoteData Configured) = toRemoteData Configured →
  spec (toRemoteData Dispatched) = toRemoteData Dispatched →
  rxMap f (findAllByHref this.(dataService) href options []) t =
    Direct.await schedule server (CollectionAt href options)
      (λ u, [(u, Next (spec (toRemoteData
                               (Completed (getCollection server href options)))))])
      t.
Proof.
  intros Hf Hc Hd. unfold rxMap. rewrite pages_findAllByHref.
  rewrite (rxMap_go_total f spec t) by (done || apply served_wf).
  by apply cast_served.
Qed.

(** The first page of one element holds the first element. *)
Lemma thumbnailOf_getCollection href :
  Spec.thumbnailOf
    (toRemoteData (Completed (getCollection server href (Some firstElementOnly))))
  = match collectionAt server !! href with
    | Some l => Direct.found (head l)
    | None => Direct.failed notFound
    end.
Proof.
  unfold getCollection. destruct (collectionAt server !! href) as [l|]; [|done].
  simpl. rewrite arrange_default.
  unfold Spec.thumbnailOf, Direct.found. simpl.
  by rewrite pageAt_first, takeZ_1; destruct l.
Qed.

(** The one page of [Number.MAX_SAFE_INTEGER] elements is searched. *)
Lemma matchingThumbnailOf_getCollection original href :
  Spec.matchingThumbnailOf original
    (toRemoteData (Completed (getCollection server href (Some allElements))))
  = match collectionAt server !! href with
    | Some l => Direct.searched original (takeZ (2 ^ 53 - 1) l)
    | None => Direct.failed notFound
    end.
Proof.
  unfold getCollection. destruct (collectionAt server !! href) as [l|]; [|done].
  simpl. rewrite arrange_default.
  unfold Spec.matchingThumbnailOf, Direct.searched. simpl.
  rewrite pageAt_first. by destruct (find _ _).
Qed.

Lemma thumbnail_answer href t :
  rxMap getThumbnailFor_map
    (findAllByHref this.(dataService) href (Some firstElementOnly) []) t =
  Direct.awaitCollection schedule server href (Direct.perPage 1)
    (λ l, Direct.found (head l)) t.
Proof.
  rewrite (rxMap_served _ Spec.thumbnailOf) by (done || apply getThumbnailFor_map_eq).
  by rewrite thumbnailOf_getCollection.
Qed.

Lemma matchingThumbnail_answer original href t :
  rxMap (getMatchingThumbnail_map original)
    (findAllByHref this.(dataService) href (Some allElements) []) t =
  Direct.awaitCollection schedule server href (Direct.perPage (2 ^ 53 - 1))
    (λ l, Direct.searched original (takeZ (2 ^ 53 - 1) l)) t.
Proof.
  rewrite (rxMap_served _ (Spec.matchingThumbnailOf original))
    by (done || apply getMatchingThumbnail_map_eq).
  by rewrite matchingThumbnailOf_getCollection.
Qed.

End Answers.

Section AnswersWithLinks.
Context (this : BitstreamDataService) (schedule : Schedule).
Context (server : RestServer) `{!ServedBy this schedule server}.
Implicit Types (href : string) (options : option FindListOptions).

Lemma allByItemAndBundleName_answer href options linksToFollow t :
  castObservable (rd_cast AnyPaginatedList)
    (findAllByHref this.(dataService) href options linksToFollow) t =
  Direct.awaitCollection schedule server href options
    (λ l, toRemoteData (Completed (Ok (AnyPaginatedList
            (paginate (defaultPageSize server) options
               (arrange server (options ≫= sort)
                  (default [] (filters <$> options)) l)))))) t.
Proof.
  unfold castObservable. rewrite served_findAllByHref, cast_served by done.
  unfold Direct.awaitCollection, getCollection.
  by destruct (collectionAt server !! href).
Qed.
End AnswersWithLinks.

(** ** The operations are their direct forms *)

Section Operations.
Context (this : BitstreamDataService) (schedule : Schedule).
Context (server : RestServer) `{!PagesServedBy this schedule server}.
Context `{!RestServerOk server}.
Implicit Types (item : Item) (original : Bitstream) (t : Time).

Lemma getThumbnailFor_served item t :
  getThumbnailFor this item t = Direct.thumbnailFor schedule server item t.
Proof.
  apply await_bundle with (options := Some firstElementOnly)
    (linksToFollow := []) (answer := rxMap getThumbnailFor_map).
  - apply _.
  - intros bundleRD _. apply getThumbnailFor_switchMap_eq.
  - intros links u _. by apply thumbnail_answer.
  - intros links u. apply awaitCollection_open.
Qed.

Lemma getMatchingThumbnail_served item original t :
  getMatchingThumbnail this item original t =
    Direct.matchingThumbnailWithin schedule server (2 ^ 53 - 1) item original t.
Proof.
  apply await_bundle with (options := Some allElements)
    (linksToFollow := []) (answer := rxMap (getMatchingThumbnail_map original)).
  - apply _.
  - intros bundleRD _. apply getMatchingThumbnail_switchMap_eq.
  - intros links u _. by apply matchingThumbnail_answer.
  - intros links u. apply awaitCollection_open.
Qed.

End Operations.

Section OperationsWithLinks.
Context (this : BitstreamDataService) (schedule : Schedule).
Context (server : RestServer) `{!ServedBy this schedule server}.
Implicit Types (item : Item) (t : Time).

Lemma findAllByItemAndBundleName_served
    item bundleName options linksToFollow t :
  findAllByItemAndBundleName this item bundleName options linksToFollow t =
  Direct.allByItemAndBundleName schedule server item bundleName options
    linksToFollow t.
Proof.
  apply await_bundle with (options := options) (linksToFollow := linksToFollow)
    (answer := castObservable (rd_cast AnyPaginatedList)).
  - apply _.
  - intros bundleRD Hne. by apply findAllByItemAndBundleName_switchMap_eq.
  - intros links u _. by apply allByItemAndBundleName_answer.
  - intros links u. apply awaitCollection_open.
Qed.
End OperationsWithLinks.

(** ** When every request is a fetch *)

Section Unshared.
Context (server : RestServer) `{!RestServerOk server}.
Implicit Types (item : Item) (original : Bitstream) (t : Time).

Lemma await_unshared key continue t :
  Direct.await unshared server key continue t =
    (Direct.pending t ++ continue (t + latency server key))%list.
Proof. unfold Direct.await, unshared. by rewrite waiting_own, seenAt_own. Qed.

Lemma awaitCollection_unshared href options settle t :
  Direct.awaitCollection unshared server href options settle t =
    (Direct.pending t ++
     [(t + collectionTime server href options,
       Next match collectionAt server !! href with
            | Some l => settle l
            | None => Direct.failed notFound
            end)])%list.
Proof. apply await_unshared. Qed.

Lemma awaitBundle_unshared item bundleName continue t :
  Direct.awaitBundle unshared server item bundleName continue t =
    (Direct.pending t ++
     match bundleOf server !! (item_uuid item, bundleName) with
     | Some links => continue links (t + bundleTime server item bundleName)
     | None => [(t + bundleTime server item bundleName,
                 Next (Direct.failed notFound))]
     end)%list.
Proof. apply await_unshared. Qed.

Lemma getThumbnailFor_rest item t :
  getThumbnailFor (restClient server) item t =
    Direct.thumbnailFor unshared server item t.
Proof. apply (getThumbnailFor_served (restClient server) unshared server). Qed.

Lemma getMatchingThumbnail_rest item original t :
  getMatchingThumbnail (restClient server) item original t =
    Direct.matchingThumbnailWithin unshared server (2 ^ 53 - 1) item original t.
Proof.
  apply (getMatchingThumbnail_served (restClient server) unshared server).
Qed.

Lemma findAllByItemAndBundleName_rest item bundleName options linksToFollow t :
  findAllByItemAndBundleName (restClient server) item bundleName options
    linksToFollow t =
  Direct.allByItemAndBundleName unshared server item bundleName options
    linksToFollow t.
Proof.
  apply (findAllByItemAndBundleName_served (restClient server) unshared server).
Qed.
End Unshared.

(** Within the bound the search covers the collection. *)
Lemma matchingThumbnailWithin_bounded schedule server item original t :
  thumbnailsBounded server item →
  Direct.matchingThumbnailWithin schedule server (2 ^ 53 - 1) item original t =
    Direct.matchingThumbnail schedule server item original t.
Proof.
  intros Hbound. unfold Direct.matchingThumbnailWithin, Direct.matchingThumbnail.
  unfold Direct.awaitBundle, Direct.awaitCollection.
  destruct (bundleOf server !! _) as [links|] eqn:Hlinks; [|done].
  destruct (collectionAt server !! _) as [l|] eqn:Hl; [|done].
  by rewrite takeZ_all by eauto.
Qed.

(** ** Every operation settles *)

Section Settles.
Context (schedule : Schedule) (server : RestServer).
Implicit Types (item : Item) (bundleName : string) (t u sent : Time).
Implicit Types (options : option FindListOptions).
Implicit Types (m : Marble (RemoteData Any)) (rd : RemoteData Any).

Lemma settlesWith_settlesAt m u rd :
  settlesWith m u rd → isPending rd = false → rd_wf rd = true →
  settlesAt m u.
Proof. intros (l & -> & Hl) ??. by exists l, rd. Qed.

(** What a marble settles with is the last wrapper it delivers. *)
Lemma settlesWith_settled m u rd : settlesWith m u rd → settled m = Some rd.
Proof.
  intros (l & -> & _). unfold settled. rewrite values_app.
  apply last_snoc.
Qed.

(** A marble of pending wrappers does not settle. *)
Lemma pending_unsettled m u :
  forallb isPendingSnapshot m = true → ¬ settlesAt m u.
Proof.
  intros Hm (l & rd & -> & _ & Hrd & _). rewrite forallb_app in Hm.
  apply andb_prop in Hm as [_ Hm]. simpl in Hm. unfold isPendingSnapshot in Hm.
  simpl in Hm. by rewrite Hrd in Hm.
Qed.

Lemma waiting_pending sent responseTime t :
  forallb isPendingSnapshot (waiting sent responseTime t) = true.
Proof. unfold waiting. by repeat case_bool_decide. Qed.

Lemma settlesWith_waiting m sent responseTime t u rd :
  settlesWith m u rd → settlesWith (waiting sent responseTime t ++ m)%list u rd.
Proof.
  intros (l & -> & Hl). exists (waiting sent responseTime t ++ l)%list.
  split; [by rewrite app_assoc|]. by rewrite forallb_app, Hl, waiting_pending.
Qed.

(** A caller whom the schedule serves settles when the continuation
    does. *)
Lemma await_settlesWith key continue sent t u rd :
  schedule key t = Some sent →
  settlesWith (continue (seenAt sent (latency server key) t)) u rd →
  settlesWith (Direct.await schedule server key continue t) u rd.
Proof.
  intros Hsent Hu. unfold Direct.await. rewrite Hsent.
  by apply settlesWith_waiting.
Qed.

(** A caller whom the schedule does not serve receives pending
    wrappers only. *)
Lemma await_pending key continue t :
  (∀ u, schedule key t ≠ None → forallb isPendingSnapshot (continue u) = true) →
  forallb isPendingSnapshot (Direct.await schedule server key continue t) = true.
Proof.
  intros Hcontinue. unfold Direct.await. destruct (schedule key t); [|done].
  by rewrite forallb_app, waiting_pending, Hcontinue.
Qed.

(** The lookup of the bitstreams of a bundle settles with its outcome
    in the turn that the schedule gives. *)
Lemma awaitBundle_settlesWith item bundleName options settle t u :
  settledAt schedule server item bundleName options t = Some u →
  settlesWith
    (Direct.awaitBundle schedule server item bundleName
       (λ links,
          Direct.awaitCollection schedule server (href (bitstreams links))
            options settle) t)
    u (outcome server item bundleName settle).
Proof.
  unfold settledAt, outcome, Direct.awaitBundle, Direct.awaitCollection.
  destruct (schedule (BundleOf item bundleName) t) as [sent|] eqn:Hsent; [|done].
  intros Hu. apply await_settlesWith with sent; [done|].
  destruct (bundleOf server !! (item_uuid item, bundleName)) as [links|].
  - destruct (schedule (CollectionAt _ _) _) as [sent'|] eqn:Hsent'; [|done].
    injection Hu as <-. apply await_settlesWith with sent'; [done|]. by exists [].
  - injection Hu as <-. by exists [].
Qed.

(** It stays pending when the schedule does not know one of its two
    requests. *)
Lemma awaitBundle_pending item bundleName options settle t :
  settledAt schedule server item bundleName options t = None →
  forallb isPendingSnapshot
    (Direct.awaitBundle schedule server item bundleName
       (λ links,
          Direct.awaitCollection schedule server (href (bitstreams links))
            options settle) t) = true.
Proof.
  unfold settledAt, Direct.awaitBundle, Direct.awaitCollection, Direct.await.
  destruct (schedule (BundleOf item bundleName) t) as [sent|]; [|done].
  destruct (bundleOf server !! (item_uuid item, bundleName)) as [links|]; [|done].
  destruct (schedule (CollectionAt _ _) _) as [sent'|]; [done|]. intros _.
  by rewrite forallb_app, waiting_pending.
Qed.

Lemma outcome_settled item bundleName settle :
  (∀ l, isPending (settle l) = false ∧ rd_wf (settle l) = true) →
  isPending (outcome server item bundleName settle) = false ∧
  rd_wf (outcome server item bundleName settle) = true.
Proof.
  intros Hsettle. unfold outcome.
  destruct (bundleOf server !! _); [|done]. by destruct (collectionAt server !! _).
Qed.

(** Nobody waits longer than the caller who fetches twice. *)
Lemma settledAt_bounds item bundleName options t u :
  (∀ key t' sent, schedule key t' = Some sent → (sent ≤ t')%nat) →
  settledAt schedule server item bundleName options t = Some u →
  (t ≤ u ≤ t + settleTime server item bundleName options)%nat.
Proof.
  intros Hschedule. unfold settledAt, settleTime, seenAt.
  destruct (schedule (BundleOf item bundleName) t) as [sent|] eqn:Hsent; [|done].
  apply Hschedule in Hsent.
  destruct (bundleOf server !! (item_uuid item, bundleName)) as [links|].
  - destruct (schedule (CollectionAt _ _) _) as [sent'|] eqn:Hsent'; [|done].
    apply Hschedule in Hsent'. intros [= <-]. lia.
  - intros [= <-]. lia.
Qed.

Lemma searched_settled original l :
  isPending (Direct.searched original l) = false ∧
  rd_wf (Direct.searched original l) = true.
Proof. unfold Direct.searched. by destruct (find _ l). Qed.
End Settles.

Section SettlesUnshared.
Context (server : RestServer).
Implicit Types (item : Item) (bundleName : string) (t : Time).
Implicit Types (options : option FindListOptions).

Lemma settledAt_unshared item bundleName options t :
  settledAt unshared server item bundleName options t =
    Some (t + settleTime server item bundleName options).
Proof.
  unfold settledAt, settleTime, unshared. rewrite seenAt_own.
  destruct (bundleOf server !! (item_uuid item, bundleName));
    [rewrite seenAt_own|]; f_equal; lia.
Qed.

Lemma awaitBundle_settles item bundleName options settle t :
  (∀ l, isPending (settle l) = false ∧ rd_wf (settle l) = true) →
  settlesAt
    (Direct.awaitBundle unshared server item bundleName
       (λ links,
          Direct.awaitCollection unshared server (href (bitstreams links))
            options settle) t)
    (t + settleTime server item bundleName options).
Proof.
  intros Hsettle.
  destruct (outcome_settled server item bundleName settle Hsettle).
  eapply settlesWith_settlesAt; [|done..].
  apply awaitBundle_settlesWith, settledAt_unshared.
Qed.
End SettlesUnshared.

(** ** What the operations settle with *)

Section Outcomes.
Context (this : BitstreamDataService) (schedule : Schedule).
Context (server : RestServer) `{!ServedBy this schedule server}.
Context `{!RestServerOk server}.
Implicit Types (item : Item) (original : Bitstream) (t u : Time).

Lemma getThumbnailFor_settlesWith item t u :
  settledAt schedule server item "THUMBNAIL" (Direct.perPage 1) t = Some u →
  settlesWith (getThumbnailFor this item t) u
    (outcome server item "THUMBNAIL" (λ l, Direct.found (head l))).
Proof.
  intros. rewrite (getThumbnailFor_served this schedule server).
  by apply awaitBundle_settlesWith.
Qed.

Lemma getThumbnailFor_pending item t :
  settledAt schedule server item "THUMBNAIL" (Direct.perPage 1) t = None →
  forallb isPendingSnapshot (getThumbnailFor this item t) = true.
Proof.
  intros. rewrite (getThumbnailFor_served this schedule server).
  by apply awaitBundle_pending.
Qed.

Lemma getMatchingThumbnail_settlesWith item original t u :
  settledAt schedule server item "THUMBNAIL" (Direct.perPage (2 ^ 53 - 1)) t
    = Some u →
  settlesWith (getMatchingThumbnail this item original t) u
    (outcome server item "THUMBNAIL"
       (λ l, Direct.searched original (takeZ (2 ^ 53 - 1) l))).
Proof.
  intros. rewrite (getMatchingThumbnail_served this schedule server).
  by apply awaitBundle_settlesWith.
Qed.

Lemma getMatchingThumbnail_pending item original t :
  settledAt schedule server item "THUMBNAIL" (Direct.perPage (2 ^ 53 - 1)) t
    = None →
  forallb isPendingSnapshot (getMatchingThumbnail this item original t) = true.
Proof.
  intros. rewrite (getMatchingThumbnail_served this schedule server).
  by apply awaitBundle_pending.
Qed.

Lemma findAllByItemAndBundleName_settlesWith
    item bundleName options linksToFollow t u :
  settledAt schedule server item bundleName options t = Some u →
  settlesWith
    (findAllByItemAndBundleName this item bundleName options linksToFollow t) u
    (outcome server item bundleName
       (λ l, toRemoteData (Completed (Ok (AnyPaginatedList
               (paginate (defaultPageSize server) options
                  (arrange server (options ≫= sort)
                     (default [] (filters <$> options)) l))))))).
Proof.
  intros. rewrite (findAllByItemAndBundleName_served this schedule server).
  by apply awaitBundle_settlesWith.
Qed.

Lemma findAllByItemAndBundleName_pending
    item bundleName options linksToFollow t :
  settledAt schedule server item bundleName options t = None →
  forallb isPendingSnapshot
    (findAllByItemAndBundleName this item bundleName options linksToFollow t)
    = true.
Proof.
  intros. rewrite (findAllByItemAndBundleName_served this schedule server).
  by apply awaitBundle_pending.
Qed.

Lemma found_settled (l : list Bitstream) :
  isPending (Direct.found (head l)) = false ∧
  rd_wf (Direct.found (head l)) = true.
Proof. by destruct l. Qed.
End Outcomes.

(** The three operations are lookups. *)
Section Lookups.
Context (server : RestServer) `{!RestServerOk server}.

#[export] Instance getThumbnailFor_lookup item :
  Lookup server (λ this, getThumbnailFor this item) item "THUMBNAIL"
    (Direct.perPage 1) (λ l, Direct.found (head l)).
Proof.
  split; [intros this schedule ? t u ?|intros this schedule ? t ?|].
  - by apply (getThumbnailFor_settlesWith this schedule server).
  - by apply (getThumbnailFor_pending this schedule server).
  - apply found_settled.
Qed.

#[export] Instance getMatchingThumbnail_lookup item original :
  Lookup server (λ this, getMatchingThumbnail this item original) item
    "THUMBNAIL" (Direct.perPage (2 ^ 53 - 1))
    (λ l, Direct.searched original (takeZ (2 ^ 53 - 1) l)).
Proof.
  split; [intros this schedule ? t u ?|intros this schedule ? t ?|].
  - by apply (getMatchingThumbnail_settlesWith this schedule server).
  - by apply (getMatchingThumbnail_pending this schedule server).
  - intros l. apply searched_settled.
Qed.

#[export] Instance findAllByItemAndBundleName_lookup
    item bundleName options linksToFollow :
  Lookup server
    (λ this, findAllByItemAndBundleName this item bundleName options
               linksToFollow)
    item bundleName options
    (λ l, toRemoteData (Completed (Ok (AnyPaginatedList
            (paginate (defaultPageSize server) options
               (arrange server (options ≫= sort)
                  (default [] (filters <$> options)) l)))))).
Proof.
  split; [intros this schedule ? t u ?|intros this schedule ? t ?|].
  - by apply (findAllByItemAndBundleName_settlesWith this schedule server).
  - by apply (findAllByItemAndBundleName_pending this schedule server).
  - done.
Qed.
End Lookups.

(** The page a subscriber of [findAllByItemAndBundleName] is left
    with. *)
Lemma settledPage_rest server item bundleName options linksToFollow links l t :
  bundleOf server !! (item_uuid item, bundleName) = Some links →
  collectionAt server !! href (bitstreams links) = Some l →
  settledPage
    (findAllByItemAndBundleName (restClient server) item bundleName options
       linksToFollow t) =
  pageAt (pageSize (defaultPageSize server) options) (pageNumber options)
    (arrange server (options ≫= sort) (default [] (filters <$> options)) l).
Proof.
  intros Hlinks Hl. rewrite findAllByItemAndBundleName_rest.
  unfold Direct.allByItemAndBundleName.
  by rewrite awaitBundle_unshared, Hlinks, awaitCollection_unshared, Hl.
Qed.

(** ** The theorems *)

Section Theorems.
Context (server : RestServer) `{!RestServerOk server}.
Implicit Types (item : Item) (original : Bitstream) (t : Time).

(** C17: on a REST server [getThumbnailFor] is the operation in direct
    style: two pending wrappers while the THUMBNAIL bundle is looked up;
    the failure of the lookup when the item has no such bundle; else two
    pending wrappers while its bitstreams are requested, and then a
    success with the first bitstream of the whole collection, without
    payload when the collection is empty, or the failure of the request.
    This holds for every subscription, at the times the server takes. *)
Theorem getThumbnailFor_direct item :
  getThumbnailFor (restClient server) item ≡
    Direct.thumbnailFor unshared server item.
Proof. intros t. by apply getThumbnailFor_rest. Qed.

(** C18: the page of [Number.MAX_SAFE_INTEGER] elements: as long as the
    THUMBNAIL bundle of the item has at most [Number.MAX_SAFE_INTEGER]
    bitstreams, [getMatchingThumbnail] on a REST server is the search of
    the whole collection in direct style: it settles with the first
    bitstream of the collection whose name starts with the name of the
    original, or with the 404 failure when the collection has none. *)
Theorem getMatchingThumbnail_direct item original :
  thumbnailsBounded server item →
  getMatchingThumbnail (restClient server) item original ≡
    Direct.matchingThumbnail unshared server item original.
Proof.
  intros Hbound t.
  by rewrite getMatchingThumbnail_rest, matchingThumbnailWithin_bounded by done.
Qed.

(** C19: pages and collection: the pages of [n] elements that
    [findAllByItemAndBundleName] settles with for the page numbers 1 to
    [m], one after the other, are the bitstreams of the bundle in the
    order of the server, when [m] pages are enough to hold them. *)
Theorem findAllByItemAndBundleName_pages
    item bundleName linksToFollow links l (m : nat) (n : Z) t :
  bundleOf server !! (item_uuid item, bundleName) = Some links →
  collectionAt server !! href (bitstreams links) = Some l →
  (0 < n)%Z → (Z.of_nat (length l) ≤ Z.of_nat m * n)%Z →
  concat
    ((λ k, settledPage
             (findAllByItemAndBundleName (restClient server) item bundleName
                (Some (mkFindListOptions (Some n) (Some k) None []))
                linksToFollow t)) <$> seqZ 1 (Z.of_nat m)) = l.
Proof.
  intros Hlinks Hl Hn Hm. etrans; [|apply (concat_pages m n l Hn Hm)].
  f_equal. apply list_fmap_ext. intros _ k _.
  rewrite (settledPage_rest _ _ _ _ _ _ _ _ Hlinks Hl). simpl.
  by rewrite arrange_default.
Qed.

(** C36: every subscription settles: whatever the server holds, a
    subscriber of [getThumbnailFor] receives pending wrappers and then
    exactly one wrapper that is not pending and encodes one state, a
    success or a failure, after the turns of the lookup of the bundle
    and of the request for its bitstreams; nothing follows it. *)
Theorem getThumbnailFor_settles item t :
  settlesAt (getThumbnailFor (restClient server) item t)
    (t + settleTime server item "THUMBNAIL" (Direct.perPage 1)).
Proof.
  rewrite getThumbnailFor_rest by done. by apply awaitBundle_settles.
Qed.

Theorem getMatchingThumbnail_settles item original t :
  settlesAt (getMatchingThumbnail (restClient server) item original t)
    (t + settleTime server item "THUMBNAIL" (Direct.perPage (2 ^ 53 - 1))).
Proof.
  rewrite getMatchingThumbnail_rest by done.
  apply awaitBundle_settles with (settle := λ l, Direct.searched original _).
  intros l. apply searched_settled.
Qed.

(** C37: the two thumbnail operations agree, except on an empty bundle:
    for an original whose name is empty every bitstream matches, and
    [getMatchingThumbnail] delivers the wrappers that [getThumbnailFor]
    delivers exactly when the THUMBNAIL bundle of the item is not
    empty; on an empty bundle the one settles with a success without
    payload and the other with the 404 failure. *)
Theorem thumbnail_operations_agree item original t :
  name original = "" →
  values (getMatchingThumbnail (restClient server) item original t) =
    values (getThumbnailFor (restClient server) item t) ↔
  ∀ links, bundleOf server !! (item_uuid item, "THUMBNAIL") = Some links →
    collectionAt server !! href (bitstreams links) ≠ Some [].
Proof.
  intros Hname.
  rewrite getMatchingThumbnail_rest, getThumbnailFor_rest by done.
  unfold Direct.matchingThumbnailWithin, Direct.thumbnailFor.
  rewrite !awaitBundle_unshared.
  destruct (bundleOf server !! _) as [links|] eqn:Hlinks; [|done].
  rewrite !awaitCollection_unshared.
  destruct (collectionAt server !! _) as [[|x l]|] eqn:Hl.
  - split; [|intros Hne; by destruct (Hne links)].
    rewrite !values_app. intros Heq%(f_equal last).
    rewrite !last_app in Heq. by simplify_eq/=.
  - split; [intros _ ? [= <-]; by rewrite Hl|]. intros _.
    unfold Direct.searched. simpl takeZ. simpl find.
    by rewrite Hname, prefix_nil_l.
  - split; [intros _ ? [= <-]; by rewrite Hl|done].
Qed.
End Theorems.

(** ** The theorems at the sample server *)

Lemma thumbnailsBounded_rest : thumbnailsBounded Sample.rest Sample.item.
Proof.
  intros links l Hlinks Hl. vm_compute in Hlinks. injection Hlinks as <-.
  vm_compute in Hl. injection Hl as <-. by vm_compute.
Defined.

Lemma getThumbnailFor_direct_witness :
  getThumbnailFor (restClient Sample.rest) Sample.item ≡
    Direct.thumbnailFor unshared Sample.rest Sample.item.
Proof. apply (@getThumbnailFor_direct Sample.rest rest_ok Sample.item). Defined.

Lemma getMatchingThumbnail_direct_witness :
  getMatchingThumbnail (restClient Sample.rest) Sample.item Sample.original ≡
    Direct.matchingThumbnail unshared Sample.rest Sample.item Sample.original.
Proof.
  apply (@getMatchingThumbnail_direct Sample.rest rest_ok Sample.item
           Sample.original thumbnailsBounded_rest).
Defined.

Lemma findAllByItemAndBundleName_pages_witness :
  concat
    ((λ k, settledPage
             (findAllByItemAndBundleName (restClient Sample.rest) Sample.item
                "THUMBNAIL" (Some (mkFindListOptions (Some 1%Z) (Some k) None []))
                [] 0)) <$> seqZ 1 (Z.of_nat 2)) =
  [Sample.cover; Sample.paper].
Proof.
  apply (@findAllByItemAndBundleName_pages Sample.rest rest_ok Sample.item
           "THUMBNAIL" []
           (mkBundleLinks (mkHALLink "/api/core/bundles/7/bitstreams"))
           [Sample.cover; Sample.paper] 2 1%Z 0);
    [reflexivity | reflexivity | lia | simpl; lia].
Defined.

Lemma getThumbnailFor_settles_witness :
  settlesAt (getThumbnailFor (restClient Sample.rest) Sample.item 0)
    (0 + settleTime Sample.rest Sample.item "THUMBNAIL" (Direct.perPage 1)).
Proof. apply (@getThumbnailFor_settles Sample.rest rest_ok Sample.item 0). Defined.

Lemma thumbnail_operations_agree_witness :
  values (getMatchingThumbnail (restClient Sample.rest) Sample.item
            (mkBitstream "b-9" "") 0) =
    values (getThumbnailFor (restClient Sample.rest) Sample.item 0).
Proof.
  apply (@thumbnail_operations_agree Sample.rest rest_ok Sample.item
           (mkBitstream "b-9" "") 0); [reflexivity|].
  intros links Hlinks. vm_compute in Hlinks. injection Hlinks as <-.
  by vm_compute.
Defined.
