(* ===== verification/Tracked.v ===== *)
(** * The operations over the request tracker

    The class on the data services that share their requests through
    the table of [Tracker]: a call of [findByItemAndName] or of
    [findAllByHref] asks the tracker for the key of the request
    ([getOrCreate]), and the caller is shown the entry that serves the
    key.  [trackedClient] is the class over a table; [requested] is the
    table after a caller has looked up the bitstreams of a bundle of an
    item: the key of the bundle is asked for in the turn of the call,
    the key of the page in the turn in which the caller sees the
    bundle.

    The theorems: a caller whom the table serves settles with the
    wrapper of a caller who fetches, and not later; a caller settles
    exactly when the table knows the two requests; a second caller
    within the life of the entries causes no call of the transport; the
    two thumbnail operations share the lookup of the bundle and not the
    page; after the invalidation of the bundle the next caller fetches
    it again, after the invalidation of the bitstreams the page, after
    the time to live both.  What is said of [getThumbnailFor] is proved
    of every operation that is a lookup ([EndToEnd.Lookup]).

    The requests of an operation ([requested] and the functions named
    after the operations) follow the data flow of the operations over
    the collaborators: the sources call [findByItemAndName] and
    [findAllByHref], and these ask the tracker.  They are not translated
    from lines of the class: [getThumbnailFor_settles_iff] shows that
    the keys they ask for are the keys that the operation reads,
    [requested_settledAt] that they leave a live entry of each. *)

From stdpp Require Import relations gmap.
From S2P Require Import Prelude EmptyUtil RemoteData Observable SwitchMap Models.
From S2P Require Import Decorators Tracker Pagination Collaborators.
From S2P Require Import BitstreamDataService.
From S2P Require Import RestServer Served Samples Snapshots EndToEnd.

(** The timing of the table of a server whose responses are kept for
    [timeToLive] turns. *)
Definition timingOf (server : RestServer) (timeToLive : nat) : Timing :=
  mkTiming (latency server) timeToLive.

Section Tracked.
Context (server : RestServer) (timeToLive : nat).

(** The schedule of a table: a caller is served by the live entry. *)
Definition tracked (log : Log) : Schedule :=
  λ key t, liveAt (timingOf server timeToLive) key t log.

(** The class over a table *)
Definition trackedClient (log : Log) : BitstreamDataService :=
  servedClient (tracked log) server.

(** The table after a caller at [t] has looked up the bitstreams of a
    bundle of an item: [findByItemAndName] asks for the bundle at [t],
    [findAllByHref] for the page when the bundle is seen. *)
Definition requested (item : Item) (bundleName : string)
    (options : option FindListOptions) (t : Time) (log : Log) : Log :=
  let timing := timingOf server timeToLive in
  let log' := getOrCreate timing (BundleOf item bundleName) t log in
  match liveAt timing (BundleOf item bundleName) t log',
        bundleOf server !! (item_uuid item, bundleName) with
  | Some sent, Some links =>
      getOrCreate timing (CollectionAt (href (bitstreams links)) options)
        (seenAt sent (bundleTime server item bundleName) t) log'
  | _, _ => log'
  end.

(** The requests of the three operations: the name of the bundle and
    the options are those of the class. *)
Definition getThumbnailFor_requests (item : Item) : Time → Log → Log :=
  requested item THUMBNAIL (Some firstElementOnly).

Definition getMatchingThumbnail_requests (item : Item) : Time → Log → Log :=
  requested item THUMBNAIL (Some allElements).

Definition findAllByItemAndBundleName_requests (item : Item)
    (bundleName : string) (options : option FindListOptions)
    : Time → Log → Log :=
  requested item bundleName options.
End Tracked.

(** ** Facts on the requests *)

Section Requests.
Context (server : RestServer) (timeToLive : nat).
Implicit Types (item : Item) (bundleName : string) (t u sent : Time).
Implicit Types (options : option FindListOptions) (log : Log).
Implicit Types (key : RequestKey).

Local Abbreviation timing := (timingOf server timeToLive).

#[export] Instance trackedClient_served log :
  ServedBy (trackedClient server timeToLive log) (tracked server timeToLive log)
    server.
Proof. apply servedClient_served. Qed.

(** An entry serves the callers who come after its fetch. *)
Lemma tracked_le log key t sent :
  tracked server timeToLive log key t = Some sent → sent ≤ t.
Proof. apply liveAt_le. Qed.

(** A caller whom the table serves leaves the table as it is. *)
Lemma requested_served item bundleName options t log :
  is_Some (settledAt (tracked server timeToLive log) server item bundleName
             options t) →
  requested server timeToLive item bundleName options t log = log.
Proof.
  unfold settledAt, requested, tracked. intros [u Hu].
  destruct (liveAt timing (BundleOf item bundleName) t log) as [sent|] eqn:Hsent;
    [|done].
  rewrite (getOrCreate_live _ _ _ _ sent), Hsent by done.
  destruct (bundleOf server !! (item_uuid item, bundleName)) as [links|]; [|done].
  destruct (liveAt timing (CollectionAt _ _) _ log) as [sent'|] eqn:Hsent'; [|done].
  by apply getOrCreate_live with sent'.
Qed.

(** The tracker serves whoever asks. *)
Lemma requested_settledAt item bundleName options t log :
  is_Some
    (settledAt
       (tracked server timeToLive
          (requested server timeToLive item bundleName options t log))
       server item bundleName options t).
Proof.
  unfold settledAt, requested, tracked.
  pose proof (liveAt_getOrCreate timing (BundleOf item bundleName) t log) as Hb.
  set (log' := getOrCreate timing (BundleOf item bundleName) t log) in *.
  rewrite Hb.
  destruct (bundleOf server !! (item_uuid item, bundleName)) as [links|].
  - rewrite liveAt_getOrCreate_ne, Hb by done. by rewrite liveAt_getOrCreate.
  - by rewrite Hb.
Qed.

(** A caller who finds the bundle in the table asks for the page. *)
Lemma requested_page item bundleName options t log sent links :
  tracked server timeToLive log (BundleOf item bundleName) t = Some sent →
  bundleOf server !! (item_uuid item, bundleName) = Some links →
  requested server timeToLive item bundleName options t log =
    getOrCreate timing (CollectionAt (href (bitstreams links)) options)
      (seenAt sent (bundleTime server item bundleName) t) log.
Proof.
  unfold tracked, requested. intros Hsent ->.
  by rewrite (getOrCreate_live _ _ _ _ sent), Hsent.
Qed.

(** A caller who finds neither the bundle nor the page in the table
    fetches the bundle in the turn of the call and the page when the
    bundle has arrived. *)
Lemma requested_fresh item bundleName options t log :
  tracked server timeToLive log (BundleOf item bundleName) t = None →
  (∀ links, bundleOf server !! (item_uuid item, bundleName) = Some links →
     tracked server timeToLive log
       (CollectionAt (href (bitstreams links)) options)
       (t + bundleTime server item bundleName) = None) →
  requested server timeToLive item bundleName options t log =
    log ++ (t, Fetch (BundleOf item bundleName)) ::
      match bundleOf server !! (item_uuid item, bundleName) with
      | Some links =>
          [(t + bundleTime server item bundleName,
            Fetch (CollectionAt (href (bitstreams links)) options))]
      | None => []
      end.
Proof.
  unfold tracked, requested. intros Hb Hp.
  rewrite (getOrCreate_fresh _ _ _ _ Hb), liveAt_fetch, seenAt_own.
  destruct (bundleOf server !! (item_uuid item, bundleName)) as [links|];
    [|done].
  rewrite getOrCreate_fresh; [by rewrite <- app_assoc|].
  rewrite liveAt_fetch_ne by done. by apply Hp.
Qed.

(** The two fetches of the first caller. *)
Lemma requested_first item bundleName options t links :
  bundleOf server !! (item_uuid item, bundleName) = Some links →
  requested server timeToLive item bundleName options t [] =
    [(t, Fetch (BundleOf item bundleName));
     (t + bundleTime server item bundleName,
      Fetch (CollectionAt (href (bitstreams links)) options))].
Proof. intros Hlinks. rewrite requested_fresh by done. by rewrite Hlinks. Qed.

(** A second caller after both responses have outlived their time
    fetches both again. *)
Lemma requested_expired item bundleName options links t t' :
  bundleOf server !! (item_uuid item, bundleName) = Some links →
  t + bundleTime server item bundleName + timeToLive < t' →
  t + collectionTime server (href (bitstreams links)) options + timeToLive
    < t' →
  transportCalls
    (requested server timeToLive item bundleName options t'
       (requested server timeToLive item bundleName options t [])) =
  [(t, BundleOf item bundleName);
   (t + bundleTime server item bundleName,
    CollectionAt (href (bitstreams links)) options);
   (t', BundleOf item bundleName);
   (t' + bundleTime server item bundleName,
    CollectionAt (href (bitstreams links)) options)].
Proof.
  intros Hlinks Hb Hp. rewrite (requested_first _ _ _ _ links) by done.
  rewrite requested_fresh; [by rewrite Hlinks|..]; unfold tracked.
  - etrans; [by apply (liveAt_fetch_ne timing _ _ _ _ [_])|].
    by apply (liveAt_expired _ _ _ _ []).
  - intros links' ?. assert (links' = links) as -> by congruence.
    apply (liveAt_expired _ _ _ _ [_]). simpl. lia.
Qed.

(** After the invalidation of the bitstreams a second caller within
    the life of the bundle fetches the page again, and not the
    bundle. *)
Lemma requested_invalidatedByType item bundleName options links t v t' :
  bundleOf server !! (item_uuid item, bundleName) = Some links →
  t + bundleTime server item bundleName ≤ v ≤ t' →
  t' ≤ t + bundleTime server item bundleName + timeToLive →
  transportCalls
    (requested server timeToLive item bundleName options t'
       (invalidateByType BITSTREAM v
          (requested server timeToLive item bundleName options t []))) =
  [(t, BundleOf item bundleName);
   (t + bundleTime server item bundleName,
    CollectionAt (href (bitstreams links)) options);
   (t', CollectionAt (href (bitstreams links)) options)].
Proof.
  intros Hlinks Hv Ht'. rewrite (requested_first _ _ _ _ links) by done.
  rewrite (requested_page _ _ _ _ _ t links); [|unfold tracked|done].
  - replace (seenAt t (bundleTime server item bundleName) t') with t'
      by (unfold seenAt; lia).
    rewrite getOrCreate_fresh; [done|].
    apply (liveAt_invalidateByType timing (CollectionAt _ _)). lia.
  - rewrite liveAt_invalidateByType_ne by done.
    etrans; [by apply (liveAt_fetch_ne timing _ _ _ _ [_])|].
    apply (liveAt_fetched _ _ _ _ []); simpl; lia.
Qed.

(** The requests of a caller are operations of the tracker, in the
    order of time. *)
Lemma requested_steps item bundleName options t log :
  latest log ≤ t →
  rtc (tracker_step timing) log
    (requested server timeToLive item bundleName options t log).
Proof.
  intros Ht. unfold requested.
  assert (tracker_step timing log
            (getOrCreate timing (BundleOf item bundleName) t log)) as Hstep
    by by constructor.
  destruct (liveAt timing _ t _) as [sent|]; [|by apply rtc_once].
  destruct (bundleOf server !! _) as [links|]; [|by apply rtc_once].
  eapply rtc_l; [done|]. apply rtc_once. constructor.
  etrans; [by apply latest_getOrCreate | apply seenAt_ge].
Qed.

(** A caller who finds both responses in the cache is answered in the
    turn of the call. *)
Lemma settledAt_cached item bundleName options t log links :
  bundleOf server !! (item_uuid item, bundleName) = Some links →
  is_Some (cachedSince timing (BundleOf item bundleName) t log) →
  is_Some (cachedSince timing
             (CollectionAt (href (bitstreams links)) options) t log) →
  settledAt (tracked server timeToLive log) server item bundleName options t
    = Some t.
Proof.
  intros Hlinks [a (sent & Hsent & -> & Ha)%cachedSince_Some]
    [a' (sent' & Hsent' & -> & Ha')%cachedSince_Some].
  unfold settledAt, tracked. rewrite Hsent, Hlinks. simpl in Ha, Ha'.
  replace (seenAt sent (bundleTime server item bundleName) t) with t
    by (unfold seenAt; lia).
  rewrite Hsent'. f_equal. unfold seenAt. lia.
Qed.

(** The two fetches of a caller serve the callers who come within the
    life of the bundle. *)
Lemma settledAt_fetched item bundleName options t t' log :
  t ≤ t' ≤ t + bundleTime server item bundleName + timeToLive →
  is_Some
    (settledAt
       (tracked server timeToLive
          (log ++ (t, Fetch (BundleOf item bundleName)) ::
             match bundleOf server !! (item_uuid item, bundleName) with
             | Some links =>
                 [(t + bundleTime server item bundleName,
                   Fetch (CollectionAt (href (bitstreams links)) options))]
             | None => []
             end))
       server item bundleName options t').
Proof.
  intros Ht'. unfold settledAt, tracked.
  destruct (bundleOf server !! (item_uuid item, bundleName)) as [links|].
  - rewrite cons_middle, app_assoc, liveAt_fetch_ne by done.
    rewrite liveAt_fetched by (simpl; lia).
    rewrite liveAt_fetched; [done|..]; unfold seenAt; simpl; lia.
  - by rewrite liveAt_fetched by (simpl; lia).
Qed.
End Requests.

(** ** A lookup over the table *)

Section Lookup.
Context (server : RestServer) (timeToLive : nat).
Context (operation : BitstreamDataService → Observable (RemoteData Any)).
Context (item : Item) (bundleName : string) (options : option FindListOptions).
Context (settle : list Bitstream → RemoteData Any).
Context `{!Lookup server operation item bundleName options settle}.
Implicit Types (t u : Time) (log : Log).

Local Abbreviation tracked := (tracked server timeToLive).
Local Abbreviation trackedClient := (trackedClient server timeToLive).
Local Abbreviation requested :=
  (requested server timeToLive item bundleName options).

(** What a subscriber whom the table serves is left with. *)
Lemma lookup_tracked_settled log t :
  is_Some (settledAt (tracked log) server item bundleName options t) →
  settled (operation (trackedClient log) t) =
    Some (outcome server item bundleName settle).
Proof.
  intros [u Hu]. eapply settlesWith_settled.
  by apply (lookup_settlesWith (trackedClient log) (tracked log)).
Qed.

(** The table is transparent: it changes when a subscriber settles,
    never with what; and nobody settles later than the subscriber who
    fetches. *)
Lemma lookup_shared log t u :
  settledAt (tracked log) server item bundleName options t = Some u →
  settled (operation (trackedClient log) t) =
    settled (operation (restClient server) t) ∧
  settlesAt (operation (trackedClient log) t) u ∧
  t ≤ u ≤ t + settleTime server item bundleName options.
Proof.
  intros Hu.
  pose proof (lookup_settlesWith (trackedClient log) (tracked log) t u Hu)
    as Hshared.
  pose proof (lookup_settlesWith (restClient server) unshared t _
                (settledAt_unshared server item _ _ t)) as Hown.
  split; [|split].
  - by rewrite (settlesWith_settled _ _ _ Hshared),
      (settlesWith_settled _ _ _ Hown).
  - eapply settlesWith_settlesAt; [done|apply outcome_settled, lookup_settled..].
  - eapply settledAt_bounds; [apply tracked_le | done].
Qed.

(** A subscriber settles exactly when the table knows its two
    requests. *)
Lemma lookup_settles_iff log t :
  (∃ u, settlesAt (operation (trackedClient log) t) u) ↔
  is_Some (settledAt (tracked log) server item bundleName options t).
Proof.
  split.
  - intros [u Hu].
    destruct (settledAt _ _ _ _ _ t) as [u'|] eqn:Hsettled; [done|].
    by apply (lookup_pending (trackedClient log) (tracked log)),
      pending_unsettled with (u := u) in Hsettled.
  - intros [u Hu]. exists u. by apply lookup_shared.
Qed.

(** Two subscribers within the life of the bundle are one fetch of
    each key. *)
Lemma lookup_deduplicated log t t' :
  tracked log (BundleOf item bundleName) t = None →
  (∀ links, bundleOf server !! (item_uuid item, bundleName) = Some links →
     tracked log (CollectionAt (href (bitstreams links)) options)
       (t + bundleTime server item bundleName) = None) →
  t ≤ t' ≤ t + bundleTime server item bundleName + timeToLive →
  let log' := requested t log in
  requested t' log' = log' ∧
  transportCalls log' =
    transportCalls log ++ (t, BundleOf item bundleName) ::
      match bundleOf server !! (item_uuid item, bundleName) with
      | Some links =>
          [(t + bundleTime server item bundleName,
            CollectionAt (href (bitstreams links)) options)]
      | None => []
      end ∧
  settled (operation (trackedClient log') t') =
    settled (operation (trackedClient log') t).
Proof.
  intros Hb Hp Ht' log'.
  pose proof (requested_fresh server timeToLive item bundleName options t log
                Hb Hp) as Hlog'.
  fold log' in Hlog'.
  assert (is_Some (settledAt (tracked log') server item bundleName options t'))
    as Hserved.
  { rewrite Hlog'. by apply settledAt_fetched. }
  split; [|split].
  - by apply requested_served.
  - rewrite Hlog'. unfold transportCalls. rewrite omap_app. f_equal.
    by destruct (bundleOf server !! _).
  - rewrite !lookup_tracked_settled; [done| |done].
    apply requested_settledAt.
Qed.

(** A subscriber for whom the cache holds both responses settles in the
    turn of the subscription and asks nothing of the transport. *)
Lemma lookup_cached log links t :
  bundleOf server !! (item_uuid item, bundleName) = Some links →
  is_Some (cachedSince (timingOf server timeToLive)
             (BundleOf item bundleName) t log) →
  is_Some (cachedSince (timingOf server timeToLive)
             (CollectionAt (href (bitstreams links)) options) t log) →
  settlesAt (operation (trackedClient log) t) t ∧
  settled (operation (trackedClient log) t) =
    settled (operation (restClient server) t) ∧
  requested t log = log.
Proof.
  intros Hlinks Hb Hp.
  pose proof (settledAt_cached server timeToLive item bundleName options t log
                links Hlinks Hb Hp) as Ht.
  destruct (lookup_shared log t t Ht) as (? & ? & _).
  split_and!; [done..|]. apply requested_served. by exists t.
Qed.
End Lookup.

(** ** The theorems *)

Section Theorems.
Context (server : RestServer) `{!RestServerOk server} (timeToLive : nat).
Implicit Types (item : Item) (t u : Time) (log : Log).

Local Abbreviation tracked := (tracked server timeToLive).
Local Abbreviation trackedClient := (trackedClient server timeToLive).

(** C22: the table is transparent.  A subscriber of [getThumbnailFor]
    whose two requests are served by entries of the table, whoever
    fetched them and whenever, ends with the wrapper that a subscriber
    ends with whose two requests are fetches of their own: the table
    changes when a subscriber settles, never with what; and it settles
    in a turn that is not later than the turn of that subscriber. *)
Theorem getThumbnailFor_shared log item t u :
  settledAt (tracked log) server item "THUMBNAIL" (Direct.perPage 1) t
    = Some u →
  settled (getThumbnailFor (trackedClient log) item t) =
    settled (getThumbnailFor (restClient server) item t) ∧
  settlesAt (getThumbnailFor (trackedClient log) item t) u ∧
  t ≤ u ≤ t + settleTime server item "THUMBNAIL" (Direct.perPage 1).
Proof.
  apply (@lookup_shared server timeToLive _ _ _ _ _
           (getThumbnailFor_lookup server item)).
Qed.

(** C23: a subscriber settles exactly when the table knows the two
    requests: [getThumbnailFor] over a table delivers a wrapper that is
    not pending if and only if the table holds a live entry of the
    THUMBNAIL bundle of the item in the turn of the subscription and,
    when the item has such a bundle, a live entry of its first page of
    one element in the turn in which the bundle is seen.  These are the
    two keys that the operation reads. *)
Theorem getThumbnailFor_settles_iff log item t :
  (∃ u, settlesAt (getThumbnailFor (trackedClient log) item t) u) ↔
  is_Some (settledAt (tracked log) server item "THUMBNAIL"
             (Direct.perPage 1) t).
Proof.
  apply (@lookup_settles_iff server timeToLive _ _ _ _ _
           (getThumbnailFor_lookup server item)).
Qed.


(** C24: the two thumbnail operations share the lookup of the bundle
    and nothing else.  From the empty table, [getThumbnailFor] for an
    item with a THUMBNAIL bundle and then [getMatchingThumbnail] for the
    same item, within the life of the bundle, are three calls of the
    transport: the bundle once, its page of one element, and its page
    of [Number.MAX_SAFE_INTEGER] elements, asked for when the second
    subscriber sees the bundle.  The key of a page is the address with
    the options: the first element that the one operation has fetched
    does not serve the search of the other. *)
Theorem thumbnail_operations_share item links t t' :
  bundleOf server !! (item_uuid item, "THUMBNAIL") = Some links →
  t ≤ t' ≤ t + bundleTime server item "THUMBNAIL" + timeToLive →
  transportCalls
    (getMatchingThumbnail_requests server timeToLive item t'
       (getThumbnailFor_requests server timeToLive item t [])) =
  [(t, BundleOf item "THUMBNAIL");
   (t + bundleTime server item "THUMBNAIL",
    CollectionAt (href (bitstreams links)) (Direct.perPage 1));
   (seenAt t (bundleTime server item "THUMBNAIL") t',
    CollectionAt (href (bitstreams links)) (Direct.perPage (2 ^ 53 - 1)))].
Proof.
  intros Hlinks Ht'. unfold getThumbnailFor_requests, THUMBNAIL.
  rewrite requested_fresh by done. rewrite Hlinks.
  unfold getMatchingThumbnail_requests, THUMBNAIL.
  rewrite (requested_page _ _ _ _ _ _ _ t links); [|unfold tracked|done].
  - rewrite getOrCreate_fresh; [done|].
    rewrite cons_middle, app_assoc, !liveAt_fetch_ne; done.
  - rewrite cons_middle, app_assoc, liveAt_fetch_ne by done.
    by rewrite liveAt_fetched by (simpl; lia).
Qed.

(** C25: after the invalidation of a key the next caller fetches it.
    From the empty table, a subscriber of [getThumbnailFor] for an item
    with a THUMBNAIL bundle, then the invalidation of the key of the
    bundle once the bundle has arrived, then a second subscriber while
    the page is live: the bundle is fetched a second time, in the turn
    of the second subscription, and the page is not. *)
Theorem getThumbnailFor_refetched item links t v t' :
  bundleOf server !! (item_uuid item, "THUMBNAIL") = Some links →
  t + bundleTime server item "THUMBNAIL" ≤ v ≤ t' →
  t' ≤ t + collectionTime server (href (bitstreams links)) (Direct.perPage 1)
       + timeToLive →
  transportCalls
    (getThumbnailFor_requests server timeToLive item t'
       (invalidate (BundleOf item "THUMBNAIL") v
          (getThumbnailFor_requests server timeToLive item t []))) =
  [(t, BundleOf item "THUMBNAIL");
   (t + bundleTime server item "THUMBNAIL",
    CollectionAt (href (bitstreams links)) (Direct.perPage 1));
   (t', BundleOf item "THUMBNAIL")].
Proof.
  intros Hlinks Hv Ht'. unfold getThumbnailFor_requests at 2; unfold THUMBNAIL.
  rewrite requested_fresh by done. rewrite Hlinks. simpl app.
  set (log := invalidate _ v _). unfold getThumbnailFor_requests, THUMBNAIL, requested.
  assert (liveAt (timingOf server timeToLive) (BundleOf item "THUMBNAIL") t' log
          = None) as Hb by (apply liveAt_invalidate; lia).
  rewrite (getOrCreate_fresh _ _ _ _ Hb), liveAt_fetch, seenAt_own, Hlinks.
  erewrite getOrCreate_live; [done|].
  rewrite liveAt_fetch_ne by done. unfold log.
  rewrite liveAt_invalidate_ne by done.
  change (Direct.perPage 1) with (Some firstElementOnly) in Ht'.
  apply (liveAt_fetched _ _ _ _ [_]); simpl; lia.
Qed.

(** C28: a hit in the object cache.  A subscriber of [getThumbnailFor]
    for whom the object cache holds the THUMBNAIL bundle of the item and
    the first page of its bitstreams settles in the turn of the
    subscription, with the wrapper of a subscriber who fetches, and the
    table is left as it is: nothing is asked of the transport. *)
Theorem getThumbnailFor_cached log item links t :
  bundleOf server !! (item_uuid item, "THUMBNAIL") = Some links →
  is_Some (cachedSince (timingOf server timeToLive)
             (BundleOf item "THUMBNAIL") t log) →
  is_Some (cachedSince (timingOf server timeToLive)
             (CollectionAt (href (bitstreams links)) (Direct.perPage 1)) t
             log) →
  settlesAt (getThumbnailFor (trackedClient log) item t) t ∧
  settled (getThumbnailFor (trackedClient log) item t) =
    settled (getThumbnailFor (restClient server) item t) ∧
  getThumbnailFor_requests server timeToLive item t log = log.
Proof.
  apply (@lookup_cached server timeToLive _ _ _ _ _
           (getThumbnailFor_lookup server item)).
Qed.

(** C29: at most one fetch of a key is on its way.  The table stays one
    that the operations of the tracker build from the empty table when
    a subscriber of [getThumbnailFor] makes its requests after the last
    action of the table; such a table is in the order of time and holds
    no fetch of a key that was made while an entry of the key was
    live. *)
Theorem getThumbnailFor_requests_invariant log item t :
  rtc (tracker_step (timingOf server timeToLive)) [] log → latest log ≤ t →
  let log' := getThumbnailFor_requests server timeToLive item t log in
  rtc (tracker_step (timingOf server timeToLive)) [] log' ∧
  chronological log' ∧ singleFlight (timingOf server timeToLive) log'.
Proof.
  intros Hlog Ht log'.
  assert (rtc (tracker_step (timingOf server timeToLive)) [] log') as Hlog'.
  { etrans; [done|]. by apply requested_steps. }
  split; [done|]. by apply tracker_invariants.
Qed.

(** The same holds of the two other operations, which are lookups as
    well: the table changes when their subscribers settle, never with
    what. *)
Lemma getMatchingThumbnail_shared log item original t u :
  settledAt (tracked log) server item "THUMBNAIL"
    (Direct.perPage (2 ^ 53 - 1)) t = Some u →
  settled (getMatchingThumbnail (trackedClient log) item original t) =
    settled (getMatchingThumbnail (restClient server) item original t) ∧
  settlesAt (getMatchingThumbnail (trackedClient log) item original t) u ∧
  t ≤ u ≤ t + settleTime server item "THUMBNAIL" (Direct.perPage (2 ^ 53 - 1)).
Proof.
  apply (@lookup_shared server timeToLive _ _ _ _ _
           (getMatchingThumbnail_lookup server item original)).
Qed.

Lemma findAllByItemAndBundleName_shared
    log item bundleName options linksToFollow t u :
  settledAt (tracked log) server item bundleName options t = Some u →
  settled
    (findAllByItemAndBundleName (trackedClient log) item bundleName options
       linksToFollow t) =
    settled
      (findAllByItemAndBundleName (restClient server) item bundleName options
         linksToFollow t) ∧
  settlesAt
    (findAllByItemAndBundleName (trackedClient log) item bundleName options
       linksToFollow t) u ∧
  t ≤ u ≤ t + settleTime server item bundleName options.
Proof.
  apply (@lookup_shared server timeToLive _ _ _ _ _
           (findAllByItemAndBundleName_lookup server item bundleName options
              linksToFollow)).
Qed.

(** Two subscribers of the page of a bundle, with the same options,
    are one fetch of each key. *)
Lemma findAllByItemAndBundleName_deduplicated
    log item bundleName options linksToFollow t t' :
  tracked log (BundleOf item bundleName) t = None →
  (∀ links, bundleOf server !! (item_uuid item, bundleName) = Some links →
     tracked log (CollectionAt (href (bitstreams links)) options)
       (t + bundleTime server item bundleName) = None) →
  t ≤ t' ≤ t + bundleTime server item bundleName + timeToLive →
  let log' :=
    findAllByItemAndBundleName_requests server timeToLive item bundleName
      options t log in
  findAllByItemAndBundleName_requests server timeToLive item bundleName options
    t' log' = log' ∧
  settled
    (findAllByItemAndBundleName (trackedClient log') item bundleName options
       linksToFollow t') =
    settled
      (findAllByItemAndBundleName (trackedClient log') item bundleName options
         linksToFollow t).
Proof.
  intros Hb Hp Ht' log'.
  destruct (@lookup_deduplicated server timeToLive _ _ _ _ _
              (findAllByItemAndBundleName_lookup server item bundleName options
                 linksToFollow) log t t' Hb Hp Ht') as (? & _ & ?).
  by split.
Qed.

End Theorems.

(** ** The theorems at the sample server *)

(** The table after a subscriber of [getThumbnailFor] at 0, on the
    sample server, whose responses are kept for 10 turns. *)
Lemma getThumbnailFor_requests_rest :
  getThumbnailFor_requests Sample.rest 10 Sample.item 0 [] =
    [(0, Fetch (BundleOf Sample.item "THUMBNAIL"));
     (2, Fetch (CollectionAt "/api/core/bundles/7/bitstreams"
                  (Some firstElementOnly)))].
Proof. by vm_compute. Qed.

Lemma getThumbnailFor_shared_witness :
  settled
    (getThumbnailFor
       (trackedClient Sample.rest 10
          (getThumbnailFor_requests Sample.rest 10 Sample.item 0 []))
       Sample.item 1) =
    settled (getThumbnailFor (restClient Sample.rest) Sample.item 1) ∧
  settlesAt
    (getThumbnailFor
       (trackedClient Sample.rest 10
          (getThumbnailFor_requests Sample.rest 10 Sample.item 0 []))
       Sample.item 1) 5 ∧
  1 ≤ 5 ≤ 1 + settleTime Sample.rest Sample.item "THUMBNAIL" (Direct.perPage 1).
Proof.
  apply (@getThumbnailFor_shared Sample.rest rest_ok 10
           (getThumbnailFor_requests Sample.rest 10 Sample.item 0 [])
           Sample.item 1 5).
  by vm_compute.
Defined.


Lemma thumbnail_operations_share_witness :
  transportCalls
    (getMatchingThumbnail_requests Sample.rest 10 Sample.item 1
       (getThumbnailFor_requests Sample.rest 10 Sample.item 0 [])) =
  [(0, BundleOf Sample.item "THUMBNAIL");
   (0 + bundleTime Sample.rest Sample.item "THUMBNAIL",
    CollectionAt "/api/core/bundles/7/bitstreams" (Direct.perPage 1));
   (seenAt 0 (bundleTime Sample.rest Sample.item "THUMBNAIL") 1,
    CollectionAt "/api/core/bundles/7/bitstreams"
      (Direct.perPage (2 ^ 53 - 1)))].
Proof.
  apply (@thumbnail_operations_share Sample.rest 10 Sample.item
           (mkBundleLinks (mkHALLink "/api/core/bundles/7/bitstreams")) 0 1);
    [reflexivity | simpl; lia].
Defined.

Lemma getThumbnailFor_refetched_witness :
  transportCalls
    (getThumbnailFor_requests Sample.rest 10 Sample.item 4
       (invalidate (BundleOf Sample.item "THUMBNAIL") 2
          (getThumbnailFor_requests Sample.rest 10 Sample.item 0 []))) =
  [(0, BundleOf Sample.item "THUMBNAIL");
   (0 + bundleTime Sample.rest Sample.item "THUMBNAIL",
    CollectionAt "/api/core/bundles/7/bitstreams" (Direct.perPage 1));
   (4, BundleOf Sample.item "THUMBNAIL")].
Proof.
  apply (@getThumbnailFor_refetched Sample.rest 10 Sample.item
           (mkBundleLinks (mkHALLink "/api/core/bundles/7/bitstreams")) 0 2 4);
    [reflexivity | simpl; lia | simpl; lia].
Defined.

Lemma getThumbnailFor_cached_witness :
  settlesAt
    (getThumbnailFor
       (trackedClient Sample.rest 10
          (getThumbnailFor_requests Sample.rest 10 Sample.item 0 []))
       Sample.item 7) 7 ∧
  settled
    (getThumbnailFor
       (trackedClient Sample.rest 10
          (getThumbnailFor_requests Sample.rest 10 Sample.item 0 []))
       Sample.item 7) =
    settled (getThumbnailFor (restClient Sample.rest) Sample.item 7) ∧
  getThumbnailFor_requests Sample.rest 10 Sample.item 7
    (getThumbnailFor_requests Sample.rest 10 Sample.item 0 []) =
  getThumbnailFor_requests Sample.rest 10 Sample.item 0 [].
Proof.
  apply (@getThumbnailFor_cached Sample.rest rest_ok 10
           (getThumbnailFor_requests Sample.rest 10 Sample.item 0 [])
           Sample.item
           (mkBundleLinks (mkHALLink "/api/core/bundles/7/bitstreams")) 7);
    [reflexivity | vm_compute; by eexists | vm_compute; by eexists].
Defined.

Lemma getThumbnailFor_requests_invariant_witness :
  let log' := getThumbnailFor_requests Sample.rest 10 Sample.item 0 [] in
  rtc (tracker_step (timingOf Sample.rest 10)) [] log' ∧
  chronological log' ∧ singleFlight (timingOf Sample.rest 10) log'.
Proof.
  apply (@getThumbnailFor_requests_invariant Sample.rest 10 [] Sample.item 0);
    [apply rtc_refl | simpl; lia].
Defined.

Lemma getThumbnailFor_settles_iff_witness :
  ∃ u, settlesAt
         (getThumbnailFor
            (trackedClient Sample.rest 10
               (getThumbnailFor_requests Sample.rest 10 Sample.item 0 []))
            Sample.item 1) u.
Proof.
  apply (@getThumbnailFor_settles_iff Sample.rest rest_ok 10
           (getThumbnailFor_requests Sample.rest 10 Sample.item 0 [])
           Sample.item 1).
  vm_compute. by eexists.
Defined.
