(* ===== verification/Revalidation.v ===== *)
(** * The operations while a collection is fetched again

    The class on a data service whose builder shows a collection with
    the page that the object cache holds of it ([Served.revalidating]):
    while the collection is fetched again, the pending wrappers of the
    request carry the page of the earlier response.  The callbacks of
    [map] in the two thumbnail operations read the page of a wrapper
    without looking at its state; the cast of
    [findAllByItemAndBundleName] keeps the state.

    [Revalidating] is the operation in direct style: wait for the
    bundle, then for every wrapper of the request for its bitstreams
    say what the callback makes of it.

    The theorems: a subscriber of [getThumbnailFor] for whom the
    bitstreams are on their way and the cache holds an earlier page is
    told a success with the first bitstream of that page in the turn of
    the request, before the response, and the outcome of the response
    afterwards: its marble is not pending wrappers and one settled
    wrapper; so is a subscriber of [getMatchingThumbnail] told what the
    search finds in that page, a thumbnail or the 404 failure; a
    subscriber of [findAllByItemAndBundleName] receives pending
    wrappers until the response is there, whatever the cache holds. *)

From stdpp Require Import gmap.
From S2P Require Import Prelude EmptyUtil RemoteData Observable SwitchMap.
From S2P Require Import Sequence Models Tracker Pagination Collaborators.
From S2P Require Import BitstreamDataService RestServer Served Samples Snapshots.
From S2P Require Import EndToEnd Tracked.

(** ** The operations in direct style *)

Module Revalidating.
Section Revalidating.
Context (schedule : Schedule) (objectCache : ObjectCache) (server : RestServer).

(** What a subscriber is shown while a caller waits for a collection
    of which the cache holds [held]: what [spec] makes of every pending
    wrapper with the page of the cache. *)
Definition shown (spec : RemoteData (PaginatedList Bitstream) → RemoteData Any)
    (held : option (PaginatedList Bitstream)) (sent : Time)
    (responseTime : nat) (t : Time) : Marble (RemoteData Any) :=
  prod_map id (notification_map (λ rd, spec (holding held rd))) <$>
    waiting sent responseTime t.

(** Ask for the collection at [href]: for every wrapper of the request
    say what [spec] makes of it. *)
Definition awaitCollection (href : string) (options : option FindListOptions)
    (spec : RemoteData (PaginatedList Bitstream) → RemoteData Any)
    : Observable (RemoteData Any) :=
  λ u, match schedule (CollectionAt href options) u with
       | Some sent =>
           (shown spec (objectCache href options) sent
              (collectionTime server href options) u ++
            [(seenAt sent (collectionTime server href options) u,
              Next (spec (toRemoteData
                            (Completed (getCollection server href options)))))])
             %list
       | None => unsent u
       end.

(** The thumbnail of an item *)
Definition thumbnailFor (item : Item) : Observable (RemoteData Any) :=
  Direct.awaitBundle schedule server item "THUMBNAIL"%string (λ links,
    awaitCollection (href (bitstreams links)) (Some firstElementOnly)
      Spec.thumbnailOf).

(** The thumbnail of a bitstream of an item *)
Definition matchingThumbnail (item : Item) (original : Bitstream)
    : Observable (RemoteData Any) :=
  Direct.awaitBundle schedule server item "THUMBNAIL"%string (λ links,
    awaitCollection (href (bitstreams links)) (Some allElements)
      (Spec.matchingThumbnailOf original)).

(** A page of the bitstreams of a bundle of an item *)
Definition allByItemAndBundleName (item : Item) (bundleName : string)
    (options : option FindListOptions) : Observable (RemoteData Any) :=
  Direct.awaitBundle schedule server item bundleName (λ links,
    awaitCollection (href (bitstreams links)) options
      (rd_cast AnyPaginatedList)).
End Revalidating.
End Revalidating.

(** A marble in which a wrapper that is not pending is followed by
    another wrapper. *)
Definition settlesEarly (m : Marble (RemoteData Any)) (u : Time)
    (rd : RemoteData Any) : Prop :=
  ∃ l r, m = (l ++ (u, Next rd) :: r)%list ∧
         forallb isPendingSnapshot l = true ∧ isPending rd = false ∧ r ≠ [].

(** The sample server after the first page of the thumbnails of the
    item has been requested at 0 and at 2, invalidated at 6 and
    requested again at 7, with a cache that holds the page of the time
    when the paper was the only thumbnail. *)
Module Stale.
Definition log : Log :=
  getThumbnailFor_requests Sample.rest 10 Sample.item 7
    (invalidate
       (CollectionAt "/api/core/bundles/7/bitstreams" (Some firstElementOnly))
       6 (getThumbnailFor_requests Sample.rest 10 Sample.item 0 [])).
Definition objectCache : ObjectCache :=
  λ _ _, Some (Sample.pageOf [Sample.paper]).
Definition client : BitstreamDataService :=
  cachingClient (tracked Sample.rest 10 log) objectCache Sample.rest.
End Stale.

(** ** What is shown of a request *)

Section Shown.
Context (schedule : Schedule) (objectCache : ObjectCache) (server : RestServer).
Implicit Types (spec : RemoteData (PaginatedList Bitstream) → RemoteData Any).
Implicit Types (held : PaginatedList Bitstream) (sent t u : Time).
Implicit Types (responseTime : nat) (href : string).
Implicit Types (options : option FindListOptions).

(** A callback that keeps the state of a wrapper shows pending
    wrappers. *)
Lemma shown_pending spec cached sent responseTime t :
  (∀ rd, isPending (spec rd) = isPending rd) →
  forallb isPendingSnapshot
    (Revalidating.shown spec cached sent responseTime t) = true.
Proof.
  intros Hspec. unfold Revalidating.shown, waiting.
  repeat case_bool_decide; simpl; unfold isPendingSnapshot; simpl;
    by rewrite ?Hspec.
Qed.

(** A callback that reads the page of a wrapper shows what it makes of
    the page of the cache, once for every pending wrapper. *)
Lemma shown_page spec held sent responseTime t rd :
  (∀ rd', pageOfRD rd' = page held → spec rd' = rd) →
  Revalidating.shown spec (Some held) sent responseTime t =
    (λ e, (e.1, Next rd)) <$>
      waiting (T:=PaginatedList Bitstream) sent responseTime t.
Proof.
  intros Hspec. unfold Revalidating.shown, waiting.
  repeat case_bool_decide; simpl; by rewrite ?Hspec.
Qed.

(** Nothing is shown of a response that has arrived. *)
Lemma shown_arrived spec cached sent responseTime t :
  sent < t → sent + responseTime ≤ t →
  Revalidating.shown spec cached sent responseTime t = [].
Proof.
  intros. unfold Revalidating.shown, waiting.
  by rewrite bool_decide_eq_false_2, bool_decide_eq_true_2 by lia.
Qed.

(** The caller before the response is shown a wrapper in the turn of
    the call. *)
Lemma waiting_first {T : Type} sent responseTime t :
  t < sent + responseTime →
  ∃ rd l, waiting (T:=T) sent responseTime t = (t, Next rd) :: l.
Proof.
  intros. unfold waiting. case_bool_decide; [by eexists _, _|].
  rewrite bool_decide_eq_false_2 by lia. by eexists _, _.
Qed.

Lemma awaitRevalidated_open href options spec u :
  Forall (λ e, isTerminal e.2 = false)
    (Revalidating.awaitCollection schedule objectCache server href options
       spec u).
Proof.
  unfold Revalidating.awaitCollection.
  destruct (schedule _ u); [|by repeat constructor].
  unfold Revalidating.shown, waiting.
  repeat case_bool_decide; by repeat constructor.
Qed.

(** With a callback that keeps the state the request settles when the
    response is there. *)
Lemma awaitCollection_settlesWith href options spec sent u :
  (∀ rd, isPending (spec rd) = isPending rd) →
  schedule (CollectionAt href options) u = Some sent →
  settlesWith
    (Revalidating.awaitCollection schedule objectCache server href options
       spec u)
    (seenAt sent (collectionTime server href options) u)
    (spec (toRemoteData (Completed (getCollection server href options)))).
Proof.
  intros Hspec Hsent. unfold Revalidating.awaitCollection. rewrite Hsent.
  eexists. split; [done|]. by apply shown_pending.
Qed.
End Shown.

(** ** The operations are their direct forms *)

Section Operations.
Context (this : BitstreamDataService) (schedule : Schedule).
Context (objectCache : ObjectCache) (server : RestServer).
Context `{!RevalidatedBy this schedule objectCache server}.
Context `{!RestServerOk server}.
Implicit Types (item : Item) (original : Bitstream) (t u : Time).
Implicit Types (href : string) (options : option FindListOptions).

(** The stream of a request through a function that leaves the wrapper
    of a request that is not sent as it is. *)
Lemma cast_revalidated
    (spec : RemoteData (PaginatedList Bitstream) → RemoteData Any)
    href options linksToFollow u :
  spec (toRemoteData Configured) = toRemoteData Configured →
  castObservable spec
    (findAllByHref this.(dataService) href options linksToFollow) u =
  Revalidating.awaitCollection schedule objectCache server href options spec u.
Proof.
  intros Hc. unfold castObservable, Revalidating.awaitCollection.
  rewrite revalidated_findAllByHref. unfold revalidated. simpl in Hc.
  destruct (schedule _ u); [|by simpl; rewrite Hc].
  unfold revalidating, Revalidating.shown, waiting.
  by repeat case_bool_decide.
Qed.

(** The same for the callback of a [map] that follows its
    specification. *)
Lemma rxMap_revalidated
    (f : RemoteData (PaginatedList Bitstream) → Throws (RemoteData Any))
    (spec : RemoteData (PaginatedList Bitstream) → RemoteData Any)
    href options linksToFollow u :
  (∀ rd, f rd = returns (spec rd)) →
  spec (toRemoteData Configured) = toRemoteData Configured →
  rxMap f (findAllByHref this.(dataService) href options linksToFollow) u =
    Revalidating.awaitCollection schedule objectCache server href options spec u.
Proof.
  intros Hf Hc. rewrite <- (cast_revalidated spec _ _ linksToFollow) by done.
  unfold rxMap, castObservable. apply (rxMap_go_total f spec u); [done|].
  rewrite revalidated_findAllByHref. apply revalidated_wf.
Qed.

Lemma getThumbnailFor_revalidated item t :
  getThumbnailFor this item t =
    Revalidating.thumbnailFor schedule objectCache server item t.
Proof.
  apply await_bundle with (options := Some firstElementOnly)
    (linksToFollow := []) (answer := rxMap getThumbnailFor_map).
  - apply _.
  - intros bundleRD _. apply getThumbnailFor_switchMap_eq.
  - intros links u _.
    by apply rxMap_revalidated; [apply getThumbnailFor_map_eq|].
  - intros links u. apply awaitRevalidated_open.
Qed.

Lemma getMatchingThumbnail_revalidated item original t :
  getMatchingThumbnail this item original t =
    Revalidating.matchingThumbnail schedule objectCache server item original t.
Proof.
  apply await_bundle with (options := Some allElements)
    (linksToFollow := []) (answer := rxMap (getMatchingThumbnail_map original)).
  - apply _.
  - intros bundleRD _. apply getMatchingThumbnail_switchMap_eq.
  - intros links u _.
    by apply rxMap_revalidated; [apply getMatchingThumbnail_map_eq|].
  - intros links u. apply awaitRevalidated_open.
Qed.

Lemma findAllByItemAndBundleName_revalidated
    item bundleName options linksToFollow t :
  findAllByItemAndBundleName this item bundleName options linksToFollow t =
    Revalidating.allByItemAndBundleName schedule objectCache server item
      bundleName options t.
Proof.
  apply await_bundle with (options := options) (linksToFollow := linksToFollow)
    (answer := castObservable (rd_cast AnyPaginatedList)).
  - apply _.
  - intros bundleRD Hne. by apply findAllByItemAndBundleName_switchMap_eq.
  - intros links u _. by apply cast_revalidated.
  - intros links u. apply awaitRevalidated_open.
Qed.
End Operations.

(** ** When the cache holds a page *)

Section Stale.
Context (schedule : Schedule) (objectCache : ObjectCache) (server : RestServer).
Implicit Types (item : Item) (bundleName : string) (t u v sent : Time).
Implicit Types (options : option FindListOptions).
Implicit Types (links : BundleLinks) (held : PaginatedList Bitstream).
Implicit Types (m w : Marble (RemoteData Any)) (rd stale fresh : RemoteData Any).
Implicit Types (spec : RemoteData (PaginatedList Bitstream) → RemoteData Any).
Implicit Types (bitstreamRD : RemoteData (PaginatedList Bitstream)).

(** A marble that tells a settled wrapper before its last does not
    settle. *)
Lemma settlesEarly_unsettled m u rd v : settlesEarly m u rd → ¬ settlesAt m v.
Proof.
  intros (l & r & -> & _ & Hrd & Hr) (l' & rd' & Heq & Hl' & _).
  destruct r as [|e r _] using rev_ind; [done|].
  rewrite app_comm_cons, app_assoc in Heq. apply app_inj_tail in Heq as [<- _].
  rewrite forallb_app in Hl'. apply andb_prop in Hl' as [_ Hl'].
  unfold isPendingSnapshot in Hl'. simpl in Hl'. by rewrite Hrd in Hl'.
Qed.

(** The lookup of the bitstreams of a bundle when the cache holds a
    page of them, through a callback that reads the page of a wrapper:
    the pending wrappers of the lookup of the bundle, what the callback
    makes of the page of the cache for every pending wrapper of the
    request for the bitstreams, and what it makes of the response. *)
Lemma awaitBundle_stale item bundleName options spec t sent links sent' held rd :
  schedule (BundleOf item bundleName) t = Some sent →
  bundleOf server !! (item_uuid item, bundleName) = Some links →
  schedule (CollectionAt (href (bitstreams links)) options)
    (seenAt sent (bundleTime server item bundleName) t) = Some sent' →
  objectCache (href (bitstreams links)) options = Some held →
  (∀ bitstreamRD, pageOfRD bitstreamRD = page held → spec bitstreamRD = rd) →
  Direct.awaitBundle schedule server item bundleName
    (λ links, Revalidating.awaitCollection schedule objectCache server
                (href (bitstreams links)) options spec) t =
    waiting sent (bundleTime server item bundleName) t ++
    ((λ e, (e.1, Next rd)) <$>
       waiting (T:=PaginatedList Bitstream) sent'
         (collectionTime server (href (bitstreams links)) options)
         (seenAt sent (bundleTime server item bundleName) t)) ++
    [(seenAt sent' (collectionTime server (href (bitstreams links)) options)
        (seenAt sent (bundleTime server item bundleName) t),
      Next (spec (toRemoteData
                    (Completed (getCollection server (href (bitstreams links))
                                  options)))))].
Proof.
  intros Hsent Hlinks Hsent' Hheld Hspec.
  unfold Direct.awaitBundle, Direct.await. rewrite Hsent, Hlinks.
  simpl latency. unfold Revalidating.awaitCollection. rewrite Hsent', Hheld.
  by rewrite (shown_page spec held _ _ _ rd).
Qed.

(** A subscriber of such a marble is told the wrapper of the page of
    the cache before the response, and is left with the wrapper of the
    response. *)
Lemma stale_settlesEarly m w sent' responseTime u v stale fresh :
  m = w ++
      ((λ e, (e.1, Next stale)) <$>
         waiting (T:=PaginatedList Bitstream) sent' responseTime u) ++
      [(v, Next fresh)] →
  forallb isPendingSnapshot w = true → isPending stale = false →
  u < sent' + responseTime →
  settlesEarly m u stale ∧ settled m = Some fresh ∧ ∀ v', ¬ settlesAt m v'.
Proof.
  intros -> Hw Hstale Hu.
  destruct (waiting_first (T:=PaginatedList Bitstream) sent' _ u Hu)
    as (rd & w' & ->).
  assert (settlesEarly
            (w ++ ((λ e, (e.1, Next stale)) <$> (u, Next rd) :: w') ++
             [(v, Next fresh)]) u stale) as Hearly.
  { eexists w, _. split; [done|]. split; [done|]. split; [done|].
    by destruct w'. }
  split; [done|]. split; [|intros v'; by eapply settlesEarly_unsettled].
  unfold settled. rewrite !app_assoc, values_app. apply last_snoc.
Qed.
End Stale.

(** ** The theorems *)

Section Theorems.
Context (this : BitstreamDataService) (schedule : Schedule).
Context (objectCache : ObjectCache) (server : RestServer).
Context `{!RevalidatedBy this schedule objectCache server}.
Context `{!RestServerOk server}.
Implicit Types (item : Item) (original : Bitstream) (t u v sent : Time).
Implicit Types (links : BundleLinks) (held : PaginatedList Bitstream).

(** The marble of [getThumbnailFor] when the cache holds a page of the
    thumbnails: a success with the first bitstream of that page for
    every pending wrapper of the request for the bitstreams. *)
Lemma getThumbnailFor_stale item t sent links sent' held l :
  schedule (BundleOf item "THUMBNAIL") t = Some sent →
  bundleOf server !! (item_uuid item, "THUMBNAIL"%string) = Some links →
  schedule (CollectionAt (href (bitstreams links)) (Some firstElementOnly))
    (seenAt sent (bundleTime server item "THUMBNAIL") t) = Some sent' →
  objectCache (href (bitstreams links)) (Some firstElementOnly) = Some held →
  page held = Some l →
  getThumbnailFor this item t =
    waiting sent (bundleTime server item "THUMBNAIL") t ++
    ((λ e, (e.1, Next (successWith (head l)))) <$>
       waiting (T:=PaginatedList Bitstream) sent'
         (collectionTime server (href (bitstreams links))
            (Some firstElementOnly))
         (seenAt sent (bundleTime server item "THUMBNAIL") t)) ++
    [(seenAt sent'
        (collectionTime server (href (bitstreams links)) (Some firstElementOnly))
        (seenAt sent (bundleTime server item "THUMBNAIL") t),
      Next (outcome server item "THUMBNAIL" (λ l, Direct.found (head l))))].
Proof.
  intros Hsent Hlinks Hsent' Hheld Hpage.
  rewrite (getThumbnailFor_revalidated this schedule objectCache server).
  unfold Revalidating.thumbnailFor.
  rewrite (awaitBundle_stale _ _ _ _ _ _ _ _ _ _ _ _ (successWith (head l))
             Hsent Hlinks Hsent' Hheld).
  - rewrite (thumbnailOf_getCollection server). unfold outcome.
    by rewrite Hlinks.
  - intros rd' Hrd'. unfold Spec.thumbnailOf. by rewrite Hrd', Hpage.
Qed.

(** The marble of [getMatchingThumbnail]: what the search finds in the
    page of the cache, a thumbnail or the 404 failure, for every
    pending wrapper of the request. *)
Lemma getMatchingThumbnail_stale item original t sent links sent' held l :
  schedule (BundleOf item "THUMBNAIL") t = Some sent →
  bundleOf server !! (item_uuid item, "THUMBNAIL"%string) = Some links →
  schedule (CollectionAt (href (bitstreams links)) (Some allElements))
    (seenAt sent (bundleTime server item "THUMBNAIL") t) = Some sent' →
  objectCache (href (bitstreams links)) (Some allElements) = Some held →
  page held = Some l →
  getMatchingThumbnail this item original t =
    waiting sent (bundleTime server item "THUMBNAIL") t ++
    ((λ e, (e.1, Next (Direct.searched original l))) <$>
       waiting (T:=PaginatedList Bitstream) sent'
         (collectionTime server (href (bitstreams links)) (Some allElements))
         (seenAt sent (bundleTime server item "THUMBNAIL") t)) ++
    [(seenAt sent'
        (collectionTime server (href (bitstreams links)) (Some allElements))
        (seenAt sent (bundleTime server item "THUMBNAIL") t),
      Next (outcome server item "THUMBNAIL"
              (λ l, Direct.searched original (takeZ (2 ^ 53 - 1) l))))].
Proof.
  intros Hsent Hlinks Hsent' Hheld Hpage.
  rewrite (getMatchingThumbnail_revalidated this schedule objectCache server).
  unfold Revalidating.matchingThumbnail.
  rewrite (awaitBundle_stale _ _ _ _ _ _ _ _ _ _ _ _
             (Direct.searched original l) Hsent Hlinks Hsent' Hheld).
  - rewrite (matchingThumbnailOf_getCollection server). unfold outcome.
    by rewrite Hlinks.
  - intros rd' Hrd'. unfold Spec.matchingThumbnailOf, Direct.searched.
    rewrite Hrd', Hpage. by destruct (find _ l).
Qed.

(** What [findAllByItemAndBundleName] settles with, whatever the cache
    holds. *)
Lemma findAllByItemAndBundleName_revalidated_settlesWith
    item bundleName options linksToFollow t v :
  settledAt schedule server item bundleName options t = Some v →
  settlesWith
    (findAllByItemAndBundleName this item bundleName options linksToFollow t) v
    (outcome server item bundleName
       (λ l, toRemoteData (Completed (Ok (AnyPaginatedList
               (paginate (defaultPageSize server) options
                  (arrange server (options ≫= sort)
                     (default [] (filters <$> options)) l))))))).
Proof.
  rewrite (findAllByItemAndBundleName_revalidated this schedule objectCache
             server).
  unfold settledAt, outcome, Revalidating.allByItemAndBundleName,
    Direct.awaitBundle.
  destruct (schedule (BundleOf item bundleName) t) as [sent|] eqn:Hsent; [|done].
  intros Hv. apply await_settlesWith with sent; [done|].
  destruct (bundleOf server !! (item_uuid item, bundleName)) as [links|].
  - destruct (schedule (CollectionAt _ _) _) as [sent'|] eqn:Hsent'; [|done].
    injection Hv as <-.
    pose proof (awaitCollection_settlesWith schedule objectCache server
                  (href (bitstreams links)) options (rd_cast AnyPaginatedList)
                  sent' _ (λ _, eq_refl) Hsent') as Hsettles.
    unfold getCollection in Hsettles.
    by destruct (collectionAt server !! href (bitstreams links)).
  - injection Hv as <-. by exists [].
Qed.

(** C30: the thumbnail of an earlier page is told as a success.  When
    the builder shows a collection with the page that the object cache
    holds of it, a subscriber of [getThumbnailFor] for whom the response
    to the request for the bitstreams is still on its way is told, in
    the turn of the request, a success with the first bitstream of the
    page of the cache: the callback of [map] reads the page of a pending
    wrapper and never its state.  The outcome of the response follows,
    so that the marble is not pending wrappers and then one settled
    wrapper. *)
Theorem getThumbnailFor_revalidating item t sent links sent' held l :
  schedule (BundleOf item "THUMBNAIL") t = Some sent →
  bundleOf server !! (item_uuid item, "THUMBNAIL"%string) = Some links →
  let u := seenAt sent (bundleTime server item "THUMBNAIL") t in
  let href := href (bitstreams links) in
  schedule (CollectionAt href (Some firstElementOnly)) u = Some sent' →
  u < sent' + collectionTime server href (Some firstElementOnly) →
  objectCache href (Some firstElementOnly) = Some held →
  page held = Some l →
  settlesEarly (getThumbnailFor this item t) u (successWith (head l)) ∧
  settled (getThumbnailFor this item t) =
    Some (outcome server item "THUMBNAIL" (λ l, Direct.found (head l))) ∧
  ∀ v, ¬ settlesAt (getThumbnailFor this item t) v.
Proof.
  intros Hsent Hlinks u href Hsent' Hu Hheld Hpage.
  eapply stale_settlesEarly; [|apply waiting_pending|done|exact Hu].
  by apply getThumbnailFor_stale with held.
Qed.

(** The same for the search: what the search finds in the page of the
    cache is told as settled, a thumbnail that may not be one any more
    or the 404 failure of a thumbnail that the page did not hold yet. *)
Lemma getMatchingThumbnail_revalidating
    item original t sent links sent' held l :
  schedule (BundleOf item "THUMBNAIL") t = Some sent →
  bundleOf server !! (item_uuid item, "THUMBNAIL"%string) = Some links →
  let u := seenAt sent (bundleTime server item "THUMBNAIL") t in
  let href := href (bitstreams links) in
  schedule (CollectionAt href (Some allElements)) u = Some sent' →
  u < sent' + collectionTime server href (Some allElements) →
  objectCache href (Some allElements) = Some held →
  page held = Some l →
  settlesEarly (getMatchingThumbnail this item original t) u
    (Direct.searched original l) ∧
  settled (getMatchingThumbnail this item original t) =
    Some (outcome server item "THUMBNAIL"
            (λ l, Direct.searched original (takeZ (2 ^ 53 - 1) l))) ∧
  ∀ v, ¬ settlesAt (getMatchingThumbnail this item original t) v.
Proof.
  intros Hsent Hlinks u href Hsent' Hu Hheld Hpage.
  eapply stale_settlesEarly;
    [|apply waiting_pending|apply searched_settled|exact Hu].
  by apply getMatchingThumbnail_stale with held.
Qed.

(** C31: the cast keeps the state.  Whatever the object cache holds, a
    subscriber of [findAllByItemAndBundleName] whose two requests the
    schedule serves receives pending wrappers, which may carry the page
    of the cache, and then the one settled wrapper of the response, in
    the turn in which the response is there. *)
Theorem findAllByItemAndBundleName_revalidating
    item bundleName options linksToFollow t v :
  settledAt schedule server item bundleName options t = Some v →
  settlesAt
    (findAllByItemAndBundleName this item bundleName options linksToFollow t) v
  ∧ settled
      (findAllByItemAndBundleName this item bundleName options linksToFollow t)
    = Some (outcome server item bundleName
              (λ l, toRemoteData (Completed (Ok (AnyPaginatedList
                      (paginate (defaultPageSize server) options
                         (arrange server (options ≫= sort)
                            (default [] (filters <$> options)) l))))))).
Proof.
  intros Hv.
  apply (findAllByItemAndBundleName_revalidated_settlesWith _ _ _ linksToFollow)
    in Hv.
  split; [|by eapply settlesWith_settled].
  eapply settlesWith_settlesAt; [done|apply outcome_settled..]; done.
Qed.
End Theorems.

(** ** The theorems at the sample server *)

Lemma getThumbnailFor_revalidating_witness :
  settlesEarly (getThumbnailFor Stale.client Sample.item 7) 7
    (successWith (Some Sample.paper)) ∧
  settled (getThumbnailFor Stale.client Sample.item 7) =
    Some (Direct.found (Some Sample.cover)) ∧
  ∀ v, ¬ settlesAt (getThumbnailFor Stale.client Sample.item 7) v.
Proof.
  apply (@getThumbnailFor_revalidating Stale.client
           (tracked Sample.rest 10 Stale.log) Stale.objectCache Sample.rest
           (cachingClient_revalidated _ _ _) rest_ok Sample.item 7 0
           (mkBundleLinks (mkHALLink "/api/core/bundles/7/bitstreams")) 7
           (Sample.pageOf [Sample.paper]) [Sample.paper]);
    [reflexivity | reflexivity | reflexivity | vm_compute; lia | reflexivity
    |reflexivity].
Defined.

Lemma findAllByItemAndBundleName_revalidating_witness :
  settlesAt
    (findAllByItemAndBundleName Stale.client Sample.item "THUMBNAIL"
       (Some firstElementOnly) [] 7) 10 ∧
  settled
    (findAllByItemAndBundleName Stale.client Sample.item "THUMBNAIL"
       (Some firstElementOnly) [] 7) =
  Some (toRemoteData (Completed (Ok (AnyPaginatedList
          (mkPaginatedList 2 (Some [Sample.cover])))))).
Proof.
  apply (@findAllByItemAndBundleName_revalidating Stale.client
           (tracked Sample.rest 10 Stale.log) Stale.objectCache Sample.rest
           (cachingClient_revalidated _ _ _) Sample.item "THUMBNAIL"
           (Some firstElementOnly) [] 7 10).
  reflexivity.
Defined.
