(* ===== verification/Linked.v ===== *)
(** * The operations over a builder that resolves relations

    The class on a data service whose builder resolves the link
    descriptors of a request ([Links.linkedFindAllByHref]).  Of the
    three operations [findAllByItemAndBundleName] passes the descriptors
    of its caller on; the two thumbnail operations pass none.

    [Linking] is the operation in direct style: wait for the bundle,
    then for the page, then show what the resolution of the relations of
    its elements shows.  [findAllByItemAndBundleName_linked_requests]
    is what a caller asks of the request tracker: the bundle, the page,
    and when the page is there the relations of its elements.

    The theorems: the two thumbnail operations are what they are over a
    builder that resolves nothing; a subscriber of
    [findAllByItemAndBundleName] whose page has an element with a
    relation that the server cannot resolve is never told a success, and
    is told the failure of a relation when the last nested response is
    there; a subscriber whose relations are resolved is shown the page in
    a pending wrapper when the page is there, and the success when the
    last relation is; the elements of a page that link to the same
    resource cost one fetch of it. *)

From stdpp Require Import gmap.
From S2P Require Import Prelude EmptyUtil RemoteData Observable SwitchMap.
From S2P Require Import Sequence Models Hypermedia Decorators Tracker.
From S2P Require Import Pagination Collaborators BitstreamDataService.
From S2P Require Import RestServer Served Links Samples Snapshots.
From S2P Require Import EndToEnd Tracked.

(** ** The class over a builder with link definitions *)

(** The inherited [DataService<Bitstream>], whose builder knows the
    type of every relation. *)
Definition DataService_linking (requestService : Schedule)
    (rdbService : string → ResourceType) (store cds objectCache : unit)
    (halService : gmap string string) (notificationsService : unit)
    (http : RestServer) (comparator : unit) (bundleService : BundleDataService)
    (linkPath : string) : DataService Bitstream :=
  mkDataService
    (DataService_findAll halService linkPath
       (linkedFindAllByHref requestService http rdbService))
    (linkedFindAllByHref requestService http rdbService).

(** The class over a schedule, the link definitions and a server *)
Definition linkingClient (schedule : Schedule)
    (linkType : string → ResourceType) (server : RestServer)
    : BitstreamDataService :=
  constructor DataService_linking schedule linkType () () ()
    (endpoints server) () server ()
    (mkBundleDataService (servedFindByItemAndName schedule server)).

(** The collections of [this] are shown with their relations
    resolved. *)
Class LinkedBy (this : BitstreamDataService) (schedule : Schedule)
    (linkType : string → ResourceType) (server : RestServer) : Prop := {
  linked_bundles :: BundlesServedBy this schedule server;
  linked_findAllByHref href options linksToFollow t :
    findAllByHref this.(dataService) href options linksToFollow t =
      linkedFindAllByHref schedule server linkType href options linksToFollow t;
}.

(** ** The operation in direct style *)

Module Linking.
Section Linking.
Context (schedule : Schedule) (linkType : string → ResourceType).
Context (server : RestServer).

(** What a subscriber is shown of a page from the turn on in which it
    is there. *)
Definition shown (linksToFollow : list FollowLinkConfig)
    (paginatedList : PaginatedList Bitstream) (u : Time)
    : Marble (RemoteData Any) :=
  prod_map id (notification_map (rd_cast AnyPaginatedList)) <$>
    composite (λ paginatedList _, paginatedList) paginatedList
      (followPage schedule server linkType linksToFollow
         (elementsOf paginatedList) u) u.

(** Ask for the collection at [href], then resolve the relations of
    its elements. *)
Definition awaitLinked (href : string) (options : option FindListOptions)
    (linksToFollow : list FollowLinkConfig) : Observable (RemoteData Any) :=
  Direct.await schedule server (CollectionAt href options)
    (λ u, match getCollection server href options with
          | Ok paginatedList => shown linksToFollow paginatedList u
          | NotOk error => [(u, Next (Direct.failed error))]
          end).

(** A page of the bitstreams of a bundle of an item, with their
    relations. *)
Definition allByItemAndBundleName (item : Item) (bundleName : string)
    (options : option FindListOptions) (linksToFollow : list FollowLinkConfig)
    : Observable (RemoteData Any) :=
  Direct.awaitBundle schedule server item bundleName (λ links,
    awaitLinked (href (bitstreams links)) options linksToFollow).
End Linking.
End Linking.

(** ** What the operation asks of the tracker *)

(** The requests that a call of [findAllByItemAndBundleName] with link
    descriptors makes through its collaborators, after the data flow of
    the spec: the bundle, the page, and in the turn in which the page is
    there the relations of its elements.  The definition is not
    translated from lines of the class;
    [findAllByItemAndBundleName_linked_settles] ties it to the
    operation. *)
Definition findAllByItemAndBundleName_linked_requests (server : RestServer)
    (timeToLive : nat) (linkType : string → ResourceType) (item : Item)
    (bundleName : string) (options : option FindListOptions)
    (linksToFollow : list FollowLinkConfig) (t : Time) (log : Log) : Log :=
  let log' :=
    findAllByItemAndBundleName_requests server timeToLive item bundleName
      options t log in
  match settledAt (tracked server timeToLive log') server item bundleName
          options t,
        bundleOf server !! (item_uuid item, bundleName) with
  | Some u, Some links =>
      match getCollection server (href (bitstreams links)) options with
      | Ok paginatedList =>
          nestedRequests server linkType (timingOf server timeToLive)
            linksToFollow (elementsOf paginatedList) u log'
      | NotOk _ => log'
      end
  | _, _ => log'
  end.

(** ** The services keep their promises *)

Section Services.
Context (schedule : Schedule) (linkType : string → ResourceType).
Context (server : RestServer).

#[export] Instance linkingDataService_ok bundleService linkPath :
  DataServiceOk
    (DataService_linking schedule linkType () () () (endpoints server) ()
       server () bundleService linkPath).
Proof.
  split; intros href options links; simpl;
    [apply linked_wf; intros; apply followPage_notBefore
    |apply linked_errorFree | apply linked_rd_wf].
Qed.

#[export] Instance linkingClient_linked :
  LinkedBy (linkingClient schedule linkType server) schedule linkType server.
Proof. by repeat split. Qed.
End Services.

(** A class whose builder resolves relations serves the collections
    that are asked for without link descriptors. *)
#[export] Instance linked_pages this schedule linkType server
    `{!LinkedBy this schedule linkType server} :
  PagesServedBy this schedule server.
Proof.
  split; [apply _|]. intros href options t. rewrite linked_findAllByHref.
  apply linked_served. intros body u. eexists. split; [apply followPage_nil|done].
Qed.

(** ** The operations are their direct forms *)

Section Operations.
Context (this : BitstreamDataService) (schedule : Schedule).
Context (linkType : string → ResourceType) (server : RestServer).
Context `{!LinkedBy this schedule linkType server}.
Implicit Types (item : Item) (bundleName href : string) (t u : Time).
Implicit Types (options : option FindListOptions).
Implicit Types (linksToFollow : list FollowLinkConfig).

Lemma awaitLinked_open href options linksToFollow t :
  Forall (λ e, isTerminal e.2 = false)
    (Linking.awaitLinked schedule linkType server href options linksToFollow t).
Proof.
  unfold Linking.awaitLinked, Direct.await.
  destruct (schedule _ t); [|by repeat constructor]. apply Forall_app. split.
  { unfold waiting. repeat case_bool_decide; by repeat constructor. }
  destruct (getCollection _ _ _); [|by repeat constructor].
  unfold Linking.shown. apply Forall_fmap.
  eapply Forall_impl; [apply composite_open|]. by intros [v [rd|e|]].
Qed.

(** The cast of the stream of a request with link descriptors. *)
Lemma cast_linked href options linksToFollow t :
  castObservable (rd_cast AnyPaginatedList)
    (findAllByHref this.(dataService) href options linksToFollow) t =
  Linking.awaitLinked schedule linkType server href options linksToFollow t.
Proof.
  unfold castObservable. rewrite linked_findAllByHref.
  unfold linkedFindAllByHref, linked, Linking.awaitLinked, Direct.await.
  destruct (schedule _ t) as [sent|]; [|done]. rewrite fmap_app. f_equal.
  { unfold waiting. by repeat case_bool_decide. }
  by destruct (getCollection _ _ _).
Qed.

Lemma findAllByItemAndBundleName_linked
    item bundleName options linksToFollow t :
  findAllByItemAndBundleName this item bundleName options linksToFollow t =
    Linking.allByItemAndBundleName schedule linkType server item bundleName
      options linksToFollow t.
Proof.
  apply await_bundle with (options := options) (linksToFollow := linksToFollow)
    (answer := castObservable (rd_cast AnyPaginatedList)).
  - apply _.
  - intros bundleRD Hne. by apply findAllByItemAndBundleName_switchMap_eq.
  - intros links u _. apply cast_linked.
  - intros links u. apply awaitLinked_open.
Qed.

(** The thumbnail operations ask for no relation. *)
Lemma getThumbnailFor_linked `{!RestServerOk server} item t :
  getThumbnailFor this item t = Direct.thumbnailFor schedule server item t.
Proof. apply (getThumbnailFor_served this schedule server). Qed.

Lemma getMatchingThumbnail_linked `{!RestServerOk server} item original t :
  getMatchingThumbnail this item original t =
    Direct.matchingThumbnailWithin schedule server (2 ^ 53 - 1) item original t.
Proof. apply (getMatchingThumbnail_served this schedule server). Qed.
End Operations.

(** ** What a subscriber is shown *)

Section Shown.
Context (schedule : Schedule) (linkType : string → ResourceType).
Context (server : RestServer).
Implicit Types (item : Item) (bundleName href : string) (t u v : Time).
Implicit Types (options : option FindListOptions).
Implicit Types (linksToFollow : list FollowLinkConfig).
Implicit Types (paginatedList : PaginatedList Bitstream).
Implicit Types (m l : Marble (RemoteData Any)) (rd : RemoteData Any).

Lemma settlesWith_app l m u rd :
  forallb isPendingSnapshot l = true → settlesWith m u rd →
  settlesWith (l ++ m) u rd.
Proof.
  intros Hl (l' & -> & Hl'). exists (l ++ l'). split; [by rewrite app_assoc|].
  by rewrite forallb_app, Hl, Hl'.
Qed.

Lemma values_shown linksToFollow paginatedList u :
  values (Linking.shown schedule linkType server linksToFollow paginatedList u) =
    rd_cast AnyPaginatedList <$>
      values (composite (λ paginatedList _, paginatedList) paginatedList
                (followPage schedule server linkType linksToFollow
                   (elementsOf paginatedList) u) u).
Proof. apply (values_castObservable _ (λ _, composite _ _ _ _) 0). Qed.

(** The page is shown in a pending wrapper until the resolution has
    settled, and then with what it has settled with. *)
Lemma shown_settlesWith linksToFollow paginatedList u v
    (response : Response (list Representation)) :
  followPage schedule server linkType linksToFollow (elementsOf paginatedList) u
    = Some (v, response) →
  settlesWith (Linking.shown schedule linkType server linksToFollow
                 paginatedList u) v
    match response with
    | Ok _ => toRemoteData (Completed (Ok (AnyPaginatedList paginatedList)))
    | NotOk error => Direct.failed error
    end.
Proof.
  intros Hv. unfold Linking.shown, composite. rewrite Hv, fmap_app.
  eexists. split; [by destruct response|]. by case_bool_decide.
Qed.

Lemma shown_unsettled linksToFollow paginatedList u :
  followPage schedule server linkType linksToFollow (elementsOf paginatedList) u
    = None →
  forallb isPendingSnapshot
    (Linking.shown schedule linkType server linksToFollow paginatedList u)
    = true.
Proof. intros Hv. unfold Linking.shown, composite. by rewrite Hv. Qed.

(** The marble of the operation when the page is there at [u]:
    pending wrappers, then what is shown of the page. *)
Lemma allByItemAndBundleName_shown
    item bundleName options linksToFollow links paginatedList t u :
  settledAt schedule server item bundleName options t = Some u →
  bundleOf server !! (item_uuid item, bundleName) = Some links →
  getCollection server (href (bitstreams links)) options = Ok paginatedList →
  ∃ l, Linking.allByItemAndBundleName schedule linkType server item bundleName
         options linksToFollow t =
       l ++ Linking.shown schedule linkType server linksToFollow
              paginatedList u ∧
       forallb isPendingSnapshot l = true.
Proof.
  unfold settledAt, Linking.allByItemAndBundleName, Direct.awaitBundle,
    Linking.awaitLinked, Direct.await.
  intros Hu Hlinks Hpage. rewrite Hlinks in Hu |- *. simpl latency.
  destruct (schedule (BundleOf item bundleName) t) as [sent|]; [|done].
  destruct (schedule (CollectionAt _ _) _) as [sent'|]; [|done].
  injection Hu as <-. rewrite Hpage. eexists. split; [by rewrite app_assoc|].
  by rewrite forallb_app, !waiting_pending.
Qed.

(** A success is shown only when the page is there and the resolution
    of its relations has succeeded. *)
Lemma allByItemAndBundleName_hasSucceeded
    item bundleName options linksToFollow t rd :
  rd ∈ values (Linking.allByItemAndBundleName schedule linkType server item
                 bundleName options linksToFollow t) →
  hasSucceeded rd = true →
  ∃ links paginatedList u,
    bundleOf server !! (item_uuid item, bundleName) = Some links ∧
    getCollection server (href (bitstreams links)) options = Ok paginatedList ∧
    succeeds (followPage schedule server linkType linksToFollow
                (elementsOf paginatedList) u).
Proof.
  unfold Linking.allByItemAndBundleName, Direct.awaitBundle,
    Linking.awaitLinked, Direct.await.
  destruct (schedule (BundleOf item bundleName) t) as [sent|].
  2:{ intros ?%list_elem_of_singleton. by simplify_eq. }
  rewrite values_app, elem_of_app.
  intros [[w [?|?]%elem_of_waiting]%elem_of_values|Hin] Hrd; simplify_eq.
  destruct (bundleOf server !! _) as [links|] eqn:Hlinks.
  2:{ apply list_elem_of_singleton in Hin. by simplify_eq. }
  destruct (schedule (CollectionAt _ _) _) as [sent'|].
  2:{ apply list_elem_of_singleton in Hin. by simplify_eq. }
  rewrite values_app, elem_of_app in Hin.
  destruct Hin as [[w [?|?]%elem_of_waiting]%elem_of_values|Hin]; simplify_eq.
  destruct (getCollection _ _ _) as [paginatedList|error] eqn:Hpage.
  2:{ apply list_elem_of_singleton in Hin. by simplify_eq. }
  rewrite values_shown in Hin.
  apply list_elem_of_fmap in Hin as (rd' & -> & Hin).
  exists links, paginatedList, (seenAt sent' (latency server (CollectionAt
    (href (bitstreams links)) options)) (seenAt sent (latency server
    (BundleOf item bundleName)) t)).
  split_and!; [done..|]. by eapply composite_hasSucceeded.
Qed.

(** The operation settles when its two requests are served and the
    resolution of the relations of the page settles: with the failure
    of the bundle or of the page, or with what the resolution makes of
    the page. *)
Lemma allByItemAndBundleName_settles item bundleName options linksToFollow t u :
  settledAt schedule server item bundleName options t = Some u →
  (∀ links paginatedList,
     bundleOf server !! (item_uuid item, bundleName) = Some links →
     getCollection server (href (bitstreams links)) options = Ok paginatedList →
     is_Some (followPage schedule server linkType linksToFollow
                (elementsOf paginatedList) u)) →
  ∃ v, settlesAt
         (Linking.allByItemAndBundleName schedule linkType server item
            bundleName options linksToFollow t) v.
Proof.
  intros Hu Hresolved.
  destruct (bundleOf server !! (item_uuid item, bundleName)) as [links|]
    eqn:Hlinks.
  2:{ exists u. unfold settledAt in Hu. rewrite Hlinks in Hu.
      unfold Linking.allByItemAndBundleName, Direct.awaitBundle, Direct.await.
      rewrite Hlinks.
      destruct (schedule (BundleOf item bundleName) t) as [sent|]; [|done].
      injection Hu as <-. eexists _, _. split_and!; [done| |done..].
      apply waiting_pending. }
  destruct (getCollection server (href (bitstreams links)) options)
    as [paginatedList|error] eqn:Hpage.
  - destruct (allByItemAndBundleName_shown item bundleName options
                linksToFollow links paginatedList t u) as (l & -> & Hl);
      [done..|].
    destruct (Hresolved links paginatedList) as [[v response] Hv]; [done..|].
    exists v. eapply settlesWith_settlesAt.
    + apply settlesWith_app; [done|]. by apply shown_settlesWith.
    + by destruct response.
    + by destruct response.
  - exists u. unfold settledAt in Hu. rewrite Hlinks in Hu.
    unfold Linking.allByItemAndBundleName, Direct.awaitBundle,
      Linking.awaitLinked, Direct.await.
    rewrite Hlinks, Hpage. simpl latency.
    destruct (schedule (BundleOf item bundleName) t) as [sent|]; [|done].
    destruct (schedule (CollectionAt _ _) _) as [sent'|]; [|done].
    injection Hu as <-. eexists _, _. split_and!; [by rewrite app_assoc| |done..].
    by rewrite forallb_app, !waiting_pending.
Qed.
End Shown.

(** ** Theorems *)

Section Theorems.
Context (this : BitstreamDataService) (schedule : Schedule).
Context (linkType : string → ResourceType) (server : RestServer).
Context `{!LinkedBy this schedule linkType server}.
Implicit Types (item : Item) (bundleName href : string) (t u v : Time).
Implicit Types (options : option FindListOptions).
Implicit Types (linksToFollow : list FollowLinkConfig).
Implicit Types (paginatedList : PaginatedList Bitstream).

(** C20: a subscriber of [findAllByItemAndBundleName] whose link
    descriptors name a relation that an element of the page has and
    whose resource the server does not have is never told a success,
    whatever the other relations yield; when the page is there and the
    last nested response is there, the subscriber is told the failure of
    a relation that could not be resolved, with the status 404, and
    nothing after it. *)
Theorem findAllByItemAndBundleName_link_failure
    item bundleName options linksToFollow links paginatedList bitstream
    relationName nested address t :
  bundleOf server !! (item_uuid item, bundleName) = Some links →
  getCollection server (href (bitstreams links)) options = Ok paginatedList →
  bitstream ∈ elementsOf paginatedList →
  followLink relationName nested ∈ linksToFollow →
  hal_embedded (representationOf server bitstream) !! relationName = None →
  hal_links (representationOf server bitstream) !! relationName = Some address →
  resourceAt server !! address = None →
  Forall (λ rd, hasSucceeded rd = false)
    (values (findAllByItemAndBundleName this item bundleName options
               linksToFollow t)) ∧
  ∀ u v response,
    settledAt schedule server item bundleName options t = Some u →
    followPage schedule server linkType linksToFollow
      (elementsOf paginatedList) u = Some (v, response) →
    ∃ name,
      settlesWith
        (findAllByItemAndBundleName this item bundleName options
           linksToFollow t) v
        (Direct.failed (linkResolutionError name notFound)).
Proof.
  intros Hlinks Hpage Hb Hd He Hl Hnone.
  rewrite (findAllByItemAndBundleName_linked this schedule linkType server).
  assert (∀ u, ¬ succeeds (followPage schedule server linkType linksToFollow
                             (elementsOf paginatedList) u)) as Hfails
    by (intros u; by eapply followPage_notFound).
  split.
  - apply Forall_forall. intros rd Hin. apply not_true_is_false. intros Hrd.
    destruct (allByItemAndBundleName_hasSucceeded _ _ _ _ _ _ _ _ _ Hin Hrd)
      as (links' & pl & u & ? & ? & ?).
    assert (links' = links) as -> by congruence.
    assert (pl = paginatedList) as -> by congruence. by eapply Hfails.
  - intros u v response Hu Hv.
    destruct (allByItemAndBundleName_shown schedule linkType server item
                bundleName options linksToFollow links paginatedList t u)
      as (l & -> & Hl'); [done..|].
    destruct response as [merged|error].
    { destruct (Hfails u). by exists v, merged. }
    destruct (followPage_error _ _ _ _ _ _ _ _ Hv) as [name ->].
    exists name. apply settlesWith_app; [done|].
    by apply (shown_settlesWith _ _ _ _ _ _ _ _ Hv).
Qed.

(** C32: a subscriber of [findAllByItemAndBundleName] for whom the page
    is there at [u] and the last of the relations that the link
    descriptors name at a later turn [v] receives pending wrappers,
    then at [u] a pending wrapper that carries the page, then at [v] the
    success with the page, and nothing more. *)
Theorem findAllByItemAndBundleName_nested_pending
    item bundleName options linksToFollow links paginatedList t u v resolved :
  settledAt schedule server item bundleName options t = Some u →
  bundleOf server !! (item_uuid item, bundleName) = Some links →
  getCollection server (href (bitstreams links)) options = Ok paginatedList →
  followPage schedule server linkType linksToFollow
    (elementsOf paginatedList) u = Some (v, Ok resolved) →
  u < v →
  ∃ l, findAllByItemAndBundleName this item bundleName options linksToFollow t
       = l ++ [(u, Next (rd_cast AnyPaginatedList (nestedPending paginatedList)));
               (v, Next (toRemoteData
                           (Completed (Ok (AnyPaginatedList paginatedList)))))] ∧
       forallb isPendingSnapshot l = true.
Proof.
  intros Hu Hlinks Hpage Hv Huv.
  rewrite (findAllByItemAndBundleName_linked this schedule linkType server).
  destruct (allByItemAndBundleName_shown schedule linkType server item
              bundleName options linksToFollow links paginatedList t u)
    as (l & -> & Hl); [done..|].
  exists l. split; [|done]. unfold Linking.shown, composite.
  rewrite Hv, bool_decide_eq_false_2 by lia. done.
Qed.
End Theorems.

(** ** The requests of the relations *)

Section Requests.
Context (server : RestServer) (timeToLive : nat).
Context (linkType : string → ResourceType).
Implicit Types (item : Item) (bundleName : string) (t u : Time).
Implicit Types (options : option FindListOptions) (log : Log).
Implicit Types (linksToFollow : list FollowLinkConfig).

(** C34: of the relations that the link descriptors of
    [findAllByItemAndBundleName] name on the elements of the page, the
    caller fetches in the turn in which the page is there those that no
    entry of the table serves, each of them once, however many elements
    link to it, and after the requests for the bundle and for the
    page. *)
Theorem findAllByItemAndBundleName_relations_once
    item bundleName options linksToFollow links paginatedList t u log :
  let log' :=
    findAllByItemAndBundleName_requests server timeToLive item bundleName
      options t log in
  settledAt (tracked server timeToLive log') server item bundleName options t
    = Some u →
  bundleOf server !! (item_uuid item, bundleName) = Some links →
  getCollection server (href (bitstreams links)) options = Ok paginatedList →
  ∃ fetched,
    transportCalls
      (findAllByItemAndBundleName_linked_requests server timeToLive linkType
         item bundleName options linksToFollow t log) =
      transportCalls log' ++ (pair u <$> fetched) ∧
    NoDup fetched ∧
    ∀ key, key ∈ fetched ↔
           key ∈ nestedKeys server linkType linksToFollow
                   (elementsOf paginatedList) ∧
           liveAt (timingOf server timeToLive) key u log' = None.
Proof.
  intros log' Hu Hlinks Hpage.
  unfold findAllByItemAndBundleName_linked_requests. fold log'.
  rewrite Hu, Hlinks, Hpage. apply getOrCreate_all_transportCalls.
Qed.

(** The requests for the relations leave the entries of the bundle and
    of the page as they are. *)
Lemma settledAt_nested item bundleName options linksToFollow elements t u log :
  settledAt
    (tracked server timeToLive
       (nestedRequests server linkType (timingOf server timeToLive)
          linksToFollow elements u log))
    server item bundleName options t =
  settledAt (tracked server timeToLive log) server item bundleName options t.
Proof.
  assert (∀ key t', (∀ type href, key ≠ ResourceAt type href) →
    tracked server timeToLive
      (nestedRequests server linkType (timingOf server timeToLive)
         linksToFollow elements u log) key t' =
    tracked server timeToLive log key t') as Hkept.
  { intros key t' Hkey. apply liveAt_getOrCreate_all_ne.
    intros (b & d & _ & _ & (href & _ & _ & ->)%nestedKey_ResourceAt)
      %elem_of_nestedKeys.
    by eapply Hkey. }
  unfold settledAt. rewrite Hkept by done.
  destruct (tracked _ _ _ (BundleOf _ _) _); [|done].
  destruct (bundleOf server !! _); [|done]. by rewrite Hkept.
Qed.

(** C33: the request tracker serves the relations.  Over the table that
    a caller of [findAllByItemAndBundleName] leaves, whatever the table
    was before, the subscriber of the same call whose link descriptors
    have no descriptors below receives pending wrappers and then one
    wrapper that is not pending: every request of the operation, for the
    bundle, the page and the relations of its elements, is served, and
    the resolution settles. *)
Theorem findAllByItemAndBundleName_linked_settles
    item bundleName options linksToFollow t log :
  Forall (λ d, flat d = true) linksToFollow →
  let log' :=
    findAllByItemAndBundleName_linked_requests server timeToLive linkType item
      bundleName options linksToFollow t log in
  ∃ v, settlesAt
         (findAllByItemAndBundleName
            (linkingClient (tracked server timeToLive log') linkType server)
            item bundleName options linksToFollow t) v.
Proof.
  intros Hflat log'.
  rewrite (findAllByItemAndBundleName_linked _ (tracked server timeToLive log')
             linkType server).
  destruct (requested_settledAt server timeToLive item bundleName options t log)
    as [u Hu].
  assert (settledAt (tracked server timeToLive log') server item bundleName
            options t = Some u) as Hu'.
  { unfold log', findAllByItemAndBundleName_linked_requests.
    unfold findAllByItemAndBundleName_requests. rewrite Hu.
    destruct (bundleOf server !! _); [|done].
    destruct (getCollection _ _ _); [|done]. by rewrite settledAt_nested. }
  apply allByItemAndBundleName_settles with u; [done|].
  intros links paginatedList Hlinks Hpage.
  apply followPage_flat_is_Some; [done|]. intros key Hkey.
  unfold log', findAllByItemAndBundleName_linked_requests.
  unfold findAllByItemAndBundleName_requests. rewrite Hu, Hlinks, Hpage.
  by apply getOrCreate_all_live.
Qed.
End Requests.

(** ** The theorems at the sample servers *)

(** On the server that does not have the format of its bitstreams, a
    subscriber at 0 who fetches everything is told the failure at 9:
    the bundle is there at 2, the page at 5, the format is missed at
    9. *)
Lemma findAllByItemAndBundleName_link_failure_witness :
  Forall (λ rd, hasSucceeded rd = false)
    (values (findAllByItemAndBundleName
               (linkingClient unshared Sample.linkType Sample.brokenRest)
               Sample.item "THUMBNAIL" None [followLink "format" []] 0)) ∧
  ∃ name,
    settlesWith
      (findAllByItemAndBundleName
         (linkingClient unshared Sample.linkType Sample.brokenRest)
         Sample.item "THUMBNAIL" None [followLink "format" []] 0) 9
      (Direct.failed (linkResolutionError name notFound)).
Proof.
  destruct (@findAllByItemAndBundleName_link_failure
              (linkingClient unshared Sample.linkType Sample.brokenRest)
              unshared Sample.linkType Sample.brokenRest
              (linkingClient_linked _ _ _) Sample.item "THUMBNAIL" None
              [followLink "format" []]
              (mkBundleLinks (mkHALLink "/api/core/bundles/7/bitstreams"))
              (mkPaginatedList 2 (Some [Sample.cover; Sample.paper]))
              Sample.cover "format" [] "/api/core/bitstreamformats/3" 0)
    as [Hnever Hfailed];
    [reflexivity | reflexivity | by left | by left | reflexivity
    |reflexivity | reflexivity |].
  split; [exact Hnever|].
  apply (Hfailed 5 9
           (NotOk (linkResolutionError "format" notFound))); reflexivity.
Defined.

(** On the server that has the format, the same subscriber is shown
    the page at 5 in a pending wrapper and told the success at 9. *)
Lemma findAllByItemAndBundleName_nested_pending_witness :
  ∃ l, findAllByItemAndBundleName
         (linkingClient unshared Sample.linkType Sample.linkedRest)
         Sample.item "THUMBNAIL" None [followLink "format" []] 0
       = l ++ [(5, Next (rd_cast AnyPaginatedList
                           (nestedPending
                              (mkPaginatedList 2
                                 (Some [Sample.cover; Sample.paper])))));
               (9, Next (toRemoteData
                           (Completed (Ok (AnyPaginatedList
                              (mkPaginatedList 2
                                 (Some [Sample.cover; Sample.paper])))))))] ∧
       forallb isPendingSnapshot l = true.
Proof.
  apply (@findAllByItemAndBundleName_nested_pending
           (linkingClient unshared Sample.linkType Sample.linkedRest)
           unshared Sample.linkType Sample.linkedRest
           (linkingClient_linked _ _ _) Sample.item "THUMBNAIL" None
           [followLink "format" []]
           (mkBundleLinks (mkHALLink "/api/core/bundles/7/bitstreams"))
           (mkPaginatedList 2 (Some [Sample.cover; Sample.paper])) 0 5 9
           [embed "format" Sample.jpeg (Sample.withFormat Sample.cover);
            embed "format" Sample.jpeg (Sample.withFormat Sample.paper)]);
    [reflexivity | reflexivity | reflexivity | reflexivity | lia].
Defined.

(** The first caller fetches the bundle at 0, the page at 2, and the
    one format of the two bitstreams at 5. *)
Lemma findAllByItemAndBundleName_linked_requests_rest :
  transportCalls
    (findAllByItemAndBundleName_linked_requests Sample.linkedRest 10
       Sample.linkType Sample.item "THUMBNAIL" None [followLink "format" []]
       0 []) =
  [(0, BundleOf Sample.item "THUMBNAIL");
   (2, CollectionAt "/api/core/bundles/7/bitstreams" None);
   (5, ResourceAt (mkResourceType "bitstreamformat")
         "/api/core/bitstreamformats/3")].
Proof. reflexivity. Qed.

Lemma findAllByItemAndBundleName_relations_once_witness :
  ∃ fetched,
    transportCalls
      (findAllByItemAndBundleName_linked_requests Sample.linkedRest 10
         Sample.linkType Sample.item "THUMBNAIL" None [followLink "format" []]
         0 []) =
      transportCalls
        (findAllByItemAndBundleName_requests Sample.linkedRest 10 Sample.item
           "THUMBNAIL" None 0 []) ++ (pair 5 <$> fetched) ∧
    NoDup fetched ∧
    ∀ key, key ∈ fetched ↔
           key ∈ nestedKeys Sample.linkedRest Sample.linkType
                   [followLink "format" []] [Sample.cover; Sample.paper] ∧
           liveAt (timingOf Sample.linkedRest 10) key 5
             (findAllByItemAndBundleName_requests Sample.linkedRest 10
                Sample.item "THUMBNAIL" None 0 []) = None.
Proof.
  apply (@findAllByItemAndBundleName_relations_once Sample.linkedRest 10
           Sample.linkType Sample.item "THUMBNAIL" None
           [followLink "format" []]
           (mkBundleLinks (mkHALLink "/api/core/bundles/7/bitstreams"))
           (mkPaginatedList 2 (Some [Sample.cover; Sample.paper])) 0 5 []);
    reflexivity.
Defined.

Lemma findAllByItemAndBundleName_linked_settles_witness :
  ∃ v, settlesAt
         (findAllByItemAndBundleName
            (linkingClient
               (tracked Sample.linkedRest 10
                  (findAllByItemAndBundleName_linked_requests Sample.linkedRest
                     10 Sample.linkType Sample.item "THUMBNAIL" None
                     [followLink "format" []] 0 []))
               Sample.linkType Sample.linkedRest)
            Sample.item "THUMBNAIL" None [followLink "format" []] 0) v.
Proof.
  apply (@findAllByItemAndBundleName_linked_settles Sample.linkedRest 10
           Sample.linkType Sample.item "THUMBNAIL" None
           [followLink "format" []] 0 []).
  by repeat constructor.
Defined.
