(* ===== verification/Mutations.v ===== *)
(** * The operations of the generic client that change a resource

    [create], [update] and [delete] of the inherited
    [DataService<Bitstream>], after the specification of the generic
    resource client: the server takes the change, and the entries of
    the table that the change affects are invalidated, the one of the
    resource itself and those of the collection endpoints that are
    known to contain it.  An endpoint is known to contain a bitstream
    when a page of it that has been fetched holds the bitstream; every
    key of such an endpoint that has been fetched is invalidated,
    whatever its options: the change moves the elements of the later
    pages.

    The state is a [World]: the server, and the table of the request
    tracker.  An operation on a resource that the server does not have
    answers 404 and leaves the world as it is.

    The theorems: after a change no entry that it affects serves a
    caller, and every other entry serves whom it served; a subscriber
    of [getThumbnailFor] after the thumbnail has been deleted fetches
    the page again, not the bundle, and is told the thumbnail that the
    server has now.  The responses are those of [Served], read from the
    server in hand; [Stale] has the responses as the server gave
    them. *)

From stdpp Require Import gmap.
From S2P Require Import Prelude EmptyUtil RemoteData Observable SwitchMap.
From S2P Require Import Sequence Models Decorators Hypermedia Tracker.
From S2P Require Import Pagination Collaborators BitstreamDataService.
From S2P Require Import RestServer Served Links Samples Snapshots.
From S2P Require Import EndToEnd Tracked.

(** ** The world *)

Record World : Type := mkWorld {
  serverOf : RestServer;
  tableOf : Log;
}.

(** The server with other collections and resources. *)
Definition withResources (collections : gmap string (list Bitstream))
    (resources : gmap string Representation) (server : RestServer)
    : RestServer :=
  mkRestServer (endpoints server) (bundleOf server) collections
    (arrange server) (defaultPageSize server) (bundleTime server)
    (collectionTime server) (representationOf server) resources
    (resourceTime server).

(** Two bitstreams are the same resource when they have the same
    identifier. *)
Definition sameResource (a b : Bitstream) : bool :=
  bool_decide (bitstream_uuid a = bitstream_uuid b).

(** The server has the bitstream in one of its collections. *)
Definition known (server : RestServer) (bitstream : Bitstream) : bool :=
  bool_decide (map_Exists (λ _ l, Exists (sameResource bitstream) l)
                 (collectionAt server)).

(** ** What a change affects *)

Section Affected.
Context (server : RestServer) (bitstream : Bitstream).

(** The key of the resource itself *)
Definition ownKey : RequestKey :=
  ResourceAt BITSTREAM (hal_self (representationOf server bitstream)).

(** The page that the server sends for a key holds the bitstream. *)
Definition holds (key : RequestKey) : bool :=
  match key with
  | CollectionAt href options =>
      match getCollection server href options with
      | Ok paginatedList =>
          existsb (sameResource bitstream) (elementsOf paginatedList)
      | NotOk _ => false
      end
  | _ => false
  end.

(** The address of the collection that a key asks for *)
Definition endpointOf (key : RequestKey) : option string :=
  match key with
  | CollectionAt href _ => Some href
  | _ => None
  end.

(** The endpoints that are known to contain the bitstream: those of
    which a page that holds it has been fetched. *)
Definition knownEndpoints (log : Log) : list string :=
  omap endpointOf (List.filter holds (transportCalls log).*2).

(** The keys that a change of the resources at [hrefs] affects: the
    key of the resource itself, and those of the endpoints. *)
Definition affected (hrefs : list string) (key : RequestKey) : bool :=
  bool_decide (key = ownKey) ||
  match endpointOf key with
  | Some href => bool_decide (href ∈ hrefs)
  | None => false
  end.

(** The table after the entries of the affected keys that have been
    fetched have been invalidated at [t]. *)
Definition invalidateAffected (hrefs : list string) (t : Time) (log : Log)
    : Log :=
  foldl (λ log' key, invalidate key t log') log
    (List.filter (affected hrefs) (transportCalls log).*2).
End Affected.

(** ** The operations *)

(** The server without a bitstream, with a bitstream in the place of
    the one that is the same resource, and with a bitstream more in a
    collection. *)
Definition without (bitstream : Bitstream) (server : RestServer) : RestServer :=
  withResources
    (List.filter (λ b, negb (sameResource bitstream b)) <$> collectionAt server)
    (delete (hal_self (representationOf server bitstream)) (resourceAt server))
    server.

Definition replacing (bitstream : Bitstream) (server : RestServer)
    : RestServer :=
  withResources
    (fmap (M:=list) (λ b, if sameResource bitstream b then bitstream else b)
       <$> collectionAt server)
    (resourceAt server) server.

Definition adding (href : string) (bitstream : Bitstream) (server : RestServer)
    : RestServer :=
  withResources (alter (λ l, l ++ [bitstream]) href (collectionAt server))
    (resourceAt server) server.

(** [DataService.delete], answered at [t] *)
Definition DataService_delete (bitstream : Bitstream) (t : Time)
    (world : World) : Response unit * World :=
  let server := serverOf world in
  if known server bitstream then
    (Ok (),
     mkWorld (without bitstream server)
       (invalidateAffected server bitstream
          (knownEndpoints server bitstream (tableOf world)) t (tableOf world)))
  else (NotOk notFound, world).

(** [DataService.update], answered at [t] *)
Definition DataService_update (bitstream : Bitstream) (t : Time)
    (world : World) : Response unit * World :=
  let server := serverOf world in
  if known server bitstream then
    (Ok (),
     mkWorld (replacing bitstream server)
       (invalidateAffected server bitstream
          (knownEndpoints server bitstream (tableOf world)) t (tableOf world)))
  else (NotOk notFound, world).

(** [DataService.create] in the collection at [href], answered at
    [t] *)
Definition DataService_create (href : string) (bitstream : Bitstream)
    (t : Time) (world : World) : Response unit * World :=
  let server := serverOf world in
  if bool_decide (is_Some (collectionAt server !! href)) then
    (Ok (),
     mkWorld (adding href bitstream server)
       (invalidateAffected server bitstream [href] t (tableOf world)))
  else (NotOk notFound, world).

(** ** Facts on the invalidations *)

Section Invalidations.
Context (timing : Timing).
Implicit Types (key : RequestKey) (keys : list RequestKey).
Implicit Types (t u : Time) (log : Log).

(** Of keys that are invalidated one after the other: every one of
    them has no live entry; every other key is left as it is; nothing
    is asked of the transport. *)
Lemma liveAt_invalidated keys key t u log :
  key ∈ keys → u ≤ t →
  liveAt timing key t (foldl (λ log' k, invalidate k u log') log keys) = None.
Proof.
  intros Hin Hu. induction keys as [|k keys IH] using rev_ind.
  { by apply elem_of_nil in Hin. }
  rewrite foldl_app. simpl.
  destruct (decide (k = key)) as [->|Hne]; [by apply liveAt_invalidate|].
  rewrite liveAt_invalidate_ne by done. apply IH.
  apply elem_of_app in Hin as [?|?%list_elem_of_singleton]; congruence.
Qed.

Lemma liveAt_not_invalidated keys key t u log :
  key ∉ keys →
  liveAt timing key t (foldl (λ log' k, invalidate k u log') log keys) =
    liveAt timing key t log.
Proof.
  induction keys as [|k keys IH] using rev_ind; [done|].
  rewrite not_elem_of_app, list_elem_of_singleton. intros [? ?].
  rewrite foldl_app. simpl. rewrite liveAt_invalidate_ne by done. by apply IH.
Qed.

Lemma transportCalls_invalidated keys u log :
  transportCalls (foldl (λ log' k, invalidate k u log') log keys) =
    transportCalls log.
Proof.
  induction keys as [|k keys IH] using rev_ind; [done|].
  rewrite foldl_app. simpl. unfold invalidate at 1.
  by rewrite transportCalls_snoc, app_nil_r.
Qed.
End Invalidations.

(** ** Facts on the operations *)

Section Operations.
Context (server : RestServer) (timeToLive : nat).
Implicit Types (bitstream : Bitstream) (key : RequestKey) (t u v : Time).
Implicit Types (hrefs : list string) (log : Log) (world : World).

Local Abbreviation timing := (timingOf server timeToLive).

(** A change of the resources leaves the bundles and the turns of the
    server as they are. *)
#[export] Instance withResources_ok `{!RestServerOk server} collections
    resources : RestServerOk (withResources collections resources server).
Proof. split. apply (arrange_default (server:=server)). Qed.

(** After a change at [u] an affected key that has been fetched has no
    live entry, and the other keys are served as before. *)
Lemma liveAt_affected bitstream hrefs key t u log :
  key ∈ (transportCalls log).*2 → affected server bitstream hrefs key = true →
  u ≤ t →
  liveAt timing key t (invalidateAffected server bitstream hrefs u log) = None.
Proof.
  intros Hin Hkey Hu. apply liveAt_invalidated; [|done].
  apply list_elem_of_In, filter_In. by rewrite <- list_elem_of_In.
Qed.

Lemma liveAt_not_affected bitstream hrefs key t u log :
  affected server bitstream hrefs key = false →
  liveAt timing key t (invalidateAffected server bitstream hrefs u log) =
    liveAt timing key t log.
Proof.
  intros Hkey. apply liveAt_not_invalidated.
  rewrite list_elem_of_In, filter_In. intros [_ ?]. congruence.
Qed.

(** The keys of an endpoint that the change concerns are affected. *)
Lemma affected_endpoint bitstream hrefs href options :
  href ∈ hrefs →
  affected server bitstream hrefs (CollectionAt href options) = true.
Proof. intros. unfold affected. simpl. by rewrite bool_decide_eq_true_2. Qed.

(** The operations on a resource that the server does not have change
    nothing. *)
Lemma delete_unknown bitstream t world :
  known (serverOf world) bitstream = false →
  DataService_delete bitstream t world = (NotOk notFound, world).
Proof. unfold DataService_delete. by intros ->. Qed.

Lemma update_unknown bitstream t world :
  known (serverOf world) bitstream = false →
  DataService_update bitstream t world = (NotOk notFound, world).
Proof. unfold DataService_update. by intros ->. Qed.

(** No operation asks the transport for a resource. *)
Lemma delete_transportCalls bitstream t world :
  transportCalls (tableOf (DataService_delete bitstream t world).2) =
    transportCalls (tableOf world).
Proof.
  unfold DataService_delete. destruct (known _ _); [|done].
  apply transportCalls_invalidated.
Qed.

(** A bitstream in a collection is known, and gone after its
    deletion. *)
Lemma known_collectionAt bitstream href l :
  collectionAt server !! href = Some l → Exists (sameResource bitstream) l →
  known server bitstream = true.
Proof. intros. apply bool_decide_eq_true. by exists href, l. Qed.

Lemma without_collectionAt bitstream href :
  collectionAt (without bitstream server) !! href =
    List.filter (λ b, negb (sameResource bitstream b)) <$>
      collectionAt server !! href.
Proof. apply lookup_fmap. Qed.

Lemma without_forgotten bitstream href l :
  collectionAt (without bitstream server) !! href = Some l →
  Forall (λ b, sameResource bitstream b = false) l.
Proof.
  rewrite without_collectionAt. intros (l' & _ & ->)%fmap_Some.
  apply Forall_forall. intros b [_ Hb%negb_true_iff]%list_elem_of_In%filter_In.
  done.
Qed.
End Operations.

(** ** A lookup after a deletion *)

Section AfterDelete.
Context (server : RestServer) (timeToLive : nat) `{!RestServerOk server}.
Context (item : Item) (bundleName : string) (options : option FindListOptions).
Context (links : BundleLinks) (bitstream : Bitstream) (t v t' : Time).
Context (Hlinks : bundleOf server !! (item_uuid item, bundleName) = Some links).
Context (Hholds : holds server bitstream
                    (CollectionAt (href (bitstreams links)) options) = true).
Context (Hknown : known server bitstream = true).
Context (Hv : t + bundleTime server item bundleName ≤ v ≤ t').
Context (Ht' : t' ≤ t + bundleTime server item bundleName + timeToLive).

Local Abbreviation timing := (timingOf server timeToLive).
Local Abbreviation pageKey := (CollectionAt (href (bitstreams links)) options).
Local Abbreviation first :=
  (requested server timeToLive item bundleName options t []).

(** The deletion of a bitstream that the page of the first caller
    holds invalidates the entry of the page, and no other. *)
Lemma delete_requested :
  DataService_delete bitstream v (mkWorld server first) =
    (Ok (), mkWorld (without bitstream server) (invalidate pageKey v first)).
Proof.
  unfold DataService_delete. simpl. rewrite Hknown. do 2 f_equal.
  rewrite (requested_first _ _ _ _ _ _ links) by done.
  unfold knownEndpoints, invalidateAffected, transportCalls.
  simpl in Hholds |- *. rewrite Hholds. simpl.
  by rewrite affected_endpoint by (by apply list_elem_of_singleton).
Qed.

(** The second caller fetches the page again, and not the bundle. *)
Lemma requested_deleted :
  requested server timeToLive item bundleName options t'
    (invalidate pageKey v first) =
  [(t, Fetch (BundleOf item bundleName));
   (t + bundleTime server item bundleName, Fetch pageKey);
   (v, Invalidate pageKey); (t', Fetch pageKey)].
Proof.
  rewrite (requested_first _ _ _ _ _ _ links) by done.
  rewrite (requested_page _ _ _ _ _ _ _ t links); [|unfold tracked|done].
  - replace (seenAt t (bundleTime server item bundleName) t') with t'
      by (unfold seenAt; lia).
    rewrite getOrCreate_fresh; [done|].
    apply (liveAt_invalidate timing (CollectionAt _ _)). lia.
  - rewrite liveAt_invalidate_ne by done.
    etrans; [by apply (liveAt_fetch_ne timing _ _ _ _ [_])|].
    apply (liveAt_fetched _ _ _ _ []); simpl; lia.
Qed.

(** The second caller is served the bundle by the fetch of the first,
    and the page by a fetch of its own. *)
Lemma bundle_deleted :
  tracked server timeToLive
    (requested server timeToLive item bundleName options t'
       (invalidate pageKey v first))
    (BundleOf item bundleName) t' = Some t.
Proof.
  rewrite requested_deleted. unfold tracked.
  etrans; [by apply (liveAt_fetch_ne timing _ _ _ _ [_; _; _])|].
  etrans; [by apply (liveAt_invalidate_ne timing _ _ _ _ [_; _])|].
  etrans; [by apply (liveAt_fetch_ne timing _ _ _ _ [_])|].
  apply (liveAt_fetched _ _ _ _ []); simpl; lia.
Qed.

Lemma page_deleted :
  tracked server timeToLive
    (requested server timeToLive item bundleName options t'
       (invalidate pageKey v first))
    pageKey t' = Some t'.
Proof.
  rewrite requested_deleted. apply (liveAt_fetch timing _ _ [_; _; _]).
Qed.

(** And is served when the page has arrived. *)
Lemma settledAt_deleted :
  settledAt
    (tracked server timeToLive
       (requested server timeToLive item bundleName options t'
          (invalidate pageKey v first)))
    server item bundleName options t' =
  Some (t' + collectionTime server (href (bitstreams links)) options).
Proof.
  unfold settledAt. rewrite bundle_deleted, Hlinks.
  replace (seenAt t (bundleTime server item bundleName) t') with t'
    by (unfold seenAt; lia).
  rewrite page_deleted. f_equal. unfold seenAt. lia.
Qed.

(** What a lookup settles with after the deletion: what the server
    has now. *)
Lemma lookup_deleted operation settle
    `{!Lookup (without bitstream server) operation item bundleName options
         settle} :
  let world' := (DataService_delete bitstream v (mkWorld server first)).2 in
  let log' :=
    requested (serverOf world') timeToLive item bundleName options t'
      (tableOf world') in
  transportCalls log' =
    [(t, BundleOf item bundleName);
     (t + bundleTime server item bundleName, pageKey); (t', pageKey)] ∧
  settlesWith (operation (trackedClient (serverOf world') timeToLive log') t')
    (t' + collectionTime server (href (bitstreams links)) options)
    (outcome (without bitstream server) item bundleName settle).
Proof.
  rewrite delete_requested. simpl.
  change (requested (without bitstream server)) with (requested server).
  split; [by rewrite requested_deleted|].
  apply (lookup_settlesWith _ (tracked (without bitstream server) timeToLive _)).
  apply settledAt_deleted.
Qed.
End AfterDelete.

(** ** Theorems *)

Section Theorems.
Context (server : RestServer) (timeToLive : nat) `{!RestServerOk server}.
Implicit Types (item : Item) (bitstream : Bitstream) (t v : Time).
Implicit Types (rest : list Bitstream).

(** The bitstreams that are left of a collection whose first element
    has been deleted. *)
Lemma filter_forgotten bitstream rest :
  Forall (λ b, sameResource bitstream b = false) rest →
  List.filter (λ b, negb (sameResource bitstream b)) (bitstream :: rest) = rest.
Proof.
  intros Hrest. simpl. unfold sameResource at 1.
  rewrite bool_decide_eq_true_2 by done. simpl.
  induction Hrest as [|b l Hb _ IH]; [done|]. simpl. by rewrite Hb, IH.
Qed.

(** The first bitstream of a collection is on its first page of one
    element, and the server knows it. *)
Lemma holds_head bitstream rest href :
  collectionAt server !! href = Some (bitstream :: rest) →
  holds server bitstream (CollectionAt href (Some firstElementOnly)) = true.
Proof.
  intros Hcollection. unfold holds, getCollection. rewrite Hcollection. simpl.
  rewrite arrange_default. unfold elementsOf, paginate. simpl.
  unfold sameResource at 1. by rewrite bool_decide_eq_true_2.
Qed.

Lemma known_head bitstream rest href :
  collectionAt server !! href = Some (bitstream :: rest) →
  known server bitstream = true.
Proof.
  intros. eapply known_collectionAt; [done|]. left. by apply bool_decide_pack.
Qed.

(** What is left of the collection is the thumbnail of the server
    after the deletion. *)
Lemma outcome_without item links bitstream rest :
  bundleOf server !! (item_uuid item, "THUMBNAIL") = Some links →
  collectionAt server !! href (bitstreams links) = Some (bitstream :: rest) →
  Forall (λ b, sameResource bitstream b = false) rest →
  outcome (without bitstream server) item "THUMBNAIL"
    (λ l, Direct.found (head l)) = Direct.found (head rest).
Proof.
  intros Hlinks Hcollection Hrest. unfold outcome. simpl bundleOf.
  rewrite Hlinks, without_collectionAt, Hcollection.
  cbn [fmap option_fmap option_map]. by rewrite filter_forgotten.
Qed.

(** C26: the second subscriber after a deletion that invalidates.  From
    the empty table, a subscriber of [getThumbnailFor] at [t]; then the
    deletion of the first bitstream of the THUMBNAIL bundle, answered
    when the bundle has arrived; then a second subscriber within the
    life of the bundle: the deletion succeeds; the second subscriber
    fetches the page again, in the turn of the subscription, and not the
    bundle; and is told, when the page has arrived, a success with the
    bitstream that is the first one now, or without payload when none is
    left.  The responses of this file are read from the server in hand:
    the theorem is about the requests that the invalidation causes and
    the turn of the answer.  What a kept entry would have told the
    subscriber is in [Stale]. *)
Theorem getThumbnailFor_after_delete item links bitstream rest t v t' :
  bundleOf server !! (item_uuid item, "THUMBNAIL") = Some links →
  collectionAt server !! href (bitstreams links) = Some (bitstream :: rest) →
  Forall (λ b, sameResource bitstream b = false) rest →
  t + bundleTime server item "THUMBNAIL" ≤ v ≤ t' →
  t' ≤ t + bundleTime server item "THUMBNAIL" + timeToLive →
  let result :=
    DataService_delete bitstream v
      (mkWorld server (getThumbnailFor_requests server timeToLive item t [])) in
  let log' :=
    getThumbnailFor_requests (serverOf result.2) timeToLive item t'
      (tableOf result.2) in
  result.1 = Ok () ∧
  transportCalls log' =
    [(t, BundleOf item "THUMBNAIL");
     (t + bundleTime server item "THUMBNAIL",
      CollectionAt (href (bitstreams links)) (Some firstElementOnly));
     (t', CollectionAt (href (bitstreams links)) (Some firstElementOnly))] ∧
  settlesWith
    (getThumbnailFor (trackedClient (serverOf result.2) timeToLive log') item t')
    (t' + collectionTime server (href (bitstreams links))
            (Some firstElementOnly))
    (Direct.found (head rest)).
Proof.
  intros Hlinks Hcollection Hrest Hv Ht'.
  pose proof (holds_head _ _ _ Hcollection) as Hholds.
  pose proof (known_head _ _ _ Hcollection) as Hknown.
  destruct (lookup_deleted server timeToLive item "THUMBNAIL"
              (Some firstElementOnly) links bitstream t v t' Hlinks Hholds
              Hknown Hv Ht' (λ this, getThumbnailFor this item)
              (λ l, Direct.found (head l))) as [Hcalls Hsettles].
  split; [|split; [exact Hcalls|]].
  - unfold getThumbnailFor_requests, THUMBNAIL.
    by rewrite (delete_requested server timeToLive item "THUMBNAIL" _ links).
  - by rewrite <- (outcome_without item links bitstream rest).
Qed.
End Theorems.

(** ** The theorem at the sample server *)

(** On the sample server, whose responses are kept for 10 turns: a
    subscriber at 0, the deletion of the cover at 6, a subscriber at 7,
    who fetches the page at 7 and is told the paper at 10. *)
Lemma getThumbnailFor_after_delete_witness :
  let result :=
    DataService_delete Sample.cover 6
      (mkWorld Sample.rest
         (getThumbnailFor_requests Sample.rest 10 Sample.item 0 []))
  in
  let log' :=
    getThumbnailFor_requests (serverOf result.2) 10 Sample.item 7
      (tableOf result.2) in
  result.1 = Ok () ∧
  transportCalls log' =
    [(0, BundleOf Sample.item "THUMBNAIL");
     (2, CollectionAt "/api/core/bundles/7/bitstreams" (Some firstElementOnly));
     (7, CollectionAt "/api/core/bundles/7/bitstreams" (Some firstElementOnly))] ∧
  settlesWith
    (getThumbnailFor (trackedClient (serverOf result.2) 10 log') Sample.item 7)
    10 (Direct.found (Some Sample.paper)).
Proof.
  apply (@getThumbnailFor_after_delete Sample.rest 10 rest_ok Sample.item
           (mkBundleLinks (mkHALLink "/api/core/bundles/7/bitstreams"))
           Sample.cover [Sample.paper] 0 6 7);
    [reflexivity | reflexivity | by repeat constructor | simpl; lia
    |simpl; lia].
Defined.

(** What the invalidation does not reach: an endpoint of which only a
    page without the bitstream has been fetched is not known to contain
    it.  On the sample server, after a caller at 0 has fetched the
    second page of one element, the paper, the deletion of the cover at
    6 leaves the entry of that page live, and the server has nothing on
    its second page any more. *)
Lemma delete_leaves_later_page :
  let secondPage := Some (mkFindListOptions (Some 1%Z) (Some 2%Z) None []) in
  let key := CollectionAt "/api/core/bundles/7/bitstreams" secondPage in
  let world :=
    mkWorld Sample.rest
      (findAllByItemAndBundleName_requests Sample.rest 10 Sample.item
         "THUMBNAIL" secondPage 0 []) in
  let world' := (DataService_delete Sample.cover 6 world).2 in
  liveAt (timingOf Sample.rest 10) key 7 (tableOf world') = Some 2 ∧
  getCollection (serverOf world) "/api/core/bundles/7/bitstreams" secondPage =
    Ok (mkPaginatedList 2 (Some [Sample.paper])) ∧
  getCollection (serverOf world') "/api/core/bundles/7/bitstreams" secondPage =
    Ok (mkPaginatedList 1 (Some [])).
Proof. by vm_compute. Qed.
