(* ===== verification/Held.v ===== *)
(** * What the operations leave in the object cache

    The store of the object cache ([ObjectStore]) after the requests of
    [findAllByItemAndBundleName] with link descriptors
    ([Linked.findAllByItemAndBundleName_linked_requests]): the
    resources that the relations of the elements of the page link to
    are entries of the store, from the turn in which their response is
    there and as long as it is kept, with the representation that the
    server has, and they are not stale.  The requests of the operation
    are operations of the request tracker in the order of time, and
    their keys name the types that the server gives the resources when
    the link definitions do. *)

From stdpp Require Import gmap relations.
From S2P Require Import Prelude EmptyUtil RemoteData Observable Models.
From S2P Require Import Hypermedia Decorators Tracker Pagination Collaborators.
From S2P Require Import BitstreamDataService RestServer Served ObjectStore.
From S2P Require Import Links Samples EndToEnd Tracked Linked.

Section Held.
Context (server : RestServer) (timeToLive : nat).
Context (linkType : string → ResourceType).
Implicit Types (item : Item) (bundleName : string) (t u now sent : Time).
Implicit Types (options : option FindListOptions) (log : Log).
Implicit Types (linksToFollow : list FollowLinkConfig) (key : RequestKey).
Implicit Types (keys : list RequestKey).

Local Abbreviation timing := (timingOf server timeToLive).

(** ** The requests of the relations are operations of the tracker *)

Lemma getOrCreate_all_steps keys u log :
  latest log ≤ u →
  rtc (tracker_step timing) log
    (foldl (λ log key, getOrCreate timing key u log) log keys) ∧
  latest (foldl (λ log key, getOrCreate timing key u log) log keys) ≤ u.
Proof.
  induction keys as [|key keys IH] in log |- *; [done|]. intros Hu. simpl.
  destruct (IH (getOrCreate timing key u log)) as [Hsteps Hlatest];
    [by apply latest_getOrCreate|].
  split; [|done]. eapply rtc_l; [|done]. by constructor.
Qed.

(** The table of a caller has no action after the turn in which the
    page is there. *)
Lemma latest_requested item bundleName options t u log :
  latest log ≤ t →
  settledAt
    (tracked server timeToLive
       (requested server timeToLive item bundleName options t log))
    server item bundleName options t = Some u →
  latest (requested server timeToLive item bundleName options t log) ≤ u.
Proof.
  intros Ht. unfold settledAt, requested, tracked.
  pose proof (liveAt_getOrCreate timing (BundleOf item bundleName) t log)
    as Hsent.
  pose proof (latest_getOrCreate timing (BundleOf item bundleName) t log Ht).
  set (sent := default t _) in Hsent.
  set (log' := getOrCreate timing (BundleOf item bundleName) t log) in *.
  rewrite Hsent.
  destruct (bundleOf server !! (item_uuid item, bundleName)) as [links|].
  - rewrite liveAt_getOrCreate_ne, Hsent by done.
    set (v := seenAt sent (bundleTime server item bundleName) t).
    assert (t ≤ v) by apply seenAt_ge.
    destruct (liveAt timing (CollectionAt _ _) v _) as [sent'|]; [|done].
    intros [= <-]. etrans; [apply latest_getOrCreate; lia|apply seenAt_ge].
  - rewrite Hsent. intros [= <-]. etrans; [done|apply seenAt_ge].
Qed.

(** ** Their keys are well typed *)

Lemma typed_getOrCreate key u log :
  wellTyped server key = true → typed server log = true →
  typed server (getOrCreate timing key u log) = true.
Proof.
  intros Hkey Hlog. unfold getOrCreate.
  destruct (liveAt timing key u log); [done|].
  unfold typed in *. rewrite forallb_app. simpl. by rewrite Hkey, Hlog.
Qed.

Lemma typed_getOrCreate_all keys u log :
  forallb (wellTyped server) keys = true → typed server log = true →
  typed server (foldl (λ log key, getOrCreate timing key u log) log keys)
    = true.
Proof.
  induction keys as [|key keys IH] in log |- *; [done|]. simpl.
  intros [Hkey Hkeys]%andb_true_iff Hlog. apply IH; [done|].
  by apply typed_getOrCreate.
Qed.

Lemma typed_requested item bundleName options t log :
  typed server log = true →
  typed server (requested server timeToLive item bundleName options t log)
    = true.
Proof.
  intros Hlog. unfold requested.
  destruct (liveAt timing _ t _); [|by apply typed_getOrCreate].
  destruct (bundleOf server !! _); by repeat apply typed_getOrCreate.
Qed.

(** ** The relations are held *)

(** What [findAllByItemAndBundleName_linked_requests] leaves: a table
    in the order of time, with well-typed keys, in which every relation
    of the elements of the page is live in the turn in which the page
    is there. *)
Lemma findAllByItemAndBundleName_linked_requests_table
    item bundleName options linksToFollow links paginatedList key t u log :
  let log' :=
    findAllByItemAndBundleName_linked_requests server timeToLive linkType item
      bundleName options linksToFollow t log in
  rtc (tracker_step timing) [] log → latest log ≤ t →
  typed server log = true →
  settledAt
    (tracked server timeToLive
       (findAllByItemAndBundleName_requests server timeToLive item bundleName
          options t log))
    server item bundleName options t = Some u →
  bundleOf server !! (item_uuid item, bundleName) = Some links →
  getCollection server (href (bitstreams links)) options = Ok paginatedList →
  forallb (wellTyped server)
    (nestedKeys server linkType linksToFollow (elementsOf paginatedList))
    = true →
  key ∈ nestedKeys server linkType linksToFollow (elementsOf paginatedList) →
  chronological log' ∧ typed server log' = true ∧ latest log' ≤ u ∧
  is_Some (liveAt timing key u log').
Proof.
  intros log' Hlog Ht Htyped Hu Hlinks Hpage Hkeys Hkey.
  unfold log', findAllByItemAndBundleName_linked_requests.
  rewrite Hu, Hlinks, Hpage. unfold nestedRequests.
  unfold findAllByItemAndBundleName_requests in *.
  destruct (getOrCreate_all_steps
              (nestedKeys server linkType linksToFollow
                 (elementsOf paginatedList)) u
              (requested server timeToLive item bundleName options t log))
    as [Hsteps Hlatest]; [by apply latest_requested|].
  split_and!; [|by apply typed_getOrCreate_all, typed_requested|done
              |by apply getOrCreate_all_live].
  eapply tracker_invariants. etrans; [done|].
  etrans; [by apply requested_steps|done].
Qed.

(** C35: the object cache holds what the relations of
    [findAllByItemAndBundleName] have fetched.  The table is one that
    the operations of the tracker have built, the resources of the
    server carry inline what the server has at their addresses, and
    the link definitions name the types that the server gives the
    resources.  After the requests of a caller whose link descriptors
    name a relation of an element of the page that links to a resource
    of the server, which is not answered in the turn of its request:
    from the turn in which the page is there and the response to the
    fetch that serves the relation has arrived, and as long as that
    response is kept, the store of the object cache has an entry at the
    address of the resource that is not stale and holds the
    representation that the server has. *)
Theorem findAllByItemAndBundleName_relations_held
    item bundleName options linksToFollow links paginatedList type address r
    t u log :
  let log' :=
    findAllByItemAndBundleName_linked_requests server timeToLive linkType item
      bundleName options linksToFollow t log in
  rtc (tracker_step timing) [] log → latest log ≤ t →
  typed server log = true → coherent server →
  settledAt
    (tracked server timeToLive
       (findAllByItemAndBundleName_requests server timeToLive item bundleName
          options t log))
    server item bundleName options t = Some u →
  bundleOf server !! (item_uuid item, bundleName) = Some links →
  getCollection server (href (bitstreams links)) options = Ok paginatedList →
  forallb (wellTyped server)
    (nestedKeys server linkType linksToFollow (elementsOf paginatedList))
    = true →
  ResourceAt type address
    ∈ nestedKeys server linkType linksToFollow (elementsOf paginatedList) →
  resourceAt server !! address = Some r → 0 < resourceTime server address →
  ∃ sent,
    liveAt timing (ResourceAt type address) u log' = Some sent ∧
    ∀ now,
      u ≤ now → sent + resourceTime server address ≤ now →
      now ≤ sent + resourceTime server address + timeToLive →
      ∃ entry,
        get timeToLive now address (storeAt server timing now log') = Some entry ∧
        rawRepresentation entry = r ∧ isStale entry = false.
Proof.
  intros log' Hlog Ht Htyped Hserver Hu Hlinks Hpage Hkeys Hkey Hr Hrt.
  destruct (findAllByItemAndBundleName_linked_requests_table item bundleName
              options linksToFollow links paginatedList (ResourceAt type address)
              t u log) as (Hlog' & Htyped' & Hlatest & [sent Hsent]);
    [done..|].
  exists sent. split; [done|]. intros now Hnow Harrived Hkept.
  assert (hal_type r = type) as Htype.
  { pose proof (proj1 (forallb_forall _ _) Hkeys _
                  (proj1 (list_elem_of_In _ _) Hkey)) as Hty.
    unfold wellTyped in Hty. rewrite Hr in Hty.
    by apply bool_decide_eq_true in Hty. }
  destruct (cachedSince_held server timing type address r now log'
              (sent + resourceTime server address))
    as (entry & Hentry & Hrep & Hstale & _); [done..| |by exists entry].
  apply cachedSince_Some. exists sent. split_and!; [|done..].
  by apply (liveAt_later timing _ u now).
Qed.
End Held.

(** ** On the sample server *)

(** The format of the sample bitstreams carries nothing inline. *)
Lemma linkedRest_coherent : coherent Sample.linkedRest.
Proof.
  intros address r. simpl. intros [_ <-]%lookup_singleton_Some. constructor.
Qed.

(** On the sample server the format is fetched at 5, when the page is
    there, and arrives at 9: a reader of the cache at 9 finds it. *)
Lemma findAllByItemAndBundleName_relations_held_witness :
  ∃ entry,
    get 10 9 "/api/core/bitstreamformats/3"
      (storeAt Sample.linkedRest (timingOf Sample.linkedRest 10) 9
         (findAllByItemAndBundleName_linked_requests Sample.linkedRest 10
            Sample.linkType Sample.item "THUMBNAIL" None
            [followLink "format" []] 0 [])) = Some entry ∧
    rawRepresentation entry = Sample.jpeg ∧ isStale entry = false.
Proof.
  destruct (@findAllByItemAndBundleName_relations_held Sample.linkedRest 10
              Sample.linkType Sample.item "THUMBNAIL" None
              [followLink "format" []]
              (mkBundleLinks (mkHALLink "/api/core/bundles/7/bitstreams"))
              (mkPaginatedList 2 (Some [Sample.cover; Sample.paper]))
              (mkResourceType "bitstreamformat")
              "/api/core/bitstreamformats/3" Sample.jpeg 0 5 [])
    as (sent & Hsent & Hheld);
    [apply rtc_refl | simpl; lia | reflexivity | apply linkedRest_coherent
    | reflexivity | reflexivity | reflexivity | reflexivity
    | by left | reflexivity | simpl; lia |].
  vm_compute in Hsent. injection Hsent as <-.
  apply (Hheld 9); simpl; lia.
Defined.

(** The store at 9 is the one entry of the format, written at 9; at 8
    the store is empty. *)
Lemma storeAt_linkedRest :
  storeAt Sample.linkedRest (timingOf Sample.linkedRest 10) 9
    (findAllByItemAndBundleName_linked_requests Sample.linkedRest 10
       Sample.linkType Sample.item "THUMBNAIL" None [followLink "format" []]
       0 []) !! "/api/core/bitstreamformats/3" =
    Some (written "/api/core/bitstreamformats/3" Sample.jpeg 9) ∧
  storeAt Sample.linkedRest (timingOf Sample.linkedRest 10) 8
    (findAllByItemAndBundleName_linked_requests Sample.linkedRest 10
       Sample.linkType Sample.item "THUMBNAIL" None [followLink "format" []]
       0 []) !! "/api/core/bitstreamformats/3" = None.
Proof. split; reflexivity. Qed.

(** ** The store on its own *)

(** The store is normalised: the response that carries the format of
    the cover inline leaves the format under its own address. *)
Lemma put_normalises :
  get 10 5 "/api/core/bitstreamformats/3"
    (put "/api/core/bitstreams/cover"
       (embed "format" Sample.jpeg (Sample.withFormat Sample.cover)) 3 ∅) =
    Some (written "/api/core/bitstreamformats/3" Sample.jpeg 3).
Proof. reflexivity. Qed.

(** An entry that has been invalidated is read as a stale one, and as
    one that is not stale once the resource has arrived inline with
    another response, without a fetch of its own. *)
Lemma invalidated_entry_revived :
  let store :=
    invalidateEntry "/api/core/bitstreamformats/3"
      (put "/api/core/bitstreamformats/3" Sample.jpeg 1 ∅) in
  isStale <$> get 10 5 "/api/core/bitstreamformats/3" store = Some true ∧
  isStale <$> get 10 5 "/api/core/bitstreamformats/3"
                (put "/api/core/bitstreams/cover"
                   (embed "format" Sample.jpeg
                      (Sample.withFormat Sample.cover)) 4 store) = Some false.
Proof. split; reflexivity. Qed.
