(* ===== verification/Stale.v ===== *)
(** * Responses that outlive a change of the server

    In [Served] the response that a caller is shown is read from the
    server in hand, whichever fetch serves the caller: an entry of the
    table cannot hold what the server no longer has.  Here the server
    has a [History], and the response to a fetch is what the server had
    in the turn in which it answered ([answered]): a caller who is
    served by an entry is shown the response of that turn, whatever the
    server has become since.  [historicClient] is the class that
    [constructor] makes over a schedule and a history.

    The theorems: over a history that does not change, the services are
    those of [Served]; over a history that changes the resources only, a
    subscriber of [getThumbnailFor] settles in the turn that the
    schedule gives, with the outcome on the server as it was when the
    fetch of the page was answered ([getThumbnailFor_settlesAnswered]);
    a subscriber of [getThumbnailFor] after the
    deletion of the thumbnail is told the deleted thumbnail, at once,
    when the table is left as it was, and the thumbnail that is the
    first one now, after a fetch of the page, when the table is the one
    that [DataService_delete] leaves: the invalidation is what keeps
    the deleted thumbnail from the subscriber. *)

From stdpp Require Import gmap.
From S2P Require Import Prelude EmptyUtil RemoteData Observable SwitchMap.
From S2P Require Import Sequence Models Decorators Hypermedia Tracker.
From S2P Require Import Pagination Collaborators BitstreamDataService.
From S2P Require Import RestServer Served Links Samples Snapshots.
From S2P Require Import EndToEnd Tracked Mutations.

(** ** The server in time *)

(** What the server is in every turn. *)
Definition History : Type := Time → RestServer.

(** The history of a server that changes once, in the turn [v]. *)
Definition changedAt (v : Time) (before after : RestServer) : History :=
  λ t, if bool_decide (t < v) then before else after.

Section Historic.
Context (schedule : Schedule) (history : History).

(** The turn in which the fetch of [key] that was sent at [sent] is
    answered. *)
Definition answeredAt (key : RequestKey) (sent : Time) : Time :=
  sent + latency (history sent) key.

(** The server as it was when it answered the fetch that serves the
    caller of [key] at [t]. *)
Definition answering (key : RequestKey) (t : Time) : RestServer :=
  match schedule key t with
  | Some sent => history (answeredAt key sent)
  | None => history t
  end.

(** The stream of a request for [key], to which a server answers
    [respond]: the caller is shown the response to the fetch that
    serves it, as the server gave it. *)
Definition answered {T : Type} (key : RequestKey)
    (respond : RestServer → Response T) : Observable (RemoteData T) :=
  λ t, match schedule key t with
       | Some sent =>
           since sent (latency (history sent) key)
             (respond (history (answeredAt key sent))) t
       | None => unsent t
       end.

(** [DataService.findAllByHref] *)
Definition historicFindAllByHref (href : string)
    (options : option FindListOptions) (linksToFollow : list FollowLinkConfig)
    : Observable (RemoteData (PaginatedList Bitstream)) :=
  answered (CollectionAt href options)
    (λ server, getCollection server href options).

(** [BundleDataService.findByItemAndName] *)
Definition historicFindByItemAndName (item : Item) (bundleName : string)
    : Observable (RemoteData Bundle) :=
  answered (BundleOf item bundleName)
    (λ server, getBundle server item bundleName).
End Historic.

(** The inherited [DataService<Bitstream>], whose transport reaches a
    server that changes. *)
Definition DataService_historic (requestService : Schedule)
    (rdbService store cds objectCache : unit)
    (halService : gmap string string) (notificationsService : unit)
    (http : History) (comparator : unit) (bundleService : BundleDataService)
    (linkPath : string) : DataService Bitstream :=
  mkDataService
    (DataService_findAll halService linkPath
       (historicFindAllByHref requestService http))
    (historicFindAllByHref requestService http).

(** The class over a schedule and a history *)
Definition historicClient (schedule : Schedule) (history : History)
    : BitstreamDataService :=
  constructor DataService_historic schedule () () () () (endpoints (history 0))
    () history ()
    (mkBundleDataService (historicFindByItemAndName schedule history)).

(** A history that changes the resources of [server] and nothing
    else: the bundles and the turns that the server takes stay. *)
Class ChangesResources (history : History) (server : RestServer) : Prop := {
  history_bundleOf t : bundleOf (history t) = bundleOf server;
  history_latency t key : latency (history t) key = latency server key;
  history_ok t : RestServerOk (history t);
}.

(** The server as it was when it answered the fetch of the page of a
    lookup: the fetch that serves the caller at [t] in the turn in
    which the caller sees the bundle. *)
Definition answeringPage (schedule : Schedule) (history : History)
    (server : RestServer) (item : Item) (bundleName : string)
    (options : option FindListOptions) (t : Time) : RestServer :=
  match schedule (BundleOf item bundleName) t,
        bundleOf server !! (item_uuid item, bundleName) with
  | Some sent, Some links =>
      answering schedule history
        (CollectionAt (href (bitstreams links)) options)
        (seenAt sent (bundleTime server item bundleName) t)
  | _, _ => server
  end.

(** ** Facts on the services *)

Section HistoricFacts.
Context (schedule : Schedule).
Implicit Types (history : History) (server : RestServer) (t sent : Time).
Implicit Types (key : RequestKey).

(** The stream of a request depends on the server by the turns that
    the server takes. *)
Lemma served_latency {T : Type} server server' key (response : Response T) t :
  latency server key = latency server' key →
  served schedule server key response t =
    served schedule server' key response t.
Proof. unfold served. by intros ->. Qed.

(** A caller is shown the response of the server that answered. *)
Lemma answered_served {T : Type} history server
    `{!ChangesResources history server} key
    (respond : RestServer → Response T) t :
  answered schedule history key respond t =
    served schedule server key (respond (answering schedule history key t)) t.
Proof.
  unfold answered, served, answering.
  destruct (schedule key t); [|done]. by rewrite history_latency.
Qed.

(** The server that answered has the bundles of [server], takes its
    turns and arranges as it does. *)
Lemma answering_bundleOf history server `{!ChangesResources history server}
    key t :
  bundleOf (answering schedule history key t) = bundleOf server.
Proof. unfold answering. destruct (schedule key t); apply history_bundleOf. Qed.

Lemma answering_latency history server `{!ChangesResources history server}
    key key' t :
  latency (answering schedule history key t) key' = latency server key'.
Proof. unfold answering. destruct (schedule key t); apply history_latency. Qed.

#[export] Instance answering_ok history server
    `{!ChangesResources history server} key t :
  RestServerOk (answering schedule history key t).
Proof. unfold answering. destruct (schedule key t); apply history_ok. Qed.

(** Over a server that does not change the services are those of
    [Served]. *)
#[export] Instance unchanged_resources server `{!RestServerOk server} :
  ChangesResources (λ _, server) server.
Proof. by split. Qed.

Lemma answered_unchanged {T : Type} server key
    (respond : RestServer → Response T) t :
  answered schedule (λ _, server) key respond t =
    served schedule server key (respond server) t.
Proof. unfold answered, served. by destruct (schedule key t). Qed.

#[export] Instance historicClient_unchanged server :
  ServedBy (historicClient schedule (λ _, server)) schedule server.
Proof. repeat split; intros; simpl; apply answered_unchanged. Qed.

(** Over a history that changes the resources only, the lookup of a
    bundle is answered as [server] answers it. *)
#[export] Instance historicClient_bundles history server
    `{!ChangesResources history server} :
  BundlesServedBy (historicClient schedule history) schedule server.
Proof.
  split. intros item bundleName t. simpl. unfold historicFindByItemAndName.
  rewrite (answered_served _ server). unfold getBundle.
  by rewrite (answering_bundleOf _ server).
Qed.

(** A deletion changes the resources only. *)
#[export] Instance changedAt_resources v server collections resources
    `{!RestServerOk server} :
  ChangesResources
    (changedAt v server (withResources collections resources server)) server.
Proof.
  split; intros t; unfold changedAt; case_bool_decide; try done; apply _.
Qed.
End HistoricFacts.

(** ** The thumbnail of a server that changes *)

Section Answered.
Context (schedule : Schedule) (history : History) (server : RestServer).
Context `{!ChangesResources history server}.
Implicit Types (item : Item) (href : string) (t u : Time).

Local Abbreviation this := (historicClient schedule history).

(** The page of one element, as the server gave it. *)
Lemma thumbnail_answered href t :
  rxMap getThumbnailFor_map
    (findAllByHref this.(dataService) href (Some firstElementOnly) []) t =
  Direct.awaitCollection schedule
    (answering schedule history (CollectionAt href (Direct.perPage 1)) t)
    href (Direct.perPage 1) (λ l, Direct.found (head l)) t.
Proof.
  set (server' := answering _ _ _ _).
  assert (RestServerOk server') by apply (answering_ok _ _ server).
  rewrite <- (thumbnail_answer (servedClient schedule server') schedule server'
                href t).
  unfold rxMap. f_equal.
  rewrite (pages_findAllByHref (this := servedClient schedule server')).
  simpl. unfold historicFindAllByHref. rewrite (answered_served _ _ server).
  apply served_latency. symmetry. apply (answering_latency _ _ server).
Qed.

(** [getThumbnailFor] in direct style: wait for the bundle, then for
    the page, and tell the first bitstream that the server had when it
    answered. *)
Lemma getThumbnailFor_answered item t :
  getThumbnailFor this item t =
    Direct.awaitBundle schedule server item "THUMBNAIL"
      (λ links u,
         Direct.awaitCollection schedule
           (answering schedule history
              (CollectionAt (href (bitstreams links)) (Direct.perPage 1)) u)
           (href (bitstreams links)) (Direct.perPage 1)
           (λ l, Direct.found (head l)) u) t.
Proof.
  apply await_bundle with (options := Some firstElementOnly)
    (linksToFollow := []) (answer := rxMap getThumbnailFor_map).
  - apply _.
  - intros bundleRD _. apply getThumbnailFor_switchMap_eq.
  - intros links u _. apply thumbnail_answered.
  - intros links u. apply awaitCollection_open.
Qed.

(** It settles in the turn that the schedule gives, with the outcome
    on the server that answered the fetch of the page. *)
Lemma getThumbnailFor_settlesAnswered item t u :
  settledAt schedule server item "THUMBNAIL" (Direct.perPage 1) t = Some u →
  settlesWith (getThumbnailFor this item t) u
    (outcome
       (answeringPage schedule history server item "THUMBNAIL"
          (Direct.perPage 1) t)
       item "THUMBNAIL" (λ l, Direct.found (head l))).
Proof.
  rewrite getThumbnailFor_answered.
  unfold settledAt, outcome, answeringPage, Direct.awaitBundle.
  destruct (schedule (BundleOf item "THUMBNAIL") t) as [sent|] eqn:Hsent;
    [|done].
  intros Hu. apply await_settlesWith with sent; [done|].
  destruct (bundleOf server !! (item_uuid item, "THUMBNAIL")) as [links|]
    eqn:Hl.
  - destruct (schedule (CollectionAt _ _) _) as [sent'|] eqn:Hsent'; [|done].
    injection Hu as <-. rewrite (answering_bundleOf _ _ server), Hl.
    apply await_settlesWith with sent'; [done|].
    rewrite (answering_latency _ _ server). by exists [].
  - injection Hu as <-. rewrite Hl. by exists [].
Qed.
End Answered.

(** ** The thumbnail after its deletion *)

Section Lookups.
Context (schedule : Schedule) (history : History) (server : RestServer).
Context `{!ChangesResources history server}.

(** A lookup that the schedule serves: when it settles, and which
    server answered the fetch of its page. *)
Lemma answeringPage_served item bundleName options links t sent sent' :
  schedule (BundleOf item bundleName) t = Some sent →
  bundleOf server !! (item_uuid item, bundleName) = Some links →
  schedule (CollectionAt (href (bitstreams links)) options)
    (seenAt sent (bundleTime server item bundleName) t) = Some sent' →
  settledAt schedule server item bundleName options t =
    Some (seenAt sent' (collectionTime server (href (bitstreams links)) options)
            (seenAt sent (bundleTime server item bundleName) t)) ∧
  answeringPage schedule history server item bundleName options t =
    history (sent' + collectionTime server (href (bitstreams links)) options).
Proof.
  intros Hsent Hlinks Hsent'. unfold settledAt, answeringPage, answering.
  rewrite Hsent, Hlinks, Hsent'. split; [done|]. unfold answeredAt.
  by rewrite history_latency.
Qed.
End Lookups.

Section Deleted.
Context (server : RestServer) (timeToLive : nat) `{!RestServerOk server}.
Context (item : Item) (links : BundleLinks).
Context (bitstream : Bitstream) (rest : list Bitstream) (t v t' : Time).
Context (Hlinks : bundleOf server !! (item_uuid item, "THUMBNAIL")
                  = Some links).
Context (Hcollection : collectionAt server !! href (bitstreams links)
                       = Some (bitstream :: rest)).
Context (Hv : t + bundleTime server item "THUMBNAIL" +
              collectionTime server (href (bitstreams links)) (Direct.perPage 1)
              < v ≤ t').
Context (Ht' : t' ≤ t + bundleTime server item "THUMBNAIL" + timeToLive).

Local Abbreviation timing := (timingOf server timeToLive).
Local Abbreviation pageKey :=
  (CollectionAt (href (bitstreams links)) (Direct.perPage 1)).
Local Abbreviation first :=
  (requested server timeToLive item "THUMBNAIL" (Direct.perPage 1) t []).
Local Abbreviation history := (changedAt v server (without bitstream server)).

(** While the table is left as it was, the second caller is served by
    the two fetches of the first. *)
Lemma bundle_kept :
  tracked server timeToLive first (BundleOf item "THUMBNAIL") t' = Some t.
Proof.
  rewrite (requested_first _ _ _ _ _ _ links) by done. unfold tracked.
  etrans; [by apply (liveAt_fetch_ne timing _ _ _ _ [_])|].
  apply (liveAt_fetched _ _ _ _ []); simpl; lia.
Qed.

Lemma page_kept :
  tracked server timeToLive first pageKey t' =
    Some (t + bundleTime server item "THUMBNAIL").
Proof.
  rewrite (requested_first _ _ _ _ _ _ links) by done.
  apply (liveAt_fetched timing _ _ _ [_]); simpl; lia.
Qed.

Lemma requested_kept :
  requested server timeToLive item "THUMBNAIL" (Direct.perPage 1) t' first
  = first.
Proof.
  apply requested_served. unfold settledAt.
  rewrite bundle_kept, Hlinks.
  replace (seenAt t (bundleTime server item "THUMBNAIL") t') with t'
    by (unfold seenAt; lia).
  by rewrite page_kept.
Qed.

(** The subscriber over the table that was left as it was is told the
    deleted thumbnail. *)
Lemma getThumbnailFor_kept :
  settlesWith
    (getThumbnailFor (historicClient (tracked server timeToLive first) history)
       item t')
    t' (Direct.found (Some bitstream)).
Proof.
  pose proof bundle_kept as Hb. pose proof page_kept as Hp.
  replace t' with (seenAt t (bundleTime server item "THUMBNAIL") t') in Hp at 1
    by (unfold seenAt; lia).
  destruct (answeringPage_served _ history server _ _ _ _ _ _ _ Hb Hlinks Hp)
    as [Hsettled Hanswering].
  pose proof (getThumbnailFor_settlesAnswered _ history server item t' _
                Hsettled) as Hsettles.
  rewrite Hanswering in Hsettles. unfold changedAt in Hsettles at 2.
  rewrite bool_decide_eq_true_2 in Hsettles by lia.
  unfold outcome in Hsettles. rewrite Hlinks, Hcollection in Hsettles.
  by replace (seenAt _ _ _) with t' in Hsettles by (unfold seenAt; lia).
Qed.

Context (Hrest : Forall (λ b, sameResource bitstream b = false) rest).

(** The subscriber over the table that the deletion leaves is told
    the thumbnail that the server has now. *)
Lemma getThumbnailFor_invalidated :
  settlesWith
    (getThumbnailFor
       (historicClient
          (tracked server timeToLive
             (requested server timeToLive item "THUMBNAIL" (Direct.perPage 1)
                t' (invalidate pageKey v first)))
          history)
       item t')
    (t' + collectionTime server (href (bitstreams links)) (Direct.perPage 1))
    (Direct.found (head rest)).
Proof.
  assert (t + bundleTime server item "THUMBNAIL" ≤ v ≤ t') as Hv' by lia.
  pose proof (bundle_deleted server timeToLive item "THUMBNAIL"
                (Direct.perPage 1) links t v t' Hlinks Hv' Ht') as Hb.
  pose proof (page_deleted server timeToLive item "THUMBNAIL"
                (Direct.perPage 1) links t v t' Hlinks Hv' Ht') as Hp.
  replace t' with (seenAt t (bundleTime server item "THUMBNAIL") t') in Hp at 2
    by (unfold seenAt; lia).
  destruct (answeringPage_served _ history server _ _ _ _ _ _ _ Hb Hlinks Hp)
    as [Hsettled Hanswering].
  pose proof (getThumbnailFor_settlesAnswered _ history server item t' _
                Hsettled) as Hsettles.
  rewrite Hanswering in Hsettles. unfold changedAt in Hsettles at 2.
  rewrite bool_decide_eq_false_2 in Hsettles by lia.
  rewrite (outcome_without server item links bitstream rest) in Hsettles
    by done.
  by replace (seenAt _ _ _) with
    (t' + collectionTime server (href (bitstreams links)) (Direct.perPage 1))
    in Hsettles by (unfold seenAt; lia).
Qed.
End Deleted.

(** ** Theorems *)

Section Theorems.
Context (server : RestServer) (timeToLive : nat) `{!RestServerOk server}.
Implicit Types (item : Item) (bitstream : Bitstream) (t v : Time).
Implicit Types (rest : list Bitstream).

(** C27: the invalidation of [delete] is what keeps a deleted thumbnail
    from the next subscriber.  The responses are what the server had
    when it answered.  From the empty table, a subscriber of
    [getThumbnailFor] at [t], whose page has arrived; then the deletion
    of the first bitstream of the THUMBNAIL bundle at [v]; then a
    second subscriber at [t'], within the life of the bundle.  Over the
    table as the first subscriber left it, the second asks nothing of
    the transport and is told, in the turn of the subscription, a
    success with the bitstream that the server no longer has.  Over the
    table that [DataService_delete] leaves, it is told, when the page
    that it fetches has arrived, the bitstream that is the first one
    now, or a success without payload when none is left. *)
Theorem getThumbnailFor_stale_unless_invalidated
    item links bitstream rest t v t' :
  bundleOf server !! (item_uuid item, "THUMBNAIL") = Some links →
  collectionAt server !! href (bitstreams links) = Some (bitstream :: rest) →
  Forall (λ b, sameResource bitstream b = false) rest →
  t + bundleTime server item "THUMBNAIL" +
    collectionTime server (href (bitstreams links)) (Some firstElementOnly)
    < v ≤ t' →
  t' ≤ t + bundleTime server item "THUMBNAIL" + timeToLive →
  let first := getThumbnailFor_requests server timeToLive item t [] in
  let world := (DataService_delete bitstream v (mkWorld server first)).2 in
  let history := changedAt v server (serverOf world) in
  let kept := getThumbnailFor_requests server timeToLive item t' first in
  let invalidated :=
    getThumbnailFor_requests server timeToLive item t' (tableOf world) in
  kept = first ∧
  settlesWith
    (getThumbnailFor (historicClient (tracked server timeToLive kept) history)
       item t')
    t' (Direct.found (Some bitstream)) ∧
  settlesWith
    (getThumbnailFor
       (historicClient (tracked server timeToLive invalidated) history)
       item t')
    (t' + collectionTime server (href (bitstreams links))
            (Some firstElementOnly))
    (Direct.found (head rest)).
Proof.
  intros Hlinks Hcollection Hrest Hv Ht'. simpl.
  unfold getThumbnailFor_requests, THUMBNAIL.
  rewrite (delete_requested server timeToLive item "THUMBNAIL" _ links)
    by (done || lia || by eapply holds_head || by eapply known_head).
  simpl. change (Some firstElementOnly) with (Direct.perPage 1) in *.
  rewrite (requested_kept server timeToLive item links t v t') by done.
  split; [done|]. split.
  - by eapply getThumbnailFor_kept.
  - by eapply getThumbnailFor_invalidated.
Qed.
End Theorems.

(** ** The theorem at the sample server *)

(** On the sample server, whose responses are kept for 10 turns: a
    subscriber at 0, whose page arrives at 5; the deletion of the cover
    at 6; a subscriber at 7, who is told the cover at 7 over the table
    as it was, and the paper at 10 over the table that the deletion
    leaves. *)
Lemma getThumbnailFor_stale_unless_invalidated_witness :
  let first := getThumbnailFor_requests Sample.rest 10 Sample.item 0 [] in
  let world :=
    (DataService_delete Sample.cover 6 (mkWorld Sample.rest first)).2 in
  let history := changedAt 6 Sample.rest (serverOf world) in
  let kept := getThumbnailFor_requests Sample.rest 10 Sample.item 7 first in
  let invalidated :=
    getThumbnailFor_requests Sample.rest 10 Sample.item 7 (tableOf world) in
  kept = first ∧
  settlesWith
    (getThumbnailFor (historicClient (tracked Sample.rest 10 kept) history)
       Sample.item 7)
    7 (Direct.found (Some Sample.cover)) ∧
  settlesWith
    (getThumbnailFor
       (historicClient (tracked Sample.rest 10 invalidated) history)
       Sample.item 7)
    10 (Direct.found (Some Sample.paper)).
Proof.
  apply (@getThumbnailFor_stale_unless_invalidated Sample.rest 10 rest_ok
           Sample.item
           (mkBundleLinks (mkHALLink "/api/core/bundles/7/bitstreams"))
           Sample.cover [Sample.paper] 0 6 7);
    [reflexivity | reflexivity | by repeat constructor | simpl; lia
    |simpl; lia].
Defined.

(** The two subscribers of the sample, run: the marbles that they
    receive. *)
Example stale_and_fresh :
  let first := getThumbnailFor_requests Sample.rest 10 Sample.item 0 [] in
  let world :=
    (DataService_delete Sample.cover 6 (mkWorld Sample.rest first)).2 in
  let history := changedAt 6 Sample.rest (serverOf world) in
  let invalidated :=
    getThumbnailFor_requests Sample.rest 10 Sample.item 7 (tableOf world) in
  getThumbnailFor (historicClient (tracked Sample.rest 10 first) history)
    Sample.item 7 = [(7, Next (Direct.found (Some Sample.cover)))] ∧
  getThumbnailFor (historicClient (tracked Sample.rest 10 invalidated) history)
    Sample.item 7 =
    [(7, Next (toRemoteData Configured)); (7, Next (toRemoteData Dispatched));
     (10, Next (Direct.found (Some Sample.paper)))].
Proof. by vm_compute. Qed.

(** What the invalidation does not reach is shown as it was: after a
    caller at 0 has fetched the second page of one element, the paper,
    and the cover has been deleted at 6, the entry of that page is live
    ([Mutations.delete_leaves_later_page]); a caller of the page at 7
    is shown the paper on the second page, on which the server has
    nothing any more, and asks nothing of the transport. *)
Example later_page_stale :
  let secondPage := Some (mkFindListOptions (Some 1%Z) (Some 2%Z) None []) in
  let first :=
    findAllByItemAndBundleName_requests Sample.rest 10 Sample.item "THUMBNAIL"
      secondPage 0 [] in
  let world :=
    (DataService_delete Sample.cover 6 (mkWorld Sample.rest first)).2 in
  let history := changedAt 6 Sample.rest (serverOf world) in
  let second :=
    findAllByItemAndBundleName_requests Sample.rest 10 Sample.item "THUMBNAIL"
      secondPage 7 (tableOf world) in
  transportCalls second = transportCalls first ∧
  settledPage
    (findAllByItemAndBundleName
       (historicClient (tracked Sample.rest 10 second) history)
       Sample.item "THUMBNAIL" secondPage [] 7) = [Sample.paper] ∧
  getCollection (serverOf world) "/api/core/bundles/7/bitstreams" secondPage =
    Ok (mkPaginatedList 1 (Some [])).
Proof. by vm_compute. Qed.
